(** * ml4convection: a shallow embedding of the numerical core

    The Python sources under [src/ml4convection] are embedded as Rocq
    functions.  NumPy arrays are nested lists indexed with [nth]; floating
    point numbers are idealised as rationals ([Q]), and the three special
    results of a floating-point division (NaN and the two infinities) are
    kept apart in [npfloat], because several functions of the repository
    divide by counts or sums that can be zero.  Python dictionaries are
    [gmap]s keyed by strings. *)

From Stdlib Require Import ZArith QArith Qround Qabs Qminmax List Bool Lia Lqa.
From Stdlib Require Import Permutation.
From stdpp Require Import gmap strings list.
Import ListNotations.

Local Open Scope Q_scope.

(** ** Arrays as nested lists *)

(** [tabulate n f] is the array [[f 0, ..., f (n-1)]]. *)
Definition tabulate {A : Type} (n : nat) (f : nat -> A) : list A :=
  map f (seq 0 n).

Definition tabulate2 {A : Type} (m n : nat) (f : nat -> nat -> A)
  : list (list A) :=
  tabulate m (fun i => tabulate n (f i)).

Definition get2 {A : Type} (d : A) (x : list (list A)) (i j : nat) : A :=
  nth j (nth i x []) d.

Definition get3 {A : Type} (d : A) (x : list (list (list A))) (i j k : nat) : A :=
  nth k (nth j (nth i x []) []) d.

(** [x.shape[1]] and [x.shape[2]] of a rectangular array. *)
Definition num_columns {A : Type} (x : list (list A)) : nat :=
  length (nth 0%nat x []).

Definition num_heights {A : Type} (x : list (list (list A))) : nat :=
  length (nth 0%nat (nth 0%nat x []) []).

(** [map_ij f x] rebuilds [x] entry by entry, giving [f] the position. *)
Definition map_ij {A B : Type} (f : nat -> nat -> A -> B) (x : list (list A))
  : list (list B) :=
  imap (fun i row => imap (fun j a => f i j a) row) x.

Definition Qlt_bool (a b : Q) : bool := negb (Qle_bool b a).

Definition b2q (b : bool) : Q := if b then 1 else 0.

(** [numpy.max] of a one-dimensional array (NumPy raises on an empty one;
    the arrays reduced below always have at least one entry). *)
Definition Qmax_list (l : list Q) : Q :=
  match l with
  | [] => 0
  | x :: r => fold_left Qmax r x
  end.

Fixpoint Qsum (l : list Q) : Q :=
  match l with
  | [] => 0
  | x :: r => x + Qsum r
  end.

(** [numpy.sum] of a Boolean array: the number of [True] entries. *)
Fixpoint count_true (l : list bool) : nat :=
  match l with
  | [] => 0%nat
  | b :: r => ((if b then 1 else 0) + count_true r)%nat
  end.

Definition num_true (x : list (list bool)) : nat :=
  list_sum (map count_true x).

(** ** Results of floating-point division *)

Inductive npfloat : Type :=
| Fin (q : Q)
| PosInf
| NegInf
| NaN.

(** [a / b] on floats, with IEEE results for a zero divisor. *)
Definition np_divide (a b : Q) : npfloat :=
  if Qeq_bool b 0 then
    (if Qeq_bool a 0 then NaN else if Qlt_bool 0 a then PosInf else NegInf)
  else Fin (a / b).

(** [x >= c]: false whenever [x] is NaN. *)
Definition np_geq (x : npfloat) (c : Q) : bool :=
  match x with
  | Fin q => Qle_bool c q
  | PosInf => true
  | NegInf => false
  | NaN => false
  end.

Definition np_sub (x : npfloat) (c : Q) : npfloat :=
  match x with
  | Fin q => Fin (q - c)
  | other => other
  end.

(** [x * c] for a positive constant [c]. *)
Definition np_scale (x : npfloat) (c : Q) : npfloat :=
  match x with
  | Fin q => Fin (q * c)
  | other => other
  end.

(** [is_value x v]: the float [x] is the finite number [v]. *)
Definition is_value (x : npfloat) (v : Q) : Prop :=
  match x with
  | Fin q => q == v
  | _ => False
  end.

Definition is_nan (x : npfloat) : bool :=
  match x with
  | NaN => true
  | _ => false
  end.

(** ** Basic facts about arrays *)

Lemma length_tabulate {A : Type} (n : nat) (f : nat -> A) :
  length (tabulate n f) = n.
Proof. unfold tabulate. now rewrite length_map, length_seq. Qed.

Lemma nth_tabulate {A : Type} (n : nat) (f : nat -> A) (d : A) (i : nat) :
  (i < n)%nat -> nth i (tabulate n f) d = f i.
Proof.
  intros Hi. unfold tabulate.
  rewrite (nth_indep _ d (f 0%nat)) by (now rewrite length_map, length_seq).
  rewrite (map_nth f (seq 0 n) 0%nat i), seq_nth by assumption.
  reflexivity.
Qed.

Lemma nth_tabulate_out {A : Type} (n : nat) (f : nat -> A) (d : A) (i : nat) :
  (n <= i)%nat -> nth i (tabulate n f) d = d.
Proof. intros Hi. apply nth_overflow. now rewrite length_tabulate. Qed.

Lemma get2_tabulate2 {A : Type} (m n : nat) (f : nat -> nat -> A) (d : A) i j :
  (i < m)%nat -> (j < n)%nat -> get2 d (tabulate2 m n f) i j = f i j.
Proof.
  intros Hi Hj. unfold get2, tabulate2.
  rewrite (nth_tabulate m _ [] i Hi). now apply nth_tabulate.
Qed.

Lemma tabulate_ext {A : Type} (n : nat) (f g : nat -> A) :
  (forall i, (i < n)%nat -> f i = g i) -> tabulate n f = tabulate n g.
Proof.
  intros H. unfold tabulate. apply map_ext_in.
  intros i Hi. apply in_seq in Hi. apply H. lia.
Qed.

Lemma nth_imap {A B : Type} (f : nat -> A -> B) (l : list A) (da : A) (db : B) i :
  (i < length l)%nat -> nth i (imap f l) db = f i (nth i l da).
Proof.
  revert f i. induction l as [|a l IH]; intros f i Hi; simpl in *; [lia|].
  destruct i as [|i]; [reflexivity|].
  rewrite IH by lia. reflexivity.
Qed.

Lemma get2_map_ij {A B : Type} (f : nat -> nat -> A -> B) x (da : A) (db : B) i j :
  (i < length x)%nat -> (j < length (nth i x []))%nat ->
  get2 db (map_ij f x) i j = f i j (get2 da x i j).
Proof.
  intros Hi Hj. unfold get2, map_ij.
  rewrite (nth_imap _ x [] [] i Hi).
  now rewrite (nth_imap _ _ da db j Hj).
Qed.

Lemma length_map_ij {A B : Type} (f : nat -> nat -> A -> B) x :
  length (map_ij f x) = length x.
Proof. unfold map_ij. apply length_imap. Qed.

(** Counting is monotone for entrywise implication. *)
Lemma count_true_imap_le (f g : nat -> bool -> bool) (l : list bool) :
  (forall i b, f i b = true -> g i b = true) ->
  (count_true (imap f l) <= count_true (imap g l))%nat.
Proof.
  revert f g. induction l as [|b l IH]; intros f g H; [reflexivity|].
  rewrite !imap_cons. simpl.
  specialize (IH (f ∘ S) (g ∘ S) (fun i b => H (S i) b)).
  specialize (H 0%nat b).
  destruct (f 0%nat b); destruct (g 0%nat b); simpl; try lia.
Qed.

Lemma imap_id_bool (l : list bool) : imap (fun _ b => b) l = l.
Proof.
  induction l as [|b l IH]; [reflexivity|].
  rewrite imap_cons. f_equal. exact IH.
Qed.

Lemma num_true_imap_le (F G : nat -> list bool -> list bool) (x : list (list bool)) :
  (forall i row, (count_true (F i row) <= count_true (G i row))%nat) ->
  (num_true (imap F x) <= num_true (imap G x))%nat.
Proof.
  unfold num_true. revert F G.
  induction x as [|row x IH]; intros F G H; [reflexivity|].
  rewrite !imap_cons. simpl.
  specialize (IH (F ∘ S) (G ∘ S) (fun i => H (S i))).
  specialize (H 0%nat row). lia.
Qed.

Lemma num_true_map_ij_le (f g : nat -> nat -> bool -> bool) (x : list (list bool)) :
  (forall i j b, f i j b = true -> g i j b = true) ->
  (num_true (map_ij f x) <= num_true (map_ij g x))%nat.
Proof.
  intros H. unfold map_ij. apply num_true_imap_le.
  intros i row. apply count_true_imap_le. intros j b. apply H.
Qed.

Lemma map_ij_id (x : list (list bool)) : map_ij (fun _ _ b => b) x = x.
Proof.
  unfold map_ij. induction x as [|row x IH]; [reflexivity|].
  rewrite imap_cons. f_equal; [apply imap_id_bool | exact IH].
Qed.

(** ** More array helpers *)

Definition map_ijk {A B : Type} (f : nat -> nat -> nat -> A -> B)
  (x : list (list (list A))) : list (list (list B)) :=
  imap (fun i plane => imap (fun j col => imap (fun k a => f i j k a) col) plane) x.

Definition Qmin_list (l : list Q) : Q :=
  match l with
  | [] => 0
  | x :: r => fold_left Qmin r x
  end.

(** Insertion sort, used for rank filters. *)
Fixpoint Qinsert (x : Q) (l : list Q) : list Q :=
  match l with
  | [] => [x]
  | y :: r => if Qle_bool x y then x :: y :: r else y :: Qinsert x r
  end.

Fixpoint Qsort (l : list Q) : list Q :=
  match l with
  | [] => []
  | x :: r => Qinsert x (Qsort r)
  end.

(** Entry [(zi, zj)] of a matrix extended by the constant [cval] outside
    its bounds ([mode='constant'] of [scipy.ndimage]). *)
Definition get2_pad (cval : Q) (x : list (list Q)) (zi zj : Z) : Q :=
  if ((0 <=? zi)%Z && (zi <? Z.of_nat (length x))%Z &&
      (0 <=? zj)%Z && (zj <? Z.of_nat (length (nth (Z.to_nat zi) x [])))%Z)%bool
  then get2 0 x (Z.to_nat zi) (Z.to_nat zj)
  else cval.

(** The [rows]-by-[cols] window centred on [(i, j)], row by row. *)
Definition window (cval : Q) (x : list (list Q)) (rows cols : nat) (i j : nat)
  : list Q :=
  concat (tabulate rows (fun di => tabulate cols (fun dj =>
    get2_pad cval x (Z.of_nat i + Z.of_nat di - Z.of_nat (rows / 2))
                    (Z.of_nat j + Z.of_nat dj - Z.of_nat (cols / 2))))).

(** [scipy.ndimage.median_filter(x, size=(rows, cols), mode='constant',
    cval=0.)]: the entry of rank [size // 2] of each sorted window. *)
Definition median_filter (x : list (list Q)) (rows cols : nat) : list (list Q) :=
  map_ij (fun i j _ =>
            nth ((rows * cols) / 2) (Qsort (window 0 x rows cols i j)) 0) x.

(** [scipy.ndimage.convolve(x, weights, mode='constant', cval=0.)] for the
    3-by-3 kernel whose nine weights are all [w]. *)
Definition convolve3x3 (x : list (list Q)) (w : Q) : list (list Q) :=
  map_ij (fun i j _ => Qsum (map (fun v => w * v) (window 0 x 3 3 i j))) x.

(** [numpy.round]: to the nearest integer, halves to the even neighbour. *)
Definition np_round (q : Q) : Z :=
  let f := Qfloor q in
  let r := q - inject_Z f in
  if Qlt_bool r (1 # 2) then f
  else if Qlt_bool (1 # 2) r then (f + 1)%Z
  else if Z.even f then f else (f + 1)%Z.

(** [numpy.logical_or] and [numpy.logical_and] of two Boolean matrices of
    one shape; the result is laid out like the first operand. *)
Definition logical_or (a b : list (list bool)) : list (list bool) :=
  map_ij (fun i j x => x || get2 false b i j) a.

Definition logical_and (a b : list (list bool)) : list (list bool) :=
  map_ij (fun i j x => x && get2 false b i j) a.

(** [(x >= c).astype(bool)] *)
Definition geq_matrix (x : list (list Q)) (c : Q) : list (list bool) :=
  map (map (fun v => Qle_bool c v)) x.

(** [(x > c).astype(bool)] *)
Definition gt_matrix (x : list (list Q)) (c : Q) : list (list bool) :=
  map (map (fun v => Qlt_bool c v)) x.

(** [numpy.max(x, axis=-1)] of a three-dimensional array. *)
Definition max_last_axis (x : list (list (list Q))) : list (list Q) :=
  map (map Qmax_list) x.

(** [x.astype(float)] of a Boolean matrix. *)
Definition bool_to_float (x : list (list bool)) : list (list Q) :=
  map (map b2q) x.

(** * echo_classification.py *)

Module EchoClassification.

Definition TOLERANCE : Q := 1 # 1000000.
Definition DEGREES_LAT_TO_METRES : Q := 60 * 1852.

Definition MELT_LEVEL_INTERCEPT_BY_MONTH_M_ASL : list Q :=
  [7072; 7896; 8558; 7988; 7464; 6728; 6080; 6270; 6786; 8670; 8892; 7936].

Definition MELT_LEVEL_SLOPE_BY_MONTH_M_DEG01 : list Q :=
  [-(124); -(152); -(160); -(128); -(100); -(65); -(39); -(44); -(67);
   -(137); -(160); -(147)].

(** [grid_metadata_dict]; the last two fields are the keys that
    [find_convective_pixels] adds before it applies the criteria. *)
Record grid_metadata : Type := {
  min_grid_point_latitude_deg : Q;
  latitude_spacing_deg : Q;
  min_grid_point_longitude_deg : Q;
  longitude_spacing_deg : Q;
  grid_point_heights_m_asl : list Q;
  grid_point_latitudes_deg : list Q;
  grid_point_longitudes_deg : list Q
}.

Record option_dict : Type := {
  peakedness_neigh_metres : Q;
  max_peakedness_height_m_asl : Q;
  halve_resolution_for_peakedness : bool;
  min_echo_top_m_asl : Q;
  echo_top_level_dbz : Q;
  min_composite_refl_criterion1_dbz : option Q;
  min_composite_refl_criterion5_dbz : Q;
  min_composite_refl_aml_dbz : Q
}.

Definition DEFAULT_OPTION_DICT : option_dict := {|
  peakedness_neigh_metres := 12000;
  max_peakedness_height_m_asl := 9000;
  halve_resolution_for_peakedness := false;
  min_echo_top_m_asl := 10000;
  echo_top_level_dbz := 25;
  min_composite_refl_criterion1_dbz := Some 25;
  min_composite_refl_criterion5_dbz := 25;
  min_composite_refl_aml_dbz := 45
|}.

(** [_check_input_args]: [None] stands for the error raised by a failed
    assertion.  A missing dictionary is replaced by the defaults. *)
Definition _check_input_args (o : option option_dict) : option option_dict :=
  let d := match o with Some d => d | None => DEFAULT_OPTION_DICT end in
  let d := {|
    peakedness_neigh_metres := peakedness_neigh_metres d;
    max_peakedness_height_m_asl := max_peakedness_height_m_asl d;
    halve_resolution_for_peakedness := halve_resolution_for_peakedness d;
    min_echo_top_m_asl := inject_Z (np_round (min_echo_top_m_asl d));
    echo_top_level_dbz := echo_top_level_dbz d;
    min_composite_refl_criterion1_dbz := min_composite_refl_criterion1_dbz d;
    min_composite_refl_criterion5_dbz := min_composite_refl_criterion5_dbz d;
    min_composite_refl_aml_dbz := min_composite_refl_aml_dbz d
  |} in
  if (Qlt_bool 0 (peakedness_neigh_metres d) &&
      Qlt_bool 0 (max_peakedness_height_m_asl d) &&
      Qlt_bool 0 (min_echo_top_m_asl d) &&
      Qlt_bool 0 (echo_top_level_dbz d) &&
      Qlt_bool 0 (min_composite_refl_criterion5_dbz d) &&
      Qlt_bool 0 (min_composite_refl_aml_dbz d) &&
      match min_composite_refl_criterion1_dbz d with
      | Some c => Qlt_bool 0 c
      | None => true
      end)%bool
  then Some d else None.

Section Criteria.

(** The month (1 to 12) of a Unix time, as
    [int(time_conversion.unix_sec_to_string(t, '%m'))] of the vendored
    time-conversion helpers. *)
Variable unix_sec_to_month : Z -> nat.

(** [numpy.cos(numpy.deg2rad(x))] on floats. *)
Variable np_cos_deg2rad : Q -> Q.

(** [RectBivariateSpline(x, y, z, kx=1, ky=1, s=0)(x', y', grid=True)] of
    SciPy: the bilinear interpolant of [z] on the grid [(x, y)], evaluated
    on the grid [(x', y')]. *)
Variable RectBivariateSpline :
  list Q -> list Q -> list (list Q) -> list Q -> list Q -> list (list Q).

Definition _estimate_melting_levels (latitude_deg : Q) (valid_time_unix_sec : Z) : Q :=
  let month_index := unix_sec_to_month valid_time_unix_sec in
  nth (month_index - 1) MELT_LEVEL_INTERCEPT_BY_MONTH_M_ASL 0 +
  nth (month_index - 1) MELT_LEVEL_SLOPE_BY_MONTH_M_DEG01 0 * Qabs latitude_deg.

Definition _neigh_metres_to_rowcol (neigh_radius_metres : Q) (g : grid_metadata)
  : Z * Z :=
  let y_spacing_metres := latitude_spacing_deg g * DEGREES_LAT_TO_METRES in
  let num_rows := (1 + 2 * Qceiling (neigh_radius_metres / y_spacing_metres))%Z in
  let mean_latitude_deg :=
    (Qmax_list (grid_point_latitudes_deg g) -
     Qmin_list (grid_point_latitudes_deg g)) / 2 in
  let mean_x_spacing_metres :=
    longitude_spacing_deg g * DEGREES_LAT_TO_METRES *
    np_cos_deg2rad mean_latitude_deg in
  let num_columns :=
    (1 + 2 * Qceiling (neigh_radius_metres / mean_x_spacing_metres))%Z in
  (num_rows, num_columns).

(** [x[..., k]] *)
Definition height_slice (x : list (list (list Q))) (k : nat) : list (list Q) :=
  map (map (fun col => nth k col 0)) x.

Definition _get_peakedness (reflectivity_matrix_dbz : list (list (list Q)))
  (num_rows_in_neigh num_columns_in_neigh : nat) : list (list (list Q)) :=
  let num_heights := num_heights reflectivity_matrix_dbz in
  let filtered := tabulate num_heights (fun k =>
    median_filter (height_slice reflectivity_matrix_dbz k)
                  num_rows_in_neigh num_columns_in_neigh) in
  map_ijk (fun i j k v => v - get2 0 (nth k filtered []) i j)
          reflectivity_matrix_dbz.

Definition peakedness_threshold (v : Q) : Q :=
  let t := 10 - (v * v) / (3375 # 10) in
  if Qlt_bool t 4 then 4 else t.

Definition _get_peakedness_thresholds (reflectivity_matrix_dbz : list (list (list Q)))
  : list (list (list Q)) :=
  map (map (map peakedness_threshold)) reflectivity_matrix_dbz.

(** [x[::2]] *)
Fixpoint every_second {A : Type} (l : list A) : list A :=
  match l with
  | [] => []
  | x :: r => x :: match r with [] => [] | _ :: r' => every_second r' end
  end.

Definition _halve_refl_resolution (fine_reflectivity_matrix_dbz : list (list (list Q)))
  (fine_grid_point_latitudes_deg fine_grid_point_longitudes_deg : list Q)
  : list (list (list Q)) * list Q * list Q :=
  let coarse_grid_point_latitudes_deg := every_second fine_grid_point_latitudes_deg in
  let coarse_grid_point_longitudes_deg := every_second fine_grid_point_longitudes_deg in
  let num_coarse_latitudes := length coarse_grid_point_latitudes_deg in
  let num_coarse_longitudes := length coarse_grid_point_longitudes_deg in
  let num_heights := num_heights fine_reflectivity_matrix_dbz in
  let by_height := tabulate num_heights (fun k =>
    RectBivariateSpline fine_grid_point_latitudes_deg fine_grid_point_longitudes_deg
      (height_slice fine_reflectivity_matrix_dbz k)
      coarse_grid_point_latitudes_deg coarse_grid_point_longitudes_deg) in
  (tabulate num_coarse_latitudes (fun i =>
     tabulate num_coarse_longitudes (fun j =>
       tabulate num_heights (fun k => get2 0 (nth k by_height []) i j))),
   coarse_grid_point_latitudes_deg, coarse_grid_point_longitudes_deg).

Definition _double_class_resolution (coarse_convective_flag_matrix : list (list bool))
  (coarse_grid_point_latitudes_deg coarse_grid_point_longitudes_deg
   fine_grid_point_latitudes_deg fine_grid_point_longitudes_deg : list Q)
  : list (list bool) :=
  let fine := RectBivariateSpline
    coarse_grid_point_latitudes_deg coarse_grid_point_longitudes_deg
    (bool_to_float coarse_convective_flag_matrix)
    fine_grid_point_latitudes_deg fine_grid_point_longitudes_deg in
  map (map (fun v => negb (Z.eqb (np_round v) 0))) fine.

(** Index of the first entry satisfying [p], as [numpy.where(...)[0][0]]. *)
Fixpoint first_index {A : Type} (p : A -> bool) (l : list A) : option nat :=
  match l with
  | [] => None
  | x :: r => if p x then Some 0%nat else option_map S (first_index p r)
  end.

(** [x[..., :n]] *)
Definition first_heights (n : nat) (x : list (list (list Q))) : list (list (list Q)) :=
  map (map (firstn n)) x.

(** The two counts of criterion 1 at one column: the heights whose
    peakedness exceeds the threshold, and the heights with positive
    reflectivity. *)
Definition exceedance_count (peakedness thresholds : list Q) : nat :=
  count_true (imap (fun k p => Qlt_bool (nth k thresholds 0) p) peakedness).

Definition positive_count (column : list Q) : nat :=
  count_true (map (fun v => Qlt_bool 0 v) column).

Definition fractional_exceedance (numerator denominator : nat) : npfloat :=
  np_divide (inject_Z (Z.of_nat numerator)) (inject_Z (Z.of_nat denominator)).

(** The index of the highest level used for peakedness: the first height
    at or above [max_peakedness_height_m_asl], or the last height. *)
Definition max_height_index (max_peakedness_height_m_asl : Q) (g : grid_metadata)
  : nat :=
  match first_index (fun h => Qle_bool max_peakedness_height_m_asl h)
                    (grid_point_heights_m_asl g) with
  | None => (length (grid_point_heights_m_asl g) - 1)%nat
  | Some k => k
  end.

Definition _apply_convective_criterion1
  (reflectivity_matrix_dbz : list (list (list Q)))
  (peakedness_neigh_metres max_peakedness_height_m_asl : Q)
  (halve_resolution_for_peakedness : bool)
  (min_composite_refl_dbz : option Q)
  (g : grid_metadata) : list (list bool) :=
  let max_height_index := max_height_index max_peakedness_height_m_asl g in
  let '(this_reflectivity_matrix_dbz, (num_rows_in_neigh, num_columns_in_neigh),
        coarse_lat, coarse_lng) :=
    if halve_resolution_for_peakedness then
      let '(coarse_reflectivity_matrix_dbz, coarse_grid_point_latitudes_deg,
            coarse_grid_point_longitudes_deg) :=
        _halve_refl_resolution reflectivity_matrix_dbz
          (grid_point_latitudes_deg g) (grid_point_longitudes_deg g) in
      let coarse_grid_metadata_dict := {|
        min_grid_point_latitude_deg := Qmin_list coarse_grid_point_latitudes_deg;
        latitude_spacing_deg :=
          nth 1 coarse_grid_point_latitudes_deg 0 -
          nth 0 coarse_grid_point_latitudes_deg 0;
        min_grid_point_longitude_deg := Qmin_list coarse_grid_point_longitudes_deg;
        longitude_spacing_deg :=
          nth 1 coarse_grid_point_longitudes_deg 0 -
          nth 0 coarse_grid_point_longitudes_deg 0;
        grid_point_heights_m_asl := [];
        grid_point_latitudes_deg := coarse_grid_point_latitudes_deg;
        grid_point_longitudes_deg := coarse_grid_point_longitudes_deg
      |} in
      (first_heights (max_height_index + 1) coarse_reflectivity_matrix_dbz,
       _neigh_metres_to_rowcol peakedness_neigh_metres coarse_grid_metadata_dict,
       coarse_grid_point_latitudes_deg, coarse_grid_point_longitudes_deg)
    else
      (first_heights (max_height_index + 1) reflectivity_matrix_dbz,
       _neigh_metres_to_rowcol peakedness_neigh_metres g,
       [], [])
  in
  let peakedness_matrix_dbz :=
    _get_peakedness this_reflectivity_matrix_dbz
      (Z.to_nat num_rows_in_neigh) (Z.to_nat num_columns_in_neigh) in
  let peakedness_threshold_matrix_dbz :=
    _get_peakedness_thresholds this_reflectivity_matrix_dbz in
  let convective_flag_matrix :=
    map_ij (fun i j column =>
      let numerator :=
        exceedance_count (nth j (nth i peakedness_matrix_dbz []) [])
                         (nth j (nth i peakedness_threshold_matrix_dbz []) []) in
      let denominator := positive_count column in
      np_geq (fractional_exceedance numerator denominator) (1 # 2))
      this_reflectivity_matrix_dbz in
  let convective_flag_matrix :=
    if halve_resolution_for_peakedness then
      _double_class_resolution convective_flag_matrix coarse_lat coarse_lng
        (grid_point_latitudes_deg g) (grid_point_longitudes_deg g)
    else convective_flag_matrix in
  match min_composite_refl_dbz with
  | None => convective_flag_matrix
  | Some c =>
      logical_and convective_flag_matrix
        (geq_matrix (max_last_axis reflectivity_matrix_dbz) c)
  end.

Definition _apply_convective_criterion2
  (reflectivity_matrix_dbz : list (list (list Q)))
  (convective_flag_matrix : list (list bool))
  (g : grid_metadata) (valid_time_unix_sec : Z)
  (min_composite_refl_aml_dbz : Q) : list (list bool) :=
  let latitude_deg i := nth i (grid_point_latitudes_deg g) 0 in
  let height_m_asl k := nth k (grid_point_heights_m_asl g) 0 in
  let melting_level_m_asl i :=
    _estimate_melting_levels (latitude_deg i) valid_time_unix_sec in
  let composite_refl_matrix_aml_dbz :=
    max_last_axis
      (map_ijk (fun i j k v =>
                  b2q (Qle_bool (melting_level_m_asl i + 1000) (height_m_asl k)) * v)
               reflectivity_matrix_dbz) in
  logical_or convective_flag_matrix
    (geq_matrix composite_refl_matrix_aml_dbz min_composite_refl_aml_dbz).

Definition _apply_convective_criterion3
  (reflectivity_matrix_dbz : list (list (list Q)))
  (convective_flag_matrix : list (list bool))
  (g : grid_metadata) (min_echo_top_m_asl echo_top_level_dbz : Q)
  : list (list bool) :=
  let height_m_asl k := nth k (grid_point_heights_m_asl g) 0 in
  let echo_top_matrix_m_asl :=
    max_last_axis
      (map_ijk (fun i j k v => b2q (Qle_bool echo_top_level_dbz v) * height_m_asl k)
               reflectivity_matrix_dbz) in
  logical_or convective_flag_matrix
    (geq_matrix echo_top_matrix_m_asl min_echo_top_m_asl).

Definition _apply_convective_criterion4 (convective_flag_matrix : list (list bool))
  : list (list bool) :=
  let weight := 1 / 9 in
  let average_matrix :=
    convolve3x3 (bool_to_float convective_flag_matrix) weight in
  logical_and convective_flag_matrix
    (gt_matrix average_matrix (weight + TOLERANCE)).

Definition _apply_convective_criterion5
  (reflectivity_matrix_dbz : list (list (list Q)))
  (convective_flag_matrix : list (list bool))
  (min_composite_refl_dbz : Q) : list (list bool) :=
  let weight := 1 / 9 in
  let average_matrix :=
    convolve3x3 (bool_to_float convective_flag_matrix) weight in
  let composite_refl_matrix_dbz := max_last_axis reflectivity_matrix_dbz in
  let new_convective_flag_matrix :=
    logical_and (gt_matrix average_matrix 0)
                (geq_matrix composite_refl_matrix_dbz min_composite_refl_dbz) in
  logical_or convective_flag_matrix new_convective_flag_matrix.

(** Modelled from the spec: [grids.get_latlng_grid_points] is not under
    src/; section 4.3 gives the coordinates as [min + i * spacing] for
    [i] below the number of rows (columns). *)
Definition get_latlng_grid_points (min_latitude_deg min_longitude_deg
  lat_spacing_deg lng_spacing_deg : Q) (num_rows num_columns : nat)
  : list Q * list Q :=
  (tabulate num_rows (fun i => min_latitude_deg + inject_Z (Z.of_nat i) * lat_spacing_deg),
   tabulate num_columns (fun j => min_longitude_deg + inject_Z (Z.of_nat j) * lng_spacing_deg)).

(** [numpy.diff(x) > 0] everywhere. *)
Fixpoint strictly_increasing (l : list Z) : bool :=
  match l with
  | [] => true
  | x :: r =>
      match r with
      | [] => true
      | y :: _ => (x <? y)%Z && strictly_increasing r
      end
  end.

(** What [find_convective_pixels] returns, together with the pixel counts
    it prints after criteria 1 to 4. *)
Record classification : Type := {
  convective_flag_matrix : list (list bool);
  used_option_dict : option_dict;
  printed_counts : list nat
}.

(** [find_convective_pixels]; a voxel of the input is [None] where the
    radar volume holds NaN.  [None] as result stands for a failed
    assertion. *)
Definition find_convective_pixels
  (reflectivity_matrix_dbz : list (list (list (option Q))))
  (g : grid_metadata) (valid_time_unix_sec : Z) (o : option option_dict)
  : option classification :=
  match _check_input_args o with
  | None => None
  | Some o =>
      let grid_point_heights := map np_round (grid_point_heights_m_asl g) in
      if negb (forallb (fun h => (0 <=? h)%Z) grid_point_heights &&
               strictly_increasing grid_point_heights) then None
      else
        let num_rows := length reflectivity_matrix_dbz in
        let num_columns := num_columns reflectivity_matrix_dbz in
        let '(lat, lng) :=
          get_latlng_grid_points
            (min_grid_point_latitude_deg g) (min_grid_point_longitude_deg g)
            (latitude_spacing_deg g) (longitude_spacing_deg g)
            num_rows num_columns in
        let g := {|
          min_grid_point_latitude_deg := min_grid_point_latitude_deg g;
          latitude_spacing_deg := latitude_spacing_deg g;
          min_grid_point_longitude_deg := min_grid_point_longitude_deg g;
          longitude_spacing_deg := longitude_spacing_deg g;
          grid_point_heights_m_asl := grid_point_heights_m_asl g;
          grid_point_latitudes_deg := lat;
          grid_point_longitudes_deg := lng
        |} in
        let refl :=
          map (map (map (fun v => match v with Some q => q | None => 0 end)))
              reflectivity_matrix_dbz in
        let flags1 :=
          _apply_convective_criterion1 refl
            (peakedness_neigh_metres o) (max_peakedness_height_m_asl o)
            (halve_resolution_for_peakedness o)
            (min_composite_refl_criterion1_dbz o) g in
        let flags2 :=
          _apply_convective_criterion2 refl flags1 g valid_time_unix_sec
            (min_composite_refl_aml_dbz o) in
        let flags3 :=
          _apply_convective_criterion3 refl flags2 g
            (min_echo_top_m_asl o) (echo_top_level_dbz o) in
        let flags4 := _apply_convective_criterion4 flags3 in
        let flags5 :=
          _apply_convective_criterion5 refl flags4
            (min_composite_refl_criterion5_dbz o) in
        Some {| convective_flag_matrix := flags5;
                used_option_dict := o;
                printed_counts :=
                  [num_true flags1; num_true flags2; num_true flags3;
                   num_true flags4] |}
  end.

(** ** Criteria 2 to 5 only add or only remove flags *)

Lemma get2_true_in_range (x : list (list bool)) (i j : nat) :
  get2 false x i j = true ->
  (i < length x)%nat /\ (j < length (nth i x []))%nat.
Proof.
  unfold get2. intros H.
  destruct (Nat.lt_ge_cases j (length (nth i x []))) as [Hj|Hj].
  - split; [|exact Hj].
    destruct (Nat.lt_ge_cases i (length x)) as [Hi|Hi]; [exact Hi|].
    rewrite (nth_overflow x [] Hi) in Hj. simpl in Hj. lia.
  - rewrite (nth_overflow _ false Hj) in H. discriminate.
Qed.

Lemma length_nth_map_ij {A B : Type} (f : nat -> nat -> A -> B) x i :
  length (nth i (map_ij f x) []) = length (nth i x []).
Proof.
  destruct (Nat.lt_ge_cases i (length x)) as [Hi|Hi].
  - unfold map_ij. rewrite (nth_imap _ x [] [] i Hi). apply length_imap.
  - rewrite !nth_overflow; [reflexivity | lia | rewrite length_map_ij; lia].
Qed.

Lemma logical_or_keeps (a b : list (list bool)) (i j : nat) :
  get2 false a i j = true -> get2 false (logical_or a b) i j = true.
Proof.
  intros H. destruct (get2_true_in_range a i j H) as [Hi Hj].
  unfold logical_or. rewrite (get2_map_ij _ a false false i j Hi Hj).
  rewrite H. reflexivity.
Qed.

Lemma logical_and_sub (a b : list (list bool)) (i j : nat) :
  get2 false (logical_and a b) i j = true -> get2 false a i j = true.
Proof.
  intros H. destruct (get2_true_in_range _ i j H) as [Hi Hj].
  unfold logical_and in *.
  rewrite length_map_ij in Hi. rewrite length_nth_map_ij in Hj.
  rewrite (get2_map_ij _ a false false i j Hi Hj) in H.
  apply andb_true_iff in H. tauto.
Qed.

Lemma num_true_logical_or (a b : list (list bool)) :
  (num_true a <= num_true (logical_or a b))%nat.
Proof.
  rewrite <- (map_ij_id a) at 1. unfold logical_or.
  apply num_true_map_ij_le. intros i j x Hx. rewrite Hx. reflexivity.
Qed.

Lemma num_true_logical_and (a b : list (list bool)) :
  (num_true (logical_and a b) <= num_true a)%nat.
Proof.
  rewrite <- (map_ij_id a) at 2. unfold logical_and.
  apply num_true_map_ij_le. intros i j x Hx.
  apply andb_true_iff in Hx. tauto.
Qed.

(** C1.  Criteria 2, 3 and 5 never clear a convective flag and never lower
    the number of convective pixels; criterion 4 never sets a flag and
    never raises that number.  This holds for every reflectivity volume,
    flag matrix, grid, valid time and threshold. *)
Theorem criteria_monotone
  (refl : list (list (list Q))) (flags : list (list bool))
  (g : grid_metadata) (valid_time : Z)
  (min_aml min_echo_top echo_top_level min_refl5 : Q) :
  let flags2 := _apply_convective_criterion2 refl flags g valid_time min_aml in
  let flags3 := _apply_convective_criterion3 refl flags g min_echo_top echo_top_level in
  let flags4 := _apply_convective_criterion4 flags in
  let flags5 := _apply_convective_criterion5 refl flags min_refl5 in
  ((forall i j, get2 false flags i j = true -> get2 false flags2 i j = true) /\
   (num_true flags <= num_true flags2)%nat) /\
  ((forall i j, get2 false flags i j = true -> get2 false flags3 i j = true) /\
   (num_true flags <= num_true flags3)%nat) /\
  ((forall i j, get2 false flags4 i j = true -> get2 false flags i j = true) /\
   (num_true flags4 <= num_true flags)%nat) /\
  ((forall i j, get2 false flags i j = true -> get2 false flags5 i j = true) /\
   (num_true flags <= num_true flags5)%nat).
Proof.
  cbv zeta.
  unfold _apply_convective_criterion2, _apply_convective_criterion3,
    _apply_convective_criterion4, _apply_convective_criterion5.
  repeat split.
  - intros i j. apply logical_or_keeps.
  - apply num_true_logical_or.
  - intros i j. apply logical_or_keeps.
  - apply num_true_logical_or.
  - intros i j. apply logical_and_sub.
  - apply num_true_logical_and.
  - intros i j. apply logical_or_keeps.
  - apply num_true_logical_or.
Qed.

(** The counts that [find_convective_pixels] prints, in the order of the
    criteria: they rise from criterion 1 to 3, fall at criterion 4, and the
    final matrix holds at least as many convective pixels as after
    criterion 4. *)
Lemma find_convective_pixels_counts refl g valid_time o :
  match find_convective_pixels refl g valid_time o with
  | None => True
  | Some c =>
      exists n1 n2 n3 n4,
        printed_counts c = [n1; n2; n3; n4] /\
        (n1 <= n2 <= n3)%nat /\ (n4 <= n3)%nat /\
        (n4 <= num_true (convective_flag_matrix c))%nat
  end.
Proof.
  unfold find_convective_pixels.
  destruct (_check_input_args o) as [o'|]; [|exact I].
  destruct (negb _); [exact I|].
  destruct (get_latlng_grid_points _ _ _ _ _ _) as [lat lng].
  cbn [printed_counts convective_flag_matrix].
  do 4 eexists. split; [reflexivity|].
  unfold _apply_convective_criterion2, _apply_convective_criterion3,
    _apply_convective_criterion4, _apply_convective_criterion5.
  repeat split;
    first [apply num_true_logical_or | apply num_true_logical_and].
Qed.
(** ** Criterion 1 and the zero denominator *)

Lemma get2_map_ij_cases {A B : Type} (f : nat -> nat -> A -> B) x (db : B) i j :
  ((i < length x)%nat /\ (j < length (nth i x []))%nat /\
   forall da, get2 db (map_ij f x) i j = f i j (get2 da x i j)) \/
  get2 db (map_ij f x) i j = db.
Proof.
  destruct (Nat.lt_ge_cases i (length x)) as [Hi|Hi];
    [destruct (Nat.lt_ge_cases j (length (nth i x []))) as [Hj|Hj]|].
  - left. repeat split; try assumption. intros da. now apply get2_map_ij.
  - right. unfold get2. apply nth_overflow. now rewrite length_nth_map_ij.
  - right. unfold get2. rewrite (nth_overflow (map_ij f x) []).
    + now destruct j.
    + now rewrite length_map_ij.
Qed.

Lemma count_true_imap_zero {A : Type} (f : nat -> A -> bool) (l : list A) (d : A) :
  (forall k, (k < length l)%nat -> f k (nth k l d) = false) ->
  count_true (imap f l) = 0%nat.
Proof.
  revert f. induction l as [|a l IH]; intros f H; [reflexivity|].
  rewrite imap_cons. simpl.
  pose proof (H 0%nat ltac:(simpl; lia)) as H0. simpl in H0. rewrite H0. simpl.
  apply IH. intros k Hk. apply (H (S k)). simpl. lia.
Qed.

Lemma count_true_map_zero {A : Type} (f : A -> bool) (l : list A) (d : A) k :
  count_true (map f l) = 0%nat -> (k < length l)%nat -> f (nth k l d) = false.
Proof.
  revert k. induction l as [|a l IH]; intros k H Hk; simpl in *; [lia|].
  destruct (f a) eqn:Hfa; [discriminate|].
  destruct k as [|k]; [exact Hfa|]. apply IH; [exact H | lia].
Qed.

(** A zero denominator gives NaN when the numerator is zero too, and plus
    infinity otherwise; only NaN compares false with [>= 0.5]. *)
Lemma fractional_exceedance_zero_denominator (numerator : nat) :
  fractional_exceedance numerator 0 =
    match numerator with 0%nat => NaN | S _ => PosInf end /\
  np_geq (fractional_exceedance numerator 0) (1 # 2) =
    match numerator with 0%nat => false | S _ => true end.
Proof.
  destruct numerator as [|n]; split; reflexivity.
Qed.

(** The numerator and the denominator of the fractional exceedance at
    column [(i, j)], as criterion 1 computes them at full resolution. *)
Definition column_counts (reflectivity_matrix_dbz : list (list (list Q)))
  (peakedness_neigh_metres max_peakedness_height_m_asl : Q) (g : grid_metadata)
  (i j : nat) : nat * nat :=
  let this_reflectivity_matrix_dbz :=
    first_heights (max_height_index max_peakedness_height_m_asl g + 1)
                  reflectivity_matrix_dbz in
  let '(num_rows_in_neigh, num_columns_in_neigh) :=
    _neigh_metres_to_rowcol peakedness_neigh_metres g in
  (exceedance_count
     (nth j (nth i (_get_peakedness this_reflectivity_matrix_dbz
                      (Z.to_nat num_rows_in_neigh)
                      (Z.to_nat num_columns_in_neigh)) []) [])
     (nth j (nth i (_get_peakedness_thresholds this_reflectivity_matrix_dbz) []) []),
   positive_count (nth j (nth i this_reflectivity_matrix_dbz []) [])).

Lemma criterion1_flag_cases refl radius maxh gate g i j :
  get2 false (_apply_convective_criterion1 refl radius maxh false gate g) i j = false \/
  (get2 false (_apply_convective_criterion1 refl radius maxh false gate g) i j =
     np_geq (fractional_exceedance (fst (column_counts refl radius maxh g i j))
                                   (snd (column_counts refl radius maxh g i j)))
            (1 # 2) &&
     match gate with
     | None => true
     | Some c => get2 false (geq_matrix (max_last_axis refl) c) i j
     end).
Proof.
  unfold _apply_convective_criterion1, column_counts.
  destruct (_neigh_metres_to_rowcol radius g) as [r c]. cbn [fst snd].
  set (this := first_heights _ refl).
  set (flag := fun (i j : nat) (column : list Q) => np_geq _ _).
  destruct gate as [c0|].
  - unfold logical_and.
    destruct (get2_map_ij_cases
                (fun i j x => x && get2 false (geq_matrix (max_last_axis refl) c0) i j)
                (map_ij flag this) false i j) as [(Hi & Hj & H)|H]; [|now left].
    right. rewrite (H false).
    rewrite length_map_ij in Hi. rewrite length_nth_map_ij in Hj.
    rewrite (get2_map_ij flag this [] false i j Hi Hj). reflexivity.
  - destruct (get2_map_ij_cases flag this false i j) as [(Hi & Hj & H)|H];
      [|now left].
    right. rewrite (H []). rewrite andb_true_r. reflexivity.
Qed.

(** C5, as amended.  At full resolution, a column in which no qualifying
    height has positive reflectivity and no qualifying height has a
    peakedness above its threshold has the ratio 0/0, which is NaN, and
    criterion 1 leaves it non-convective, whatever the composite
    reflectivity gate. *)
Theorem criterion1_zero_over_zero refl radius maxh gate g i j :
  snd (column_counts refl radius maxh g i j) = 0%nat ->
  fst (column_counts refl radius maxh g i j) = 0%nat ->
  fractional_exceedance (fst (column_counts refl radius maxh g i j))
                        (snd (column_counts refl radius maxh g i j)) = NaN /\
  get2 false (_apply_convective_criterion1 refl radius maxh false gate g) i j = false.
Proof.
  intros Hden Hnum.
  destruct (criterion1_flag_cases refl radius maxh gate g i j) as [H|H].
  - rewrite Hden, Hnum. split; [reflexivity | exact H].
  - rewrite H, Hden, Hnum. split; reflexivity.
Qed.

(** With a zero denominator and a positive numerator the ratio is plus
    infinity, and the comparison with 0.5 succeeds. *)
Lemma criterion1_positive_over_zero refl radius maxh g i j :
  snd (column_counts refl radius maxh g i j) = 0%nat ->
  fst (column_counts refl radius maxh g i j) <> 0%nat ->
  fractional_exceedance (fst (column_counts refl radius maxh g i j))
                        (snd (column_counts refl radius maxh g i j)) = PosInf /\
  np_geq (fractional_exceedance (fst (column_counts refl radius maxh g i j))
                                (snd (column_counts refl radius maxh g i j)))
         (1 # 2) = true.
Proof.
  intros Hden Hnum. rewrite Hden.
  destruct (fst (column_counts refl radius maxh g i j)) as [|n]; [congruence|].
  split; reflexivity.
Qed.

(** *** A volume without negative reflectivity *)

Definition nonnegative (v : Q) : Prop := 0 <= v.

Lemma Forall_nth_default {A : Type} (P : A -> Prop) (l : list A) (d : A) (n : nat) :
  P d -> Forall P l -> P (nth n l d).
Proof.
  intros Hd Hl. destruct (Nat.lt_ge_cases n (length l)) as [Hn|Hn].
  - rewrite List.Forall_forall in Hl. apply Hl. now apply nth_In.
  - now rewrite nth_overflow.
Qed.

Lemma Qinsert_Forall (P : Q -> Prop) (x : Q) (l : list Q) :
  P x -> Forall P l -> Forall P (Qinsert x l).
Proof.
  intros Hx Hl. induction Hl as [|y r Hy Hr IH]; simpl.
  - constructor; [exact Hx | constructor].
  - destruct (Qle_bool x y); repeat constructor; assumption.
Qed.

Lemma Qsort_Forall (P : Q -> Prop) (l : list Q) :
  Forall P l -> Forall P (Qsort l).
Proof.
  induction 1 as [|x r Hx Hr IH]; simpl; [constructor|].
  now apply Qinsert_Forall.
Qed.

Lemma get2_pad_nonnegative (x : list (list Q)) (zi zj : Z) :
  Forall (Forall nonnegative) x -> nonnegative (get2_pad 0 x zi zj).
Proof.
  intros Hx. unfold get2_pad.
  destruct (_ && _)%bool; [|unfold nonnegative; lra].
  unfold get2. apply Forall_nth_default; [unfold nonnegative; lra|].
  apply (Forall_nth_default (Forall nonnegative)); [constructor | exact Hx].
Qed.

Lemma window_nonnegative (x : list (list Q)) (rows cols i j : nat) :
  Forall (Forall nonnegative) x -> Forall nonnegative (window 0 x rows cols i j).
Proof.
  intros Hx. unfold window, tabulate. apply List.Forall_forall. intros v Hv.
  apply List.in_concat in Hv. destruct Hv as (row & Hrow & Hv).
  apply List.in_map_iff in Hrow. destruct Hrow as (di & <- & _).
  apply List.in_map_iff in Hv. destruct Hv as (dj & <- & _).
  now apply get2_pad_nonnegative.
Qed.

Lemma median_filter_nonnegative (x : list (list Q)) (rows cols i j : nat) :
  Forall (Forall nonnegative) x ->
  nonnegative (get2 0 (median_filter x rows cols) i j).
Proof.
  intros Hx. unfold median_filter.
  destruct (get2_map_ij_cases
              (fun i j (_ : Q) =>
                 nth (rows * cols / 2) (Qsort (window 0 x rows cols i j)) 0)
              x 0 i j) as [(_ & _ & H)|H].
  - rewrite (H 0). apply Forall_nth_default; [unfold nonnegative; lra|].
    apply Qsort_Forall. now apply window_nonnegative.
  - rewrite H. unfold nonnegative; lra.
Qed.

Lemma height_slice_nonnegative (x : list (list (list Q))) (k : nat) :
  Forall (Forall (Forall nonnegative)) x ->
  Forall (Forall nonnegative) (height_slice x k).
Proof.
  intros Hx. unfold height_slice.
  apply List.Forall_map. eapply List.Forall_impl; [|exact Hx].
  intros plane Hplane. apply List.Forall_map. eapply List.Forall_impl; [|exact Hplane].
  intros col Hcol. simpl. apply Forall_nth_default; [unfold nonnegative; lra | exact Hcol].
Qed.

Lemma first_heights_nonnegative (x : list (list (list Q))) (n : nat) :
  Forall (Forall (Forall nonnegative)) x ->
  Forall (Forall (Forall nonnegative)) (first_heights n x).
Proof.
  intros Hx. unfold first_heights.
  apply List.Forall_map. eapply List.Forall_impl; [|exact Hx].
  intros plane Hplane. apply List.Forall_map. eapply List.Forall_impl; [|exact Hplane].
  intros col Hcol. simpl.
  rewrite <- (firstn_skipn n col) in Hcol.
  apply List.Forall_app in Hcol. tauto.
Qed.

Lemma nth_imap_nil {A B : Type} (F : nat -> list A -> list B) (x : list (list A)) i :
  (forall n, F n [] = []) -> nth i (imap F x) [] = F i (nth i x []).
Proof.
  intros HF. destruct (Nat.lt_ge_cases i (length x)) as [Hi|Hi].
  - now apply nth_imap.
  - rewrite !nth_overflow; [now rewrite HF | lia | rewrite length_imap; lia].
Qed.

Lemma column_map_ijk {A B : Type} (f : nat -> nat -> nat -> A -> B)
  (x : list (list (list A))) (i j : nat) :
  nth j (nth i (map_ijk f x) []) [] = imap (f i j) (nth j (nth i x []) []).
Proof.
  unfold map_ijk.
  rewrite (nth_imap_nil (fun i plane => imap (fun j col => imap (f i j) col) plane))
    by reflexivity.
  now rewrite (nth_imap_nil (fun j col => imap (f i j) col)) by reflexivity.
Qed.

Lemma nth_map_nil {A B : Type} (F : list A -> list B) (x : list (list A)) i :
  F [] = [] -> nth i (map F x) [] = F (nth i x []).
Proof. intros HF. rewrite <- HF at 1. apply map_nth. Qed.

Lemma peakedness_threshold_floor (v : Q) : 4 <= peakedness_threshold v.
Proof.
  unfold peakedness_threshold, Qlt_bool.
  destruct (Qle_bool 4 _) eqn:H; simpl.
  - now apply Qle_bool_iff.
  - lra.
Qed.

(** Without negative reflectivity, a column with no positive qualifying
    reflectivity has no peakedness above the threshold either. *)
Lemma nonnegative_volume_numerator refl radius maxh g i j :
  Forall (Forall (Forall nonnegative)) refl ->
  snd (column_counts refl radius maxh g i j) = 0%nat ->
  fst (column_counts refl radius maxh g i j) = 0%nat.
Proof.
  intros Hrefl. unfold column_counts.
  destruct (_neigh_metres_to_rowcol radius g) as [r c]. cbn [fst snd].
  set (this := first_heights _ refl).
  assert (Hthis : Forall (Forall (Forall nonnegative)) this)
    by now apply first_heights_nonnegative.
  set (col := nth j (nth i this []) []).
  intros Hden. unfold _get_peakedness, _get_peakedness_thresholds.
  rewrite column_map_ijk. fold col.
  rewrite (nth_map_nil (map (map peakedness_threshold))) by reflexivity.
  rewrite (nth_map_nil (map peakedness_threshold)) by reflexivity.
  fold col. unfold exceedance_count.
  apply (count_true_imap_zero _ _ 0). intros k Hk.
  rewrite length_imap in Hk.
  rewrite (nth_imap _ col 0 0 k Hk).
  rewrite (nth_indep _ 0 (peakedness_threshold 0)) by now rewrite length_map.
  rewrite map_nth.
  pose proof (count_true_map_zero _ col 0 k Hden Hk) as Hv.
  pose proof (peakedness_threshold_floor (nth k col 0)) as Hthr.
  set (filtered := tabulate _ _).
  assert (Hmed : nonnegative (get2 0 (nth k filtered []) i j)).
  { subst filtered.
    destruct (Nat.lt_ge_cases k (num_heights this)) as [Hkh|Hkh].
    - rewrite nth_tabulate by exact Hkh.
      apply median_filter_nonnegative. now apply height_slice_nonnegative.
    - rewrite nth_tabulate_out by exact Hkh.
      unfold get2, nonnegative. destruct i, j; simpl; lra. }
  unfold nonnegative in Hmed. unfold Qlt_bool in *.
  apply negb_false_iff in Hv. apply Qle_bool_iff in Hv.
  apply negb_false_iff. apply Qle_bool_iff. lra.
Qed.

(** X8.  Hence, at full resolution and on a volume without negative
    reflectivity, criterion 1 never marks a column with no positive
    reflectivity at the heights used for peakedness. *)
Lemma criterion1_nonnegative_volume refl radius maxh gate g i j :
  Forall (Forall (Forall nonnegative)) refl ->
  snd (column_counts refl radius maxh g i j) = 0%nat ->
  get2 false (_apply_convective_criterion1 refl radius maxh false gate g) i j = false.
Proof.
  intros Hrefl Hden.
  pose proof (nonnegative_volume_numerator refl radius maxh g i j Hrefl Hden)
    as Hnum.
  destruct (criterion1_flag_cases refl radius maxh gate g i j) as [H|H];
    [exact H|].
  rewrite H, Hden, Hnum. reflexivity.
Qed.

(** The same column, as the proofs on whole volumes use it. *)
Lemma criterion1_quiet_column refl radius maxh gate g i j :
  Forall (Forall (Forall nonnegative)) refl ->
  snd (column_counts refl radius maxh g i j) = 0%nat ->
  get2 false (_apply_convective_criterion1 refl radius maxh false gate g) i j = false.
Proof.
  intros Hrefl Hden.
  destruct (criterion1_flag_cases refl radius maxh gate g i j) as [H|H];
    [exact H|].
  rewrite H, Hden.
  now rewrite (nonnegative_volume_numerator refl radius maxh g i j Hrefl Hden).
Qed.

(** ** The window of the median filter *)

Lemma Qceiling_bounds (n : Z) (x : Q) :
  inject_Z (n - 1) < x -> x <= inject_Z n -> Qceiling x = n.
Proof.
  intros Hlo Hhi.
  pose proof (Qceiling_lt x) as H1. pose proof (Qle_ceiling x) as H2.
  assert (Ha : inject_Z (Qceiling x - 1) < inject_Z n) by lra.
  assert (Hb : inject_Z (n - 1) < inject_Z (Qceiling x)) by lra.
  rewrite <- Zlt_Qlt in Ha, Hb. lia.
Qed.

(** What the docstring and the name [mean_latitude_deg] announce: the
    mean of the grid-point latitudes. *)
Definition mean_latitude (g : grid_metadata) : Q :=
  Qsum (grid_point_latitudes_deg g) /
  inject_Z (Z.of_nat (length (grid_point_latitudes_deg g))).

(** What the code computes instead: half the latitude range. *)
Definition half_latitude_range (g : grid_metadata) : Q :=
  (Qmax_list (grid_point_latitudes_deg g) -
   Qmin_list (grid_point_latitudes_deg g)) / 2.

(** The window that the specification describes. *)
Definition specified_rowcol (neigh_radius_metres : Q) (g : grid_metadata) : Z * Z :=
  ((1 + 2 * Qceiling (neigh_radius_metres /
                      (latitude_spacing_deg g * 111120)))%Z,
   (1 + 2 * Qceiling (neigh_radius_metres /
                      (longitude_spacing_deg g * 111120 *
                       np_cos_deg2rad (mean_latitude g))))%Z).

(** The row count is the specified one; the column count applies the
    cosine to half the latitude range. *)
Lemma neigh_metres_to_rowcol_unfold (neigh_radius_metres : Q) (g : grid_metadata) :
  _neigh_metres_to_rowcol neigh_radius_metres g =
  (fst (specified_rowcol neigh_radius_metres g),
   (1 + 2 * Qceiling (neigh_radius_metres /
                      (longitude_spacing_deg g * DEGREES_LAT_TO_METRES *
                       np_cos_deg2rad (half_latitude_range g))))%Z).
Proof.
  unfold _neigh_metres_to_rowcol, specified_rowcol, half_latitude_range.
  reflexivity.
Qed.

End Criteria.

(** ** Concrete grids *)

(** Three rows centred on 60 degrees north, 0.0125 degrees apart. *)
Definition grid_60N : grid_metadata := {|
  min_grid_point_latitude_deg := 4799 # 80;
  latitude_spacing_deg := 1 # 80;
  min_grid_point_longitude_deg := 120;
  longitude_spacing_deg := 1 # 80;
  grid_point_heights_m_asl := [1000; 9000; 12000];
  grid_point_latitudes_deg := [4799 # 80; 60; 4801 # 80];
  grid_point_longitudes_deg := [120; 9601 # 80; 9602 # 80]
|}.

Lemma grid_60N_latitudes :
  Forall2 Qeq (grid_point_latitudes_deg grid_60N)
    (fst (get_latlng_grid_points (4799 # 80) 120 (1 # 80) (1 # 80) 3 3)) /\
  mean_latitude grid_60N == 60 /\
  half_latitude_range grid_60N == 1 # 80.
Proof.
  split; [|split; reflexivity].
  repeat constructor.
Qed.

Lemma Qceiling_div (n : Z) (a b : Q) :
  0 < b -> inject_Z (n - 1) * b < a -> a <= inject_Z n * b ->
  Qceiling (a / b) = n.
Proof.
  intros Hb Hlo Hhi. apply Qceiling_bounds.
  - now apply Qlt_shift_div_l.
  - now apply Qle_shift_div_r.
Qed.

Ltac ceiling_by_bounds :=
  apply Qceiling_div;
  try match goal with
      | |- inject_Z ?z * _ < _ =>
          let v := eval compute in z in change z with v
      end;
  unfold inject_Z; lra.

(** C4 at the failing input.  On the grid centred on 60 degrees north,
    with the default radius of 12 km, the code applies the cosine to half
    the latitude range (0.0125 degrees) and gets a 19-column window, where
    the specified window, with the cosine of the mean latitude, has 37
    columns.  The hypotheses hold of the cosine: cos 60 = 1/2 and
    0.96 < cos 0.0125 <= 1 (angles in degrees). *)
Theorem neigh_window_diverges_at_60N (cosd : Q -> Q) :
  Proper (Qeq ==> Qeq) cosd ->
  96 # 100 < cosd (1 # 80) -> cosd (1 # 80) <= 1 -> cosd 60 == 1 # 2 ->
  _neigh_metres_to_rowcol cosd 12000 grid_60N = (19, 19)%Z /\
  specified_rowcol cosd 12000 grid_60N = (19, 37)%Z.
Proof.
  intros Hproper Hlo Hhi H60.
  destruct grid_60N_latitudes as (_ & Hmean & Hhalf).
  rewrite neigh_metres_to_rowcol_unfold. unfold specified_rowcol.
  apply Hproper in Hmean, Hhalf.
  set (c1 := cosd (half_latitude_range grid_60N)) in *.
  set (c2 := cosd (mean_latitude grid_60N)) in *.
  clearbody c1 c2.
  cbn [fst latitude_spacing_deg longitude_spacing_deg grid_60N].
  assert (Hrows : Qceiling (12000 / ((1 # 80) * 111120)) = 9%Z) by reflexivity.
  assert (Hcode : Qceiling (12000 / ((1 # 80) * DEGREES_LAT_TO_METRES * c1)) = 9%Z).
  { unfold DEGREES_LAT_TO_METRES.
    ceiling_by_bounds. }
  assert (Hspec : Qceiling (12000 / ((1 # 80) * 111120 * c2)) = 18%Z).
  { ceiling_by_bounds. }
  rewrite Hrows, Hcode, Hspec. split; reflexivity.
Qed.

(** A cosine table that agrees with the cosine at the two angles used
    above. *)
Definition cos_table (x : Q) : Q := if Qle_bool x 30 then 1 else 1 # 2.

Lemma neigh_window_diverges_at_60N_witness :
  _neigh_metres_to_rowcol cos_table 12000 grid_60N = (19, 19)%Z /\
  specified_rowcol cos_table 12000 grid_60N = (19, 37)%Z.
Proof.
  apply (neigh_window_diverges_at_60N cos_table).
  - intros x y Hxy. unfold cos_table. now rewrite Hxy.
  - reflexivity.
  - discriminate.
  - reflexivity.
Defined.

(** Three rows and columns at the equator, 0.01 degrees apart, with three
    height levels; the two lower ones qualify for peakedness. *)
Definition grid_equator : grid_metadata := {|
  min_grid_point_latitude_deg := 0;
  latitude_spacing_deg := 1 # 100;
  min_grid_point_longitude_deg := 120;
  longitude_spacing_deg := 1 # 100;
  grid_point_heights_m_asl := [1000; 9000; 12000];
  grid_point_latitudes_deg := [0; 1 # 100; 2 # 100];
  grid_point_longitudes_deg := [120; 12001 # 100; 12002 # 100]
|}.

(** A column of 0 dBZ below 30 dBZ aloft, ringed by columns of -20 dBZ
    below 30 dBZ aloft. *)
Definition ring_column : list Q := [-(20); -(20); 30].

Definition ring_volume : list (list (list Q)) :=
  [[ring_column; ring_column; ring_column];
   [ring_column; [0; 0; 30]; ring_column];
   [ring_column; ring_column; ring_column]].

(** C5 as stated: at full resolution, a column whose denominator is zero
    is never marked convective by criterion 1. *)
Definition zero_denominator_is_never_convective (cosd : Q -> Q)
  (spline : list Q -> list Q -> list (list Q) -> list Q -> list Q -> list (list Q))
  (refl : list (list (list Q))) (radius maxh : Q) (gate : option Q)
  (g : grid_metadata) : Prop :=
  forall i j,
    snd (column_counts cosd refl radius maxh g i j) = 0%nat ->
    get2 false (_apply_convective_criterion1 cosd spline refl radius maxh false gate g)
         i j = false.

Lemma grid_equator_window (cosd : Q -> Q) :
  Proper (Qeq ==> Qeq) cosd ->
  9 # 10 < cosd (1 # 100) -> cosd (1 # 100) <= 1 ->
  _neigh_metres_to_rowcol cosd 1000 grid_equator = (3, 3)%Z.
Proof.
  intros Hproper Hlo Hhi.
  rewrite neigh_metres_to_rowcol_unfold. unfold specified_rowcol.
  assert (Hhalf : half_latitude_range grid_equator == 1 # 100) by reflexivity.
  apply Hproper in Hhalf.
  set (c := cosd (half_latitude_range grid_equator)) in *. clearbody c.
  cbn [fst latitude_spacing_deg longitude_spacing_deg grid_equator].
  assert (Hrows : Qceiling (1000 / ((1 # 100) * 111120)) = 1%Z) by reflexivity.
  assert (Hcols : Qceiling (1000 / ((1 # 100) * DEGREES_LAT_TO_METRES * c)) = 1%Z).
  { unfold DEGREES_LAT_TO_METRES. ceiling_by_bounds. }
  rewrite Hrows, Hcols. reflexivity.
Qed.

(** The middle column of [ring_volume] has no positive reflectivity at the
    two qualifying heights, yet both peakedness values exceed their
    thresholds: the ratio is 2/0, and criterion 1 marks the column, even
    with the default composite-reflectivity gate of 25 dBZ. *)
Lemma ring_volume_centre (cosd : Q -> Q) spline :
  Proper (Qeq ==> Qeq) cosd ->
  9 # 10 < cosd (1 # 100) -> cosd (1 # 100) <= 1 ->
  column_counts cosd ring_volume 1000 9000 grid_equator 1 1 = (2%nat, 0%nat) /\
  get2 false (_apply_convective_criterion1 cosd spline ring_volume 1000 9000
                false (Some 25) grid_equator) 1 1 = true.
Proof.
  intros Hproper Hlo Hhi.
  pose proof (grid_equator_window cosd Hproper Hlo Hhi) as Hw.
  unfold column_counts, _apply_convective_criterion1.
  rewrite Hw. split; vm_compute; reflexivity.
Qed.

Lemma criterion1_counterexample :
  ~ (forall (cosd : Q -> Q) spline,
       Proper (Qeq ==> Qeq) cosd ->
       9 # 10 < cosd (1 # 100) -> cosd (1 # 100) <= 1 ->
       zero_denominator_is_never_convective cosd spline ring_volume 1000 9000
         (Some 25) grid_equator).
Proof.
  intros H.
  assert (Hproper : Proper (Qeq ==> Qeq) (fun _ : Q => 1)) by (intros x y _; reflexivity).
  assert (Hlo : 9 # 10 < 1) by reflexivity.
  assert (Hhi : 1 <= 1) by discriminate.
  specialize (H (fun _ => 1) (fun _ _ _ _ _ => []) Hproper Hlo Hhi 1%nat 1%nat).
  destruct (ring_volume_centre (fun _ => 1) (fun _ _ _ _ _ => []) Hproper Hlo Hhi)
    as [Hcounts Hflag].
  rewrite Hcounts in H. specialize (H eq_refl). congruence.
Qed.

(** The corner column of [ring_volume] has neither positive reflectivity
    nor peakedness at the qualifying heights. *)
Lemma criterion1_zero_over_zero_witness :
  fractional_exceedance
    (fst (column_counts (fun _ => 1) ring_volume 1000 9000 grid_equator 0 0))
    (snd (column_counts (fun _ => 1) ring_volume 1000 9000 grid_equator 0 0)) = NaN /\
  get2 false (_apply_convective_criterion1 (fun _ => 1) (fun _ _ _ _ _ => [])
                ring_volume 1000 9000 false (Some 25) grid_equator) 0 0 = false.
Proof.
  apply (criterion1_zero_over_zero (fun _ => 1) (fun _ _ _ _ _ => [])
           ring_volume 1000 9000 (Some 25) grid_equator 0 0);
    vm_compute; reflexivity.
Defined.

(** ** Further properties of the criteria *)

Lemma Forall_map_all {A B : Type} (P : B -> Prop) (f : A -> B) (l : list A) :
  (forall a, P (f a)) -> Forall P (map f l).
Proof. intros H. induction l; constructor; auto. Qed.

Lemma Forall2_map_all {A B : Type} (R : A -> B -> Prop) (f : A -> B) (l : list A) :
  (forall a, R a (f a)) -> Forall2 R l (map f l).
Proof. intros H. induction l; constructor; auto. Qed.

Lemma peakedness_threshold_cases (v : Q) :
  (4 <= peakedness_threshold v /\ peakedness_threshold v <= 10) /\
  (45 <= Qabs v -> peakedness_threshold v == 4) /\
  (Qabs v <= 45 -> peakedness_threshold v == 10 - v * v / (3375 # 10)).
Proof.
  assert (Habs : Qabs v * Qabs v == v * v).
  { apply Qabs_case; intros; ring. }
  assert (Hnonneg : 0 <= Qabs v) by apply Qabs_nonneg.
  assert (Hbig : 45 <= Qabs v -> 2025 <= v * v) by (intros; nra).
  assert (Hsmall : Qabs v <= 45 -> v * v <= 2025) by (intros; nra).
  assert (Hsq : 0 <= v * v) by nra.
  unfold peakedness_threshold, Qlt_bool.
  set (s := v * v) in *. clearbody s.
  set (a := Qabs v) in *. clearbody a.
  assert (Hdiv : s / (3375 # 10) == s * (10 # 3375)) by (field; discriminate).
  destruct (Qle_bool 4 (10 - s / (3375 # 10))) eqn:H; cbn [negb].
  - apply Qle_bool_iff in H. split; [split|split].
    + exact H.
    + lra.
    + intros Ha. specialize (Hbig Ha). lra.
    + intros _. reflexivity.
  - assert (Hlt : 10 - s / (3375 # 10) < 4).
    { apply Qnot_le_lt. intros Hle. apply Qle_bool_iff in Hle. congruence. }
    split; [split|split].
    + lra.
    + lra.
    + intros _. reflexivity.
    + intros Ha. specialize (Hsmall Ha). lra.
Qed.

(** X1.  Every peakedness threshold lies between 4 and 10 dBZ; it is 4
    wherever the reflectivity is at least 45 dBZ in absolute value and
    [10 - Z^2 / 337.5] wherever it is at most 45 dBZ. *)
Theorem peakedness_thresholds_range (reflectivity_matrix_dbz : list (list (list Q))) :
  Forall (Forall (Forall (fun threshold => 4 <= threshold /\ threshold <= 10)))
         (_get_peakedness_thresholds reflectivity_matrix_dbz) /\
  Forall2 (Forall2 (Forall2 (fun v threshold =>
             (45 <= Qabs v -> threshold == 4) /\
             (Qabs v <= 45 -> threshold == 10 - v * v / (3375 # 10)))))
          reflectivity_matrix_dbz
          (_get_peakedness_thresholds reflectivity_matrix_dbz).
Proof.
  unfold _get_peakedness_thresholds. split.
  - do 3 (apply Forall_map_all; intros ?). apply peakedness_threshold_cases.
  - do 3 (apply Forall2_map_all; intros ?). apply peakedness_threshold_cases.
Qed.


Section FurtherProperties.

Variable unix_sec_to_month : Z -> nat.
Variable np_cos_deg2rad : Q -> Q.

(** X2.  In every month the estimated melting level does not rise
    towards the poles (every slope of the table is negative), and it is
    the same at a latitude and at its opposite. *)
Theorem melting_level_decreases_poleward (latitude1 latitude2 : Q)
  (valid_time_unix_sec : Z) :
  (1 <= unix_sec_to_month valid_time_unix_sec <= 12)%nat ->
  Qabs latitude1 <= Qabs latitude2 ->
  _estimate_melting_levels unix_sec_to_month latitude2 valid_time_unix_sec <=
  _estimate_melting_levels unix_sec_to_month latitude1 valid_time_unix_sec /\
  _estimate_melting_levels unix_sec_to_month (- latitude1) valid_time_unix_sec ==
  _estimate_melting_levels unix_sec_to_month latitude1 valid_time_unix_sec.
Proof.
  intros Hmonth Habs. unfold _estimate_melting_levels.
  rewrite Qabs_opp.
  set (a1 := Qabs latitude1) in *. set (a2 := Qabs latitude2) in *.
  clearbody a1 a2.
  set (month := unix_sec_to_month valid_time_unix_sec) in *. clearbody month.
  split; [|reflexivity].
  do 13 (destruct month as [|month]; [try lia; cbn; lra|]).
  lia.
Qed.

Lemma Qceiling_positive (x : Q) : 0 < x -> (1 <= Qceiling x)%Z.
Proof.
  intros Hx. pose proof (Qle_ceiling x) as Hc.
  assert (H : inject_Z 0 < inject_Z (Qceiling x)) by (change (inject_Z 0) with 0; lra).
  rewrite <- Zlt_Qlt in H. lia.
Qed.

Lemma Qdiv_positive (a b : Q) : 0 < a -> 0 < b -> 0 < a / b.
Proof.
  intros Ha Hb. unfold Qdiv. apply Qmult_lt_0_compat; [exact Ha|].
  now apply Qinv_lt_0_compat.
Qed.

(** X3.  For a positive radius, positive grid spacings and a positive
    cosine, both sides of the median-filter window are odd and at least 3,
    so the window has a centre pixel and covers its neighbours. *)
Theorem neigh_window_is_odd (neigh_radius_metres : Q) (g : grid_metadata) :
  0 < neigh_radius_metres ->
  0 < latitude_spacing_deg g -> 0 < longitude_spacing_deg g ->
  0 < np_cos_deg2rad
        ((Qmax_list (grid_point_latitudes_deg g) -
          Qmin_list (grid_point_latitudes_deg g)) / 2) ->
  let window := _neigh_metres_to_rowcol np_cos_deg2rad neigh_radius_metres g in
  (Z.odd (fst window) = true /\ 3 <= fst window)%Z /\
  (Z.odd (snd window) = true /\ 3 <= snd window)%Z.
Proof.
  intros Hradius Hlat Hlng Hcos. cbv zeta.
  unfold _neigh_metres_to_rowcol. cbn [fst snd].
  assert (Hmetres : 0 < DEGREES_LAT_TO_METRES) by reflexivity.
  assert (Hrows : (1 <= Qceiling (neigh_radius_metres /
                                 (latitude_spacing_deg g * DEGREES_LAT_TO_METRES)))%Z).
  { apply Qceiling_positive, Qdiv_positive; [exact Hradius|].
    now apply Qmult_lt_0_compat. }
  assert (Hcols : (1 <= Qceiling (neigh_radius_metres /
                                 (longitude_spacing_deg g * DEGREES_LAT_TO_METRES *
                                  np_cos_deg2rad
                                    ((Qmax_list (grid_point_latitudes_deg g) -
                                      Qmin_list (grid_point_latitudes_deg g)) / 2))))%Z).
  { apply Qceiling_positive, Qdiv_positive; [exact Hradius|].
    apply Qmult_lt_0_compat; [|exact Hcos]. now apply Qmult_lt_0_compat. }
  rewrite !Z.odd_add_mul_2. cbn [Z.odd]. repeat split; lia.
Qed.

End FurtherProperties.

(** The flag at [(zi, zj)], false outside the grid. *)
Definition flag_at (flags : list (list bool)) (zi zj : Z) : bool :=
  if ((0 <=? zi)%Z && (zi <? Z.of_nat (length flags))%Z &&
      (0 <=? zj)%Z && (zj <? Z.of_nat (length (nth (Z.to_nat zi) flags [])))%Z)%bool
  then get2 false flags (Z.to_nat zi) (Z.to_nat zj)
  else false.

(** The number of convective pixels among the eight neighbours of
    [(i, j)]. *)
Definition convective_neighbours (flags : list (list bool)) (i j : nat) : nat :=
  count_true
    (map (fun d => flag_at flags (Z.of_nat i + fst d) (Z.of_nat j + snd d))
         [(-1, -1); (-1, 0); (-1, 1); (0, -1); (0, 1); (1, -1); (1, 0); (1, 1)]%Z).

Lemma get2_pad_bool_to_float (flags : list (list bool)) (zi zj : Z) :
  get2_pad 0 (bool_to_float flags) zi zj = b2q (flag_at flags zi zj).
Proof.
  unfold get2_pad, flag_at, bool_to_float, get2.
  rewrite length_map.
  change (@nil Q) with (map b2q []).
  rewrite !(map_nth (map b2q)), length_map.
  destruct (_ && _ && _ && _)%bool; [|reflexivity].
  change 0 with (b2q false). apply map_nth.
Qed.

Lemma window_3x3 (x : list (list Q)) (i j : nat) :
  window 0 x 3 3 i j =
  map (fun d => get2_pad 0 x (Z.of_nat i + fst d) (Z.of_nat j + snd d))
      [(-1, -1); (-1, 0); (-1, 1); (0, -1); (0, 0); (0, 1); (1, -1); (1, 0); (1, 1)]%Z.
Proof.
  unfold window, tabulate. change (3 / 2)%nat with 1%nat.
  cbn [seq map concat app fst snd].
  repeat (f_equal; try (f_equal; lia)).
Qed.

(** The average that criteria 4 and 5 compute at an inner or border
    pixel: one ninth of the number of convective pixels in the 3-by-3
    window. *)
Lemma average_of_flags (flags : list (list bool)) (i j : nat) :
  (i < length flags)%nat -> (j < length (nth i flags []))%nat ->
  get2 0 (convolve3x3 (bool_to_float flags) (1 / 9)) i j ==
  inject_Z (Z.of_nat ((if get2 false flags i j then 1 else 0) +
                      convective_neighbours flags i j)) / 9.
Proof.
  intros Hi Hj. unfold convolve3x3.
  rewrite (get2_map_ij _ _ 0 0 i j).
  2:{ unfold bool_to_float. now rewrite length_map. }
  2:{ unfold bool_to_float. change (@nil Q) with (map b2q []).
      rewrite (map_nth (map b2q)), length_map. exact Hj. }
  rewrite window_3x3. cbn [map fst snd].
  rewrite !get2_pad_bool_to_float.
  unfold convective_neighbours. cbn [map fst snd count_true].
  assert (Hcentre : flag_at flags (Z.of_nat i + 0) (Z.of_nat j + 0) =
                    get2 false flags i j).
  { unfold flag_at. rewrite !Z.add_0_r, !Nat2Z.id.
    assert (H : ((0 <=? Z.of_nat i)%Z && (Z.of_nat i <? Z.of_nat (length flags))%Z &&
                 (0 <=? Z.of_nat j)%Z &&
                 (Z.of_nat j <? Z.of_nat (length (nth i flags [])))%Z)%bool = true).
    { rewrite !andb_true_iff, !Z.leb_le, !Z.ltb_lt. lia. }
    now rewrite H. }
  rewrite Hcentre.
  destruct (get2 false flags i j);
    destruct (flag_at flags (Z.of_nat i + -1) (Z.of_nat j + -1));
    destruct (flag_at flags (Z.of_nat i + -1) (Z.of_nat j + 0));
    destruct (flag_at flags (Z.of_nat i + -1) (Z.of_nat j + 1));
    destruct (flag_at flags (Z.of_nat i + 0) (Z.of_nat j + -1));
    destruct (flag_at flags (Z.of_nat i + 0) (Z.of_nat j + 1));
    destruct (flag_at flags (Z.of_nat i + 1) (Z.of_nat j + -1));
    destruct (flag_at flags (Z.of_nat i + 1) (Z.of_nat j + 0));
    destruct (flag_at flags (Z.of_nat i + 1) (Z.of_nat j + 1));
    vm_compute; reflexivity.
Qed.


Lemma get2_map_map {A B : Type} (f : A -> B) (x : list (list A)) (da : A) (db : B)
  (i j : nat) :
  (i < length x)%nat -> (j < length (nth i x []))%nat ->
  get2 db (map (map f) x) i j = f (get2 da x i j).
Proof.
  intros Hi Hj. unfold get2.
  change (@nil B) with (map f []). rewrite (map_nth (map f)).
  rewrite (nth_indep _ db (f da)) by now rewrite length_map.
  apply map_nth.
Qed.

Lemma shape_convolve3x3 (x : list (list Q)) (w : Q) (i : nat) :
  length (convolve3x3 x w) = length x /\
  length (nth i (convolve3x3 x w) []) = length (nth i x []).
Proof.
  unfold convolve3x3. split; [apply length_map_ij | apply length_nth_map_ij].
Qed.

Lemma shape_bool_to_float (x : list (list bool)) (i : nat) :
  length (bool_to_float x) = length x /\
  length (nth i (bool_to_float x) []) = length (nth i x []).
Proof.
  unfold bool_to_float. split; [apply length_map|].
  change (@nil Q) with (map b2q []). now rewrite (map_nth (map b2q)), length_map.
Qed.

Lemma count_over_nine_exceeds (n : nat) :
  Qlt_bool (1 / 9 + TOLERANCE) (inject_Z (Z.of_nat n) / 9) = (2 <=? n)%nat /\
  Qlt_bool 0 (inject_Z (Z.of_nat n) / 9) = (1 <=? n)%nat.
Proof.
  destruct n as [|[|n]]; [split; reflexivity | split; reflexivity |].
  assert (H : 2 <= inject_Z (Z.of_nat (S (S n)))).
  { change 2 with (inject_Z 2). rewrite <- Zle_Qle. lia. }
  set (q := inject_Z (Z.of_nat (S (S n)))) in *. clearbody q.
  assert (Hdiv : q / 9 == q * (1 # 9)) by (field; discriminate).
  assert (Hninth : 1 / 9 == 1 # 9) by reflexivity.
  unfold Qlt_bool, TOLERANCE. cbn [Nat.leb].
  split; apply negb_true_iff; apply not_true_iff_false; intros Hle;
    apply Qle_bool_iff in Hle; rewrite ?Hninth, Hdiv in Hle; lra.
Qed.

Lemma Qlt_bool_compat (a b c : Q) : b == c -> Qlt_bool a b = Qlt_bool a c.
Proof. intros H. unfold Qlt_bool. now rewrite H. Qed.

Lemma get2_out_of_range {A : Type} (d : A) (x : list (list A)) (i j : nat) :
  (length x <= i)%nat \/ (length (nth i x []) <= j)%nat -> get2 d x i j = d.
Proof.
  intros [H|H]; unfold get2.
  - rewrite (nth_overflow x [] H). now destruct j.
  - now apply nth_overflow.
Qed.

Lemma get2_map_ij_out_of_range {A B : Type} (f : nat -> nat -> A -> B)
  (x : list (list A)) (d : B) (i j : nat) :
  (length x <= i)%nat \/ (length (nth i x []) <= j)%nat ->
  get2 d (map_ij f x) i j = d.
Proof.
  intros H. apply get2_out_of_range.
  now rewrite length_map_ij, length_nth_map_ij.
Qed.

Lemma in_range_or_not {A : Type} (x : list (list A)) (i j : nat) :
  ((i < length x)%nat /\ (j < length (nth i x []))%nat) \/
  ((length x <= i)%nat \/ (length (nth i x []) <= j)%nat).
Proof. lia. Qed.

(** X4.  Criterion 4 keeps a convective flag exactly where at least one
    of the eight neighbours is convective too (pixels outside the grid
    count as not convective); it never sets a flag. *)
Theorem criterion4_keeps_pixels_with_neighbours (flags : list (list bool))
  (i j : nat) :
  get2 false (_apply_convective_criterion4 flags) i j =
  get2 false flags i j && (1 <=? convective_neighbours flags i j)%nat.
Proof.
  unfold _apply_convective_criterion4, logical_and.
  destruct (in_range_or_not flags i j) as [[Hi Hj]|Hout].
  - rewrite (get2_map_ij _ flags false false i j Hi Hj). unfold gt_matrix.
    destruct (shape_convolve3x3 (bool_to_float flags) (1 / 9) i) as [Hrows Hcols].
    destruct (shape_bool_to_float flags i) as [Hrows' Hcols'].
    rewrite (get2_map_map _ _ 0 false i j) by lia.
    rewrite (Qlt_bool_compat _ _ _ (average_of_flags flags i j Hi Hj)).
    destruct (count_over_nine_exceeds
                ((if get2 false flags i j then 1 else 0) +
                 convective_neighbours flags i j)) as [-> _].
    destruct (get2 false flags i j); reflexivity.
  - rewrite (get2_map_ij_out_of_range _ flags false i j Hout).
    now rewrite (get2_out_of_range false flags i j Hout).
Qed.

(** The composite (column-maximum) reflectivity at a pixel. *)
Definition composite_reflectivity (reflectivity_matrix_dbz : list (list (list Q)))
  (i j : nat) : Q :=
  Qmax_list (nth j (nth i reflectivity_matrix_dbz []) []).

Lemma get2_composite_geq (reflectivity_matrix_dbz : list (list (list Q)))
  (c : Q) (i j : nat) :
  (i < length reflectivity_matrix_dbz)%nat ->
  (j < length (nth i reflectivity_matrix_dbz []))%nat ->
  get2 false (geq_matrix (max_last_axis reflectivity_matrix_dbz) c) i j =
  Qle_bool c (composite_reflectivity reflectivity_matrix_dbz i j).
Proof.
  intros Hi Hj. unfold geq_matrix, max_last_axis, composite_reflectivity.
  rewrite (get2_map_map _ _ 0 false i j).
  - now rewrite (get2_map_map _ _ [] 0 i j Hi Hj).
  - now rewrite length_map.
  - change (@nil Q) with (map Qmax_list []).
    now rewrite (map_nth (map Qmax_list)), length_map.
Qed.

(** X5.  After criterion 5 a pixel of the grid is convective exactly when
    it was convective before, or when one of its eight neighbours was and
    its composite reflectivity reaches the threshold. *)
Theorem criterion5_spreads_to_neighbours
  (reflectivity_matrix_dbz : list (list (list Q))) (flags : list (list bool))
  (min_composite_refl_dbz : Q) (i j : nat) :
  (i < length flags)%nat -> (j < length (nth i flags []))%nat ->
  (i < length reflectivity_matrix_dbz)%nat ->
  (j < length (nth i reflectivity_matrix_dbz []))%nat ->
  get2 false (_apply_convective_criterion5 reflectivity_matrix_dbz flags
                                           min_composite_refl_dbz) i j =
  get2 false flags i j ||
  ((1 <=? convective_neighbours flags i j)%nat &&
   Qle_bool min_composite_refl_dbz
            (composite_reflectivity reflectivity_matrix_dbz i j)).
Proof.
  intros Hi Hj Hri Hrj.
  unfold _apply_convective_criterion5, logical_or, logical_and.
  destruct (shape_convolve3x3 (bool_to_float flags) (1 / 9) i) as [Hrows Hcols].
  destruct (shape_bool_to_float flags i) as [Hrows' Hcols'].
  rewrite (get2_map_ij _ flags false false i j Hi Hj).
  rewrite (get2_map_ij _ _ false false i j).
  2:{ unfold gt_matrix. rewrite length_map. lia. }
  2:{ unfold gt_matrix. change (@nil bool) with (map (fun v => Qlt_bool 0 v) []).
      rewrite (map_nth (map (fun v => Qlt_bool 0 v))), length_map. lia. }
  unfold gt_matrix.
  rewrite (get2_map_map _ _ 0 false i j) by lia.
  rewrite (Qlt_bool_compat _ _ _ (average_of_flags flags i j Hi Hj)).
  destruct (count_over_nine_exceeds
              ((if get2 false flags i j then 1 else 0) +
               convective_neighbours flags i j)) as [_ ->].
  rewrite (get2_composite_geq _ _ i j Hri Hrj).
  destruct (get2 false flags i j); reflexivity.
Qed.


(** *** A volume without echoes *)

Lemma Forall_imap_all {A B : Type} (P : A -> Prop) (R : B -> Prop)
  (f : nat -> A -> B) (l : list A) :
  (forall i a, P a -> R (f i a)) -> Forall P l -> Forall R (imap f l).
Proof.
  intros H Hl. revert f H. induction Hl as [|a l Ha Hl IH]; intros f H.
  - constructor.
  - rewrite imap_cons. constructor; [now apply H|]. apply IH. intros i b. apply H.
Qed.

Lemma Forall_map_ijk {A B : Type} (P : A -> Prop) (R : B -> Prop)
  (f : nat -> nat -> nat -> A -> B) (x : list (list (list A))) :
  (forall i j k a, P a -> R (f i j k a)) ->
  Forall (Forall (Forall P)) x -> Forall (Forall (Forall R)) (map_ijk f x).
Proof.
  intros H Hx. unfold map_ijk.
  apply (Forall_imap_all (Forall (Forall P))); [|exact Hx].
  intros i plane Hplane.
  apply (Forall_imap_all (Forall P)); [|exact Hplane].
  intros j col Hcol.
  apply (Forall_imap_all P); [|exact Hcol].
  intros k a. apply H.
Qed.

Lemma Qmax_list_zero (l : list Q) : Forall (fun v => v == 0) l -> Qmax_list l == 0.
Proof.
  destruct l as [|x l]; [reflexivity|].
  intros H. apply List.Forall_cons_iff in H. destruct H as [Hx Hl].
  cbn [Qmax_list].
  revert x Hx. induction Hl as [|y l Hy Hl IH]; intros x Hx; [exact Hx|].
  cbn [fold_left]. apply IH.
  apply Q.max_case_strong; intros; lra.
Qed.

Lemma max_last_axis_zero (x : list (list (list Q))) :
  Forall (Forall (Forall (fun v => v == 0))) x ->
  Forall (Forall (fun v => v == 0)) (max_last_axis x).
Proof.
  intros H. unfold max_last_axis.
  induction H as [|plane x Hplane Hx IH]; constructor; [|exact IH].
  induction Hplane as [|col plane Hcol Hplane IHp]; constructor; [|exact IHp].
  now apply Qmax_list_zero.
Qed.

Lemma Forall2_get2 {A : Type} (P : A -> Prop) (x : list (list A)) (d : A) (i j : nat) :
  Forall (Forall P) x ->
  (i < length x)%nat -> (j < length (nth i x []))%nat -> P (get2 d x i j).
Proof.
  intros H Hi Hj. unfold get2.
  rewrite List.Forall_forall in H.
  assert (Hrow : Forall P (nth i x [])) by (apply H, nth_In; exact Hi).
  rewrite List.Forall_forall in Hrow. apply Hrow, nth_In. exact Hj.
Qed.

Lemma geq_matrix_all_false (x : list (list Q)) (c : Q) (i j : nat) :
  0 < c -> Forall (Forall (fun v => v == 0)) x ->
  get2 false (geq_matrix x c) i j = false.
Proof.
  intros Hc Hx. unfold geq_matrix.
  destruct (in_range_or_not x i j) as [[Hi Hj]|Hout].
  - rewrite (get2_map_map _ x 0 false i j Hi Hj).
    pose proof (Forall2_get2 _ x 0 i j Hx Hi Hj) as Hv. cbv beta in Hv.
    apply not_true_iff_false. intros Hle. apply Qle_bool_iff in Hle. lra.
  - apply get2_out_of_range.
    rewrite length_map. change (@nil bool) with (map (fun v => Qle_bool c v) []).
    now rewrite (map_nth (map (fun v => Qle_bool c v))), length_map.
Qed.

Lemma logical_or_all_false (a b : list (list bool)) :
  (forall i j, get2 false a i j = false) ->
  (forall i j, get2 false b i j = false) ->
  forall i j, get2 false (logical_or a b) i j = false.
Proof.
  intros Ha Hb i j. unfold logical_or.
  destruct (in_range_or_not a i j) as [[Hi Hj]|Hout].
  - rewrite (get2_map_ij _ a false false i j Hi Hj). now rewrite Ha, Hb.
  - now apply get2_map_ij_out_of_range.
Qed.

Lemma logical_and_all_false (a b : list (list bool)) :
  (forall i j, get2 false a i j = false) \/ (forall i j, get2 false b i j = false) ->
  forall i j, get2 false (logical_and a b) i j = false.
Proof.
  intros H i j. unfold logical_and.
  destruct (in_range_or_not a i j) as [[Hi Hj]|Hout].
  - rewrite (get2_map_ij _ a false false i j Hi Hj).
    destruct H as [H|H]; rewrite H; [reflexivity | apply andb_false_r].
  - now apply get2_map_ij_out_of_range.
Qed.

(** What [_check_input_args] guarantees about the options it returns. *)
Lemma checked_options_are_positive (o : option option_dict) (checked : option_dict) :
  _check_input_args o = Some checked ->
  0 < peakedness_neigh_metres checked /\
  0 < max_peakedness_height_m_asl checked /\
  0 < min_echo_top_m_asl checked /\
  0 < echo_top_level_dbz checked /\
  0 < min_composite_refl_criterion5_dbz checked /\
  0 < min_composite_refl_aml_dbz checked /\
  (forall c, min_composite_refl_criterion1_dbz checked = Some c -> 0 < c).
Proof.
  unfold _check_input_args. cbv zeta.
  destruct (_ && _ && _ && _ && _ && _ && _)%bool eqn:Hchecks; [|discriminate].
  intros H. injection H as <-.
  rewrite !andb_true_iff in Hchecks.
  destruct Hchecks as [[[[[[H1 H2] H3] H4] H5] H6] H7].
  unfold Qlt_bool in *. rewrite negb_true_iff in *.
  cbn [peakedness_neigh_metres max_peakedness_height_m_asl min_echo_top_m_asl
       echo_top_level_dbz min_composite_refl_criterion5_dbz
       min_composite_refl_aml_dbz min_composite_refl_criterion1_dbz] in *.
  assert (Hlt : forall x, Qle_bool x 0 = false -> 0 < x).
  { intros x Hx. apply Qnot_le_lt. intros Hle. apply Qle_bool_iff in Hle. congruence. }
  repeat split; try (apply Hlt; assumption).
  intros c Hc. rewrite Hc in H7. apply Hlt. now apply negb_true_iff.
Qed.


Lemma Forall3_nth {A : Type} (P : A -> Prop) (x : list (list (list A))) (i j : nat) :
  Forall (Forall (Forall P)) x -> Forall P (nth j (nth i x []) []).
Proof.
  intros H.
  assert (Hplane : Forall (Forall P) (nth i x [])).
  { destruct (Nat.lt_ge_cases i (length x)) as [Hi|Hi].
    - rewrite List.Forall_forall in H. apply H, nth_In, Hi.
    - rewrite nth_overflow by exact Hi. constructor. }
  destruct (Nat.lt_ge_cases j (length (nth i x []))) as [Hj|Hj].
  - rewrite List.Forall_forall in Hplane. apply Hplane, nth_In, Hj.
  - rewrite nth_overflow by exact Hj. constructor.
Qed.

Lemma Forall3_map {A B : Type} (P : A -> Prop) (R : B -> Prop) (f : A -> B)
  (x : list (list (list A))) :
  (forall a, P a -> R (f a)) ->
  Forall (Forall (Forall P)) x -> Forall (Forall (Forall R)) (map (map (map f)) x).
Proof.
  intros H Hx.
  induction Hx as [|plane x Hplane Hx IH]; constructor; [|exact IH].
  induction Hplane as [|col plane Hcol Hplane IHp]; constructor; [|exact IHp].
  induction Hcol as [|a col Ha Hcol IHc]; constructor; [now apply H | exact IHc].
Qed.

Lemma first_heights_Forall (P : Q -> Prop) (n : nat) (x : list (list (list Q))) :
  Forall (Forall (Forall P)) x -> Forall (Forall (Forall P)) (first_heights n x).
Proof.
  intros Hx. unfold first_heights.
  induction Hx as [|plane x Hplane Hx IH]; constructor; [|exact IH].
  induction Hplane as [|col plane Hcol Hplane IHp]; constructor; [|exact IHp].
  now apply Forall_take.
Qed.

Lemma positive_count_zero (column : list Q) :
  Forall (fun v => v == 0) column -> positive_count column = 0%nat.
Proof.
  intros H. unfold positive_count.
  induction H as [|v column Hv H IH]; [reflexivity|].
  cbn [map count_true]. rewrite IH.
  assert (Hfalse : Qlt_bool 0 v = false).
  { unfold Qlt_bool. apply negb_false_iff. apply Qle_bool_iff. lra. }
  now rewrite Hfalse.
Qed.

Lemma num_true_all_false (x : list (list bool)) :
  (forall i j, get2 false x i j = false) -> num_true x = 0%nat.
Proof.
  unfold num_true. induction x as [|row x IH]; intros H; [reflexivity|].
  change (list_sum (map count_true (row :: x)))
    with (count_true row + list_sum (map count_true x))%nat.
  rewrite IH; [|intros i j; exact (H (S i) j)].
  assert (Hrow : count_true row = 0%nat).
  { specialize (H 0%nat). unfold get2 in H. cbn [nth] in H.
    clear IH. induction row as [|b row IHrow]; [reflexivity|].
    cbn [count_true]. rewrite IHrow; [|intros j; exact (H (S j))].
    specialize (H 0%nat). cbn [nth] in H. now rewrite H. }
  now rewrite Hrow.
Qed.

(** A voxel without echo: missing, or 0 dBZ. *)
Definition no_echo (v : option Q) : Prop :=
  match v with
  | None => True
  | Some q => q == 0
  end.


(** Two matrices of one shape. *)
Definition same_shape {A B : Type} (x : list (list A)) (y : list (list B)) : Prop :=
  length x = length y /\ forall i, length (nth i x []) = length (nth i y []).

Lemma same_shape_trans {A B C : Type} (x : list (list A)) (y : list (list B))
  (z : list (list C)) : same_shape x y -> same_shape y z -> same_shape x z.
Proof.
  intros [H1 H2] [H3 H4]. split; [congruence|]. intros i. now rewrite H2.
Qed.

Lemma same_shape_map_ij {A B : Type} (f : nat -> nat -> A -> B) (x : list (list A)) :
  same_shape (map_ij f x) x.
Proof. split; [apply length_map_ij | intros i; apply length_nth_map_ij]. Qed.

Lemma same_shape_map_map {A B : Type} (f : list A -> B) (x : list (list (list A))) :
  same_shape (map (map f) x) x.
Proof.
  split; [apply length_map|]. intros i.
  change (@nil B) with (map f []). now rewrite (map_nth (map f)), length_map.
Qed.

Section EmptyVolume.

Variable unix_sec_to_month : Z -> nat.
Variable np_cos_deg2rad : Q -> Q.
Variable RectBivariateSpline :
  list Q -> list Q -> list (list Q) -> list Q -> list Q -> list (list Q).

(** X6.  A volume without echoes (every voxel missing or 0 dBZ) yields no
    convective pixel and the printed counts 0, 0, 0, 0, provided the
    peakedness is computed at full resolution or criterion 1 has its
    composite-reflectivity gate. *)
Theorem no_echo_no_convection
  (reflectivity_matrix_dbz : list (list (list (option Q))))
  (g : grid_metadata) (valid_time_unix_sec : Z) (o : option option_dict)
  (c : classification) :
  Forall (Forall (Forall no_echo)) reflectivity_matrix_dbz ->
  find_convective_pixels unix_sec_to_month np_cos_deg2rad RectBivariateSpline
    reflectivity_matrix_dbz g valid_time_unix_sec o = Some c ->
  halve_resolution_for_peakedness (used_option_dict c) = false \/
  min_composite_refl_criterion1_dbz (used_option_dict c) <> None ->
  (forall i j, get2 false (convective_flag_matrix c) i j = false) /\
  printed_counts c = [0; 0; 0; 0]%nat.
Proof.
  intros Hrefl Hfind Hmode.
  unfold find_convective_pixels in Hfind.
  destruct (_check_input_args o) as [checked|] eqn:Hcheck; [|discriminate].
  destruct (negb _); [discriminate|].
  unfold get_latlng_grid_points in Hfind. cbv beta iota zeta in Hfind.
  injection Hfind as <-.
  cbn [convective_flag_matrix used_option_dict printed_counts] in *.
  destruct (checked_options_are_positive o checked Hcheck)
    as (_ & _ & Htop & Hlevel & Hfive & Haml & Hgate).
  set (refl := map (map (map (fun v : option Q =>
                                match v with Some q => q | None => 0 end)))
                   reflectivity_matrix_dbz) in *.
  assert (Hzero : Forall (Forall (Forall (fun v => v == 0))) refl).
  { subst refl. apply (Forall3_map no_echo); [|exact Hrefl].
    intros [q|] Hq; [exact Hq | reflexivity]. }
  set (g' := {| min_grid_point_latitude_deg := min_grid_point_latitude_deg g |}) in *.
  set (flags1 := _apply_convective_criterion1 _ _ _ _ _ _ _ _) in *.
  assert (H1 : forall i j, get2 false flags1 i j = false).
  { intros i j. subst flags1.
    destruct (min_composite_refl_criterion1_dbz checked) as [c0|] eqn:Hc0.
    - unfold _apply_convective_criterion1.
      destruct (if halve_resolution_for_peakedness checked then _ else _)
        as [[[this [rows cols]] lat] lng].
      apply logical_and_all_false. right. intros i' j'.
      apply geq_matrix_all_false; [now apply Hgate|].
      now apply max_last_axis_zero.
    - destruct Hmode as [Hmode|Hmode]; [|congruence].
      rewrite Hmode. apply criterion1_quiet_column.
      + eapply List.Forall_impl; [|exact Hzero]. intros plane Hplane.
        eapply List.Forall_impl; [|exact Hplane]. intros col Hcol.
        eapply List.Forall_impl; [|exact Hcol]. intros v Hv.
        unfold nonnegative. cbv beta in Hv. lra.
      + unfold column_counts.
        destruct (_neigh_metres_to_rowcol np_cos_deg2rad
                    (peakedness_neigh_metres checked) g') as [rows cols].
        cbn [snd]. apply positive_count_zero. apply Forall3_nth.
        now apply first_heights_Forall. }
  set (flags2 := _apply_convective_criterion2 _ _ _ _ _ _) in *.
  assert (H2 : forall i j, get2 false flags2 i j = false).
  { subst flags2. unfold _apply_convective_criterion2.
    apply logical_or_all_false; [exact H1|]. intros i j.
    apply geq_matrix_all_false; [exact Haml|].
    apply max_last_axis_zero.
    apply (Forall_map_ijk (fun v => v == 0)); [|exact Hzero].
    intros i' j' k v Hv. cbv beta. rewrite Hv. ring. }
  set (flags3 := _apply_convective_criterion3 _ _ _ _ _) in *.
  assert (H3 : forall i j, get2 false flags3 i j = false).
  { subst flags3. unfold _apply_convective_criterion3.
    apply logical_or_all_false; [exact H2|]. intros i j.
    apply geq_matrix_all_false; [exact Htop|].
    apply max_last_axis_zero.
    apply (Forall_map_ijk (fun v => v == 0)); [|exact Hzero].
    intros i' j' k v Hv. cbv beta.
    assert (Hfalse : Qle_bool (echo_top_level_dbz checked) v = false).
    { apply not_true_iff_false. intros Hle. apply Qle_bool_iff in Hle. lra. }
    rewrite Hfalse. cbn [b2q]. ring. }
  set (flags4 := _apply_convective_criterion4 _) in *.
  assert (H4 : forall i j, get2 false flags4 i j = false).
  { subst flags4. unfold _apply_convective_criterion4.
    apply logical_and_all_false. now left. }
  assert (H5 : forall i j,
             get2 false (_apply_convective_criterion5 refl flags4
                           (min_composite_refl_criterion5_dbz checked)) i j = false).
  { unfold _apply_convective_criterion5.
    apply logical_or_all_false; [exact H4|].
    apply logical_and_all_false. right. intros i j.
    apply geq_matrix_all_false; [exact Hfive|].
    now apply max_last_axis_zero. }
  split; [exact H5|].
  now rewrite !num_true_all_false.
Qed.

(** X7.  At full resolution the flag matrix that
    [find_convective_pixels] returns has the rows and columns of the
    reflectivity volume. *)
Theorem find_convective_pixels_shape
  (reflectivity_matrix_dbz : list (list (list (option Q))))
  (g : grid_metadata) (valid_time_unix_sec : Z) (o : option option_dict)
  (c : classification) :
  find_convective_pixels unix_sec_to_month np_cos_deg2rad RectBivariateSpline
    reflectivity_matrix_dbz g valid_time_unix_sec o = Some c ->
  halve_resolution_for_peakedness (used_option_dict c) = false ->
  length (convective_flag_matrix c) = length reflectivity_matrix_dbz /\
  forall i, length (nth i (convective_flag_matrix c) []) =
            length (nth i reflectivity_matrix_dbz []).
Proof.
  intros Hfind Hmode.
  unfold find_convective_pixels in Hfind.
  destruct (_check_input_args o) as [checked|]; [|discriminate].
  destruct (negb _); [discriminate|].
  unfold get_latlng_grid_points in Hfind. cbv beta iota zeta in Hfind.
  injection Hfind as <-.
  cbn [convective_flag_matrix used_option_dict] in *. rewrite Hmode.
  match goal with
  | |- length ?x = length ?y /\ _ => change (same_shape x y)
  end.
  eapply same_shape_trans; [apply same_shape_map_ij|].
  eapply same_shape_trans; [apply same_shape_map_ij|].
  eapply same_shape_trans; [apply same_shape_map_ij|].
  eapply same_shape_trans; [apply same_shape_map_ij|].
  unfold _apply_convective_criterion1.
  destruct (_neigh_metres_to_rowcol _ _ _) as [rows cols].
  assert (Hthis : forall n,
             same_shape
               (first_heights n
                  (map (map (map (fun v : option Q =>
                                    match v with Some q => q | None => 0 end)))
                       reflectivity_matrix_dbz))
               reflectivity_matrix_dbz).
  { intros n. unfold first_heights.
    eapply same_shape_trans; [apply same_shape_map_map|].
    apply same_shape_map_map. }
  destruct (min_composite_refl_criterion1_dbz checked).
  - unfold logical_and.
    do 2 (eapply same_shape_trans; [apply same_shape_map_ij|]). apply Hthis.
  - eapply same_shape_trans; [apply same_shape_map_ij|]. apply Hthis.
Qed.

End EmptyVolume.


(** ** The properties above on small grids *)

Lemma melting_level_decreases_poleward_witness :
  _estimate_melting_levels (fun _ => 7%nat) 45 0 <=
  _estimate_melting_levels (fun _ => 7%nat) (-(30)) 0 /\
  _estimate_melting_levels (fun _ => 7%nat) (- -(30)) 0 ==
  _estimate_melting_levels (fun _ => 7%nat) (-(30)) 0.
Proof.
  apply (melting_level_decreases_poleward (fun _ => 7%nat) (-(30)) 45 0%Z).
  - lia.
  - vm_compute. discriminate.
Defined.

Lemma neigh_window_is_odd_witness :
  let window := _neigh_metres_to_rowcol cos_table 12000 grid_60N in
  (Z.odd (fst window) = true /\ 3 <= fst window)%Z /\
  (Z.odd (snd window) = true /\ 3 <= snd window)%Z.
Proof.
  apply (neigh_window_is_odd cos_table 12000 grid_60N); vm_compute; reflexivity.
Defined.

(** One convective pixel in the corner of a 2-by-2 grid; the upper row
    has 30 dBZ, the lower row 10 dBZ. *)
Definition corner_flags : list (list bool) := [[true; false]; [false; false]].

Definition two_row_volume : list (list (list Q)) := [[[30]; [30]]; [[10]; [10]]].

Lemma criterion5_spreads_to_neighbours_witness :
  get2 false (_apply_convective_criterion5 two_row_volume corner_flags 25) 0 1 =
  get2 false corner_flags 0 1 ||
  ((1 <=? convective_neighbours corner_flags 0 1)%nat &&
   Qle_bool 25 (composite_reflectivity two_row_volume 0 1)).
Proof.
  apply (criterion5_spreads_to_neighbours two_row_volume corner_flags 25 0 1);
    simpl; lia.
Defined.

(** A 2-by-2 volume of missing data on three height levels. *)
Definition silent_volume : list (list (list (option Q))) :=
  [[[None; None; None]; [None; None; None]];
   [[None; None; None]; [None; None; None]]].

Lemma no_echo_no_convection_witness :
  exists c,
    find_convective_pixels (fun _ => 7%nat) (fun _ => 1) (fun _ _ _ _ _ => [])
      silent_volume grid_equator 0 None = Some c /\
    (forall i j, get2 false (convective_flag_matrix c) i j = false) /\
    printed_counts c = [0; 0; 0; 0]%nat.
Proof.
  eexists. split; [vm_compute; reflexivity|].
  apply (no_echo_no_convection (fun _ => 7%nat) (fun _ => 1)
           (fun _ _ _ _ _ => []) silent_volume grid_equator 0 None).
  - repeat constructor.
  - vm_compute. reflexivity.
  - left. reflexivity.
Defined.

Lemma find_convective_pixels_shape_witness :
  exists c,
    find_convective_pixels (fun _ => 7%nat) (fun _ => 1) (fun _ _ _ _ _ => [])
      silent_volume grid_equator 0 None = Some c /\
    length (convective_flag_matrix c) = length silent_volume /\
    forall i, length (nth i (convective_flag_matrix c) []) =
              length (nth i silent_volume []).
Proof.
  eexists. split; [vm_compute; reflexivity|].
  apply (find_convective_pixels_shape (fun _ => 7%nat) (fun _ => 1)
           (fun _ _ _ _ _ => []) silent_volume grid_equator 0 None).
  - vm_compute. reflexivity.
  - reflexivity.
Defined.

(** A column of 0 dBZ below 30 dBZ aloft: no positive reflectivity at the
    two qualifying heights. *)
Lemma criterion1_nonnegative_volume_witness :
  get2 false (_apply_convective_criterion1 (fun _ => 1) (fun _ _ _ _ _ => [])
                [[[0; 0; 30]]] 1000 9000 false (Some 25) grid_equator) 0 0 = false.
Proof.
  apply (criterion1_nonnegative_volume (fun _ => 1) (fun _ _ _ _ _ => [])
           [[[0; 0; 30]]] 1000 9000 (Some 25) grid_equator 0 0).
  - repeat constructor; unfold nonnegative; discriminate.
  - vm_compute. reflexivity.
Defined.

(** ** Checking the options twice *)

Lemma np_round_integer (z : Z) : np_round (inject_Z z) = z.
Proof.
  unfold np_round. rewrite Qfloor_Z.
  assert (H : Qlt_bool (inject_Z z - inject_Z z) (1 # 2) = true).
  { unfold Qlt_bool. apply negb_true_iff. apply not_true_iff_false.
    intros Hle. apply Qle_bool_iff in Hle. lra. }
  now rewrite H.
Qed.

(** X9.  The options that [_check_input_args] returns pass the check
    again and come back unchanged: the minimum echo top is already a
    whole number of metres, and every threshold is positive. *)
Theorem check_input_args_idempotent (o : option option_dict) (checked : option_dict) :
  _check_input_args o = Some checked ->
  _check_input_args (Some checked) = Some checked /\
  inject_Z (np_round (min_echo_top_m_asl checked)) = min_echo_top_m_asl checked.
Proof.
  unfold _check_input_args. cbv zeta.
  destruct (_ && _ && _ && _ && _ && _ && _)%bool eqn:Hchecks; [|discriminate].
  intros H. injection H as <-.
  cbn [peakedness_neigh_metres max_peakedness_height_m_asl min_echo_top_m_asl
       echo_top_level_dbz min_composite_refl_criterion5_dbz
       min_composite_refl_aml_dbz min_composite_refl_criterion1_dbz
       halve_resolution_for_peakedness] in *.
  rewrite np_round_integer, Hchecks. split; reflexivity.
Qed.

Lemma check_input_args_idempotent_witness :
  _check_input_args (Some DEFAULT_OPTION_DICT) = Some DEFAULT_OPTION_DICT /\
  inject_Z (np_round (min_echo_top_m_asl DEFAULT_OPTION_DICT)) =
  min_echo_top_m_asl DEFAULT_OPTION_DICT.
Proof.
  apply (check_input_args_idempotent None DEFAULT_OPTION_DICT).
  vm_compute. reflexivity.
Defined.

(** ** What the maxima of criteria 2 and 3 test *)

Lemma Qle_bool_Qmax (c x y : Q) :
  Qle_bool c (Qmax x y) = Qle_bool c x || Qle_bool c y.
Proof.
  apply eq_true_iff_eq.
  rewrite orb_true_iff, !Qle_bool_iff. apply Q.max_le_iff.
Qed.

Lemma Qle_bool_fold_Qmax (c : Q) (r : list Q) (x : Q) :
  Qle_bool c (fold_left Qmax r x) = Qle_bool c x || existsb (Qle_bool c) r.
Proof.
  revert x. induction r as [|y r IH]; intros x; cbn [fold_left existsb].
  - now rewrite orb_false_r.
  - now rewrite IH, Qle_bool_Qmax, orb_assoc.
Qed.

(** A maximum reaches a positive level when one of the entries does. *)
Lemma Qle_bool_Qmax_list (c : Q) (l : list Q) :
  0 < c -> Qle_bool c (Qmax_list l) = existsb (Qle_bool c) l.
Proof.
  intros Hc. destruct l as [|x r]; cbn [Qmax_list existsb].
  - apply not_true_is_false. intros H. apply Qle_bool_iff in H. lra.
  - apply Qle_bool_fold_Qmax.
Qed.

Lemma existsb_nth {A : Type} (p : A -> bool) (l : list A) (d : A) :
  existsb p l = true <-> exists k, (k < length l)%nat /\ p (nth k l d) = true.
Proof.
  rewrite existsb_exists. split.
  - intros (a & Hin & Hp). apply (In_nth _ _ d) in Hin.
    destruct Hin as (k & Hk & <-). eauto.
  - intros (k & Hk & Hp). exists (nth k l d). split; [now apply nth_In | exact Hp].
Qed.

(** A masked value reaches a positive level when the mask is set and the
    value reaches the level. *)
Lemma masked_reaches (c v : Q) (mask : bool) :
  0 < c -> Qle_bool c (b2q mask * v) = mask && Qle_bool c v.
Proof.
  intros Hc. apply eq_true_iff_eq.
  rewrite andb_true_iff, !Qle_bool_iff.
  destruct mask; cbn [b2q]; split.
  - intros H. split; [reflexivity | lra].
  - intros [_ H]. lra.
  - intros H. lra.
  - intros [H _]. discriminate.
Qed.

Lemma reaches_masked (c v : Q) (mask : bool) :
  0 < c -> Qle_bool c (b2q mask * v) = true <-> mask = true /\ c <= v.
Proof.
  intros Hc. rewrite (masked_reaches c v mask Hc), andb_true_iff, Qle_bool_iff.
  reflexivity.
Qed.

(** The maximum over the heights of a masked column. *)
Lemma masked_column_reaches (f : nat -> nat -> nat -> Q -> Q)
  (x : list (list (list Q))) (c : Q) (i j : nat) :
  0 < c ->
  (i < length x)%nat -> (j < length (nth i x []))%nat ->
  get2 false (geq_matrix (max_last_axis (map_ijk f x)) c) i j = true <->
  exists k, (k < length (nth j (nth i x []) []))%nat /\
            c <= f i j k (get3 0 x i j k).
Proof.
  intros Hc Hi Hj.
  assert (Hcolumn : nth j (nth i (map_ijk f x) []) [] =
                    imap (fun k a => f i j k a) (nth j (nth i x []) [])).
  { unfold map_ijk. rewrite (nth_imap _ x [] [] i Hi).
    now rewrite (nth_imap _ _ [] [] j Hj). }
  assert (Hrows : length (map_ijk f x) = length x)
    by (unfold map_ijk; apply length_imap).
  assert (Hcols : length (nth i (map_ijk f x) []) = length (nth i x [])).
  { unfold map_ijk. rewrite (nth_imap _ x [] [] i Hi). apply length_imap. }
  rewrite (get2_composite_geq _ _ i j) by lia.
  unfold composite_reflectivity. rewrite Hcolumn.
  rewrite (Qle_bool_Qmax_list _ _ Hc), (existsb_nth _ _ 0), length_imap.
  split; intros (k & Hk & H); exists k; (split; [exact Hk|]).
  - rewrite (nth_imap _ _ 0 0 k Hk) in H. now apply Qle_bool_iff in H.
  - rewrite (nth_imap _ _ 0 0 k Hk). now apply Qle_bool_iff.
Qed.

Lemma get2_logical_or (a b : list (list bool)) (i j : nat) :
  (i < length a)%nat -> (j < length (nth i a []))%nat ->
  get2 false (logical_or a b) i j = get2 false a i j || get2 false b i j.
Proof.
  intros Hi Hj. unfold logical_or. now rewrite (get2_map_ij _ a false false i j Hi Hj).
Qed.

(** X27. For a positive minimum echo top, criterion 3 marks a pixel exactly
    when it was marked before, or when at some height that is at least the
    minimum echo top the reflectivity reaches [echo_top_level_dbz]: this
    is what the maximum of flag times height tests (NumPy raises on a
    column without heights). *)
Theorem criterion3_tests_echo_tops
  (reflectivity_matrix_dbz : list (list (list Q))) (flags : list (list bool))
  (g : grid_metadata) (min_echo_top_m_asl echo_top_level_dbz : Q) (i j : nat) :
  0 < min_echo_top_m_asl ->
  (i < length flags)%nat -> (j < length (nth i flags []))%nat ->
  (i < length reflectivity_matrix_dbz)%nat ->
  (j < length (nth i reflectivity_matrix_dbz []))%nat ->
  (0 < length (nth j (nth i reflectivity_matrix_dbz []) []))%nat ->
  get2 false (_apply_convective_criterion3 reflectivity_matrix_dbz flags g
                min_echo_top_m_asl echo_top_level_dbz) i j = true <->
  get2 false flags i j = true \/
  exists k, (k < length (nth j (nth i reflectivity_matrix_dbz []) []))%nat /\
            echo_top_level_dbz <= get3 0 reflectivity_matrix_dbz i j k /\
            min_echo_top_m_asl <= nth k (grid_point_heights_m_asl g) 0.
Proof.
  intros Htop Hi Hj Hri Hrj _.
  unfold _apply_convective_criterion3. cbv zeta.
  rewrite (get2_logical_or _ _ i j Hi Hj), orb_true_iff.
  rewrite (masked_column_reaches _ _ _ i j Htop Hri Hrj).
  split; (intros [Hflag|(k & Hk & H)]; [now left | right; exists k]).
  - split; [exact Hk|].
    apply Qle_bool_iff in H. apply (reaches_masked _ _ _ Htop) in H.
    destruct H as [Hlevel Hheight]. split; [now apply Qle_bool_iff | exact Hheight].
  - destruct H as [Hlevel Hheight]. split; [exact Hk|].
    apply Qle_bool_iff, (reaches_masked _ _ _ Htop).
    split; [now apply Qle_bool_iff | exact Hheight].
Qed.

Section AboveMeltingLevel.

Variable unix_sec_to_month : Z -> nat.

(** X28. For a positive threshold, criterion 2 marks a pixel exactly when it
    was marked before, or when at some height that is at least 1000 m
    above the melting level of its latitude the reflectivity reaches the
    threshold. *)
Theorem criterion2_tests_above_melting_level
  (reflectivity_matrix_dbz : list (list (list Q))) (flags : list (list bool))
  (g : grid_metadata) (valid_time_unix_sec : Z)
  (min_composite_refl_aml_dbz : Q) (i j : nat) :
  0 < min_composite_refl_aml_dbz ->
  (i < length flags)%nat -> (j < length (nth i flags []))%nat ->
  (i < length reflectivity_matrix_dbz)%nat ->
  (j < length (nth i reflectivity_matrix_dbz []))%nat ->
  (0 < length (nth j (nth i reflectivity_matrix_dbz []) []))%nat ->
  get2 false (_apply_convective_criterion2 unix_sec_to_month
                reflectivity_matrix_dbz flags g valid_time_unix_sec
                min_composite_refl_aml_dbz) i j = true <->
  get2 false flags i j = true \/
  exists k, (k < length (nth j (nth i reflectivity_matrix_dbz []) []))%nat /\
            _estimate_melting_levels unix_sec_to_month
              (nth i (grid_point_latitudes_deg g) 0) valid_time_unix_sec + 1000 <=
            nth k (grid_point_heights_m_asl g) 0 /\
            min_composite_refl_aml_dbz <= get3 0 reflectivity_matrix_dbz i j k.
Proof.
  intros Hmin Hi Hj Hri Hrj _.
  unfold _apply_convective_criterion2. cbv zeta.
  rewrite (get2_logical_or _ _ i j Hi Hj), orb_true_iff.
  rewrite (masked_column_reaches _ _ _ i j Hmin Hri Hrj).
  split; (intros [Hflag|(k & Hk & H)]; [now left | right; exists k]).
  - split; [exact Hk|].
    apply Qle_bool_iff in H. apply (reaches_masked _ _ _ Hmin) in H.
    destruct H as [Hheight Hrefl]. split; [now apply Qle_bool_iff | exact Hrefl].
  - destruct H as [Hheight Hrefl]. split; [exact Hk|].
    apply Qle_bool_iff, (reaches_masked _ _ _ Hmin).
    split; [now apply Qle_bool_iff | exact Hrefl].
Qed.

End AboveMeltingLevel.

(** One column with a strong echo at 12 km, over the grid of the example
    at 60 deg N. *)
Definition tall_echo : list (list (list Q)) := [[[10; 20; 50]]].

Definition not_yet_convective : list (list bool) := [[false]].

Lemma criterion3_tests_echo_tops_witness :
  get2 false (_apply_convective_criterion3 tall_echo not_yet_convective grid_60N
                10000 25) 0 0 = true <->
  get2 false not_yet_convective 0 0 = true \/
  exists k, (k < length (nth 0%nat (nth 0%nat tall_echo []) []))%nat /\
            25 <= get3 0 tall_echo 0 0 k /\
            10000 <= nth k (grid_point_heights_m_asl grid_60N) 0.
Proof.
  apply (criterion3_tests_echo_tops tall_echo not_yet_convective grid_60N 10000 25
           0%nat 0%nat).
  - reflexivity.
  - cbn. lia.
  - cbn. lia.
  - cbn. lia.
  - cbn. lia.
  - cbn. lia.
Defined.

Lemma criterion2_tests_above_melting_level_witness :
  get2 false (_apply_convective_criterion2 (fun _ => 7%nat) tall_echo
                not_yet_convective grid_60N 0 45) 0 0 = true <->
  get2 false not_yet_convective 0 0 = true \/
  exists k, (k < length (nth 0%nat (nth 0%nat tall_echo []) []))%nat /\
            _estimate_melting_levels (fun _ => 7%nat)
              (nth 0%nat (grid_point_latitudes_deg grid_60N) 0) 0 + 1000 <=
            nth k (grid_point_heights_m_asl grid_60N) 0 /\
            45 <= get3 0 tall_echo 0 0 k.
Proof.
  apply (criterion2_tests_above_melting_level (fun _ => 7%nat) tall_echo
           not_yet_convective grid_60N 0%Z 45 0%nat 0%nat).
  - reflexivity.
  - cbn. lia.
  - cbn. lia.
  - cbn. lia.
  - cbn. lia.
  - cbn. lia.
Defined.

(** The echo of 50 dBZ at 12 km makes the pixel convective by either
    criterion. *)
Lemma tall_echo_is_convective :
  _apply_convective_criterion3 tall_echo not_yet_convective grid_60N 10000 25 =
  [[true]] /\
  _apply_convective_criterion2 (fun _ => 7%nat) tall_echo not_yet_convective
    grid_60N 0 45 = [[true]].
Proof. split; vm_compute; reflexivity. Qed.

End EchoClassification.

(** * standalone_utils.py *)

Module StandaloneUtils.

(** The value that one pooling window contributes: its maximum, or its
    mean. *)
Definition pool_reduce (do_max_pooling : bool) (values : list Q) : Q :=
  if do_max_pooling then Qmax_list values
  else Qsum values / inject_Z (Z.of_nat (length values)).

(** [K.pool2d(x, pool_mode, pool_size=(w, w), strides=(w, w),
    padding='valid', data_format='channels_last')] on an array of shape
    examples x rows x columns x channels. *)
Definition pool2d (x : list (list (list (list Q)))) (do_max_pooling : bool)
  (w : nat) : list (list (list (list Q))) :=
  map (fun example =>
         let num_rows := length example in
         let num_columns := num_columns example in
         let num_channels := num_heights example in
         tabulate (num_rows / w) (fun i =>
           tabulate (num_columns / w) (fun j =>
             tabulate num_channels (fun c =>
               pool_reduce do_max_pooling
                 (concat (tabulate w (fun di => tabulate w (fun dj =>
                    get3 0 example (i * w + di) (j * w + dj) c))))))))
      x.

(** [do_2d_pooling]; [None] stands for the error of a failed assertion.
    The entries are rationals, so the array holds no NaN. *)
Definition do_2d_pooling (feature_matrix : list (list (list (list Q))))
  (do_max_pooling : bool) (window_size_px : Z)
  : option (list (list (list (list Q)))) :=
  if (2 <=? window_size_px)%Z
  then Some (pool2d feature_matrix do_max_pooling (Z.to_nat window_size_px))
  else None.

(** [numpy.expand_dims(x, axis=-2)] of an array of shape examples x pixels
    x channels. *)
Definition expand_dims_before_last (x : list (list (list Q)))
  : list (list (list (list Q))) :=
  map (map (fun pixel => [pixel])) x.

(** [numpy.repeat(x, repeats=n, axis=-2)] *)
Definition repeat_before_last (n : nat) (x : list (list (list (list Q))))
  : list (list (list (list Q))) :=
  map (map (fun row => concat (map (fun v => repeat v n) row))) x.

Definition do_1d_pooling (feature_matrix : list (list (list Q)))
  (do_max_pooling : bool) (window_size_px : Z)
  : option (list (list (list Q))) :=
  if (2 <=? window_size_px)%Z then
    let feature_matrix := expand_dims_before_last feature_matrix in
    let feature_matrix :=
      repeat_before_last (Z.to_nat window_size_px) feature_matrix in
    match do_2d_pooling feature_matrix do_max_pooling window_size_px with
    | Some pooled => Some (map (map (fun row => nth 0%nat row [])) pooled)
    | None => None
    end
  else None.

(** Non-overlapping pooling with window [w] along the pixel axis, written
    directly. *)
Definition pool1d_direct (x : list (list (list Q))) (do_max_pooling : bool)
  (w : nat) : list (list (list Q)) :=
  map (fun example =>
         let num_pixels := length example in
         let num_channels := num_columns example in
         tabulate (num_pixels / w) (fun p =>
           tabulate num_channels (fun c =>
             pool_reduce do_max_pooling
               (tabulate w (fun d => get2 0 example (p * w + d) c)))))
      x.

(** Entrywise equality of rationals on arrays. *)
Definition Qeq1 : list Q -> list Q -> Prop := Forall2 Qeq.
Definition Qeq2 : list (list Q) -> list (list Q) -> Prop := Forall2 Qeq1.
Definition Qeq3 : list (list (list Q)) -> list (list (list Q)) -> Prop :=
  Forall2 Qeq2.

(** ** One-dimensional pooling through the two-dimensional primitive *)

Lemma tabulate_const {A : Type} (n : nat) (v : A) :
  tabulate n (fun _ => v) = repeat v n.
Proof.
  unfold tabulate. generalize 0%nat. induction n as [|n IH]; intros s; simpl.
  - reflexivity.
  - f_equal. apply IH.
Qed.

Lemma map_tabulate {A B : Type} (g : A -> B) (n : nat) (f : nat -> A) :
  map g (tabulate n f) = tabulate n (fun i => g (f i)).
Proof. unfold tabulate. apply map_map. Qed.

Lemma Qmax_absorb (m a : Q) : Qmax (Qmax m a) a = Qmax m a.
Proof.
  unfold Qmax, GenericMinMax.gmax.
  destruct (m ?= a) eqn:H1.
  - now rewrite H1.
  - assert (H2 : (a ?= a) = Eq) by (apply Qeq_alt; reflexivity).
    now rewrite H2.
  - now rewrite H1.
Qed.

Lemma fold_Qmax_repeat (a m : Q) (n : nat) :
  fold_left Qmax (repeat a (S n)) m = Qmax m a.
Proof.
  revert m. induction n as [|n IH]; intros m; [reflexivity|].
  change (repeat a (S (S n))) with (a :: repeat a (S n)).
  cbn [fold_left]. rewrite IH. apply Qmax_absorb.
Qed.

Lemma fold_Qmax_repeated (l : list Q) (m : Q) (n : nat) :
  fold_left Qmax (concat (map (fun a => repeat a (S n)) l)) m = fold_left Qmax l m.
Proof.
  revert m. induction l as [|a l IH]; intros m; [reflexivity|].
  cbn [map concat]. rewrite fold_left_app, fold_Qmax_repeat. apply IH.
Qed.

Lemma fold_Qmax_repeat_self (a : Q) (n : nat) :
  fold_left Qmax (repeat a n) a = a.
Proof.
  destruct n as [|n]; [reflexivity|].
  rewrite fold_Qmax_repeat.
  unfold Qmax, GenericMinMax.gmax.
  assert (H : (a ?= a) = Eq) by (apply Qeq_alt; reflexivity).
  now rewrite H.
Qed.

Lemma Qmax_list_repeated (l : list Q) (n : nat) :
  Qmax_list (concat (map (fun a => repeat a (S n)) l)) = Qmax_list l.
Proof.
  destruct l as [|a l]; [reflexivity|].
  cbn [map concat].
  change (repeat a (S n)) with (a :: repeat a n).
  cbn [app Qmax_list].
  rewrite fold_left_app, fold_Qmax_repeat_self.
  apply fold_Qmax_repeated.
Qed.

Lemma Qsum_app (l1 l2 : list Q) : Qsum (l1 ++ l2) == Qsum l1 + Qsum l2.
Proof.
  induction l1 as [|a l1 IH]; simpl; [lra|]. rewrite IH. lra.
Qed.

Lemma Qsum_repeat (a : Q) (n : nat) :
  Qsum (repeat a n) == inject_Z (Z.of_nat n) * a.
Proof.
  induction n as [|n IH].
  - change (0 == 0 * a). ring.
  - cbn [repeat Qsum]. rewrite IH, Nat2Z.inj_succ. unfold Z.succ.
    rewrite inject_Z_plus. change (inject_Z 1) with 1. ring.
Qed.

Lemma Qsum_repeated (l : list Q) (n : nat) :
  Qsum (concat (map (fun a => repeat a n) l)) == inject_Z (Z.of_nat n) * Qsum l.
Proof.
  induction l as [|a l IH]; cbn [map concat Qsum]; [lra|].
  rewrite Qsum_app, Qsum_repeat, IH. lra.
Qed.

Lemma length_repeated {A : Type} (l : list A) (n : nat) :
  length (concat (map (fun a => repeat a n) l)) = (n * length l)%nat.
Proof.
  induction l as [|a l IH]; cbn [map concat length]; [lia|].
  rewrite length_app, repeat_length, IH. lia.
Qed.

(** Pooling a window in which every value occurs [n] times in a row gives
    the same maximum, and the same mean. *)
Lemma pool_reduce_repeated (do_max_pooling : bool) (l : list Q) (n : nat) :
  (0 < length l)%nat ->
  pool_reduce do_max_pooling (concat (map (fun a => repeat a (S n)) l)) ==
  pool_reduce do_max_pooling l /\
  (do_max_pooling = true ->
   pool_reduce do_max_pooling (concat (map (fun a => repeat a (S n)) l)) =
   pool_reduce do_max_pooling l).
Proof.
  intros Hl. unfold pool_reduce. destruct do_max_pooling.
  - rewrite Qmax_list_repeated. split; reflexivity.
  - split; [|discriminate].
    rewrite Qsum_repeated, length_repeated, Nat2Z.inj_mul, inject_Z_mult.
    assert (H1 : ~ inject_Z (Z.of_nat (S n)) == 0).
    { assert (H : 0 < inject_Z (Z.of_nat (S n))).
      { change 0 with (inject_Z 0). rewrite <- Zlt_Qlt. lia. }
      lra. }
    assert (H2 : ~ inject_Z (Z.of_nat (length l)) == 0).
    { assert (H : 0 < inject_Z (Z.of_nat (length l))).
      { change 0 with (inject_Z 0). rewrite <- Zlt_Qlt. lia. }
      lra. }
    field. split; assumption.
Qed.

Lemma window_start_in_range (p w len d : nat) :
  (p < len / w)%nat -> (d < w)%nat -> (p * w + d < len)%nat.
Proof.
  intros Hp Hd.
  assert (Hw : w <> 0%nat) by lia.
  pose proof (Nat.Div0.mul_div_le len w). nia.
Qed.

(** The synthetic axis: every pixel becomes a row of [w] copies. *)
Lemma nth_repeated_example (example : list (list Q)) (w p : nat) :
  (p < length example)%nat ->
  nth p (map (fun row => concat (map (fun v => repeat v w) row))
             (map (fun pixel => [pixel]) example)) [] =
  repeat (nth p example []) w.
Proof.
  intros Hp. rewrite map_map.
  rewrite (nth_indep _ [] ((fun x => concat (map (fun v => repeat v w) [x])) []))
    by (now rewrite length_map).
  rewrite (map_nth (fun x => concat (map (fun v => repeat v w) [x])) example [] p).
  cbn [map concat]. apply app_nil_r.
Qed.

(** What [do_1d_pooling] computes for one example, window by window. *)
Lemma pooled_example (example : list (list Q)) (do_max_pooling : bool) (n : nat) :
  let w := S n in
  let example2 :=
    map (fun row => concat (map (fun v => repeat v w) row))
        (map (fun pixel => [pixel]) example) in
  map (fun row => nth 0%nat row [])
    (tabulate (length example2 / w) (fun i =>
       tabulate (num_columns example2 / w) (fun j =>
         tabulate (num_heights example2) (fun c =>
           pool_reduce do_max_pooling
             (concat (tabulate w (fun di => tabulate w (fun dj =>
                get3 0 example2 (i * w + di) (j * w + dj) c)))))))) =
  tabulate (length example / w) (fun p =>
    tabulate (num_columns example) (fun c =>
      pool_reduce do_max_pooling
        (concat (map (fun a => repeat a w)
                     (tabulate w (fun d => get2 0 example (p * w + d) c)))))).
Proof.
  intros w example2.
  assert (Hlen : length example2 = length example)
    by (unfold example2; now rewrite !length_map).
  rewrite Hlen, map_tabulate.
  destruct (Nat.eq_dec (length example) 0%nat) as [Hnil|Hnonnil].
  { apply List.length_zero_iff_nil in Hnil. subst example. reflexivity. }
  assert (Hpos : (0 < length example)%nat) by lia.
  assert (H0 : nth 0%nat example2 [] = repeat (nth 0%nat example []) w)
    by (now apply nth_repeated_example).
  assert (Hcols : num_columns example2 = w)
    by (unfold num_columns; now rewrite H0, repeat_length).
  assert (Hchan : num_heights example2 = num_columns example).
  { unfold num_heights, num_columns. rewrite H0. reflexivity. }
  rewrite Hcols, Hchan, Nat.div_same by (unfold w; lia).
  apply tabulate_ext. intros p Hp.
  rewrite nth_tabulate by lia.
  apply tabulate_ext. intros c Hc.
  f_equal. rewrite map_tabulate. f_equal.
  apply tabulate_ext. intros di Hdi.
  rewrite <- tabulate_const.
  apply tabulate_ext. intros dj Hdj.
  unfold get3, get2, example2.
  rewrite nth_repeated_example
    by (apply window_start_in_range; assumption).
  rewrite Nat.mul_0_l, Nat.add_0_l.
  rewrite (nth_indep _ [] (nth (p * w + di) example [])) by (now rewrite repeat_length).
  now rewrite nth_repeat.
Qed.

Lemma Forall2_map_pointwise {A B : Type} (R : B -> B -> Prop) (f g : A -> B) (l : list A) :
  (forall a, R (f a) (g a)) -> Forall2 R (map f l) (map g l).
Proof.
  intros H. induction l as [|a l IH]; simpl; constructor; auto.
Qed.

Lemma Forall2_tabulate {A : Type} (R : A -> A -> Prop) (n : nat) (f g : nat -> A) :
  (forall i, (i < n)%nat -> R (f i) (g i)) ->
  Forall2 R (tabulate n f) (tabulate n g).
Proof.
  intros H. unfold tabulate.
  assert (Hs : forall i, In i (seq 0 n) -> (i < n)%nat)
    by (intros i Hi; apply in_seq in Hi; lia).
  induction (seq 0 n) as [|i l IH]; simpl; constructor.
  - apply H, Hs. now left.
  - apply IH. intros j Hj. apply Hs. now right.
Qed.

(** C9.  For every array of rationals (hence free of NaN) and every window
    size of at least 2, [do_1d_pooling] succeeds and returns the direct
    non-overlapping pooling along the pixel axis: the very same array for
    max-pooling, and an array with equal entries for average-pooling. *)
Theorem do_1d_pooling_is_direct (feature_matrix : list (list (list Q)))
  (do_max_pooling : bool) (window_size_px : Z) :
  (2 <= window_size_px)%Z ->
  exists pooled,
    do_1d_pooling feature_matrix do_max_pooling window_size_px = Some pooled /\
    Qeq3 pooled (pool1d_direct feature_matrix do_max_pooling
                   (Z.to_nat window_size_px)) /\
    (do_max_pooling = true ->
     pooled = pool1d_direct feature_matrix true (Z.to_nat window_size_px)).
Proof.
  intros Hw.
  unfold do_1d_pooling, do_2d_pooling.
  assert (Hleb : (2 <=? window_size_px)%Z = true) by (apply Z.leb_le; exact Hw).
  rewrite Hleb. eexists. split; [reflexivity|].
  destruct (Z.to_nat window_size_px) as [|n] eqn:Hn; [lia|].
  unfold pool2d, expand_dims_before_last, repeat_before_last, pool1d_direct.
  rewrite !map_map.
  split.
  - apply Forall2_map_pointwise. intros example.
    rewrite (pooled_example example do_max_pooling n).
    apply Forall2_tabulate. intros p Hp.
    apply Forall2_tabulate. intros c Hc.
    apply pool_reduce_repeated. rewrite length_tabulate. lia.
  - intros ->. apply map_ext. intros example.
    rewrite (pooled_example example true n).
    apply tabulate_ext. intros p Hp.
    apply tabulate_ext. intros c Hc.
    apply pool_reduce_repeated; [rewrite length_tabulate; lia | reflexivity].
Qed.

Lemma do_1d_pooling_is_direct_witness :
  exists pooled,
    do_1d_pooling [[[1; 10]; [3; 30]; [5; 50]; [6; 60]; [7; 70]]] false 2 =
      Some pooled /\
    Qeq3 pooled
      (pool1d_direct [[[1; 10]; [3; 30]; [5; 50]; [6; 60]; [7; 70]]] false
         (Z.to_nat 2)) /\
    (false = true ->
     pooled =
     pool1d_direct [[[1; 10]; [3; 30]; [5; 50]; [6; 60]; [7; 70]]] true
       (Z.to_nat 2)).
Proof.
  apply (do_1d_pooling_is_direct
           [[[1; 10]; [3; 30]; [5; 50]; [6; 60]; [7; 70]]] false 2).
  lia.
Defined.


(** ** The shape and the range of pooled arrays *)

Lemma fold_Qmax_upper (r : list Q) (x : Q) :
  x <= fold_left Qmax r x /\ Forall (fun v => v <= fold_left Qmax r x) r.
Proof.
  revert x. induction r as [|y r IH]; intros x; cbn [fold_left].
  - split; [lra | constructor].
  - destruct (IH (Qmax x y)) as [Hx Hr].
    pose proof (Q.le_max_l x y). pose proof (Q.le_max_r x y).
    split; [lra|]. constructor; [lra | exact Hr].
Qed.

Lemma fold_Qmax_bounded (r : list Q) (x hi : Q) :
  x <= hi -> Forall (fun v => v <= hi) r -> fold_left Qmax r x <= hi.
Proof.
  intros Hx Hr. revert x Hx. induction Hr as [|y r Hy Hr IH]; intros x Hx.
  - exact Hx.
  - cbn [fold_left]. apply IH. apply Q.max_lub; assumption.
Qed.

Lemma Qsum_bounds (l : list Q) (lo hi : Q) :
  Forall (fun v => lo <= v /\ v <= hi) l ->
  inject_Z (Z.of_nat (length l)) * lo <= Qsum l /\
  Qsum l <= inject_Z (Z.of_nat (length l)) * hi.
Proof.
  intros H. induction H as [|v l [Hlo Hhi] H [IHlo IHhi]].
  - change (inject_Z (Z.of_nat (length (@nil Q)))) with 0. cbn [Qsum]. split; lra.
  - cbn [length Qsum]. rewrite Nat2Z.inj_succ, <- Z.add_1_r, inject_Z_plus.
    change (inject_Z 1) with 1. split; lra.
Qed.

Lemma positive_length {A : Type} (l : list A) :
  l <> [] -> 0 < inject_Z (Z.of_nat (length l)).
Proof.
  intros H. destruct l as [|a l]; [congruence|].
  change 0 with (inject_Z 0). rewrite <- Zlt_Qlt. cbn [length]. lia.
Qed.

(** A pooled value lies between the bounds of the window, whichever the
    reduction. *)
Lemma pool_reduce_bounds (do_max_pooling : bool) (l : list Q) (lo hi : Q) :
  l <> [] -> Forall (fun v => lo <= v /\ v <= hi) l ->
  lo <= pool_reduce do_max_pooling l /\ pool_reduce do_max_pooling l <= hi.
Proof.
  intros Hne H. unfold pool_reduce. destruct do_max_pooling.
  - destruct l as [|x r]; [congruence|]. cbn [Qmax_list].
    apply List.Forall_cons_iff in H. destruct H as [[Hlo Hhi] Hr].
    destruct (fold_Qmax_upper r x) as [Hx _]. split; [lra|].
    apply fold_Qmax_bounded; [exact Hhi|].
    eapply List.Forall_impl; [|exact Hr]. intros v [_ Hv]. exact Hv.
  - pose proof (positive_length l Hne) as Hn.
    destruct (Qsum_bounds l lo hi H) as [Hlo Hhi].
    split.
    + apply Qle_shift_div_l; [exact Hn|]. lra.
    + apply Qle_shift_div_r; [exact Hn|]. lra.
Qed.

(** The mean of a window never exceeds its maximum. *)
Lemma mean_le_max (l : list Q) :
  l <> [] -> pool_reduce false l <= pool_reduce true l.
Proof.
  intros Hne.
  apply (pool_reduce_bounds false l (Qmin_list l) (pool_reduce true l) Hne).
  unfold pool_reduce. destruct l as [|x r]; [congruence|]. cbn [Qmax_list Qmin_list].
  destruct (fold_Qmax_upper r x) as [Hx Hr].
  assert (Hmin : fold_left Qmin r x <= x /\
                 Forall (fun v => fold_left Qmin r x <= v) r).
  { clear. revert x. induction r as [|y r IH]; intros x; cbn [fold_left].
    - split; [lra | constructor].
    - destruct (IH (Qmin x y)) as [Hx Hr].
      pose proof (Q.le_min_l x y). pose proof (Q.le_min_r x y).
      split; [lra|]. constructor; [lra | exact Hr]. }
  destruct Hmin as [Hmx Hmr].
  constructor; [split; assumption|].
  rewrite List.Forall_forall in *. intros v Hv. split; auto.
Qed.

Lemma window_nonempty {A : Type} (w : nat) (g : nat -> nat -> A) :
  (0 < w)%nat -> concat (tabulate w (fun di => tabulate w (g di))) <> [].
Proof.
  intros Hw. destruct w as [|w]; [lia|]. unfold tabulate. cbn. discriminate.
Qed.

Lemma Forall_tabulate {A : Type} (P : A -> Prop) (n : nat) (f : nat -> A) :
  (forall i, (i < n)%nat -> P (f i)) -> Forall P (tabulate n f).
Proof.
  intros H. unfold tabulate. apply List.Forall_forall. intros a Ha.
  apply List.in_map_iff in Ha. destruct Ha as (i & <- & Hi).
  apply in_seq in Hi. apply H. lia.
Qed.

Lemma Forall_concat_tabulate {A : Type} (P : A -> Prop) (w : nat)
  (g : nat -> nat -> A) :
  (forall di dj, (di < w)%nat -> (dj < w)%nat -> P (g di dj)) ->
  Forall P (concat (tabulate w (fun di => tabulate w (g di)))).
Proof.
  intros H. apply Forall_concat. apply Forall_tabulate. intros di Hdi.
  apply Forall_tabulate. intros dj Hdj. now apply H.
Qed.



(** X11.  On one array and one window size, no average-pooled value
    exceeds the max-pooled value at the same place. *)
Theorem max_pooling_dominates_average
  (feature_matrix : list (list (list (list Q)))) (window_size_px : Z)
  (max_pooled average_pooled : list (list (list (list Q)))) :
  do_2d_pooling feature_matrix true window_size_px = Some max_pooled ->
  do_2d_pooling feature_matrix false window_size_px = Some average_pooled ->
  Forall2 (Forall2 (Forall2 (Forall2 Qle))) average_pooled max_pooled.
Proof.
  unfold do_2d_pooling.
  destruct (2 <=? window_size_px)%Z eqn:Hw; [|discriminate].
  apply Z.leb_le in Hw. intros Hmax Havg.
  injection Hmax as <-. injection Havg as <-. unfold pool2d.
  apply Forall2_map_pointwise. intros example.
  apply Forall2_tabulate. intros i Hi.
  apply Forall2_tabulate. intros j Hj.
  apply Forall2_tabulate. intros c Hc.
  apply mean_le_max. apply window_nonempty. lia.
Qed.

(** The rows of an example have one length and its pixels one number of
    channels, as in every NumPy array. *)
Definition rectangular (example : list (list (list Q))) : Prop :=
  Forall (fun row => length row = num_columns example /\
                     Forall (fun pixel => length pixel = num_heights example) row)
         example.

Definition within (lo hi : Q) (v : Q) : Prop := lo <= v /\ v <= hi.

Lemma get3_within (example : list (list (list Q))) (lo hi : Q) (i j c : nat) :
  rectangular example ->
  Forall (Forall (Forall (within lo hi))) example ->
  (i < length example)%nat -> (j < num_columns example)%nat ->
  (c < num_heights example)%nat ->
  within lo hi (get3 0 example i j c).
Proof.
  intros Hrect Hrange Hi Hj Hc. unfold get3, rectangular in *.
  rewrite List.Forall_forall in Hrect, Hrange.
  assert (Hin : In (nth i example []) example) by now apply nth_In.
  destruct (Hrect _ Hin) as [Hlen Hpixels].
  specialize (Hrange _ Hin).
  rewrite List.Forall_forall in Hpixels, Hrange.
  assert (Hin2 : In (nth j (nth i example []) []) (nth i example []))
    by (apply nth_In; lia).
  specialize (Hpixels _ Hin2). specialize (Hrange _ Hin2).
  rewrite List.Forall_forall in Hrange. apply Hrange, nth_In. lia.
Qed.

Lemma window_index_in_range (n w i di : nat) :
  (i < n / w)%nat -> (di < w)%nat -> (i * w + di < n)%nat.
Proof.
  intros Hi Hdi. pose proof (Nat.Div0.mul_div_le n w) as H. nia.
Qed.

(** X12.  Pooling keeps the range of the data: if every entry of the
    array lies between two bounds, so does every pooled value, for max-
    and for average-pooling. *)
Theorem pooling_keeps_range (feature_matrix : list (list (list (list Q))))
  (do_max_pooling : bool) (window_size_px : Z) (lo hi : Q)
  (pooled : list (list (list (list Q)))) :
  Forall rectangular feature_matrix ->
  Forall (Forall (Forall (Forall (within lo hi)))) feature_matrix ->
  do_2d_pooling feature_matrix do_max_pooling window_size_px = Some pooled ->
  Forall (Forall (Forall (Forall (within lo hi)))) pooled.
Proof.
  intros Hrect Hrange. unfold do_2d_pooling.
  destruct (2 <=? window_size_px)%Z eqn:Hw; [|discriminate].
  apply Z.leb_le in Hw. intros H. injection H as <-. unfold pool2d.
  set (w := Z.to_nat window_size_px). assert (Hw' : (0 < w)%nat) by lia.
  rewrite List.Forall_forall in Hrect, Hrange.
  apply List.Forall_forall. intros pooled_example Hin.
  apply List.in_map_iff in Hin. destruct Hin as (example & <- & Hin).
  specialize (Hrect _ Hin). specialize (Hrange _ Hin).
  apply Forall_tabulate. intros i Hi.
  apply Forall_tabulate. intros j Hj.
  apply Forall_tabulate. intros c Hc.
  apply pool_reduce_bounds; [now apply window_nonempty|].
  apply Forall_concat_tabulate. intros di dj Hdi Hdj.
  apply get3_within; try assumption.
  - now apply window_index_in_range.
  - now apply window_index_in_range.
Qed.

Definition quarter_grid : list (list (list (list Q))) :=
  [[[[1 # 4]; [3 # 4]]; [[1 # 2]; [1]]]].

Lemma max_pooling_dominates_average_witness :
  exists max_pooled average_pooled,
    do_2d_pooling quarter_grid true 2 = Some max_pooled /\
    do_2d_pooling quarter_grid false 2 = Some average_pooled /\
    Forall2 (Forall2 (Forall2 (Forall2 Qle))) average_pooled max_pooled.
Proof.
  do 2 eexists. split; [reflexivity|]. split; [reflexivity|].
  apply (max_pooling_dominates_average quarter_grid 2); reflexivity.
Defined.

Lemma pooling_keeps_range_witness :
  exists pooled,
    do_2d_pooling quarter_grid false 2 = Some pooled /\
    Forall (Forall (Forall (Forall (within 0 1)))) pooled.
Proof.
  eexists. split; [reflexivity|].
  apply (pooling_keeps_range quarter_grid false 2 0 1).
  - repeat constructor.
  - repeat constructor; discriminate.
  - reflexivity.
Defined.

End StandaloneUtils.

(** * example_io: spatial downsampling and its unit test *)

Module ExampleIo.

Import StandaloneUtils.

Record satellite_dict : Type := {
  brightness_temp_matrix_kelvins : option (list (list (list (list Q))));
  brightness_count_matrix : option (list (list (list (list Q))));
  sat_latitudes_deg_n : list Q;
  sat_longitudes_deg_e : list Q;
  sat_valid_times_unix_sec : list Z;
  band_numbers : list Z
}.

Record radar_dict : Type := {
  composite_refl_matrix_dbz : list (list (list Q));
  radar_valid_times_unix_sec : list Z;
  radar_latitudes_deg_n : list Q;
  radar_longitudes_deg_e : list Q
}.

(** ** The constants of example_io_test.py *)

(** [numpy.stack((a, b), axis=-1)] of two matrices. *)
Definition stack_last (a b : list (list Q)) : list (list (list Q)) :=
  map_ij (fun i j v => [v; get2 0 b i j]) a.

Definition add2 (c : Q) (x : list (list Q)) : list (list Q) :=
  map (map (fun v => v + c)) x.

Definition add3 (c : Q) (x : list (list (list Q))) : list (list (list Q)) :=
  map (add2 c) x.

Definition TEMP_MATRIX_BAND8_EXAMPLE1_KELVINS : list (list Q) :=
  [[200; 210; 220; 230];
   [210; 220; 230; 240];
   [220; 230; 240; 250];
   [230; 240; 250; 260];
   [250; 260; 270; 280];
   [290; 300; 310; 320]].

Definition temperature_stack (band8 : list (list Q)) : list (list (list (list Q))) :=
  let band9 := add2 (-(10)) band8 in
  let example1 := stack_last band8 band9 in
  [example1; add3 (25 # 10) example1; add3 5 example1; add3 (75 # 10) example1].

Definition TEMPERATURE_MATRIX_KELVINS : list (list (list (list Q))) :=
  temperature_stack TEMP_MATRIX_BAND8_EXAMPLE1_KELVINS.

Definition LATITUDES_DEG_N : list Q :=
  [53; 532 # 10; 534 # 10; 536 # 10; 538 # 10; 54].
Definition LONGITUDES_DEG_E : list Q := [246; 2465 # 10; 247; 2475 # 10].
Definition VALID_TIMES_UNIX_SEC : list Z := [0; 1; 2; 3]%Z.
Definition BAND_NUMBERS : list Z := [8; 9]%Z.

Definition SATELLITE_DICT : satellite_dict := {|
  brightness_temp_matrix_kelvins := Some TEMPERATURE_MATRIX_KELVINS;
  brightness_count_matrix := None;
  sat_latitudes_deg_n := LATITUDES_DEG_N;
  sat_longitudes_deg_e := LONGITUDES_DEG_E;
  sat_valid_times_unix_sec := VALID_TIMES_UNIX_SEC;
  band_numbers := BAND_NUMBERS
|}.

Definition REFL_MATRIX_EXAMPLE1_DBZ : list (list Q) :=
  [[10; 20; 30; 40];
   [20; 30; 40; 50];
   [30; 40; 50; 60];
   [40; 50; 60; 70];
   [50; 60; 70; 80];
   [60; 40; 20; 0]].

Definition reflectivity_stack (example1 : list (list Q)) : list (list (list Q)) :=
  [example1; add2 1 example1; add2 2 example1; add2 3 example1].

Definition COMPOSITE_REFL_MATRIX_DBZ : list (list (list Q)) :=
  reflectivity_stack REFL_MATRIX_EXAMPLE1_DBZ.

Definition RADAR_DICT : radar_dict := {|
  composite_refl_matrix_dbz := COMPOSITE_REFL_MATRIX_DBZ;
  radar_valid_times_unix_sec := VALID_TIMES_UNIX_SEC;
  radar_latitudes_deg_n := LATITUDES_DEG_N;
  radar_longitudes_deg_e := LONGITUDES_DEG_E
|}.

Definition SATELLITE_DICT_DOWNSAMPLED2 : satellite_dict := {|
  brightness_temp_matrix_kelvins :=
    Some (temperature_stack [[210; 230]; [230; 250]; [275; 295]]);
  brightness_count_matrix := None;
  sat_latitudes_deg_n := [531 # 10; 535 # 10; 539 # 10];
  sat_longitudes_deg_e := [24625 # 100; 24725 # 100];
  sat_valid_times_unix_sec := VALID_TIMES_UNIX_SEC;
  band_numbers := BAND_NUMBERS
|}.

Definition RADAR_DICT_DOWNSAMPLED2 : radar_dict := {|
  composite_refl_matrix_dbz :=
    reflectivity_stack [[30; 50]; [50; 70]; [60; 80]];
  radar_valid_times_unix_sec := VALID_TIMES_UNIX_SEC;
  radar_latitudes_deg_n := [531 # 10; 535 # 10; 539 # 10];
  radar_longitudes_deg_e := [24625 # 100; 24725 # 100]
|}.

Definition SATELLITE_DICT_DOWNSAMPLED4 : satellite_dict := {|
  brightness_temp_matrix_kelvins := Some (temperature_stack [[230]]);
  brightness_count_matrix := None;
  sat_latitudes_deg_n := [533 # 10];
  sat_longitudes_deg_e := [24675 # 100];
  sat_valid_times_unix_sec := VALID_TIMES_UNIX_SEC;
  band_numbers := BAND_NUMBERS
|}.

Definition RADAR_DICT_DOWNSAMPLED4 : radar_dict := {|
  composite_refl_matrix_dbz := reflectivity_stack [[70]];
  radar_valid_times_unix_sec := VALID_TIMES_UNIX_SEC;
  radar_latitudes_deg_n := [533 # 10];
  radar_longitudes_deg_e := [24675 # 100]
|}.

(** ** The function under test *)

(** Pooling of a coordinate vector: as a 1 x n x 1 array through
    [do_1d_pooling], averaged. *)
Definition pool_coordinates (coordinates : list Q) (downsampling_factor : Z)
  : option (list Q) :=
  match do_1d_pooling [map (fun v => [v]) coordinates] false downsampling_factor with
  | Some pooled => Some (map (fun pixel => nth 0%nat pixel 0) (nth 0%nat pooled []))
  | None => None
  end.

Definition option_pool (x : option (list (list (list (list Q)))))
  (downsampling_factor : Z) : option (option (list (list (list (list Q))))) :=
  match x with
  | None => Some None
  | Some m =>
      match do_2d_pooling m false downsampling_factor with
      | Some pooled => Some (Some pooled)
      | None => None
      end
  end.

(** Modelled from the spec: [example_io.downsample_data_in_space] is not
    under src/ (only its unit test is).  Section 4.8 describes it as a
    block reduction of both dictionaries by an integer factor, with new
    coordinates when [change_coordinates] is set; the expected
    dictionaries of example_io_test.py fix the reduction as the pooling of
    standalone_utils.py with a window and stride equal to the factor: the
    mean for satellite fields and for coordinates, the maximum for
    composite reflectivity. *)
Definition downsample_data_in_space (s : satellite_dict) (r : radar_dict)
  (downsampling_factor : Z) (change_coordinates : bool)
  : option (satellite_dict * radar_dict) :=
  match option_pool (brightness_temp_matrix_kelvins s) downsampling_factor,
        option_pool (brightness_count_matrix s) downsampling_factor,
        do_2d_pooling (map (map (map (fun v => [v]))) (composite_refl_matrix_dbz r))
                      true downsampling_factor,
        pool_coordinates (radar_latitudes_deg_n r) downsampling_factor,
        pool_coordinates (radar_longitudes_deg_e r) downsampling_factor with
  | Some temperatures, Some counts, Some reflectivity, Some latitudes, Some longitudes =>
      let latitudes :=
        if change_coordinates then latitudes else radar_latitudes_deg_n r in
      let longitudes :=
        if change_coordinates then longitudes else radar_longitudes_deg_e r in
      Some ({| brightness_temp_matrix_kelvins := temperatures;
               brightness_count_matrix := counts;
               sat_latitudes_deg_n :=
                 if change_coordinates then latitudes else sat_latitudes_deg_n s;
               sat_longitudes_deg_e :=
                 if change_coordinates then longitudes else sat_longitudes_deg_e s;
               sat_valid_times_unix_sec := sat_valid_times_unix_sec s;
               band_numbers := band_numbers s |},
            {| composite_refl_matrix_dbz :=
                 map (map (map (fun pixel => nth 0%nat pixel 0))) reflectivity;
               radar_valid_times_unix_sec := radar_valid_times_unix_sec r;
               radar_latitudes_deg_n := latitudes;
               radar_longitudes_deg_e := longitudes |})
  | _, _, _, _, _ => None
  end.

(** [compare_satellite_dicts] and [compare_radar_dicts] of the test
    modules: equal times and bands, numerically equal fields. *)
Definition Qeq4 : list (list (list (list Q))) -> list (list (list (list Q))) -> Prop :=
  Forall2 Qeq3.

Definition compare_satellite_dicts (a b : satellite_dict) : Prop :=
  match brightness_temp_matrix_kelvins a, brightness_temp_matrix_kelvins b with
  | Some x, Some y => Qeq4 x y
  | None, None => True
  | _, _ => False
  end /\
  match brightness_count_matrix a, brightness_count_matrix b with
  | Some x, Some y => Qeq4 x y
  | None, None => True
  | _, _ => False
  end /\
  Qeq1 (sat_latitudes_deg_n a) (sat_latitudes_deg_n b) /\
  Qeq1 (sat_longitudes_deg_e a) (sat_longitudes_deg_e b) /\
  sat_valid_times_unix_sec a = sat_valid_times_unix_sec b /\
  band_numbers a = band_numbers b.

Definition compare_radar_dicts (a b : radar_dict) : Prop :=
  Qeq3 (composite_refl_matrix_dbz a) (composite_refl_matrix_dbz b) /\
  Qeq1 (radar_latitudes_deg_n a) (radar_latitudes_deg_n b) /\
  Qeq1 (radar_longitudes_deg_e a) (radar_longitudes_deg_e b) /\
  radar_valid_times_unix_sec a = radar_valid_times_unix_sec b.

(** ** The documented example, in the words of the specification *)

Definition mean (values : list Q) : Q :=
  Qsum values / inject_Z (Z.of_nat (length values)).

(** The [F]-by-[F] block [(i, j)] of a matrix, row by row. *)
Definition block (F : nat) (x : list (list Q)) (i j : nat) : list Q :=
  concat (tabulate F (fun di => tabulate F (fun dj =>
    get2 0 x (i * F + di) (j * F + dj)))).

(** One value per complete [F]-by-[F] block. *)
Definition block_reduce (reduce : list Q -> Q) (F : nat) (x : list (list Q))
  : list (list Q) :=
  tabulate2 (length x / F) (num_columns x / F) (fun i j => reduce (block F x i j)).

(** The midpoint of each complete run of [F] coordinates. *)
Definition block_midpoints (F : nat) (coordinates : list Q) : list Q :=
  tabulate (length coordinates / F) (fun i =>
    (nth (i * F) coordinates 0 + nth (i * F + F - 1) coordinates 0) / 2).

Definition domain_midpoint (coordinates : list Q) : Q :=
  (nth 0%nat coordinates 0 + nth (length coordinates - 1) coordinates 0) / 2.

Definition domain_mean (x : list (list Q)) : Q := mean (concat x).

(** The field of band [b] at time step [t]. *)
Definition band_field (x : option (list (list (list (list Q))))) (t b : nat)
  : list (list Q) :=
  match x with
  | Some m => map (map (fun pixel => nth b pixel 0)) (nth t m [])
  | None => []
  end.

Definition times_and_bands : list (nat * nat) :=
  list_prod [0; 1; 2; 3]%nat [0; 1]%nat.

(** C3 as stated: with factor 2 the coordinates are block midpoints and
    both the temperatures and the reflectivities are block averages; with
    factor 4 the grid is 1 x 1, centred on the midpoint of the whole
    domain, and holds the averages over the whole domain. *)
Definition documented_example_as_claimed : Prop :=
  match downsample_data_in_space SATELLITE_DICT RADAR_DICT 2 true,
        downsample_data_in_space SATELLITE_DICT RADAR_DICT 4 true with
  | Some (s2, r2), Some (s4, r4) =>
      (Qeq1 (radar_latitudes_deg_n r2) (block_midpoints 2 LATITUDES_DEG_N) /\
       Qeq1 (radar_longitudes_deg_e r2) (block_midpoints 2 LONGITUDES_DEG_E) /\
       Forall (fun '(t, b) =>
                 Qeq2 (band_field (brightness_temp_matrix_kelvins s2) t b)
                      (block_reduce mean 2
                         (band_field (Some TEMPERATURE_MATRIX_KELVINS) t b)))
              times_and_bands /\
       Forall2 (fun coarse fine => Qeq2 coarse (block_reduce mean 2 fine))
               (composite_refl_matrix_dbz r2) COMPOSITE_REFL_MATRIX_DBZ) /\
      (Qeq1 (radar_latitudes_deg_n r4) [domain_midpoint LATITUDES_DEG_N] /\
       Qeq1 (radar_longitudes_deg_e r4) [domain_midpoint LONGITUDES_DEG_E] /\
       Forall (fun '(t, b) =>
                 Qeq2 (band_field (brightness_temp_matrix_kelvins s4) t b)
                      [[domain_mean
                          (band_field (Some TEMPERATURE_MATRIX_KELVINS) t b)]])
              times_and_bands /\
       Forall2 (fun coarse fine => Qeq2 coarse [[domain_mean fine]])
               (composite_refl_matrix_dbz r4) COMPOSITE_REFL_MATRIX_DBZ)
  | _, _ => False
  end.

(** What the unit test expects, and the model returns: with factor 2 the
    coordinates are block midpoints, the temperatures block averages and
    the reflectivities block maxima; with factor 4 only the leading
    4-by-4 block is complete, and the 1 x 1 grid holds its midpoint, the
    average of its temperatures and the maximum of its reflectivities. *)
Definition documented_example_as_tested : Prop :=
  match downsample_data_in_space SATELLITE_DICT RADAR_DICT 2 true,
        downsample_data_in_space SATELLITE_DICT RADAR_DICT 4 true with
  | Some (s2, r2), Some (s4, r4) =>
      (compare_satellite_dicts s2 SATELLITE_DICT_DOWNSAMPLED2 /\
       compare_radar_dicts r2 RADAR_DICT_DOWNSAMPLED2 /\
       compare_satellite_dicts s4 SATELLITE_DICT_DOWNSAMPLED4 /\
       compare_radar_dicts r4 RADAR_DICT_DOWNSAMPLED4) /\
      (Qeq1 (radar_latitudes_deg_n r2) (block_midpoints 2 LATITUDES_DEG_N) /\
       Qeq1 (radar_longitudes_deg_e r2) (block_midpoints 2 LONGITUDES_DEG_E) /\
       Forall (fun '(t, b) =>
                 Qeq2 (band_field (brightness_temp_matrix_kelvins s2) t b)
                      (block_reduce mean 2
                         (band_field (Some TEMPERATURE_MATRIX_KELVINS) t b)))
              times_and_bands /\
       Forall2 (fun coarse fine => Qeq2 coarse (block_reduce Qmax_list 2 fine))
               (composite_refl_matrix_dbz r2) COMPOSITE_REFL_MATRIX_DBZ) /\
      (Qeq1 (radar_latitudes_deg_n r4) (block_midpoints 4 LATITUDES_DEG_N) /\
       Qeq1 (radar_longitudes_deg_e r4) [domain_midpoint LONGITUDES_DEG_E] /\
       Forall (fun '(t, b) =>
                 Qeq2 (band_field (brightness_temp_matrix_kelvins s4) t b)
                      (block_reduce mean 4
                         (band_field (Some TEMPERATURE_MATRIX_KELVINS) t b)))
              times_and_bands /\
       Forall2 (fun coarse fine => Qeq2 coarse (block_reduce Qmax_list 4 fine))
               (composite_refl_matrix_dbz r4) COMPOSITE_REFL_MATRIX_DBZ)
  | _, _ => False
  end.

Ltac by_evaluation :=
  repeat first [ split | constructor | progress vm_compute ].

(** C3, as amended: the model passes both unit tests, and the expected
    dictionaries are the block midpoints, block averages (temperature)
    and block maxima (reflectivity) of the complete blocks. *)
Theorem documented_example : documented_example_as_tested.
Proof. unfold documented_example_as_tested. by_evaluation. Qed.

(** The reflectivity that the test expects for the first block of the
    first time step is its maximum, 30 dBZ; the block average is 20 dBZ. *)
Lemma first_block_reflectivity :
  get2 0 (nth 0%nat (composite_refl_matrix_dbz RADAR_DICT_DOWNSAMPLED2) []) 0 0 == 30 /\
  get2 0 (block_reduce Qmax_list 2 REFL_MATRIX_EXAMPLE1_DBZ) 0 0 == 30 /\
  get2 0 (block_reduce mean 2 REFL_MATRIX_EXAMPLE1_DBZ) 0 0 == 20.
Proof. by_evaluation. Qed.

(** With factor 4 the test expects latitude 53.3 and temperature 230 K,
    not the domain midpoint 53.5 and the domain average 745/3 K. *)
Lemma factor4_expected_values :
  nth 0%nat (radar_latitudes_deg_n RADAR_DICT_DOWNSAMPLED4) 0 == 533 # 10 /\
  domain_midpoint LATITUDES_DEG_N == 535 # 10 /\
  get2 0 (band_field (brightness_temp_matrix_kelvins SATELLITE_DICT_DOWNSAMPLED4) 0 0)
       0 0 == 230 /\
  domain_mean (band_field (Some TEMPERATURE_MATRIX_KELVINS) 0 0) == 745 # 3.
Proof. by_evaluation. Qed.

Lemma documented_example_counterexample : ~ documented_example_as_claimed.
Proof.
  pose proof documented_example as Htested.
  unfold documented_example_as_claimed, documented_example_as_tested in *.
  destruct (downsample_data_in_space SATELLITE_DICT RADAR_DICT 2 true)
    as [[s2 r2]|]; [|exact (fun H => H)].
  destruct (downsample_data_in_space SATELLITE_DICT RADAR_DICT 4 true)
    as [[s4 r4]|]; [|exact (fun H => H)].
  intros [(_ & _ & _ & Hmean) _].
  destruct Htested as (_ & (_ & _ & _ & Hmax) & _).
  unfold COMPOSITE_REFL_MATRIX_DBZ, reflectivity_stack in Hmean, Hmax.
  destruct (composite_refl_matrix_dbz r2) as [|coarse rest]; [inversion Hmean|].
  apply List.Forall2_cons_iff in Hmean, Hmax.
  destruct Hmean as [Hmean _], Hmax as [Hmax _].
  unfold Qeq2 in Hmean, Hmax.
  destruct coarse as [|row rows]; [inversion Hmean|].
  apply List.Forall2_cons_iff in Hmean, Hmax.
  destruct Hmean as [Hmean _], Hmax as [Hmax _].
  unfold Qeq1 in Hmean, Hmax.
  destruct row as [|v vs]; [inversion Hmean|].
  apply List.Forall2_cons_iff in Hmean, Hmax.
  destruct Hmean as [Hmean _], Hmax as [Hmax _].
  assert (H20 : mean (block 2 REFL_MATRIX_EXAMPLE1_DBZ 0 0) == 20) by reflexivity.
  assert (H30 : Qmax_list (block 2 REFL_MATRIX_EXAMPLE1_DBZ 0 0) == 30) by reflexivity.
  rewrite H20 in Hmean. rewrite H30 in Hmax. rewrite Hmean in Hmax.
  discriminate Hmax.
Qed.

End ExampleIo.

(** * machine_learning/coord_conv.py *)

Module CoordConv.

(** ** The backend operations used by the module *)

(** [K.ones((d0, d1))] with an integer type. *)
Definition K_ones (d0 d1 : nat) : list (list Z) :=
  tabulate d0 (fun _ => tabulate d1 (fun _ => 1%Z)).

(** [K.arange(0, n)] *)
Definition K_arange (n : nat) : list Z := tabulate n Z.of_nat.

(** [K.expand_dims(x, axis=0)] *)
Definition expand_dims_first {A : Type} (x : A) : list A := [x].

(** [K.expand_dims(x, axis=1)] of an array with at least two axes. *)
Definition expand_dims_second {A : Type} (x : list A) : list (list A) :=
  map (fun row => [row]) x.

(** [K.expand_dims(x, axis=-1)] of arrays with two and three axes. *)
Definition expand_dims_last2 {A : Type} (x : list (list A)) : list (list (list A)) :=
  map (map (fun v => [v])) x.

Definition expand_dims_last3 {A : Type} (x : list (list (list A)))
  : list (list (list (list A))) :=
  map (map (map (fun v => [v]))) x.

(** [K.tile(x, n=(n0, n1))] of a matrix. *)
Definition K_tile {A : Type} (x : list (list A)) (n0 n1 : nat) : list (list A) :=
  concat (repeat (map (fun row => concat (repeat row n1)) x) n0).

Definition Zsum (l : list Z) : Z := fold_right Z.add 0%Z l.

(** The product of two integer matrices. *)
Definition matmul (a b : list (list Z)) : list (list Z) :=
  map (fun row =>
         tabulate (num_columns b) (fun m =>
           Zsum (imap (fun k v => (v * get2 0 b k m)%Z) row)))
      a.

(** [K.batch_dot(a, b, axes=[2, 1])]: one matrix product per example. *)
Definition K_batch_dot (a b : list (list (list Z))) : list (list (list Z)) :=
  map (fun '(x, y) => matmul x y) (combine a b).

(** [K.permute_dimensions(x, [0, 2, 1, 3])] *)
Definition K_permute_0213 {A : Type} (x : list (list (list (list A))))
  : list (list (list (list A))) :=
  map (fun example =>
         tabulate (num_columns example) (fun j =>
           tabulate (length example) (fun i =>
             nth j (nth i example []) [])))
      x.

Definition map4 {A B : Type} (f : A -> B) (x : list (list (list (list A))))
  : list (list (list (list B))) :=
  map (map (map (map f))) x.

(** [numpy.concatenate((x, y), axis=-1)] of two arrays with four axes. *)
Definition concatenate_last {A : Type} (x y : list (list (list (list A))))
  : list (list (list (list A))) :=
  map_ijk (fun e i j v => v ++ nth j (nth i (nth e y []) []) []) x.

(** [K.expand_dims(x, axis=-2)] followed by
    [K.repeat_elements(x, rep=n, axis=-2)], for an array with four axes. *)
Definition expand_dims_before_last4 {A : Type} (x : list (list (list (list A))))
  : list (list (list (list (list A)))) :=
  map (map (map (fun pixel => [pixel]))) x.

Definition K_repeat_elements_before_last {A : Type} (n : nat)
  (x : list (list (list (list (list A))))) : list (list (list (list (list A)))) :=
  map (map (map (fun steps => concat (map (fun v => repeat v n) steps)))) x.

Definition concatenate_last5 {A : Type} (x y : list (list (list (list (list A)))))
  : list (list (list (list (list A)))) :=
  map_ijk (fun e i j steps =>
             imap (fun t v => v ++ nth t (nth j (nth i (nth e y []) []) []) []) steps)
          x.

(** ** The coordinate channels *)

(** The scaling applied to a coordinate: cast to float, divide by the
    largest index, double, subtract 1. *)
Definition scale_coordinate (largest_index : Z) (v : Z) : npfloat :=
  np_sub (np_scale (np_divide (inject_Z v) (inject_Z largest_index)) 2) 1.

(** The row-coordinate array of shape examples x rows x columns x 1. *)
Definition y_coord_matrix (num_examples num_grid_rows num_grid_columns : nat)
  : list (list (list (list Z))) :=
  let one_matrix_for_y := K_ones num_examples num_grid_columns in
  let one_matrix_for_y := expand_dims_last2 one_matrix_for_y in
  let y_coord_matrix := expand_dims_first (K_arange num_grid_rows) in
  let y_coord_matrix := K_tile y_coord_matrix num_examples 1 in
  let y_coord_matrix := expand_dims_second y_coord_matrix in
  let y_coord_matrix := K_batch_dot one_matrix_for_y y_coord_matrix in
  let y_coord_matrix := expand_dims_last3 y_coord_matrix in
  K_permute_0213 y_coord_matrix.

(** The column-coordinate array of the same shape. *)
Definition x_coord_matrix (num_examples num_grid_rows num_grid_columns : nat)
  : list (list (list (list Z))) :=
  let one_matrix_for_x := K_ones num_examples num_grid_rows in
  let one_matrix_for_x := expand_dims_second one_matrix_for_x in
  let x_coord_matrix := expand_dims_first (K_arange num_grid_columns) in
  let x_coord_matrix := K_tile x_coord_matrix num_examples 1 in
  let x_coord_matrix := expand_dims_last2 x_coord_matrix in
  let x_coord_matrix := K_batch_dot x_coord_matrix one_matrix_for_x in
  let x_coord_matrix := expand_dims_last3 x_coord_matrix in
  K_permute_0213 x_coord_matrix.

(** The shape of an array with four axes, as [K.shape] reports it. *)
Definition shape4 {A : Type} (x : list (list (list (list A)))) : list Z :=
  [Z.of_nat (length x);
   Z.of_nat (length (nth 0%nat x []));
   Z.of_nat (length (nth 0%nat (nth 0%nat x []) []));
   Z.of_nat (length (nth 0%nat (nth 0%nat (nth 0%nat x []) []) []))].

(** [add_spatial_coords_2d].  In test mode the dimensions are given and
    the two channels are returned alone; otherwise the dimensions are
    those of the input, to which the two channels are appended.  [None]
    stands for a failed assertion. *)
Definition add_spatial_coords_2d
  (input_layer_object : list (list (list (list npfloat))))
  (test_mode : bool) (input_dimensions : list Z)
  : option (list (list (list (list npfloat)))) :=
  if (test_mode &&
      negb (forallb (fun d => (0 <? d)%Z) input_dimensions &&
            (length input_dimensions =? 4)%nat))%bool
  then None
  else
    let input_dimensions :=
      if test_mode then input_dimensions else shape4 input_layer_object in
    let num_examples := nth 0%nat input_dimensions 0%Z in
    let num_grid_rows := nth 1%nat input_dimensions 0%Z in
    let num_grid_columns := nth 2%nat input_dimensions 0%Z in
    let y :=
      map4 (scale_coordinate (num_grid_rows - 1))
        (y_coord_matrix (Z.to_nat num_examples) (Z.to_nat num_grid_rows)
                        (Z.to_nat num_grid_columns)) in
    let x :=
      map4 (scale_coordinate (num_grid_columns - 1))
        (x_coord_matrix (Z.to_nat num_examples) (Z.to_nat num_grid_rows)
                        (Z.to_nat num_grid_columns)) in
    if test_mode then Some (concatenate_last x y)
    else Some (concatenate_last (concatenate_last input_layer_object x) y).

(** The shape of an array with five axes. *)
Definition shape5 {A : Type} (x : list (list (list (list (list A))))) : list Z :=
  [Z.of_nat (length x);
   Z.of_nat (length (nth 0%nat x []));
   Z.of_nat (length (nth 0%nat (nth 0%nat x []) []));
   Z.of_nat (length (nth 0%nat (nth 0%nat (nth 0%nat x []) []) []));
   Z.of_nat (length (nth 0%nat (nth 0%nat (nth 0%nat (nth 0%nat x []) []) []) []))].

(** [add_spatial_coords_2d_with_time]; in test mode [num_times] is read
    from the dimensions. *)
Definition add_spatial_coords_2d_with_time
  (input_layer_object : list (list (list (list (list npfloat)))))
  (num_times : Z) (test_mode : bool) (input_dimensions : list Z)
  : option (list (list (list (list (list npfloat))))) :=
  if (test_mode &&
      negb (forallb (fun d => (0 <? d)%Z) input_dimensions &&
            (length input_dimensions =? 5)%nat))%bool
  then None
  else
    let num_times :=
      if test_mode then nth 3%nat input_dimensions 0%Z else num_times in
    let input_dimensions :=
      if test_mode then input_dimensions else shape5 input_layer_object in
    if negb (1 <=? num_times)%Z then None
    else
      let num_examples := nth 0%nat input_dimensions 0%Z in
      let num_grid_rows := nth 1%nat input_dimensions 0%Z in
      let num_grid_columns := nth 2%nat input_dimensions 0%Z in
      let y :=
        K_repeat_elements_before_last (Z.to_nat num_times)
          (expand_dims_before_last4
             (y_coord_matrix (Z.to_nat num_examples) (Z.to_nat num_grid_rows)
                             (Z.to_nat num_grid_columns))) in
      let y := map (map4 (scale_coordinate (num_grid_rows - 1))) y in
      let x :=
        K_repeat_elements_before_last (Z.to_nat num_times)
          (expand_dims_before_last4
             (x_coord_matrix (Z.to_nat num_examples) (Z.to_nat num_grid_rows)
                             (Z.to_nat num_grid_columns))) in
      let x := map (map4 (scale_coordinate (num_grid_columns - 1))) x in
      if test_mode then Some (concatenate_last5 x y)
      else Some (concatenate_last5 (concatenate_last5 input_layer_object x) y).

(** ** Closed forms *)

Lemma imap_tabulate {A B : Type} (f : nat -> A -> B) (n : nat) (g : nat -> A) :
  imap f (tabulate n g) = tabulate n (fun i => f i (g i)).
Proof.
  unfold tabulate. rewrite imap_fmap.
  change (map g (seq 0 n)) with (g <$> seq 0 n).
  assert (H : forall s (h : nat -> nat -> B),
             imap (fun j i => h j i) (seq s n) =
             map (fun i => h (i - s)%nat i) (seq s n)).
  { clear. induction n as [|n IH]; intros s h; [reflexivity|].
    cbn [seq]. rewrite imap_cons. cbn [map]. rewrite Nat.sub_diag. f_equal.
    unfold compose. rewrite (IH (S s) (fun j i => h (S j) i)).
    apply map_ext_in. intros i Hi. apply in_seq in Hi.
    f_equal. lia. }
  unfold compose. rewrite (H 0%nat (fun j i => f j (g i))).
  apply map_ext. intros i. now rewrite Nat.sub_0_r.
Qed.

Lemma combine_tabulate {A B : Type} (n : nat) (f : nat -> A) (g : nat -> B) :
  combine (tabulate n f) (tabulate n g) = tabulate n (fun i => (f i, g i)).
Proof.
  unfold tabulate. generalize 0%nat.
  induction n as [|n IH]; intros s; [reflexivity|].
  cbn [seq map combine]. f_equal. apply IH.
Qed.

Lemma K_tile_single_row {A : Type} (row : list A) (n : nat) :
  K_tile [row] n 1 = tabulate n (fun _ => row).
Proof.
  unfold K_tile. rewrite StandaloneUtils.tabulate_const.
  cbn [map repeat concat]. rewrite !app_nil_r.
  induction n as [|n IH]; [reflexivity|].
  cbn [repeat concat app]. now rewrite IH.
Qed.

Lemma tabulate2_nested_ext {A : Type} (m n : nat) (f g : nat -> nat -> A) :
  (forall i j, (i < m)%nat -> (j < n)%nat -> f i j = g i j) ->
  tabulate m (fun i => tabulate n (f i)) = tabulate m (fun i => tabulate n (g i)).
Proof.
  intros H. apply tabulate_ext. intros i Hi.
  apply tabulate_ext. intros j Hj. now apply H.
Qed.

(** A product of a column vector and a row vector. *)
Lemma matmul_outer (n m : nat) (u v : nat -> Z) :
  matmul (tabulate n (fun i => [u i])) [tabulate m v] =
  tabulate n (fun i => tabulate m (fun j => (u i * v j)%Z)).
Proof.
  unfold matmul. rewrite StandaloneUtils.map_tabulate.
  unfold num_columns. cbn [nth]. rewrite length_tabulate.
  apply tabulate2_nested_ext. intros i j Hi Hj.
  cbn [imap Zsum fold_right]. unfold get2. cbn [nth].
  rewrite nth_tabulate by exact Hj. lia.
Qed.

Lemma permute_closed_form {A : Type} (e n m : nat) (f : nat -> nat -> A) :
  (0 < n)%nat ->
  K_permute_0213
    (tabulate e (fun _ => tabulate n (fun i => tabulate m (fun j => [f i j])))) =
  tabulate e (fun _ => tabulate m (fun j => tabulate n (fun i => [f i j]))).
Proof.
  intros Hn. unfold K_permute_0213. rewrite StandaloneUtils.map_tabulate.
  apply tabulate_ext. intros _ _.
  unfold num_columns.
  rewrite (nth_tabulate n _ [] 0%nat Hn), !length_tabulate.
  apply tabulate2_nested_ext. intros j i Hj Hi.
  rewrite (nth_tabulate n _ [] i Hi). now rewrite nth_tabulate.
Qed.

Lemma y_coord_closed_form (e m n : nat) :
  (0 < n)%nat ->
  y_coord_matrix e m n =
  tabulate e (fun _ => tabulate m (fun r => tabulate n (fun _ => [Z.of_nat r]))).
Proof.
  intros Hn. unfold y_coord_matrix, K_ones, K_arange, expand_dims_first,
    expand_dims_last2, expand_dims_second, expand_dims_last3, K_batch_dot.
  rewrite K_tile_single_row, !StandaloneUtils.map_tabulate, combine_tabulate,
    StandaloneUtils.map_tabulate.
  rewrite <- (permute_closed_form e n m (fun _ r => Z.of_nat r)) by exact Hn.
  f_equal. rewrite StandaloneUtils.map_tabulate.
  apply tabulate_ext. intros _ _.
  rewrite (matmul_outer n m (fun _ => 1%Z) Z.of_nat), StandaloneUtils.map_tabulate.
  apply tabulate_ext. intros i _. rewrite StandaloneUtils.map_tabulate.
  apply tabulate_ext. intros j _. f_equal. lia.
Qed.

Lemma x_coord_closed_form (e m n : nat) :
  (0 < n)%nat ->
  x_coord_matrix e m n =
  tabulate e (fun _ => tabulate m (fun _ => tabulate n (fun c => [Z.of_nat c]))).
Proof.
  intros Hn. unfold x_coord_matrix, K_ones, K_arange, expand_dims_first,
    expand_dims_last2, expand_dims_second, expand_dims_last3, K_batch_dot.
  rewrite K_tile_single_row, !StandaloneUtils.map_tabulate, combine_tabulate,
    StandaloneUtils.map_tabulate.
  rewrite <- (permute_closed_form e n m (fun c _ => Z.of_nat c)) by exact Hn.
  f_equal. rewrite StandaloneUtils.map_tabulate.
  apply tabulate_ext. intros _ _.
  rewrite (matmul_outer n m Z.of_nat (fun _ => 1%Z)), StandaloneUtils.map_tabulate.
  apply tabulate_ext. intros i _. rewrite StandaloneUtils.map_tabulate.
  apply tabulate_ext. intros j _. f_equal. lia.
Qed.

Lemma concatenate_last_closed_form {A : Type} (e m n : nat) (a b : nat -> nat -> A) :
  concatenate_last
    (tabulate e (fun _ => tabulate m (fun r => tabulate n (fun c => [a r c]))))
    (tabulate e (fun _ => tabulate m (fun r => tabulate n (fun c => [b r c])))) =
  tabulate e (fun _ => tabulate m (fun r => tabulate n (fun c => [a r c; b r c]))).
Proof.
  unfold concatenate_last, map_ijk. rewrite imap_tabulate.
  apply tabulate_ext. intros i Hi. rewrite imap_tabulate.
  apply tabulate_ext. intros r Hr. rewrite imap_tabulate.
  apply tabulate_ext. intros c Hc.
  rewrite (nth_tabulate e _ [] i Hi), (nth_tabulate m _ [] r Hr),
    (nth_tabulate n _ [] c Hc).
  reflexivity.
Qed.

Lemma map4_closed_form {A B : Type} (f : A -> B) (e m n : nat) (g : nat -> nat -> A) :
  map4 f (tabulate e (fun _ => tabulate m (fun r => tabulate n (fun c => [g r c])))) =
  tabulate e (fun _ => tabulate m (fun r => tabulate n (fun c => [f (g r c)]))).
Proof.
  unfold map4. rewrite StandaloneUtils.map_tabulate.
  apply tabulate_ext. intros _ _. rewrite StandaloneUtils.map_tabulate.
  apply tabulate_ext. intros r _. rewrite StandaloneUtils.map_tabulate.
  reflexivity.
Qed.

Lemma repeated_steps_closed_form {A B : Type} (f : A -> B) (e m n t : nat)
  (g : nat -> nat -> A) :
  map (map4 f)
    (K_repeat_elements_before_last t
       (expand_dims_before_last4
          (tabulate e (fun _ => tabulate m (fun r => tabulate n (fun c => [g r c])))))) =
  tabulate e (fun _ => tabulate m (fun r => tabulate n (fun c =>
    tabulate t (fun _ => [f (g r c)])))).
Proof.
  unfold K_repeat_elements_before_last, expand_dims_before_last4, map4.
  rewrite ?StandaloneUtils.map_tabulate.
  apply tabulate_ext. intros _ _. rewrite ?StandaloneUtils.map_tabulate.
  apply tabulate_ext. intros r _. rewrite ?StandaloneUtils.map_tabulate.
  apply tabulate_ext. intros c _.
  cbn [map concat]. rewrite app_nil_r, StandaloneUtils.tabulate_const.
  now rewrite map_repeat.
Qed.

Lemma concatenate_last5_closed_form {A : Type} (e m n t : nat) (a b : nat -> nat -> A) :
  concatenate_last5
    (tabulate e (fun _ => tabulate m (fun r => tabulate n (fun c =>
       tabulate t (fun _ => [a r c])))))
    (tabulate e (fun _ => tabulate m (fun r => tabulate n (fun c =>
       tabulate t (fun _ => [b r c]))))) =
  tabulate e (fun _ => tabulate m (fun r => tabulate n (fun c =>
    tabulate t (fun _ => [a r c; b r c])))).
Proof.
  unfold concatenate_last5, map_ijk. rewrite imap_tabulate.
  apply tabulate_ext. intros i Hi. rewrite imap_tabulate.
  apply tabulate_ext. intros r Hr. rewrite imap_tabulate.
  apply tabulate_ext. intros c Hc. rewrite imap_tabulate.
  apply tabulate_ext. intros s Hs.
  rewrite (nth_tabulate e _ [] i Hi), (nth_tabulate m _ [] r Hr),
    (nth_tabulate n _ [] c Hc), (nth_tabulate t _ [] s Hs).
  reflexivity.
Qed.

(** The two channels at one grid point. *)
Definition coordinate_pair (num_grid_rows num_grid_columns : Z) (r c : nat)
  : list npfloat :=
  [scale_coordinate (num_grid_columns - 1) (Z.of_nat c);
   scale_coordinate (num_grid_rows - 1) (Z.of_nat r)].

Lemma add_spatial_coords_2d_closed_form input (E M N C : Z) :
  (0 < E)%Z -> (0 < M)%Z -> (0 < N)%Z -> (0 < C)%Z ->
  add_spatial_coords_2d input true [E; M; N; C] =
  Some (tabulate (Z.to_nat E) (fun _ => tabulate (Z.to_nat M) (fun r =>
          tabulate (Z.to_nat N) (fun c => coordinate_pair M N r c)))).
Proof.
  intros HE HM HN HC. unfold add_spatial_coords_2d.
  assert (Hcheck : forallb (fun d => (0 <? d)%Z) [E; M; N; C] = true).
  { cbn [forallb]. rewrite !andb_true_iff, !Z.ltb_lt. tauto. }
  rewrite Hcheck. cbn [length Nat.eqb andb negb nth].
  rewrite y_coord_closed_form, x_coord_closed_form by lia.
  rewrite !map4_closed_form, concatenate_last_closed_form.
  reflexivity.
Qed.

Lemma add_spatial_coords_2d_with_time_closed_form input num_times (E M N T C : Z) :
  (0 < E)%Z -> (0 < M)%Z -> (0 < N)%Z -> (0 < T)%Z -> (0 < C)%Z ->
  add_spatial_coords_2d_with_time input num_times true [E; M; N; T; C] =
  Some (tabulate (Z.to_nat E) (fun _ => tabulate (Z.to_nat M) (fun r =>
          tabulate (Z.to_nat N) (fun c =>
            tabulate (Z.to_nat T) (fun _ => coordinate_pair M N r c))))).
Proof.
  intros HE HM HN HT HC. unfold add_spatial_coords_2d_with_time.
  assert (Hcheck : forallb (fun d => (0 <? d)%Z) [E; M; N; T; C] = true).
  { cbn [forallb]. rewrite !andb_true_iff, !Z.ltb_lt. tauto. }
  rewrite Hcheck. cbn [length Nat.eqb andb negb nth].
  assert (HT' : (1 <=? T)%Z = true) by (apply Z.leb_le; lia).
  rewrite HT'. cbn [negb].
  rewrite y_coord_closed_form, x_coord_closed_form by lia.
  rewrite !repeated_steps_closed_form, concatenate_last5_closed_form.
  reflexivity.
Qed.

Lemma scale_coordinate_value (largest_index v : Z) :
  (0 < largest_index)%Z ->
  is_value (scale_coordinate largest_index v)
           (2 * inject_Z v / inject_Z largest_index - 1).
Proof.
  intros Hpos. unfold scale_coordinate, np_divide.
  assert (Hne : ~ inject_Z largest_index == 0).
  { assert (H : 0 < inject_Z largest_index).
    { change 0 with (inject_Z 0). rewrite <- Zlt_Qlt. exact Hpos. }
    lra. }
  destruct (Qeq_bool (inject_Z largest_index) 0) eqn:Hz.
  - apply Qeq_bool_iff in Hz. contradiction.
  - cbn [np_scale np_sub is_value]. field. exact Hne.
Qed.

Lemma is_value_compat (x : npfloat) (v w : Q) :
  is_value x v -> v == w -> is_value x w.
Proof. destruct x; cbn; intros H Hvw; [now rewrite H | | |]; assumption. Qed.

(** C8.  In test mode, for at least two rows and two columns, the
    row-coordinate channel holds [2 r / (num_rows - 1) - 1] at row [r]
    (exactly -1 at the first row and +1 at the last) and the
    column-coordinate channel holds [2 c / (num_columns - 1) - 1] at column
    [c]; [add_spatial_coords_2d_with_time] holds the same two values at
    every step of the time axis. *)
Theorem coordinate_channels input4 input5 num_times (E M N T C : Z) :
  (0 < E)%Z -> (2 <= M)%Z -> (2 <= N)%Z -> (0 < T)%Z -> (0 < C)%Z ->
  exists t4 t5,
    add_spatial_coords_2d input4 true [E; M; N; C] = Some t4 /\
    add_spatial_coords_2d_with_time input5 num_times true [E; M; N; T; C] =
      Some t5 /\
    forall e r c : nat,
      (Z.of_nat e < E)%Z -> (Z.of_nat r < M)%Z -> (Z.of_nat c < N)%Z ->
      (exists x y,
         nth c (nth r (nth e t4 []) []) [] = [x; y] /\
         is_value y (2 * inject_Z (Z.of_nat r) / inject_Z (M - 1) - 1) /\
         is_value x (2 * inject_Z (Z.of_nat c) / inject_Z (N - 1) - 1) /\
         (r = 0%nat -> is_value y (-(1))) /\
         (Z.of_nat r = (M - 1)%Z -> is_value y 1) /\
         (c = 0%nat -> is_value x (-(1))) /\
         (Z.of_nat c = (N - 1)%Z -> is_value x 1)) /\
      (forall s : nat,
         (Z.of_nat s < T)%Z ->
         nth s (nth c (nth r (nth e t5 []) []) []) [] =
         nth c (nth r (nth e t4 []) []) []).
Proof.
  intros HE HM HN HT HC.
  rewrite add_spatial_coords_2d_closed_form by lia.
  rewrite add_spatial_coords_2d_with_time_closed_form by lia.
  do 2 eexists. split; [reflexivity|]. split; [reflexivity|].
  intros e r c He Hr Hc.
  rewrite !(nth_tabulate (Z.to_nat E) _ [] e) by lia.
  rewrite !(nth_tabulate (Z.to_nat M) _ [] r) by lia.
  rewrite !(nth_tabulate (Z.to_nat N) _ [] c) by lia.
  assert (Hy := scale_coordinate_value (M - 1) (Z.of_nat r) ltac:(lia)).
  assert (Hx := scale_coordinate_value (N - 1) (Z.of_nat c) ltac:(lia)).
  assert (HM1 : ~ inject_Z (M - 1) == 0).
  { assert (H : 0 < inject_Z (M - 1)).
    { change 0 with (inject_Z 0). rewrite <- Zlt_Qlt. lia. }
    lra. }
  assert (HN1 : ~ inject_Z (N - 1) == 0).
  { assert (H : 0 < inject_Z (N - 1)).
    { change 0 with (inject_Z 0). rewrite <- Zlt_Qlt. lia. }
    lra. }
  split.
  - do 2 eexists. split; [reflexivity|].
    split; [exact Hy|]. split; [exact Hx|].
    repeat split.
    + intros ->. apply (is_value_compat _ _ _ Hy).
      change (inject_Z (Z.of_nat 0)) with 0. field. exact HM1.
    + intros Hlast. apply (is_value_compat _ _ _ Hy).
      rewrite Hlast. field. exact HM1.
    + intros ->. apply (is_value_compat _ _ _ Hx).
      change (inject_Z (Z.of_nat 0)) with 0. field. exact HN1.
    + intros Hlast. apply (is_value_compat _ _ _ Hx).
      rewrite Hlast. field. exact HN1.
  - intros s Hs. now rewrite (nth_tabulate (Z.to_nat T) _ [] s) by lia.
Qed.

Lemma coordinate_channels_witness :
  exists t4 t5,
    add_spatial_coords_2d [] true [1; 3; 2; 5]%Z = Some t4 /\
    add_spatial_coords_2d_with_time [] 7 true [1; 3; 2; 4; 5]%Z = Some t5 /\
    forall e r c : nat,
      (Z.of_nat e < 1)%Z -> (Z.of_nat r < 3)%Z -> (Z.of_nat c < 2)%Z ->
      (exists x y,
         nth c (nth r (nth e t4 []) []) [] = [x; y] /\
         is_value y (2 * inject_Z (Z.of_nat r) / inject_Z (3 - 1) - 1) /\
         is_value x (2 * inject_Z (Z.of_nat c) / inject_Z (2 - 1) - 1) /\
         (r = 0%nat -> is_value y (-(1))) /\
         (Z.of_nat r = (3 - 1)%Z -> is_value y 1) /\
         (c = 0%nat -> is_value x (-(1))) /\
         (Z.of_nat c = (2 - 1)%Z -> is_value x 1)) /\
      (forall s : nat,
         (Z.of_nat s < 4)%Z ->
         nth s (nth c (nth r (nth e t5 []) []) []) [] =
         nth c (nth r (nth e t4 []) []) []).
Proof.
  apply (coordinate_channels [] [] 7 1 3 2 4 5); lia.
Defined.

(** With a single row the division is 0/0: the row channel is NaN. *)
Lemma single_row_is_nan :
  add_spatial_coords_2d [] true [1; 1; 2; 1]%Z =
  Some [[[[Fin (-(1)); NaN]; [Fin 1; NaN]]]].
Proof. reflexivity. Qed.


(** ** The channels of the input are kept *)

Lemma nth_map_ijk {A B : Type} (f : nat -> nat -> nat -> A -> B)
  (x : list (list (list A))) (da : A) (db : B) (e r c : nat) :
  (e < length x)%nat -> (r < length (nth e x []))%nat ->
  (c < length (nth r (nth e x []) []))%nat ->
  nth c (nth r (nth e (map_ijk f x) []) []) db =
  f e r c (nth c (nth r (nth e x []) []) da).
Proof.
  intros He Hr Hc. unfold map_ijk.
  rewrite (nth_imap _ x [] [] e He), (nth_imap _ _ [] [] r Hr).
  now apply nth_imap.
Qed.

Lemma shape_map_ijk {A B : Type} (f : nat -> nat -> nat -> A -> B)
  (x : list (list (list A))) (e r : nat) :
  length (map_ijk f x) = length x /\
  length (nth e (map_ijk f x) []) = length (nth e x []) /\
  length (nth r (nth e (map_ijk f x) []) []) = length (nth r (nth e x []) []).
Proof.
  unfold map_ijk. split; [apply length_imap|].
  destruct (Nat.lt_ge_cases e (length x)) as [He|He].
  - rewrite (nth_imap _ x [] [] e He). split; [apply length_imap|].
    destruct (Nat.lt_ge_cases r (length (nth e x []))) as [Hr|Hr].
    + rewrite (nth_imap _ _ [] [] r Hr). apply length_imap.
    + rewrite !(nth_overflow _ [] ) by (rewrite ?length_imap; lia). reflexivity.
  - rewrite !(nth_overflow _ [] ) by (rewrite ?length_imap; lia).
    split; [reflexivity|]. now destruct r.
Qed.

(** A batch of [E] examples on a grid of [M] rows and [N] columns. *)
Definition on_grid {A : Type} (E M N : nat) (x : list (list (list A))) : Prop :=
  length x = E /\
  Forall (fun example => length example = M /\
                         Forall (fun row => length row = N) example) x.

Lemma on_grid_lengths {A : Type} (E M N : nat) (x : list (list (list A))) (e r : nat) :
  on_grid E M N x -> (e < E)%nat -> (r < M)%nat ->
  length (nth e x []) = M /\ length (nth r (nth e x []) []) = N.
Proof.
  intros [HE Hx] He Hr. rewrite List.Forall_forall in Hx.
  assert (Hin : In (nth e x []) x) by (apply nth_In; lia).
  destruct (Hx _ Hin) as [HM Hrows]. split; [exact HM|].
  rewrite List.Forall_forall in Hrows. apply Hrows, nth_In. lia.
Qed.

Lemma on_grid_map_ijk {A B : Type} (f : nat -> nat -> nat -> A -> B)
  (E M N : nat) (x : list (list (list A))) :
  (0 < M)%nat -> on_grid E M N x -> on_grid E M N (map_ijk f x).
Proof.
  intros HM Hgrid. split.
  - now rewrite (proj1 (shape_map_ijk f x 0 0)), (proj1 Hgrid).
  - apply List.Forall_forall. intros example Hin.
    apply (In_nth _ _ []) in Hin. destruct Hin as (e & He & <-).
    rewrite (proj1 (shape_map_ijk f x 0 0)), (proj1 Hgrid) in He.
    destruct (on_grid_lengths E M N _ e 0 Hgrid He HM) as [HMe _].
    split.
    + now rewrite (proj1 (proj2 (shape_map_ijk f x e 0))).
    + apply List.Forall_forall. intros row Hrow.
      apply (In_nth _ _ []) in Hrow. destruct Hrow as (r & Hr & <-).
      rewrite (proj1 (proj2 (shape_map_ijk f x e 0))), HMe in Hr.
      rewrite (proj2 (proj2 (shape_map_ijk f x e r))).
      now destruct (on_grid_lengths E M N _ e r Hgrid He Hr).
Qed.

Lemma scale_coordinate_single (v : Z) : v = 0%Z -> scale_coordinate 0 v = NaN.
Proof. intros ->. reflexivity. Qed.

(** X13.  Outside test mode, on a batch of [E] examples with [M] rows and
    [N] columns, [add_spatial_coords_2d] keeps every pixel's channels
    unchanged and appends exactly two: the column coordinate, then the
    row coordinate, with the values [2 c / (N - 1) - 1] and
    [2 r / (M - 1) - 1]; a grid with a single row (column) gets NaN in
    the row (column) channel, from 0/0.  The dimensions passed as an
    argument are ignored. *)
Theorem add_spatial_coords_2d_keeps_input
  (input_layer_object : list (list (list (list npfloat))))
  (ignored_dimensions : list Z) (E M N : nat) :
  (0 < E)%nat -> (0 < M)%nat -> (0 < N)%nat ->
  on_grid E M N input_layer_object ->
  exists output,
    add_spatial_coords_2d input_layer_object false ignored_dimensions =
    Some output /\
    on_grid E M N output /\
    forall e r c : nat,
      (e < E)%nat -> (r < M)%nat -> (c < N)%nat ->
      exists x y,
        nth c (nth r (nth e output []) []) [] =
        nth c (nth r (nth e input_layer_object []) []) [] ++ [x; y] /\
        ((2 <= M)%nat ->
         is_value y (2 * inject_Z (Z.of_nat r) / inject_Z (Z.of_nat M - 1) - 1)) /\
        ((2 <= N)%nat ->
         is_value x (2 * inject_Z (Z.of_nat c) / inject_Z (Z.of_nat N - 1) - 1)) /\
        (M = 1%nat -> y = NaN) /\ (N = 1%nat -> x = NaN).
Proof.
  intros HE HM HN Hgrid.
  destruct (on_grid_lengths E M N _ 0 0 Hgrid HE HM) as [HM0 HN0].
  unfold add_spatial_coords_2d. cbn [andb negb].
  unfold shape4. cbn [nth]. rewrite HM0, HN0, (proj1 Hgrid), !Nat2Z.id.
  rewrite y_coord_closed_form, x_coord_closed_form by exact HN.
  rewrite !map4_closed_form.
  eexists. split; [reflexivity|].
  set (xs := tabulate E _). set (ys := tabulate E _).
  assert (Hshape : on_grid E M N (concatenate_last input_layer_object xs))
    by now apply on_grid_map_ijk.
  assert (Hinner : forall e r c, (e < E)%nat -> (r < M)%nat -> (c < N)%nat ->
            nth c (nth r (nth e (concatenate_last input_layer_object xs) []) []) [] =
            nth c (nth r (nth e input_layer_object []) []) [] ++
            [scale_coordinate (Z.of_nat N - 1) (Z.of_nat c)]).
  { intros e r c He Hr Hc.
    destruct (on_grid_lengths E M N _ e r Hgrid He Hr) as [HMe HNe].
    unfold concatenate_last.
    rewrite (nth_map_ijk _ _ [] [] e r c) by (rewrite ?(proj1 Hgrid); lia).
    subst xs.
    now rewrite (nth_tabulate E _ [] e He), (nth_tabulate M _ [] r Hr),
      (nth_tabulate N _ [] c Hc). }
  split; [now apply on_grid_map_ijk|].
  intros e r c He Hr Hc.
  destruct (on_grid_lengths E M N _ e r Hshape He Hr) as [HMe HNe].
  exists (scale_coordinate (Z.of_nat N - 1) (Z.of_nat c)),
         (scale_coordinate (Z.of_nat M - 1) (Z.of_nat r)).
  split.
  - unfold concatenate_last at 1.
    rewrite (nth_map_ijk _ _ [] [] e r c) by (rewrite ?(proj1 Hshape); lia).
    rewrite (Hinner e r c He Hr Hc). subst ys.
    rewrite (nth_tabulate E _ [] e He), (nth_tabulate M _ [] r Hr),
      (nth_tabulate N _ [] c Hc).
    now rewrite <- app_assoc.
  - split; [|split; [|split]].
    + intros HM2. apply scale_coordinate_value. lia.
    + intros HN2. apply scale_coordinate_value. lia.
    + intros ->. apply scale_coordinate_single. lia.
    + intros ->. apply scale_coordinate_single. lia.
Qed.


Definition two_by_two_layer : list (list (list (list npfloat))) :=
  [[[[Fin 5]; [Fin 6]]; [[Fin 7]; [Fin 8]]]].

Lemma add_spatial_coords_2d_keeps_input_witness :
  exists output,
    add_spatial_coords_2d two_by_two_layer false [] = Some output /\
    on_grid 1 2 2 output /\
    forall e r c : nat,
      (e < 1)%nat -> (r < 2)%nat -> (c < 2)%nat ->
      exists x y,
        nth c (nth r (nth e output []) []) [] =
        nth c (nth r (nth e two_by_two_layer []) []) [] ++ [x; y] /\
        ((2 <= 2)%nat ->
         is_value y (2 * inject_Z (Z.of_nat r) / inject_Z (Z.of_nat 2 - 1) - 1)) /\
        ((2 <= 2)%nat ->
         is_value x (2 * inject_Z (Z.of_nat c) / inject_Z (Z.of_nat 2 - 1) - 1)) /\
        (2%nat = 1%nat -> y = NaN) /\ (2%nat = 1%nat -> x = NaN).
Proof.
  apply (add_spatial_coords_2d_keeps_input two_by_two_layer [] 1 2 2); try lia.
  split; [reflexivity|]. repeat constructor.
Defined.

End CoordConv.

(** * custom_losses.py and machine_learning/custom_losses.py *)

Module CustomLosses.

(** ** Arithmetic on floats that may be NaN or infinite *)

Definition npf_divide (x y : npfloat) : npfloat :=
  match x, y with
  | NaN, _ | _, NaN => NaN
  | Fin a, Fin b => np_divide a b
  | Fin _, (PosInf | NegInf) => Fin 0
  | (PosInf | NegInf), (PosInf | NegInf) => NaN
  | PosInf, Fin b => if Qlt_bool b 0 then NegInf else PosInf
  | NegInf, Fin b => if Qlt_bool b 0 then PosInf else NegInf
  end.

(** [1. - x] *)
Definition one_minus (x : npfloat) : npfloat :=
  match x with
  | Fin q => Fin (1 - q)
  | PosInf => NegInf
  | NegInf => PosInf
  | NaN => NaN
  end.

(** ** Tensors of shape examples x rows x columns x channels *)

Definition tensor : Type := list (list (list (list Q))).

Definition flatten (x : tensor) : list Q := concat (concat (concat x)).

(** [K.mean(x)]: NaN for a tensor without entries. *)
Definition K_mean (x : tensor) : npfloat :=
  np_divide (Qsum (flatten x)) (inject_Z (Z.of_nat (length (flatten x)))).

Definition zip_with {A B C : Type} (f : A -> B -> C) (a : list A) (b : list B)
  : list C :=
  map (fun '(x, y) => f x y) (combine a b).

(** An entrywise operation on two tensors of one shape. *)
Definition entrywise (f : Q -> Q -> Q) (a b : tensor) : tensor :=
  zip_with (zip_with (zip_with (zip_with f))) a b.

Definition square (x : tensor) : tensor := CoordConv.map4 (fun v => v * v) x.

(** Entry [(zi, zj, c)] of one example, zero outside the grid. *)
Definition get3_pad (example : list (list (list Q))) (zi zj : Z) (c : nat) : Q :=
  if ((0 <=? zi)%Z && (zi <? Z.of_nat (length example))%Z &&
      (0 <=? zj)%Z && (zj <? Z.of_nat (num_columns example))%Z)%bool
  then get3 0 example (Z.to_nat zi) (Z.to_nat zj) c
  else 0.

(** [K.conv2d(x, kernel, padding, strides=(1, 1),
    data_format='channels_last')] for a kernel of shape rows x columns x
    input channels x output channels; [pad_edges] selects ['same'] padding
    instead of ['valid'].  The tensor has as many channels as the kernel
    has input channels. *)
Definition K_conv2d (x : tensor) (kernel : tensor) (pad_edges : bool) : tensor :=
  let kernel_rows := length kernel in
  let kernel_columns := num_columns kernel in
  let in_channels := num_heights kernel in
  let out_channels := length (get3 [] kernel 0 0 0) in
  map (fun example =>
         let num_rows := length example in
         let num_columns := num_columns example in
         let out_rows := if pad_edges then num_rows else (num_rows + 1 - kernel_rows)%nat in
         let out_columns :=
           if pad_edges then num_columns else (num_columns + 1 - kernel_columns)%nat in
         let top := if pad_edges then ((kernel_rows - 1) / 2)%nat else 0%nat in
         let left := if pad_edges then ((kernel_columns - 1) / 2)%nat else 0%nat in
         tabulate out_rows (fun i =>
           tabulate out_columns (fun j =>
             tabulate out_channels (fun co =>
               Qsum (concat (concat
                 (tabulate kernel_rows (fun di =>
                    tabulate kernel_columns (fun dj =>
                      tabulate in_channels (fun ci =>
                        get3_pad example
                          (Z.of_nat i + Z.of_nat di - Z.of_nat top)
                          (Z.of_nat j + Z.of_nat dj - Z.of_nat left) ci *
                        nth co (get3 [] kernel di dj ci) 0))))))))))
      x.

(** [_create_mean_filter], and [general_utils.create_mean_filter] as
    section 4.2 of the specification describes it; [None] stands for a
    failed assertion. *)
Definition _create_mean_filter (half_num_rows half_num_columns num_channels : Z)
  : option tensor :=
  if ((0 <=? half_num_rows)%Z && (0 <=? half_num_columns)%Z &&
      (0 <? num_channels)%Z)%bool
  then
    let num_rows := (2 * half_num_rows + 1)%Z in
    let num_columns := (2 * half_num_columns + 1)%Z in
    let weight := 1 / inject_Z (num_rows * num_columns) in
    Some (tabulate (Z.to_nat num_rows) (fun _ =>
            tabulate (Z.to_nat num_columns) (fun _ =>
              tabulate (Z.to_nat num_channels) (fun _ =>
                tabulate (Z.to_nat num_channels) (fun _ => weight)))))
  else None.

Definition actual_mse (weight_matrix : tensor) (test_mode : bool)
  (target_tensor prediction_tensor : tensor) : npfloat :=
  let smoothed_target_tensor := K_conv2d target_tensor weight_matrix test_mode in
  let smoothed_prediction_tensor :=
    K_conv2d prediction_tensor weight_matrix test_mode in
  K_mean (square (entrywise Qminus smoothed_target_tensor smoothed_prediction_tensor)).

Definition reference_mse (weight_matrix : tensor) (test_mode : bool)
  (target_tensor prediction_tensor : tensor) : npfloat :=
  let smoothed_target_tensor := K_conv2d target_tensor weight_matrix test_mode in
  let smoothed_prediction_tensor :=
    K_conv2d prediction_tensor weight_matrix test_mode in
  K_mean (entrywise Qplus (square smoothed_target_tensor)
                          (square smoothed_prediction_tensor)).

(** The inner function [loss] of [fractions_skill_score]. *)
Definition loss (weight_matrix : tensor) (use_as_loss_function test_mode : bool)
  (target_tensor prediction_tensor : tensor) : npfloat :=
  let actual := actual_mse weight_matrix test_mode target_tensor prediction_tensor in
  let reference :=
    reference_mse weight_matrix test_mode target_tensor prediction_tensor in
  if use_as_loss_function then npf_divide actual reference
  else one_minus (npf_divide actual reference).

(** [fractions_skill_score] of both modules (the second one only adds a
    name to the function it returns). *)
Definition fractions_skill_score (half_window_size_px : Z)
  (use_as_loss_function test_mode : bool)
  : option (tensor -> tensor -> npfloat) :=
  match _create_mean_filter half_window_size_px half_window_size_px 1 with
  | Some weight_matrix => Some (loss weight_matrix use_as_loss_function test_mode)
  | None => None
  end.

(** ** A forecast compared with itself *)

Lemma zip_with_diag {A B : Type} (f : A -> A -> B) (a : list A) :
  zip_with f a a = map (fun v => f v v) a.
Proof.
  unfold zip_with. induction a as [|x a IH]; [reflexivity|].
  cbn [combine map]. now rewrite IH.
Qed.

Lemma entrywise_diag (f : Q -> Q -> Q) (s : tensor) :
  entrywise f s s = CoordConv.map4 (fun v => f v v) s.
Proof.
  unfold entrywise, CoordConv.map4.
  rewrite zip_with_diag. apply map_ext. intros a.
  rewrite zip_with_diag. apply map_ext. intros b.
  rewrite zip_with_diag. apply map_ext. intros c.
  apply zip_with_diag.
Qed.

Lemma map4_map4 (f g : Q -> Q) (s : tensor) :
  CoordConv.map4 f (CoordConv.map4 g s) = CoordConv.map4 (fun v => f (g v)) s.
Proof.
  unfold CoordConv.map4. rewrite map_map. apply map_ext. intros a.
  rewrite map_map. apply map_ext. intros b.
  rewrite map_map. apply map_ext. intros c.
  apply map_map.
Qed.

Lemma flatten_map4 (f : Q -> Q) (s : tensor) :
  flatten (CoordConv.map4 f s) = map f (flatten s).
Proof.
  unfold flatten, CoordConv.map4.
  rewrite !List.concat_map. reflexivity.
Qed.

Lemma Qsum_map_zero (f : Q -> Q) (l : list Q) :
  (forall v, f v == 0) -> Qsum (map f l) == 0.
Proof.
  intros H. induction l as [|v l IH]; cbn [map Qsum]; [reflexivity|].
  rewrite H, IH. reflexivity.
Qed.

Lemma np_divide_zero_numerator (a b : Q) :
  a == 0 ->
  if Qeq_bool b 0 then np_divide a b = NaN else is_value (np_divide a b) 0.
Proof.
  intros Ha. unfold np_divide.
  destruct (Qeq_bool b 0) eqn:Hb.
  - assert (Ha' : Qeq_bool a 0 = true) by now apply Qeq_bool_iff.
    now rewrite Ha'.
  - cbn [is_value]. rewrite Ha. apply Qeq_bool_neq in Hb. now field.
Qed.

(** The heart of C6: for every smoothed field [s], the ratio of the mean
    of [(s - s)^2] to the mean of [s^2 + s^2] is 0 when the latter is a
    non-zero number, and NaN otherwise. *)
Lemma ratio_of_identical_fields (s : tensor) :
  let actual := K_mean (square (entrywise Qminus s s)) in
  let reference := K_mean (entrywise Qplus (square s) (square s)) in
  match reference with
  | Fin r =>
      if Qeq_bool r 0 then npf_divide actual reference = NaN
      else is_value (npf_divide actual reference) 0
  | _ => npf_divide actual reference = NaN
  end.
Proof.
  cbv zeta. unfold square, K_mean.
  rewrite !entrywise_diag, !map4_map4, !flatten_map4, !length_map.
  set (n := inject_Z (Z.of_nat (length (flatten s)))).
  assert (Hzero : Qsum (map (fun v => (v - v) * (v - v)) (flatten s)) == 0)
    by (apply Qsum_map_zero; intros v; ring).
  set (a := Qsum (map (fun v => (v - v) * (v - v)) (flatten s))) in *.
  set (r := Qsum (map (fun v => v * v + v * v) (flatten s))).
  pose proof (np_divide_zero_numerator a n Hzero) as Hactual.
  destruct (Qeq_bool n 0) eqn:Hn.
  - rewrite Hactual.
    destruct (np_divide r n) as [q| | |] eqn:Href; try reflexivity.
    unfold np_divide in Href. rewrite Hn in Href.
    destruct (Qeq_bool r 0); [discriminate|].
    destruct (Qlt_bool 0 r); discriminate.
  - assert (Ha : np_divide a n = Fin (a / n))
      by (unfold np_divide; now rewrite Hn).
    assert (Hr : np_divide r n = Fin (r / n))
      by (unfold np_divide; now rewrite Hn).
    rewrite Ha in *. rewrite Hr. cbn [npf_divide]. cbn [is_value] in Hactual.
    exact (np_divide_zero_numerator (a / n) (r / n) Hactual).
Qed.

(** C6, as amended.  For every half-window size and every tensor [t]:
    when the reference MSE of [(t, t)] is a non-zero number, the loss is
    exactly 0 and the FSS exactly 1; when it is zero (for instance for a
    tensor of zeros) or the smoothed field is empty, both are NaN.  The
    factory itself fails exactly for a negative half-window size. *)
Theorem fss_of_identical_tensors (half_window_size_px : Z) (test_mode : bool)
  (t : tensor) :
  match fractions_skill_score half_window_size_px true test_mode,
        fractions_skill_score half_window_size_px false test_mode,
        _create_mean_filter half_window_size_px half_window_size_px 1 with
  | Some as_loss, Some as_score, Some weight_matrix =>
      match reference_mse weight_matrix test_mode t t with
      | Fin r =>
          if Qeq_bool r 0 then as_loss t t = NaN /\ as_score t t = NaN
          else is_value (as_loss t t) 0 /\ is_value (as_score t t) 1
      | _ => as_loss t t = NaN /\ as_score t t = NaN
      end
  | None, None, None => (half_window_size_px < 0)%Z
  | _, _, _ => False
  end.
Proof.
  unfold fractions_skill_score.
  destruct (_create_mean_filter half_window_size_px half_window_size_px 1)
    as [weight_matrix|] eqn:Hfilter.
  - unfold loss, reference_mse, actual_mse.
    pose proof (ratio_of_identical_fields (K_conv2d t weight_matrix test_mode)) as H.
    cbv zeta in H.
    destruct (K_mean (entrywise Qplus _ _)) as [r| | |].
    + destruct (Qeq_bool r 0).
      * rewrite H. split; reflexivity.
      * destruct (npf_divide _ _) as [q| | |]; cbn [is_value] in H; try contradiction.
        cbn [one_minus is_value]. split; [exact H | rewrite H; ring].
    + rewrite H. split; reflexivity.
    + rewrite H. split; reflexivity.
    + rewrite H. split; reflexivity.
  - unfold _create_mean_filter in Hfilter.
    destruct (0 <=? half_window_size_px)%Z eqn:Hk; [discriminate|].
    apply Z.leb_gt in Hk. exact Hk.
Qed.

(** C6 as stated: loss 0 and score 1 for every tensor. *)
Definition fss_roundtrip_as_claimed : Prop :=
  forall (half_window_size_px : Z) (t : tensor),
    match fractions_skill_score half_window_size_px true false,
          fractions_skill_score half_window_size_px false false with
    | Some as_loss, Some as_score =>
        is_value (as_loss t t) 0 /\ is_value (as_score t t) 1
    | _, _ => False
    end.

(** One example of 3 x 3 pixels without convection. *)
Definition no_convection : tensor :=
  [[[[0]; [0]; [0]]; [[0]; [0]; [0]]; [[0]; [0]; [0]]]].

Lemma fss_of_no_convection :
  option_map (fun f => f no_convection no_convection)
             (fractions_skill_score 1 true false) = Some NaN /\
  option_map (fun f => f no_convection no_convection)
             (fractions_skill_score 1 false false) = Some NaN.
Proof. split; reflexivity. Qed.

Lemma fss_roundtrip_counterexample : ~ fss_roundtrip_as_claimed.
Proof.
  intros H. specialize (H 1%Z no_convection).
  destruct fss_of_no_convection as [Hloss _].
  destruct (fractions_skill_score 1 true false) as [f|]; [|exact H].
  destruct (fractions_skill_score 1 false false) as [g|]; [|exact H].
  cbn [option_map] in Hloss. injection Hloss as Hloss.
  rewrite Hloss in H. destruct H as [H _]. exact H.
Qed.

(** ** The range of the score *)

(** The entries of two tensors of one shape, paired place by place. *)
Definition pairs4 (a b : tensor) : list (Q * Q) :=
  concat (concat (concat (zip_with (zip_with (zip_with (zip_with pair))) a b))).

Lemma zip_with_map {A B C D : Type} (F : A -> B -> C) (G : A -> B -> D)
  (phi : D -> C) (a : list A) (b : list B) :
  (forall x y, F x y = phi (G x y)) ->
  zip_with F a b = map phi (zip_with G a b).
Proof.
  intros H. unfold zip_with. rewrite map_map. apply map_ext.
  intros [x y]. apply H.
Qed.

Lemma zip_with_of_maps {A B C A' B' : Type} (F : A' -> B' -> C) (u : A -> A')
  (v : B -> B') (a : list A) (b : list B) :
  zip_with F (map u a) (map v b) = zip_with (fun x y => F (u x) (v y)) a b.
Proof.
  unfold zip_with. revert b. induction a as [|x a IH]; intros [|y b];
    cbn [map combine]; try reflexivity.
  now rewrite IH.
Qed.

Lemma zip_with_ext {A B C : Type} (F G : A -> B -> C) (a : list A) (b : list B) :
  (forall x y, F x y = G x y) -> zip_with F a b = zip_with G a b.
Proof.
  intros H. unfold zip_with. apply map_ext. intros [x y]. apply H.
Qed.

Lemma flatten_entrywise (f : Q -> Q -> Q) (a b : tensor) :
  flatten (entrywise f a b) = map (fun p => f (fst p) (snd p)) (pairs4 a b).
Proof.
  unfold flatten, entrywise, pairs4.
  rewrite (zip_with_map _ (zip_with (zip_with (zip_with pair)))
             (map (map (map (fun p => f (fst p) (snd p)))))).
  - now rewrite !List.concat_map.
  - intros x y.
    apply (zip_with_map _ (zip_with (zip_with pair))
             (map (map (fun p => f (fst p) (snd p))))).
    intros x' y'.
    apply (zip_with_map _ (zip_with pair) (map (fun p => f (fst p) (snd p)))).
    intros x'' y''.
    now apply (zip_with_map _ pair (fun p => f (fst p) (snd p))).
Qed.

Lemma entrywise_of_squares (f : Q -> Q -> Q) (a b : tensor) :
  entrywise f (square a) (square b) =
  entrywise (fun x y => f (x * x) (y * y)) a b.
Proof.
  unfold entrywise, square, CoordConv.map4.
  rewrite zip_with_of_maps. apply zip_with_ext. intros x y.
  rewrite zip_with_of_maps. apply zip_with_ext. intros x' y'.
  rewrite zip_with_of_maps. apply zip_with_ext. intros x'' y''.
  apply zip_with_of_maps.
Qed.

(** Both mean squared errors are sums over the same pairs, divided by
    their number. *)
Lemma mean_squared_errors (sa sb : tensor) :
  K_mean (square (entrywise Qminus sa sb)) =
  np_divide
    (Qsum (map (fun p => (fst p - snd p) * (fst p - snd p)) (pairs4 sa sb)))
    (inject_Z (Z.of_nat (length (pairs4 sa sb)))) /\
  K_mean (entrywise Qplus (square sa) (square sb)) =
  np_divide
    (Qsum (map (fun p => fst p * fst p + snd p * snd p) (pairs4 sa sb)))
    (inject_Z (Z.of_nat (length (pairs4 sa sb)))).
Proof.
  unfold K_mean, square. split.
  - rewrite flatten_map4, flatten_entrywise, map_map, !length_map. reflexivity.
  - fold (square sa). fold (square sb).
    rewrite entrywise_of_squares, flatten_entrywise, !length_map. reflexivity.
Qed.

Lemma Forall_zip_with {A B C : Type} (PA : A -> Prop) (PB : B -> Prop)
  (PC : C -> Prop) (F : A -> B -> C) (a : list A) (b : list B) :
  (forall x y, PA x -> PB y -> PC (F x y)) ->
  Forall PA a -> Forall PB b -> Forall PC (zip_with F a b).
Proof.
  intros H Ha. revert b. unfold zip_with.
  induction Ha as [|x a Hx Ha IH]; intros b Hb; [constructor|].
  destruct Hb as [|y b Hy Hb]; [constructor|].
  cbn [combine map]. constructor; [now apply H | now apply IH].
Qed.

Definition nonnegative4 (x : tensor) : Prop :=
  Forall (Forall (Forall (Forall (fun v => 0 <= v)))) x.

Lemma pairs4_nonnegative (a b : tensor) :
  nonnegative4 a -> nonnegative4 b ->
  Forall (fun p => 0 <= fst p /\ 0 <= snd p) (pairs4 a b).
Proof.
  intros Ha Hb. unfold pairs4.
  do 3 apply Forall_concat.
  eapply Forall_zip_with; [|exact Ha|exact Hb]. intros x y Hx Hy.
  eapply Forall_zip_with; [|exact Hx|exact Hy]. intros x' y' Hx' Hy'.
  eapply Forall_zip_with; [|exact Hx'|exact Hy']. intros x'' y'' Hx'' Hy''.
  eapply Forall_zip_with; [|exact Hx''|exact Hy'']. intros v w Hv Hw.
  cbn [fst snd]. split; assumption.
Qed.

Lemma Qsum_nonnegative (l : list Q) : Forall (fun v => 0 <= v) l -> 0 <= Qsum l.
Proof.
  intros H. induction H as [|v l Hv H IH]; cbn [Qsum]; lra.
Qed.

Lemma nth_nonnegative (l : list Q) (k : nat) :
  Forall (fun v => 0 <= v) l -> 0 <= nth k l 0.
Proof.
  intros H. destruct (Nat.lt_ge_cases k (length l)) as [Hk|Hk].
  - rewrite List.Forall_forall in H. apply H, nth_In, Hk.
  - rewrite nth_overflow by exact Hk. lra.
Qed.

Lemma nth_Forall {A : Type} (P : A -> Prop) (x : list (list A)) (k : nat) :
  Forall (Forall P) x -> Forall P (nth k x []).
Proof.
  intros H. destruct (Nat.lt_ge_cases k (length x)) as [Hk|Hk].
  - rewrite List.Forall_forall in H. apply H, nth_In, Hk.
  - rewrite nth_overflow by exact Hk. constructor.
Qed.

Lemma get3_pad_nonnegative (example : list (list (list Q))) (zi zj : Z) (c : nat) :
  Forall (Forall (Forall (fun v => 0 <= v))) example ->
  0 <= get3_pad example zi zj c.
Proof.
  intros H. unfold get3_pad. destruct (_ && _ && _ && _)%bool; [|lra].
  unfold get3. apply nth_nonnegative. do 2 apply nth_Forall. exact H.
Qed.

(** Smoothing with non-negative weights keeps a field non-negative. *)
Lemma K_conv2d_nonnegative (x kernel : tensor) (pad_edges : bool) :
  nonnegative4 x -> nonnegative4 kernel ->
  nonnegative4 (K_conv2d x kernel pad_edges).
Proof.
  intros Hx Hk. unfold nonnegative4, K_conv2d in *.
  rewrite List.Forall_forall in Hx. apply List.Forall_forall.
  intros smoothed Hin. apply List.in_map_iff in Hin.
  destruct Hin as (example & <- & Hin). specialize (Hx _ Hin).
  apply StandaloneUtils.Forall_tabulate. intros i _.
  apply StandaloneUtils.Forall_tabulate. intros j _.
  apply StandaloneUtils.Forall_tabulate. intros co _.
  apply Qsum_nonnegative. do 2 apply Forall_concat.
  apply StandaloneUtils.Forall_tabulate. intros di _.
  apply StandaloneUtils.Forall_tabulate. intros dj _.
  apply StandaloneUtils.Forall_tabulate. intros ci _.
  apply Qmult_le_0_compat; [now apply get3_pad_nonnegative|].
  apply nth_nonnegative. unfold get3. do 3 apply nth_Forall. exact Hk.
Qed.

Lemma mean_filter_nonnegative (half_num_rows half_num_columns num_channels : Z)
  (weight_matrix : tensor) :
  _create_mean_filter half_num_rows half_num_columns num_channels =
  Some weight_matrix ->
  nonnegative4 weight_matrix.
Proof.
  unfold _create_mean_filter.
  destruct (_ && _ && _)%bool eqn:Hargs; [|discriminate].
  rewrite !andb_true_iff, !Z.leb_le in Hargs. destruct Hargs as [[Hr Hc] _].
  intros H. injection H as <-.
  do 4 (apply StandaloneUtils.Forall_tabulate; intros ? _).
  apply Qle_shift_div_l.
  - change 0 with (inject_Z 0). rewrite <- Zlt_Qlt. nia.
  - lra.
Qed.

(** A ratio of two means over the same pairs, the first sum between 0
    and the second: NaN, or a number between 0 and 1. *)
Lemma ratio_in_unit_interval (a r n : Q) :
  0 <= a -> a <= r -> 0 <= n ->
  npf_divide (np_divide a n) (np_divide r n) = NaN \/
  exists q, npf_divide (np_divide a n) (np_divide r n) = Fin q /\
            0 <= q /\ q <= 1.
Proof.
  intros Ha Har Hn. unfold np_divide.
  destruct (Qeq_bool n 0) eqn:Hn0.
  - left. destruct (Qeq_bool a 0) eqn:Ha0; [reflexivity|].
    apply Qeq_bool_neq in Ha0.
    assert (Hpos : Qlt_bool 0 a = true).
    { unfold Qlt_bool. apply negb_true_iff. apply not_true_iff_false.
      intros Hle. apply Qle_bool_iff in Hle. apply Ha0. lra. }
    rewrite Hpos.
    destruct (Qeq_bool r 0) eqn:Hr0.
    + apply Qeq_bool_iff in Hr0. exfalso. apply Ha0. lra.
    + apply Qeq_bool_neq in Hr0.
      assert (Hrpos : Qlt_bool 0 r = true).
      { unfold Qlt_bool. apply negb_true_iff. apply not_true_iff_false.
        intros Hle. apply Qle_bool_iff in Hle. apply Hr0. lra. }
      rewrite Hrpos. reflexivity.
  - apply Qeq_bool_neq in Hn0. assert (Hnpos : 0 < n) by lra.
    cbn [npf_divide]. unfold np_divide.
    assert (Hinv : 0 < / n) by now apply Qinv_lt_0_compat.
    assert (Han : 0 <= a / n) by (unfold Qdiv; nra).
    assert (Hrn : a / n <= r / n) by (unfold Qdiv; nra).
    destruct (Qeq_bool (r / n) 0) eqn:Hr0.
    + left. apply Qeq_bool_iff in Hr0.
      assert (Hz : a / n == 0) by lra. apply Qeq_bool_iff in Hz. now rewrite Hz.
    + right. apply Qeq_bool_neq in Hr0. assert (Hrpos : 0 < r / n) by lra.
      eexists. split; [reflexivity|].
      split.
      * apply Qle_shift_div_l; [exact Hrpos | lra].
      * apply Qle_shift_div_r; [exact Hrpos | lra].
Qed.

Lemma Qsum_le (f g : Q * Q -> Q) (l : list (Q * Q)) (P : Q * Q -> Prop) :
  (forall p, P p -> 0 <= f p /\ f p <= g p) -> Forall P l ->
  0 <= Qsum (map f l) /\ Qsum (map f l) <= Qsum (map g l).
Proof.
  intros H Hl. induction Hl as [|p l Hp Hl [IH0 IH]]; cbn [map Qsum].
  - split; lra.
  - destruct (H p Hp). split; lra.
Qed.

Lemma squared_difference_bounds (a b : Q) :
  0 <= a -> 0 <= b -> 0 <= (a - b) * (a - b) /\ (a - b) * (a - b) <= a * a + b * b.
Proof.
  intros H1 H2. pose proof (Qmult_le_0_compat a b H1 H2) as H.
  split.
  - destruct (Qlt_le_dec a b) as [Hlt|Hge].
    + assert (E : (a - b) * (a - b) == (b - a) * (b - a)) by ring.
      rewrite E.
      apply Qmult_le_0_compat; lra.
    + apply Qmult_le_0_compat; lra.
  - assert (E : (a - b) * (a - b) == a * a + b * b - 2 * (a * b)) by ring.
    rewrite E.
    lra.
Qed.

(** X14. The score that [fractions_skill_score] returns lies between 0 and 1
    on tensors without negative entries, in both orientations, and is NaN
    otherwise (both smoothed fields zero, or no grid point left). *)
Theorem fss_between_zero_and_one (half_window_size_px : Z)
  (use_as_loss_function test_mode : bool) (score : tensor -> tensor -> npfloat)
  (target_tensor prediction_tensor : tensor) :
  fractions_skill_score half_window_size_px use_as_loss_function test_mode =
  Some score ->
  nonnegative4 target_tensor -> nonnegative4 prediction_tensor ->
  score target_tensor prediction_tensor = NaN \/
  exists q, score target_tensor prediction_tensor = Fin q /\ 0 <= q /\ q <= 1.
Proof.
  unfold fractions_skill_score.
  destruct (_create_mean_filter _ _ _) as [weight_matrix|] eqn:Hfilter;
    [|discriminate].
  intros H Ht Hp. injection H as <-.
  pose proof (mean_filter_nonnegative _ _ _ _ Hfilter) as Hw.
  unfold loss, actual_mse, reference_mse.
  set (sa := K_conv2d target_tensor weight_matrix test_mode).
  set (sb := K_conv2d prediction_tensor weight_matrix test_mode).
  destruct (mean_squared_errors sa sb) as [-> ->].
  assert (Hpairs : Forall (fun p => 0 <= fst p /\ 0 <= snd p) (pairs4 sa sb)).
  { apply pairs4_nonnegative; now apply K_conv2d_nonnegative. }
  destruct (Qsum_le (fun p => (fst p - snd p) * (fst p - snd p))
              (fun p => fst p * fst p + snd p * snd p) (pairs4 sa sb) (fun p => 0 <= fst p /\ 0 <= snd p)
              ltac:(intros [a b] [H1 H2];
                    now apply squared_difference_bounds) Hpairs) as [H0 Hle].
  assert (Hn : 0 <= inject_Z (Z.of_nat (length (pairs4 sa sb)))).
  { change 0 with (inject_Z 0). rewrite <- Zle_Qle. lia. }
  destruct (ratio_in_unit_interval _ _ _ H0 Hle Hn) as [Hnan|(q & Hq & Hq0 & Hq1)].
  - left. rewrite Hnan. now destruct use_as_loss_function.
  - right. rewrite Hq. destruct use_as_loss_function.
    + exists q. auto.
    + exists (1 - q). cbn [one_minus]. split; [reflexivity | split; lra].
Qed.

Definition observed_3x3 : tensor :=
  [[[[0]; [1]; [1]]; [[0]; [1]; [0]]; [[0]; [0]; [0]]]].

Definition forecast_3x3 : tensor :=
  [[[[1 # 2]; [1 # 2]; [0]]; [[0]; [1]; [0]]; [[0]; [0]; [1 # 4]]]].

Lemma fss_between_zero_and_one_witness :
  exists score,
    fractions_skill_score 1 false true = Some score /\
    (score observed_3x3 forecast_3x3 = NaN \/
     exists q, score observed_3x3 forecast_3x3 = Fin q /\ 0 <= q /\ q <= 1).
Proof.
  eexists. split; [reflexivity|].
  apply (fss_between_zero_and_one 1 false true _ observed_3x3 forecast_3x3).
  - reflexivity.
  - repeat constructor; discriminate.
  - repeat constructor; discriminate.
Defined.

(** ** The symmetry of the score *)

(** Two floats that stand for one number. *)
Definition same_float (x y : npfloat) : Prop :=
  match x, y with
  | Fin a, Fin b => a == b
  | PosInf, PosInf | NegInf, NegInf | NaN, NaN => True
  | _, _ => False
  end.

Lemma zip_with_swap {A B C : Type} (F : B -> A -> C) (a : list A) (b : list B) :
  zip_with F b a = zip_with (fun x y => F y x) a b.
Proof.
  unfold zip_with. revert b. induction a as [|x a IH]; intros [|y b];
    cbn [map combine]; try reflexivity.
  now rewrite IH.
Qed.

Lemma pairs4_swap (a b : tensor) :
  pairs4 b a = map (fun p => (snd p, fst p)) (pairs4 a b).
Proof.
  unfold pairs4. rewrite zip_with_swap.
  rewrite (zip_with_map _ (zip_with (zip_with (zip_with pair)))
             (map (map (map (fun p : Q * Q => (snd p, fst p)))))).
  - now rewrite !List.concat_map.
  - intros x y. rewrite zip_with_swap.
    apply (zip_with_map _ (zip_with (zip_with pair))
             (map (map (fun p : Q * Q => (snd p, fst p))))).
    intros x' y'. rewrite zip_with_swap.
    apply (zip_with_map _ (zip_with pair) (map (fun p : Q * Q => (snd p, fst p)))).
    intros x'' y''. rewrite zip_with_swap.
    now apply (zip_with_map _ pair (fun p : Q * Q => (snd p, fst p))).
Qed.

Lemma Qsum_map_ext (f g : Q * Q -> Q) (l : list (Q * Q)) :
  (forall p, f p == g p) -> Qsum (map f l) == Qsum (map g l).
Proof.
  intros H. induction l as [|p l IH]; cbn [map Qsum]; [reflexivity|].
  now rewrite IH, (H p).
Qed.

Lemma Qeq_bool_compat (a a' : Q) : a == a' -> Qeq_bool a 0 = Qeq_bool a' 0.
Proof.
  intros H. destruct (Qeq_bool a 0) eqn:E, (Qeq_bool a' 0) eqn:E'; try reflexivity.
  - apply Qeq_bool_iff in E. apply Qeq_bool_neq in E'. lra.
  - apply Qeq_bool_iff in E'. apply Qeq_bool_neq in E. lra.
Qed.

Lemma Qlt_bool_sides (a a' b b' : Q) :
  a == a' -> b == b' -> Qlt_bool a b = Qlt_bool a' b'.
Proof. intros Ha Hb. unfold Qlt_bool. now rewrite Ha, Hb. Qed.

Lemma np_divide_compat (a a' b b' : Q) :
  a == a' -> b == b' -> same_float (np_divide a b) (np_divide a' b').
Proof.
  intros Ha Hb. unfold np_divide.
  rewrite <- (Qeq_bool_compat _ _ Hb), <- (Qeq_bool_compat _ _ Ha).
  destruct (Qeq_bool b 0); [|cbn; now rewrite Ha, Hb].
  destruct (Qeq_bool a 0); [exact I|].
  rewrite <- (Qlt_bool_sides 0 0 a a' (Qeq_refl 0) Ha).
  now destruct (Qlt_bool 0 a).
Qed.

Lemma npf_divide_compat (x x' y y' : npfloat) :
  same_float x x' -> same_float y y' ->
  same_float (npf_divide x y) (npf_divide x' y').
Proof.
  destruct x, x', y, y'; cbn; try tauto; intros Hx Hy;
    try (now apply np_divide_compat); try reflexivity;
    rewrite <- (Qlt_bool_sides _ _ 0 0 Hy (Qeq_refl 0)); now destruct (Qlt_bool _ 0).
Qed.

Lemma one_minus_compat (x x' : npfloat) :
  same_float x x' -> same_float (one_minus x) (one_minus x').
Proof. destruct x, x'; cbn; try tauto. intros ->. reflexivity. Qed.

(** X15. The inner function [loss] of [fractions_skill_score] gives the same
    number when the target and the prediction tensors are exchanged,
    whatever the filter, the orientation and the padding. *)
Theorem fss_is_symmetric (weight_matrix : tensor)
  (use_as_loss_function test_mode : bool)
  (target_tensor prediction_tensor : tensor) :
  same_float
    (loss weight_matrix use_as_loss_function test_mode target_tensor prediction_tensor)
    (loss weight_matrix use_as_loss_function test_mode prediction_tensor target_tensor).
Proof.
  unfold loss, actual_mse, reference_mse.
  set (sa := K_conv2d target_tensor weight_matrix test_mode).
  set (sb := K_conv2d prediction_tensor weight_matrix test_mode).
  destruct (mean_squared_errors sa sb) as [-> ->].
  destruct (mean_squared_errors sb sa) as [-> ->].
  rewrite (pairs4_swap sa sb), !map_map, !length_map. cbn [fst snd].
  assert (H : same_float
    (npf_divide
       (np_divide (Qsum (map (fun p => (fst p - snd p) * (fst p - snd p)) (pairs4 sa sb)))
          (inject_Z (Z.of_nat (length (pairs4 sa sb)))))
       (np_divide (Qsum (map (fun p => fst p * fst p + snd p * snd p) (pairs4 sa sb)))
          (inject_Z (Z.of_nat (length (pairs4 sa sb))))))
    (npf_divide
       (np_divide (Qsum (map (fun p => (snd p - fst p) * (snd p - fst p)) (pairs4 sa sb)))
          (inject_Z (Z.of_nat (length (pairs4 sa sb)))))
       (np_divide (Qsum (map (fun p => snd p * snd p + fst p * fst p) (pairs4 sa sb)))
          (inject_Z (Z.of_nat (length (pairs4 sa sb))))))).
  { apply npf_divide_compat; apply np_divide_compat; try reflexivity;
      apply Qsum_map_ext; intros p; ring. }
  destruct use_as_loss_function; [exact H | now apply one_minus_compat].
Qed.

(** ** The mean filter computes means *)

(** A batch of single-channel fields of [M] rows and [N] columns with
    values between [lo] and [hi]. *)
Definition single_channel_grid (M N : nat) (lo hi : Q) (x : tensor) : Prop :=
  Forall (fun example =>
            length example = M /\
            Forall (fun row =>
                      length row = N /\
                      Forall (fun pixel => exists v, pixel = [v] /\ lo <= v /\ v <= hi)
                             row)
                   example)
         x.

Lemma length_concat_uniform {A : Type} (m : nat) (l : list (list A)) :
  Forall (fun y => length y = m) l -> length (concat l) = (length l * m)%nat.
Proof.
  intros H. induction H as [|y l Hy H IH]; [reflexivity|].
  cbn [concat length]. rewrite length_app, Hy, IH. lia.
Qed.

(** The shape and the weights of the filter for one channel. *)
Lemma mean_filter_shape (half_num_rows half_num_columns : Z) (weight_matrix : tensor) :
  _create_mean_filter half_num_rows half_num_columns 1 = Some weight_matrix ->
  (0 <= half_num_rows)%Z /\ (0 <= half_num_columns)%Z /\
  length weight_matrix = Z.to_nat (2 * half_num_rows + 1) /\
  num_columns weight_matrix = Z.to_nat (2 * half_num_columns + 1) /\
  num_heights weight_matrix = 1%nat /\
  length (get3 [] weight_matrix 0 0 0) = 1%nat /\
  forall di dj,
    (di < Z.to_nat (2 * half_num_rows + 1))%nat ->
    (dj < Z.to_nat (2 * half_num_columns + 1))%nat ->
    nth 0%nat (get3 [] weight_matrix di dj 0) 0 =
    1 / inject_Z ((2 * half_num_rows + 1) * (2 * half_num_columns + 1)).
Proof.
  unfold _create_mean_filter.
  destruct (_ && _ && _)%bool eqn:Hargs; [|discriminate].
  rewrite !andb_true_iff, !Z.leb_le in Hargs. destruct Hargs as [[Hr Hc] _].
  intros H. injection H as <-.
  set (R := Z.to_nat (2 * half_num_rows + 1)).
  set (C := Z.to_nat (2 * half_num_columns + 1)).
  assert (HR : (0 < R)%nat) by (subst R; lia).
  assert (HC : (0 < C)%nat) by (subst C; lia).
  change (Z.to_nat 1) with 1%nat.
  split; [exact Hr|]. split; [exact Hc|].
  split; [apply length_tabulate|].
  split.
  { unfold num_columns. rewrite (nth_tabulate R _ [] 0 HR). apply length_tabulate. }
  split.
  { unfold num_heights. rewrite (nth_tabulate R _ [] 0 HR), (nth_tabulate C _ [] 0 HC).
    apply length_tabulate. }
  split.
  { unfold get3. rewrite (nth_tabulate R _ [] 0 HR), (nth_tabulate C _ [] 0 HC).
    reflexivity. }
  intros di dj Hdi Hdj. unfold get3.
  rewrite (nth_tabulate R _ [] di Hdi), (nth_tabulate C _ [] dj Hdj). reflexivity.
Qed.

(** An entry of a field inside the grid. *)
Lemma get3_pad_within (M N : nat) (lo hi : Q) (example : list (list (list Q)))
  (r c : nat) :
  length example = M ->
  Forall (fun row =>
            length row = N /\
            Forall (fun pixel => exists v, pixel = [v] /\ lo <= v /\ v <= hi) row)
         example ->
  (r < M)%nat -> (c < N)%nat ->
  lo <= get3_pad example (Z.of_nat r) (Z.of_nat c) 0 /\
  get3_pad example (Z.of_nat r) (Z.of_nat c) 0 <= hi.
Proof.
  intros HM Hrows Hr Hc.
  rewrite List.Forall_forall in Hrows.
  assert (Hrow0 : length (nth 0%nat example []) = N).
  { apply Hrows, nth_In. lia. }
  destruct (Hrows (nth r example []) ltac:(apply nth_In; lia)) as [Hlen Hpixels].
  rewrite List.Forall_forall in Hpixels.
  destruct (Hpixels (nth c (nth r example []) []) ltac:(apply nth_In; lia))
    as (v & Hpixel & Hlo & Hhi).
  unfold get3_pad, num_columns. rewrite HM, Hrow0.
  assert (Hin : ((0 <=? Z.of_nat r)%Z && (Z.of_nat r <? Z.of_nat M)%Z &&
                 (0 <=? Z.of_nat c)%Z && (Z.of_nat c <? Z.of_nat N)%Z)%bool = true).
  { rewrite !andb_true_iff, !Z.leb_le, !Z.ltb_lt. lia. }
  rewrite Hin, !Nat2Z.id. unfold get3. rewrite Hpixel. cbn [nth]. split; assumption.
Qed.

(** X29. Convolved with the filter of [_create_mean_filter] for one channel
    and without padding, as [fractions_skill_score] does outside test
    mode, a batch of single-channel fields with values between two bounds
    gives fields with values between the same bounds, one per example, on
    the grid shrunk by the half window sizes on every side: the filter
    computes means. *)
Theorem mean_filter_keeps_range (half_num_rows half_num_columns : Z)
  (weight_matrix x : tensor) (M N : nat) (lo hi : Q) :
  _create_mean_filter half_num_rows half_num_columns 1 = Some weight_matrix ->
  single_channel_grid M N lo hi x ->
  (Z.to_nat (2 * half_num_rows + 1) <= M)%nat ->
  (Z.to_nat (2 * half_num_columns + 1) <= N)%nat ->
  length (K_conv2d x weight_matrix false) = length x /\
  single_channel_grid (M + 1 - Z.to_nat (2 * half_num_rows + 1))
                      (N + 1 - Z.to_nat (2 * half_num_columns + 1)) lo hi
                      (K_conv2d x weight_matrix false).
Proof.
  intros Hfilter Hgrid HRM HCN.
  destruct (mean_filter_shape _ _ _ Hfilter)
    as (Hr & Hc & Hrows & Hcols & Hin & Hout & Hweight).
  set (R := Z.to_nat (2 * half_num_rows + 1)) in *.
  set (C := Z.to_nat (2 * half_num_columns + 1)) in *.
  set (n := inject_Z ((2 * half_num_rows + 1) * (2 * half_num_columns + 1))) in *.
  assert (Hn : 0 < n).
  { subst n. change 0 with (inject_Z 0). rewrite <- Zlt_Qlt. nia. }
  assert (Hcount : inject_Z (Z.of_nat (R * C)) == n).
  { subst n R C. rewrite Nat2Z.inj_mul, !Z2Nat.id by lia. reflexivity. }
  unfold K_conv2d. cbv zeta. rewrite Hrows, Hcols, Hin, Hout.
  split; [apply length_map|].
  unfold single_channel_grid in *.
  rewrite List.Forall_forall in Hgrid. apply List.Forall_forall.
  intros smoothed Hsmoothed. apply List.in_map_iff in Hsmoothed.
  destruct Hsmoothed as (example & <- & Hexample).
  destruct (Hgrid _ Hexample) as [HM Hexrows].
  assert (Hrow0 : length (nth 0%nat example []) = N).
  { rewrite List.Forall_forall in Hexrows. apply Hexrows, nth_In.
    assert (0 < R)%nat by (subst R; lia). lia. }
  change (length (nth 0%nat example [])) with (num_columns example) in Hrow0.
  rewrite HM, !Hrow0.
  split; [apply length_tabulate|].
  apply StandaloneUtils.Forall_tabulate. intros i Hi.
  split; [apply length_tabulate|].
  apply StandaloneUtils.Forall_tabulate. intros j Hj.
  eexists. split; [reflexivity|].
  set (terms := concat (concat _)).
  assert (Hterms : Forall (fun t => lo * (1 / n) <= t /\ t <= hi * (1 / n)) terms).
  { subst terms. do 2 apply Forall_concat.
    apply StandaloneUtils.Forall_tabulate. intros di Hdi.
    apply StandaloneUtils.Forall_tabulate. intros dj Hdj.
    apply StandaloneUtils.Forall_tabulate. intros ci Hci.
    assert (ci = 0%nat) by lia. subst ci.
    rewrite (Hweight di dj Hdi Hdj).
    replace (Z.of_nat i + Z.of_nat di - Z.of_nat 0)%Z with (Z.of_nat (i + di)) by lia.
    replace (Z.of_nat j + Z.of_nat dj - Z.of_nat 0)%Z with (Z.of_nat (j + dj)) by lia.
    destruct (get3_pad_within M N lo hi example (i + di) (j + dj) HM Hexrows
                ltac:(lia) ltac:(lia)) as [Hlo Hhi].
    assert (Hw : 0 <= 1 / n) by (apply Qle_shift_div_l; lra).
    split; apply Qmult_le_compat_r; assumption. }
  assert (Hlength : length terms = (R * C)%nat).
  { subst terms. rewrite (length_concat_uniform 1).
    - rewrite (length_concat_uniform C).
      + rewrite length_tabulate. lia.
      + apply StandaloneUtils.Forall_tabulate. intros di _. apply length_tabulate.
    - apply Forall_concat. apply StandaloneUtils.Forall_tabulate. intros di _.
      apply StandaloneUtils.Forall_tabulate. intros dj _. apply length_tabulate. }
  destruct (StandaloneUtils.Qsum_bounds _ _ _ Hterms) as [Hlo Hhi].
  rewrite Hlength, Hcount in Hlo, Hhi.
  assert (Hone : n * (1 / n) == 1) by (field; lra).
  assert (Elo : n * (lo * (1 / n)) == lo).
  { transitivity (lo * (n * (1 / n))); [ring | rewrite Hone; ring]. }
  assert (Ehi : n * (hi * (1 / n)) == hi).
  { transitivity (hi * (n * (1 / n))); [ring | rewrite Hone; ring]. }
  rewrite Elo in Hlo. rewrite Ehi in Hhi. split; assumption.
Qed.

Lemma mean_filter_keeps_range_witness :
  exists weight_matrix,
    _create_mean_filter 1 1 1 = Some weight_matrix /\
    length (K_conv2d observed_3x3 weight_matrix false) = length observed_3x3 /\
    single_channel_grid (3 + 1 - Z.to_nat (2 * 1 + 1)) (3 + 1 - Z.to_nat (2 * 1 + 1))
                        0 1 (K_conv2d observed_3x3 weight_matrix false).
Proof.
  eexists. split; [reflexivity|].
  apply (mean_filter_keeps_range 1 1 _ observed_3x3 3 3 0 1).
  - reflexivity.
  - unfold single_channel_grid, observed_3x3.
    repeat (apply List.Forall_cons || apply List.Forall_nil || split
            || reflexivity);
      eexists; (split; [reflexivity|]); split; discriminate.
  - cbn. lia.
  - cbn. lia.
Defined.

End CustomLosses.

(** * Python values, errors and the error-checking layer *)

Inductive error : Type :=
| InvalidInput
| KeyError (key : string)
| ValueError
| IndexError
| TypeError
| AssertionError.

Inductive result (A : Type) : Type :=
| Ok (a : A)
| Err (e : error).

Arguments Ok {A} a.
Arguments Err {A} e.

Definition bind {A B : Type} (c : result A) (k : A -> result B) : result B :=
  match c with
  | Ok a => k a
  | Err e => Err e
  end.

Notation "'do' x <- c ; k" := (bind c (fun x => k))
  (at level 10, x name, c at level 100, k at level 200).
Notation "'check' c ; k" := (bind c (fun _ => k))
  (at level 10, c at level 100, k at level 200).

Inductive dtype : Type := dtype_int | dtype_float | dtype_bool | dtype_object.

(** The values an option dictionary holds. *)
Inductive pyvalue : Type :=
| PyNone
| PyBool (b : bool)
| PyInt (z : Z)
| PyFloat (x : npfloat)
| PyStr (s : string)
| PyArray (dt : dtype) (shape : list nat).

Module ErrorChecking.

(** Modelled from the spec: the error-checking layer is not under src/.
    Section 4.1 describes each check as returning silently or failing
    with an InvalidInput error; the checks below are the ones that
    neural_net.py calls. *)
Definition require (holds : bool) : result unit :=
  if holds then Ok tt else Err InvalidInput.

Definition is_integer (v : pyvalue) : bool :=
  match v with
  | PyInt _ => true
  | _ => false
  end.

(** The comparison [v >= c], [v > c] or [v < c] of a real number that is
    not NaN; anything else fails the check. *)
Definition compare_number (int_test : Z -> bool) (float_test : Q -> bool)
  (at_plus_infinity at_minus_infinity : bool) (v : pyvalue) : bool :=
  match v with
  | PyInt z => int_test z
  | PyFloat (Fin q) => float_test q
  | PyFloat PosInf => at_plus_infinity
  | PyFloat NegInf => at_minus_infinity
  | _ => false
  end.

Definition is_geq (c : Z) (v : pyvalue) : bool :=
  compare_number (fun z => (c <=? z)%Z) (fun q => Qle_bool (inject_Z c) q)
                 true false v.

Definition is_greater (c : Z) (v : pyvalue) : bool :=
  compare_number (fun z => (c <? z)%Z) (fun q => Qlt_bool (inject_Z c) q)
                 true false v.

Definition is_less_than (c : Z) (v : pyvalue) : bool :=
  compare_number (fun z => (z <? c)%Z) (fun q => Qlt_bool q (inject_Z c))
                 false true v.

Definition is_numpy_array (num_dimensions : nat) (v : pyvalue) : bool :=
  match v with
  | PyArray _ shape => (length shape =? num_dimensions)%nat
  | _ => false
  end.

Definition is_integer_numpy_array (v : pyvalue) : bool :=
  match v with
  | PyArray dtype_int _ => true
  | _ => false
  end.

Definition assert_is_integer (v : pyvalue) : result unit := require (is_integer v).
Definition assert_is_geq (v : pyvalue) (c : Z) : result unit := require (is_geq c v).
Definition assert_is_greater (v : pyvalue) (c : Z) : result unit :=
  require (is_greater c v).
Definition assert_is_less_than (v : pyvalue) (c : Z) : result unit :=
  require (is_less_than c v).
Definition assert_is_numpy_array (v : pyvalue) (num_dimensions : nat) : result unit :=
  require (is_numpy_array num_dimensions v).
Definition assert_is_integer_numpy_array (v : pyvalue) : result unit :=
  require (is_integer_numpy_array v).

End ErrorChecking.

(** * Dictionaries with a time axis *)

(** [numpy.where(times == t)[0][0]]: the first index that holds [t]. *)
Fixpoint first_index_of (t : Z) (times : list Z) : option nat :=
  match times with
  | [] => None
  | u :: rest =>
      if (u =? t)%Z then Some 0%nat else option_map S (first_index_of t rest)
  end.

Fixpoint mapM {A B : Type} (f : A -> result B) (l : list A) : result (list B) :=
  match l with
  | [] => Ok []
  | a :: rest => do b <- f a; do bs <- mapM f rest; Ok (b :: bs)
  end.

(** [x[i]] for an index counted from the start. *)
Definition getitem_at {A : Type} (x : list A) (i : nat) : result A :=
  match x !! i with
  | Some v => Ok v
  | None => Err IndexError
  end.

(** [x[indices, ...]] *)
Definition take_along_time {A : Type} (x : list A) (indices : list nat)
  : result (list A) :=
  mapM (getitem_at x) indices.

Definition option_take_along_time {A : Type} (x : option (list A))
  (indices : list nat) : result (option (list A)) :=
  match x with
  | None => Ok None
  | Some matrix => do taken <- take_along_time matrix indices; Ok (Some taken)
  end.

(** The index of every desired time among the valid times. *)
Definition times_to_indices (valid_times desired_times : list Z)
  : result (list nat) :=
  mapM (fun t => match first_index_of t valid_times with
                 | Some i => Ok i
                 | None => Err IndexError
                 end)
       desired_times.

(** Concatenation along the time axis of matrices that were all read, or
    all left out. *)
Definition option_concat {A : Type} (matrices : list (option (list A)))
  : option (list A) :=
  foldr (fun matrix rest =>
           match matrix, rest with
           | Some m, Some r => Some (m ++ r)
           | _, _ => None
           end)
        (Some []) matrices.

(** The field that a dictionary holds for the time [t]. *)
Definition field_at {F : Type} (valid_times : list Z) (fields : list F) (t : Z)
  : option F :=
  match first_index_of t valid_times with
  | Some i => fields !! i
  | None => None
  end.

(** [x is not None] before [x] is used as a dictionary. *)
Definition not_none {A : Type} (x : option A) : result A :=
  match x with
  | Some a => Ok a
  | None => Err TypeError
  end.

(** * io/radar_io.py *)

Module RadarIo.

Import ExampleIo.

(** Modelled from the spec: radar_io.py is not under src/.  Section 4.6
    has it subset a loaded dictionary by index and by time; the fields
    with a time axis are taken at the indices, and the times are looked
    up among the valid times of the dictionary. *)
Definition subset_by_index (radar_dict : radar_dict) (desired_indices : list nat)
  : result ExampleIo.radar_dict :=
  do reflectivity <-
    take_along_time (composite_refl_matrix_dbz radar_dict) desired_indices;
  do valid_times <-
    take_along_time (radar_valid_times_unix_sec radar_dict) desired_indices;
  Ok {| composite_refl_matrix_dbz := reflectivity;
        radar_valid_times_unix_sec := valid_times;
        radar_latitudes_deg_n := radar_latitudes_deg_n radar_dict;
        radar_longitudes_deg_e := radar_longitudes_deg_e radar_dict |}.

Definition subset_by_time (radar_dict : radar_dict)
  (desired_times_unix_sec : list Z) : result (ExampleIo.radar_dict * list nat) :=
  do desired_indices <-
    times_to_indices (radar_valid_times_unix_sec radar_dict) desired_times_unix_sec;
  do radar_dict <- subset_by_index radar_dict desired_indices;
  Ok (radar_dict, desired_indices).

End RadarIo.

(** * io/satellite_io.py *)

Module SatelliteIo.

Import ExampleIo.

(** Modelled from the spec: satellite_io.py is not under src/.  Section
    4.7 has it subset by time and by index as radar_io.py does, and
    concatenate dictionaries along the time axis. *)
Definition subset_by_index (satellite_dict : satellite_dict)
  (desired_indices : list nat) : result ExampleIo.satellite_dict :=
  do temperatures <-
    option_take_along_time (brightness_temp_matrix_kelvins satellite_dict)
                           desired_indices;
  do counts <-
    option_take_along_time (brightness_count_matrix satellite_dict)
                           desired_indices;
  do valid_times <-
    take_along_time (sat_valid_times_unix_sec satellite_dict) desired_indices;
  Ok {| brightness_temp_matrix_kelvins := temperatures;
        brightness_count_matrix := counts;
        sat_latitudes_deg_n := sat_latitudes_deg_n satellite_dict;
        sat_longitudes_deg_e := sat_longitudes_deg_e satellite_dict;
        sat_valid_times_unix_sec := valid_times;
        band_numbers := band_numbers satellite_dict |}.

Definition subset_by_time (satellite_dict : satellite_dict)
  (desired_times_unix_sec : list Z)
  : result (ExampleIo.satellite_dict * list nat) :=
  do desired_indices <-
    times_to_indices (sat_valid_times_unix_sec satellite_dict)
                     desired_times_unix_sec;
  do satellite_dict <- subset_by_index satellite_dict desired_indices;
  Ok (satellite_dict, desired_indices).

Definition concat_data (satellite_dicts : list satellite_dict)
  : result ExampleIo.satellite_dict :=
  match satellite_dicts with
  | [] => Err ValueError
  | first :: _ =>
      Ok {| brightness_temp_matrix_kelvins :=
              option_concat (map brightness_temp_matrix_kelvins satellite_dicts);
            brightness_count_matrix :=
              option_concat (map brightness_count_matrix satellite_dicts);
            sat_latitudes_deg_n := sat_latitudes_deg_n first;
            sat_longitudes_deg_e := sat_longitudes_deg_e first;
            sat_valid_times_unix_sec :=
              concat (map sat_valid_times_unix_sec satellite_dicts);
            band_numbers := band_numbers first |}
  end.

End SatelliteIo.

(** * io/example_io.py: predictor and target files *)

Module PredictorTargetIo.

Record predictor_dict : Type := {
  predictor_matrix_unnorm : option (list (list (list (list Q))));
  predictor_matrix_norm : option (list (list (list (list Q))));
  predictor_matrix_unif_norm : option (list (list (list (list Q))));
  predictor_valid_times_unix_sec : list Z;
  predictor_latitudes_deg_n : list Q;
  predictor_longitudes_deg_e : list Q;
  predictor_band_numbers : list Z
}.

(** A target file read with its targets and without its reflectivities. *)
Record target_dict : Type := {
  target_matrix : list (list (list Z));
  target_valid_times_unix_sec : list Z;
  target_latitudes_deg_n : list Q;
  target_longitudes_deg_e : list Q
}.

Definition subset_predictors_by_index (predictor_dict : predictor_dict)
  (desired_indices : list nat) : result PredictorTargetIo.predictor_dict :=
  do unnorm <-
    option_take_along_time (predictor_matrix_unnorm predictor_dict) desired_indices;
  do norm <-
    option_take_along_time (predictor_matrix_norm predictor_dict) desired_indices;
  do unif_norm <-
    option_take_along_time (predictor_matrix_unif_norm predictor_dict)
                           desired_indices;
  do valid_times <-
    take_along_time (predictor_valid_times_unix_sec predictor_dict) desired_indices;
  Ok {| predictor_matrix_unnorm := unnorm;
        predictor_matrix_norm := norm;
        predictor_matrix_unif_norm := unif_norm;
        predictor_valid_times_unix_sec := valid_times;
        predictor_latitudes_deg_n := predictor_latitudes_deg_n predictor_dict;
        predictor_longitudes_deg_e := predictor_longitudes_deg_e predictor_dict;
        predictor_band_numbers := predictor_band_numbers predictor_dict |}.

Definition subset_targets_by_index (target_dict : target_dict)
  (desired_indices : list nat) : result PredictorTargetIo.target_dict :=
  do targets <- take_along_time (target_matrix target_dict) desired_indices;
  do valid_times <-
    take_along_time (target_valid_times_unix_sec target_dict) desired_indices;
  Ok {| target_matrix := targets;
        target_valid_times_unix_sec := valid_times;
        target_latitudes_deg_n := target_latitudes_deg_n target_dict;
        target_longitudes_deg_e := target_longitudes_deg_e target_dict |}.

Definition on_option {A B : Type} (f : A -> result B) (x : option A)
  : result (option B) :=
  match x with
  | None => Ok None
  | Some a => do b <- f a; Ok (Some b)
  end.

(** Modelled from the spec: example_io.py is not under src/.  Section 4.8
    has [subset_by_index], [subset_by_time] and [concat_predictor_data]
    mirror the radar and satellite operations on the predictor and target
    dictionaries.  Either dictionary may be left out (None); the result
    holds the predictor dictionary first and the target dictionary
    second, as neural_net.py takes them apart. *)
Definition subset_by_index (predictor_dict : option predictor_dict)
  (target_dict : option target_dict) (desired_indices : list nat)
  : result (option PredictorTargetIo.predictor_dict *
            option PredictorTargetIo.target_dict) :=
  do predictor_dict <-
    on_option (fun d => subset_predictors_by_index d desired_indices) predictor_dict;
  do target_dict <-
    on_option (fun d => subset_targets_by_index d desired_indices) target_dict;
  Ok (predictor_dict, target_dict).

Definition subset_by_time (predictor_dict : option predictor_dict)
  (target_dict : option target_dict) (desired_times_unix_sec : list Z)
  : result (option PredictorTargetIo.predictor_dict *
            option PredictorTargetIo.target_dict * list nat) :=
  do valid_times <-
    match predictor_dict, target_dict with
    | Some d, _ => Ok (predictor_valid_times_unix_sec d)
    | None, Some d => Ok (target_valid_times_unix_sec d)
    | None, None => Err TypeError
    end;
  do desired_indices <- times_to_indices valid_times desired_times_unix_sec;
  do dicts <- subset_by_index predictor_dict target_dict desired_indices;
  Ok (dicts, desired_indices).

Definition concat_predictor_data (predictor_dicts : list predictor_dict)
  : result PredictorTargetIo.predictor_dict :=
  match predictor_dicts with
  | [] => Err ValueError
  | first :: _ =>
      Ok {| predictor_matrix_unnorm :=
              option_concat (map predictor_matrix_unnorm predictor_dicts);
            predictor_matrix_norm :=
              option_concat (map predictor_matrix_norm predictor_dicts);
            predictor_matrix_unif_norm :=
              option_concat (map predictor_matrix_unif_norm predictor_dicts);
            predictor_valid_times_unix_sec :=
              concat (map predictor_valid_times_unix_sec predictor_dicts);
            predictor_latitudes_deg_n := predictor_latitudes_deg_n first;
            predictor_longitudes_deg_e := predictor_longitudes_deg_e first;
            predictor_band_numbers := predictor_band_numbers first |}
  end.

End PredictorTargetIo.

(** * machine_learning/neural_net.py *)

Module NeuralNet.

Import ErrorChecking.

Definition DAYS_TO_SECONDS : Z := 86400.

Definition SPATIAL_DS_FACTOR_KEY : string := "spatial_downsampling_factor".
Definition BATCH_SIZE_KEY : string := "num_examples_per_batch".
Definition MAX_DAILY_EXAMPLES_KEY : string := "max_examples_per_day_in_batch".
Definition BAND_NUMBERS_KEY : string := "band_numbers".
Definition LEAD_TIME_KEY : string := "lead_time_seconds".
Definition REFL_THRESHOLD_KEY : string := "reflectivity_threshold_dbz".
Definition NORMALIZE_FLAG_KEY : string := "normalize".
Definition UNIFORMIZE_FLAG_KEY : string := "uniformize".

(** [d[key]] *)
Definition getitem (d : gmap string pyvalue) (key : string) : result pyvalue :=
  match d !! key with
  | Some v => Ok v
  | None => Err (KeyError key)
  end.

Section GeneratorArgs.

(** [satellite_io.BAND_NUMBERS], a constant of a module that is not under
    src/. *)
Variable BAND_NUMBERS : pyvalue.

Definition DEFAULT_GENERATOR_OPTION_DICT : gmap string pyvalue :=
  <[SPATIAL_DS_FACTOR_KEY := PyInt 1]>
  (<[BATCH_SIZE_KEY := PyInt 256]>
  (<[MAX_DAILY_EXAMPLES_KEY := PyInt 64]>
  (<[BAND_NUMBERS_KEY := BAND_NUMBERS]>
  (<[REFL_THRESHOLD_KEY := PyFloat (Fin 35)]>
  (<[NORMALIZE_FLAG_KEY := PyBool true]>
  (<[UNIFORMIZE_FLAG_KEY := PyBool true]> ∅)))))).

(** [option_dict = DEFAULT_GENERATOR_OPTION_DICT.copy();
    option_dict.update(orig_option_dict)] *)
Definition merge_defaults (orig_option_dict : gmap string pyvalue)
  : gmap string pyvalue :=
  orig_option_dict ∪ DEFAULT_GENERATOR_OPTION_DICT.

Definition _check_generator_args (option_dict : gmap string pyvalue)
  : result (gmap string pyvalue) :=
  let option_dict := merge_defaults option_dict in
  check (do v <- getitem option_dict BAND_NUMBERS_KEY; assert_is_numpy_array v 1);
  check (do v <- getitem option_dict BAND_NUMBERS_KEY; assert_is_integer_numpy_array v);
  check (do v <- getitem option_dict BATCH_SIZE_KEY; assert_is_integer v);
  check (do v <- getitem option_dict BATCH_SIZE_KEY; assert_is_geq v 2);
  check (do v <- getitem option_dict SPATIAL_DS_FACTOR_KEY; assert_is_integer v);
  check (do v <- getitem option_dict SPATIAL_DS_FACTOR_KEY; assert_is_geq v 1);
  check (do v <- getitem option_dict MAX_DAILY_EXAMPLES_KEY; assert_is_integer v);
  check (do v <- getitem option_dict MAX_DAILY_EXAMPLES_KEY; assert_is_geq v 2);
  check (do v <- getitem option_dict LEAD_TIME_KEY; assert_is_integer v);
  check (do v <- getitem option_dict LEAD_TIME_KEY; assert_is_geq v 0);
  check (do v <- getitem option_dict LEAD_TIME_KEY;
         assert_is_less_than v DAYS_TO_SECONDS);
  check (do v <- getitem option_dict REFL_THRESHOLD_KEY; assert_is_greater v 0);
  Ok option_dict.

(** ** What the validation accepts *)

Definition lookup_satisfies (d : gmap string pyvalue) (key : string)
  (p : pyvalue -> bool) : bool :=
  match d !! key with
  | Some v => p v
  | None => false
  end.

(** The checks that precede the first use of the lead time. *)
Definition checks_before_lead_time (m : gmap string pyvalue) : bool :=
  lookup_satisfies m BAND_NUMBERS_KEY
    (fun v => is_numpy_array 1 v && is_integer_numpy_array v) &&
  lookup_satisfies m BATCH_SIZE_KEY (fun v => is_integer v && is_geq 2 v) &&
  lookup_satisfies m SPATIAL_DS_FACTOR_KEY (fun v => is_integer v && is_geq 1 v) &&
  lookup_satisfies m MAX_DAILY_EXAMPLES_KEY (fun v => is_integer v && is_geq 2 v).

(** The conditions of the specification on a merged dictionary. *)
Definition generator_args_valid (m : gmap string pyvalue) : bool :=
  checks_before_lead_time m &&
  lookup_satisfies m LEAD_TIME_KEY
    (fun v => is_integer v && is_geq 0 v && is_less_than DAYS_TO_SECONDS v) &&
  lookup_satisfies m REFL_THRESHOLD_KEY (is_greater 0).

(** The rejection that is not an InvalidInput error: no lead time at
    all, found after the earlier checks have passed. *)
Definition lead_time_missing (m : gmap string pyvalue) : bool :=
  checks_before_lead_time m &&
  match m !! LEAD_TIME_KEY with
  | None => true
  | Some _ => false
  end.

Lemma merged_has_default (d : gmap string pyvalue) (key : string) (v : pyvalue) :
  DEFAULT_GENERATOR_OPTION_DICT !! key = Some v ->
  exists w, merge_defaults d !! key = Some w.
Proof.
  intros H. unfold merge_defaults.
  assert (Hs : is_Some ((d ∪ DEFAULT_GENERATOR_OPTION_DICT) !! key)).
  { apply lookup_union_is_Some. right. rewrite H. eauto. }
  destruct Hs as [w Hw]. eauto.
Qed.

(** The three outcomes of [_check_generator_args], case by case. *)
Lemma check_generator_args_cases (option_dict : gmap string pyvalue) :
  _check_generator_args option_dict =
  if generator_args_valid (merge_defaults option_dict)
  then Ok (merge_defaults option_dict)
  else if lead_time_missing (merge_defaults option_dict)
       then Err (KeyError LEAD_TIME_KEY)
       else Err InvalidInput.
Proof.
  unfold _check_generator_args, generator_args_valid, lead_time_missing,
    checks_before_lead_time, lookup_satisfies, getitem.
  destruct (merged_has_default option_dict BAND_NUMBERS_KEY BAND_NUMBERS eq_refl)
    as [vband ->].
  destruct (merged_has_default option_dict BATCH_SIZE_KEY (PyInt 256) eq_refl)
    as [vbatch ->].
  destruct (merged_has_default option_dict SPATIAL_DS_FACTOR_KEY (PyInt 1) eq_refl)
    as [vds ->].
  destruct (merged_has_default option_dict MAX_DAILY_EXAMPLES_KEY (PyInt 64) eq_refl)
    as [vmax ->].
  destruct (merged_has_default option_dict REFL_THRESHOLD_KEY (PyFloat (Fin 35)) eq_refl)
    as [vrefl ->].
  unfold assert_is_numpy_array, assert_is_integer_numpy_array, assert_is_integer,
    assert_is_geq, assert_is_less_than, assert_is_greater, require.
  cbn [bind].
  destruct (is_numpy_array 1 vband); cbn; [|reflexivity].
  destruct (is_integer_numpy_array vband); cbn; [|reflexivity].
  destruct (is_integer vbatch); cbn; [|reflexivity].
  destruct (is_geq 2 vbatch); cbn; [|reflexivity].
  destruct (is_integer vds); cbn; [|reflexivity].
  destruct (is_geq 1 vds); cbn; [|reflexivity].
  destruct (is_integer vmax); cbn; [|reflexivity].
  destruct (is_geq 2 vmax); cbn; [|reflexivity].
  destruct (merge_defaults option_dict !! LEAD_TIME_KEY) as [vlead|]; cbn;
    [|reflexivity].
  destruct (is_integer vlead); cbn; [|reflexivity].
  destruct (is_geq 0 vlead); cbn; [|reflexivity].
  destruct (is_less_than DAYS_TO_SECONDS vlead); cbn; [|reflexivity].
  destruct (is_greater 0 vrefl); reflexivity.
Qed.

(** C10, as amended.  [_check_generator_args] returns the merged
    dictionary exactly when it meets the conditions of the specification;
    it fails with a KeyError when the earlier checks pass and the merged
    dictionary has no lead time, and with an InvalidInput error in every
    other case. *)
Theorem check_generator_args_outcome (option_dict : gmap string pyvalue) :
  _check_generator_args option_dict =
  if generator_args_valid (merge_defaults option_dict)
  then Ok (merge_defaults option_dict)
  else if lead_time_missing (merge_defaults option_dict)
       then Err (KeyError LEAD_TIME_KEY)
       else Err InvalidInput.
Proof.
  unfold _check_generator_args, generator_args_valid, lead_time_missing,
    checks_before_lead_time, lookup_satisfies, getitem.
  destruct (merged_has_default option_dict BAND_NUMBERS_KEY BAND_NUMBERS eq_refl)
    as [vband ->].
  destruct (merged_has_default option_dict BATCH_SIZE_KEY (PyInt 256) eq_refl)
    as [vbatch ->].
  destruct (merged_has_default option_dict SPATIAL_DS_FACTOR_KEY (PyInt 1) eq_refl)
    as [vds ->].
  destruct (merged_has_default option_dict MAX_DAILY_EXAMPLES_KEY (PyInt 64) eq_refl)
    as [vmax ->].
  destruct (merged_has_default option_dict REFL_THRESHOLD_KEY (PyFloat (Fin 35)) eq_refl)
    as [vrefl ->].
  unfold assert_is_numpy_array, assert_is_integer_numpy_array, assert_is_integer,
    assert_is_geq, assert_is_less_than, assert_is_greater, require.
  cbn [bind].
  destruct (is_numpy_array 1 vband); cbn; [|reflexivity].
  destruct (is_integer_numpy_array vband); cbn; [|reflexivity].
  destruct (is_integer vbatch); cbn; [|reflexivity].
  destruct (is_geq 2 vbatch); cbn; [|reflexivity].
  destruct (is_integer vds); cbn; [|reflexivity].
  destruct (is_geq 1 vds); cbn; [|reflexivity].
  destruct (is_integer vmax); cbn; [|reflexivity].
  destruct (is_geq 2 vmax); cbn; [|reflexivity].
  destruct (merge_defaults option_dict !! LEAD_TIME_KEY) as [vlead|]; cbn;
    [|reflexivity].
  destruct (is_integer vlead); cbn; [|reflexivity].
  destruct (is_geq 0 vlead); cbn; [|reflexivity].
  destruct (is_less_than DAYS_TO_SECONDS vlead); cbn; [|reflexivity].
  destruct (is_greater 0 vrefl); reflexivity.
Qed.

(** The conditions of the specification, spelled out. *)
Lemma generator_args_valid_iff (m : gmap string pyvalue) :
  generator_args_valid m = true <->
  (exists num_bands, m !! BAND_NUMBERS_KEY = Some (PyArray dtype_int [num_bands])) /\
  (exists batch_size, m !! BATCH_SIZE_KEY = Some (PyInt batch_size) /\
                      (2 <= batch_size)%Z) /\
  (exists factor, m !! SPATIAL_DS_FACTOR_KEY = Some (PyInt factor) /\ (1 <= factor)%Z) /\
  (exists max_daily, m !! MAX_DAILY_EXAMPLES_KEY = Some (PyInt max_daily) /\
                     (2 <= max_daily)%Z) /\
  (exists lead_time, m !! LEAD_TIME_KEY = Some (PyInt lead_time) /\
                     (0 <= lead_time < DAYS_TO_SECONDS)%Z) /\
  (exists threshold, m !! REFL_THRESHOLD_KEY = Some threshold /\
                     is_greater 0 threshold = true).
Proof.
  unfold generator_args_valid, checks_before_lead_time, lookup_satisfies.
  rewrite !andb_true_iff. split.
  - intros [[[[[Hband Hbatch] Hds] Hmax] Hlead] Hrefl].
    repeat split.
    + destruct (m !! BAND_NUMBERS_KEY) as [[| | | | |dt shape]|]; try discriminate.
      destruct dt; try (rewrite andb_false_r in Hband; discriminate).
      destruct shape as [|n [|? ?]]; try discriminate. eauto.
    + destruct (m !! BATCH_SIZE_KEY) as [[| |z| | |]|]; try discriminate.
      exists z. split; [reflexivity|]. cbn in Hbatch. now apply Z.leb_le.
    + destruct (m !! SPATIAL_DS_FACTOR_KEY) as [[| |z| | |]|]; try discriminate.
      exists z. split; [reflexivity|]. cbn in Hds. now apply Z.leb_le.
    + destruct (m !! MAX_DAILY_EXAMPLES_KEY) as [[| |z| | |]|]; try discriminate.
      exists z. split; [reflexivity|]. cbn in Hmax. now apply Z.leb_le.
    + destruct (m !! LEAD_TIME_KEY) as [[| |z| | |]|]; try discriminate.
      exists z. split; [reflexivity|]. cbn in Hlead.
      apply andb_true_iff in Hlead. destruct Hlead as [H0 H1].
      apply Z.leb_le in H0. apply Z.ltb_lt in H1. lia.
    + destruct (m !! REFL_THRESHOLD_KEY) as [v|]; [|discriminate]. eauto.
  - intros ([n ->] & (b & -> & Hb) & (f & -> & Hf) & (x & -> & Hx) &
            (l & -> & Hl) & (t & -> & Ht)).
    cbn. rewrite Ht.
    repeat match goal with
           | |- _ /\ _ => split
           | |- (_ && _)%bool = true => apply andb_true_iff
           | |- (_ <=? _)%Z = true => apply Z.leb_le; lia
           | |- (_ <? _)%Z = true => apply Z.ltb_lt; lia
           | |- _ => reflexivity
           end.
Qed.

(** Every integer lead time outside [0, 86400) is rejected with an
    InvalidInput error. *)
Lemma lead_time_out_of_range (option_dict : gmap string pyvalue) (lead_time : Z) :
  merge_defaults option_dict !! LEAD_TIME_KEY = Some (PyInt lead_time) ->
  (lead_time < 0 \/ DAYS_TO_SECONDS <= lead_time)%Z ->
  _check_generator_args option_dict = Err InvalidInput.
Proof.
  intros Hlookup Hrange. rewrite check_generator_args_cases.
  unfold generator_args_valid, lead_time_missing, lookup_satisfies.
  rewrite Hlookup. cbn.
  assert (H : ((0 <=? lead_time)%Z && (lead_time <? DAYS_TO_SECONDS)%Z)%bool = false).
  { apply andb_false_iff. destruct Hrange; [left; apply Z.leb_gt | right; apply Z.ltb_ge]; lia. }
  rewrite H, !andb_false_r. reflexivity.
Qed.

(** C10 as stated: every rejection is an InvalidInput error. *)
Definition check_generator_args_as_claimed : Prop :=
  forall option_dict,
    _check_generator_args option_dict =
    if generator_args_valid (merge_defaults option_dict)
    then Ok (merge_defaults option_dict)
    else Err InvalidInput.

End GeneratorArgs.

(** The seven bands of the satellite imager, as a one-dimensional integer
    array. *)
Definition seven_bands : pyvalue := PyArray dtype_int [7%nat].

(** A dictionary that leaves everything to the defaults has no lead
    time: the lookup fails with a KeyError, after the checks of the
    defaulted keys have passed. *)
Lemma check_generator_args_without_lead_time :
  _check_generator_args seven_bands ∅ = Err (KeyError LEAD_TIME_KEY) /\
  generator_args_valid (merge_defaults seven_bands ∅) = false.
Proof. split; vm_compute; reflexivity. Qed.

Lemma check_generator_args_counterexample :
  ~ check_generator_args_as_claimed seven_bands.
Proof.
  intros H. specialize (H ∅).
  destruct check_generator_args_without_lead_time as [Hrun Hvalid].
  rewrite Hrun, Hvalid in H. discriminate H.
Qed.

(** A complete dictionary is returned with the defaults merged in. *)
Lemma check_generator_args_accepts :
  _check_generator_args seven_bands
    (<[LEAD_TIME_KEY := PyInt 3600]> (<[BATCH_SIZE_KEY := PyInt 32]> ∅)) =
  Ok (merge_defaults seven_bands
        (<[LEAD_TIME_KEY := PyInt 3600]> (<[BATCH_SIZE_KEY := PyInt 32]> ∅))).
Proof.
  rewrite check_generator_args_cases.
  assert (H : generator_args_valid
                (merge_defaults seven_bands
                   (<[LEAD_TIME_KEY := PyInt 3600]>
                      (<[BATCH_SIZE_KEY := PyInt 32]> ∅))) = true)
    by (vm_compute; reflexivity).
  now rewrite H.
Qed.

(** ** The dictionary that the validation returns *)

Section MergedOptions.

Variable BAND_NUMBERS : pyvalue.

(** X16. The dictionary that [_check_generator_args] accepts is the input
    laid over the defaults: every entry of the caller is kept, a key the
    caller left out has its default, or stays absent when there is none.
    Checking the returned dictionary again returns it unchanged. *)
Theorem check_generator_args_merges (option_dict merged : gmap string pyvalue) :
  _check_generator_args BAND_NUMBERS option_dict = Ok merged ->
  (forall key,
     merged !! key =
     match option_dict !! key with
     | Some v => Some v
     | None => DEFAULT_GENERATOR_OPTION_DICT BAND_NUMBERS !! key
     end) /\
  _check_generator_args BAND_NUMBERS merged = Ok merged.
Proof.
  rewrite check_generator_args_cases.
  destruct (generator_args_valid (merge_defaults BAND_NUMBERS option_dict))
    eqn:Hvalid.
  - intros H. injection H as <-. split.
    + intros key. unfold merge_defaults. rewrite lookup_union.
      destruct (option_dict !! key), (DEFAULT_GENERATOR_OPTION_DICT BAND_NUMBERS !! key);
        reflexivity.
    + rewrite check_generator_args_cases.
      assert (Hfixed : merge_defaults BAND_NUMBERS
                         (merge_defaults BAND_NUMBERS option_dict) =
                       merge_defaults BAND_NUMBERS option_dict).
      { unfold merge_defaults. rewrite <- (assoc_L (∪)).
        now rewrite (idemp_L (∪)). }
      now rewrite Hfixed, Hvalid.
  - destruct (lead_time_missing _); discriminate.
Qed.

End MergedOptions.

Lemma check_generator_args_merges_witness :
  (forall key,
     merge_defaults seven_bands
       (<[LEAD_TIME_KEY := PyInt 3600]> (<[BATCH_SIZE_KEY := PyInt 32]> ∅)) !! key =
     match (<[LEAD_TIME_KEY := PyInt 3600]> (<[BATCH_SIZE_KEY := PyInt 32]> ∅)
              : gmap string pyvalue) !! key with
     | Some v => Some v
     | None => DEFAULT_GENERATOR_OPTION_DICT seven_bands !! key
     end) /\
  _check_generator_args seven_bands
    (merge_defaults seven_bands
       (<[LEAD_TIME_KEY := PyInt 3600]> (<[BATCH_SIZE_KEY := PyInt 32]> ∅))) =
  Ok (merge_defaults seven_bands
        (<[LEAD_TIME_KEY := PyInt 3600]> (<[BATCH_SIZE_KEY := PyInt 32]> ∅))).
Proof.
  apply (check_generator_args_merges seven_bands _ _ check_generator_args_accepts).
Defined.

(** ** Inference *)

(** ** The inputs of one day *)

Definition TOLERANCE : Q := 1 # 1000000.

(** The dictionary that the readers of one day return. *)
Record data_dict : Type := {
  PREDICTOR_MATRIX : option (list (list (list (list Q))));
  TARGET_MATRIX : list (list (list (list Z)));
  VALID_TIMES : list Z;
  LATITUDES : option (list Q);
  LONGITUDES : option (list Q)
}.

(** [names.index(x)] *)
Fixpoint index_of (x : string) (names : list string) : option nat :=
  match names with
  | [] => None
  | y :: rest =>
      if String.eqb y x then Some 0%nat else option_map S (index_of x rest)
  end.

Definition py_index (names : list string) (x : string) : result nat :=
  match index_of x names with
  | Some i => Ok i
  | None => Err ValueError
  end.

(** [x[index - 1]]; Python counts the index -1 from the end. *)
Definition getitem_before {A : Type} (x : list A) (index : nat) : result A :=
  match index with
  | O => getitem_at x (length x - 1)
  | S i => getitem_at x i
  end.

(** [assert condition] *)
Definition py_assert (condition : bool) : result unit :=
  if condition then Ok tt else Err AssertionError.

(** [t in times] *)
Definition isin (t : Z) (times : list Z) : bool := existsb (Z.eqb t) times.

(** [numpy.where(flags)[0]] *)
Fixpoint where_from (start : nat) (flags : list bool) : list nat :=
  match flags with
  | [] => []
  | flag :: rest =>
      if flag then start :: where_from (S start) rest
      else where_from (S start) rest
  end.

Definition numpy_where (flags : list bool) : list nat := where_from 0 flags.

(** [(matrix >= threshold).astype(int)] *)
Definition geq_as_int (threshold : Q) (field : list (list Q)) : list (list Z) :=
  map (map (fun v => if Qle_bool threshold v then 1%Z else 0%Z)) field.

(** [numpy.expand_dims(matrix, axis=-1)], one time step of it. *)
Definition expand_dims_last {A : Type} (field : list (list A))
  : list (list (list A)) :=
  map (map (fun v => [v])) field.

(** The predictor matrix that [_read_preprocessed_inputs_one_day] takes
    from a predictor dictionary. *)
Definition predictor_matrix_of (normalize uniformize : bool)
  (predictor_dict : PredictorTargetIo.predictor_dict)
  : option (list (list (list (list Q)))) :=
  if normalize then
    if uniformize
    then PredictorTargetIo.predictor_matrix_unif_norm predictor_dict
    else PredictorTargetIo.predictor_matrix_norm predictor_dict
  else PredictorTargetIo.predictor_matrix_unnorm predictor_dict.

(** The index, among the aligned examples of the day, of the example
    that is returned at position [k]. *)
Definition example_index (desired_indices : option (list nat)) (k : nat)
  : option nat :=
  match desired_indices with
  | Some desired_indices => desired_indices !! k
  | None => Some k
  end.

Section OneDay.

(** The functions of radar_io.py, satellite_io.py, example_io.py,
    normalization.py and NumPy that read files or draw at random. *)
Variable radar_file_name_to_date : string -> string.
Variable satellite_file_name_to_date : string -> string.
Variable read_2d_file : string -> ExampleIo.radar_dict.
Variable read_file : string -> bool -> bool -> ExampleIo.satellite_dict.
Variable subset_by_band :
  ExampleIo.satellite_dict -> list Z -> ExampleIo.satellite_dict.
Variable numpy_allclose : list Q -> list Q -> Q -> bool.
Variable numpy_random_choice : list nat -> Z -> result (list nat).
Variable downsample_data_in_space :
  ExampleIo.satellite_dict -> ExampleIo.radar_dict -> Z -> bool ->
  ExampleIo.satellite_dict * ExampleIo.radar_dict.
Variable norm_dict : Type.
Variable normalize_data :
  ExampleIo.satellite_dict -> bool -> norm_dict -> ExampleIo.satellite_dict.

Variable target_file_name_to_date : string -> string.
Variable predictor_file_name_to_date : string -> string.
Variable read_target_file : string -> bool -> bool -> PredictorTargetIo.target_dict.
Variable read_predictor_file :
  string -> bool -> bool -> bool -> PredictorTargetIo.predictor_dict.
Variable subset_predictors_by_band :
  PredictorTargetIo.predictor_dict -> list Z -> PredictorTargetIo.predictor_dict.

(** The first part of [_read_raw_inputs_one_day]: the radar file of the
    valid date and the satellite files of that date (and of the file
    before it, for a positive lead time), read and checked to share
    their grid. *)
Definition read_raw_files_one_day (valid_date_string : string)
  (satellite_file_names : list string) (band_numbers : list Z)
  (radar_file_names : list string) (lead_time_seconds : Z)
  : result (ExampleIo.radar_dict * ExampleIo.satellite_dict) :=
  let radar_date_strings := map radar_file_name_to_date radar_file_names in
  do index <- py_index radar_date_strings valid_date_string;
  do desired_radar_file_name <- getitem_at radar_file_names index;
  let satellite_date_strings :=
    map satellite_file_name_to_date satellite_file_names in
  do index <- py_index satellite_date_strings valid_date_string;
  do file_of_date <- getitem_at satellite_file_names index;
  do desired_satellite_file_names <-
    (if (0 <? lead_time_seconds)%Z then
       do file_before <- getitem_before satellite_file_names index;
       Ok [file_before; file_of_date]
     else Ok [file_of_date]);
  let radar_dict := read_2d_file desired_radar_file_name in
  let satellite_dicts :=
    map (fun this_file_name =>
           subset_by_band (read_file this_file_name false true) band_numbers)
        desired_satellite_file_names in
  do satellite_dict <- SatelliteIo.concat_data satellite_dicts;
  check py_assert (numpy_allclose (ExampleIo.radar_latitudes_deg_n radar_dict)
                     (ExampleIo.sat_latitudes_deg_n satellite_dict) TOLERANCE);
  check py_assert (numpy_allclose (ExampleIo.radar_longitudes_deg_e radar_dict)
                     (ExampleIo.sat_longitudes_deg_e satellite_dict) TOLERANCE);
  Ok (radar_dict, satellite_dict).

(** The draw of [num_examples_to_read] examples among [num_examples], when
    there are enough of them; all of them otherwise. *)
Definition desired_examples (num_examples : nat) (num_examples_to_read : Z)
  : result (option (list nat)) :=
  if (num_examples_to_read <=? Z.of_nat num_examples)%Z then
    let desired_indices := seq 0 num_examples in
    do desired_indices <- numpy_random_choice desired_indices num_examples_to_read;
    Ok (Some desired_indices)
  else Ok None.

Definition _read_raw_inputs_one_day (valid_date_string : string)
  (satellite_file_names : list string) (band_numbers : list Z)
  (norm_dict_for_count : option norm_dict) (uniformize : bool)
  (radar_file_names : list string) (lead_time_seconds : Z)
  (reflectivity_threshold_dbz : Q) (spatial_downsampling_factor : Z)
  (num_examples_to_read : Z) (return_coords : bool)
  : result (option data_dict) :=
  do dicts <- read_raw_files_one_day valid_date_string satellite_file_names
                band_numbers radar_file_names lead_time_seconds;
  let radar_dict := fst dicts in
  let satellite_dict := snd dicts in
  let valid_times_unix_sec := ExampleIo.radar_valid_times_unix_sec radar_dict in
  let init_times_unix_sec :=
    map (fun t => (t - lead_time_seconds)%Z) valid_times_unix_sec in
  let good_flags :=
    map (fun t => isin t (ExampleIo.sat_valid_times_unix_sec satellite_dict))
        init_times_unix_sec in
  if negb (existsb id good_flags) then Ok None
  else
    let good_indices := numpy_where good_flags in
    do valid_times_unix_sec <- take_along_time valid_times_unix_sec good_indices;
    do init_times_unix_sec <- take_along_time init_times_unix_sec good_indices;
    do radar_subset <- RadarIo.subset_by_time radar_dict valid_times_unix_sec;
    let radar_dict := fst radar_subset in
    do satellite_subset <-
      SatelliteIo.subset_by_time satellite_dict init_times_unix_sec;
    let satellite_dict := fst satellite_subset in
    let num_examples := length good_indices in
    do desired_indices <- desired_examples num_examples num_examples_to_read;
    do radar_dict <-
      match desired_indices with
      | Some desired_indices => RadarIo.subset_by_index radar_dict desired_indices
      | None => Ok radar_dict
      end;
    do satellite_dict <-
      match desired_indices with
      | Some desired_indices =>
          SatelliteIo.subset_by_index satellite_dict desired_indices
      | None => Ok satellite_dict
      end;
    let downsampled :=
      if (1 <? spatial_downsampling_factor)%Z then
        downsample_data_in_space satellite_dict radar_dict
          spatial_downsampling_factor return_coords
      else (satellite_dict, radar_dict) in
    let satellite_dict := fst downsampled in
    let radar_dict := snd downsampled in
    let satellite_dict :=
      match norm_dict_for_count with
      | Some norm_dict_for_count =>
          normalize_data satellite_dict uniformize norm_dict_for_count
      | None => satellite_dict
      end in
    let predictor_matrix := ExampleIo.brightness_count_matrix satellite_dict in
    let target_matrix :=
      map (geq_as_int reflectivity_threshold_dbz)
          (ExampleIo.composite_refl_matrix_dbz radar_dict) in
    Ok (Some {| PREDICTOR_MATRIX := predictor_matrix;
                TARGET_MATRIX := map expand_dims_last target_matrix;
                VALID_TIMES := valid_times_unix_sec;
                LATITUDES :=
                  if return_coords
                  then Some (ExampleIo.radar_latitudes_deg_n radar_dict)
                  else None;
                LONGITUDES :=
                  if return_coords
                  then Some (ExampleIo.radar_longitudes_deg_e radar_dict)
                  else None |}).

(** The first part of [_read_preprocessed_inputs_one_day]: the target
    file of the valid date and the predictor files, read alike. *)
Definition read_preprocessed_files_one_day (valid_date_string : string)
  (predictor_file_names : list string) (band_numbers : list Z)
  (normalize uniformize : bool) (target_file_names : list string)
  (lead_time_seconds : Z)
  : result (PredictorTargetIo.target_dict * PredictorTargetIo.predictor_dict) :=
  let target_date_strings := map target_file_name_to_date target_file_names in
  do index <- py_index target_date_strings valid_date_string;
  do desired_target_file_name <- getitem_at target_file_names index;
  let predictor_date_strings :=
    map predictor_file_name_to_date predictor_file_names in
  do index <- py_index predictor_date_strings valid_date_string;
  do file_of_date <- getitem_at predictor_file_names index;
  do desired_predictor_file_names <-
    (if (0 <? lead_time_seconds)%Z then
       do file_before <- getitem_before predictor_file_names index;
       Ok [file_before; file_of_date]
     else Ok [file_of_date]);
  let target_dict := read_target_file desired_target_file_name true false in
  let predictor_dicts :=
    map (fun this_file_name =>
           subset_predictors_by_band
             (read_predictor_file this_file_name (negb normalize)
                (normalize && negb uniformize) (normalize && uniformize))
             band_numbers)
        desired_predictor_file_names in
  do predictor_dict <- PredictorTargetIo.concat_predictor_data predictor_dicts;
  check py_assert
    (numpy_allclose (PredictorTargetIo.target_latitudes_deg_n target_dict)
       (PredictorTargetIo.predictor_latitudes_deg_n predictor_dict) TOLERANCE);
  check py_assert
    (numpy_allclose (PredictorTargetIo.target_longitudes_deg_e target_dict)
       (PredictorTargetIo.predictor_longitudes_deg_e predictor_dict) TOLERANCE);
  Ok (target_dict, predictor_dict).

Definition _read_preprocessed_inputs_one_day (valid_date_string : string)
  (predictor_file_names : list string) (band_numbers : list Z)
  (normalize uniformize : bool) (target_file_names : list string)
  (lead_time_seconds : Z) (num_examples_to_read : Z) (return_coords : bool)
  : result (option data_dict) :=
  let uniformize := uniformize && normalize in
  do dicts <- read_preprocessed_files_one_day valid_date_string
                predictor_file_names band_numbers normalize uniformize
                target_file_names lead_time_seconds;
  let target_dict := fst dicts in
  let predictor_dict := snd dicts in
  let valid_times_unix_sec :=
    PredictorTargetIo.target_valid_times_unix_sec target_dict in
  let init_times_unix_sec :=
    map (fun t => (t - lead_time_seconds)%Z) valid_times_unix_sec in
  let good_flags :=
    map (fun t =>
           isin t (PredictorTargetIo.predictor_valid_times_unix_sec predictor_dict))
        init_times_unix_sec in
  if negb (existsb id good_flags) then Ok None
  else
    let good_indices := numpy_where good_flags in
    do valid_times_unix_sec <- take_along_time valid_times_unix_sec good_indices;
    do init_times_unix_sec <- take_along_time init_times_unix_sec good_indices;
    do predictor_subset <-
      PredictorTargetIo.subset_by_time (Some predictor_dict) None
                                       init_times_unix_sec;
    do predictor_dict <- not_none (fst (fst predictor_subset));
    do target_subset <-
      PredictorTargetIo.subset_by_time None (Some target_dict)
                                       init_times_unix_sec;
    do target_dict <- not_none (snd (fst target_subset));
    let num_examples := length good_indices in
    do desired_indices <- desired_examples num_examples num_examples_to_read;
    do dicts <-
      match desired_indices with
      | Some desired_indices =>
          do subset <-
            PredictorTargetIo.subset_by_index (Some predictor_dict)
                                              (Some target_dict) desired_indices;
          do predictor_dict <- not_none (fst subset);
          do target_dict <- not_none (snd subset);
          Ok (predictor_dict, target_dict)
      | None => Ok (predictor_dict, target_dict)
      end;
    let predictor_dict := fst dicts in
    let target_dict := snd dicts in
    let predictor_matrix :=
      predictor_matrix_of normalize uniformize predictor_dict in
    let target_matrix := PredictorTargetIo.target_matrix target_dict in
    Ok (Some {| PREDICTOR_MATRIX := predictor_matrix;
                TARGET_MATRIX := map expand_dims_last target_matrix;
                VALID_TIMES := valid_times_unix_sec;
                LATITUDES :=
                  if return_coords
                  then Some (PredictorTargetIo.predictor_latitudes_deg_n
                               predictor_dict)
                  else None;
                LONGITUDES :=
                  if return_coords
                  then Some (PredictorTargetIo.predictor_longitudes_deg_e
                               predictor_dict)
                  else None |}).

(** ** Which times the readers pair *)

Lemma bind_Ok {A B : Type} (c : result A) (k : A -> result B) (b : B) :
  bind c k = Ok b -> exists a, c = Ok a /\ k a = Ok b.
Proof. destruct c as [a|e]; [eauto | discriminate]. Qed.

Ltac bind_inversion H a Ha :=
  let H' := fresh in
  apply bind_Ok in H as (a & Ha & H'); cbv beta zeta in H'; move H' after Ha;
  rename H' into H.

Lemma mapM_lookup {A B : Type} (f : A -> result B) (l : list A) (r : list B)
  (k : nat) (a : A) :
  mapM f l = Ok r -> l !! k = Some a ->
  exists b, f a = Ok b /\ r !! k = Some b.
Proof.
  revert r k. induction l as [|x l IH]; intros r k Hr Hk; [discriminate|].
  cbn [mapM] in Hr.
  destruct (f x) as [b|] eqn:Hb; [cbn [bind] in Hr | discriminate].
  destruct (mapM f l) as [bs|] eqn:Hbs; [cbn [bind] in Hr | discriminate].
  injection Hr as <-.
  destruct k as [|k].
  - injection Hk as <-. exists b. split; [exact Hb | reflexivity].
  - apply (IH bs k eq_refl Hk).
Qed.

Lemma mapM_length {A B : Type} (f : A -> result B) (l : list A) (r : list B) :
  mapM f l = Ok r -> length r = length l.
Proof.
  revert r. induction l as [|x l IH]; intros r Hr.
  - injection Hr as <-. reflexivity.
  - cbn [mapM] in Hr.
    destruct (f x) as [b|]; [cbn [bind] in Hr | discriminate].
    destruct (mapM f l) as [bs|]; [cbn [bind] in Hr | discriminate].
    injection Hr as <-. cbn [length]. f_equal. now apply IH.
Qed.

Lemma take_along_time_lookup {A : Type} (x : list A) (indices : list nat)
  (r : list A) (k i : nat) :
  take_along_time x indices = Ok r -> indices !! k = Some i ->
  exists v, x !! i = Some v /\ r !! k = Some v.
Proof.
  intros Hr Hk. destruct (mapM_lookup _ _ _ _ _ Hr Hk) as (v & Hv & Hrk).
  unfold getitem_at in Hv. destruct (x !! i) as [w|]; [|discriminate].
  injection Hv as ->. eauto.
Qed.

(** Taking the same indices from the valid times and from the
    initialization times keeps them apart by the lead time. *)
Lemma init_times_lookup (valid_times : list Z) (g : Z -> Z) (indices : list nat)
  (valid_times' init_times' : list Z) (k : nat) (t : Z) :
  take_along_time valid_times indices = Ok valid_times' ->
  take_along_time (map g valid_times) indices = Ok init_times' ->
  valid_times' !! k = Some t ->
  init_times' !! k = Some (g t).
Proof.
  intros Hv Hi Hk.
  assert (Hlt : (k < length indices)%nat).
  { rewrite <- (mapM_length _ _ _ Hv). now apply lookup_lt_Some in Hk. }
  destruct (lookup_lt_is_Some_2 _ _ Hlt) as [i Hidx].
  destruct (take_along_time_lookup _ _ _ _ _ Hv Hidx) as (v & Hvi & Hvk).
  destruct (take_along_time_lookup _ _ _ _ _ Hi Hidx) as (w & Hwi & Hwk).
  rewrite Hvk in Hk. injection Hk as ->.
  rewrite list_lookup_fmap, Hvi in Hwi. injection Hwi as <-. exact Hwk.
Qed.

(** The field returned at position [k] is the field that the dictionary
    holds for the time asked for at that position. *)
Lemma subset_lookup {F : Type} (times : list Z) (fields taken returned : list F)
  (desired_times : list Z) (indices : list nat)
  (desired_indices : option (list nat)) (k j : nat) (u : Z) :
  times_to_indices times desired_times = Ok indices ->
  take_along_time fields indices = Ok taken ->
  match desired_indices with
  | Some desired_indices => take_along_time taken desired_indices = Ok returned
  | None => returned = taken
  end ->
  example_index desired_indices k = Some j ->
  desired_times !! j = Some u ->
  exists v, field_at times fields u = Some v /\ returned !! k = Some v.
Proof.
  intros Hindices Htaken Hreturned Hk Hu.
  destruct (mapM_lookup _ _ _ _ _ Hindices Hu) as (i & Hi & Hij).
  destruct (first_index_of u times) as [i'|] eqn:Hfirst; [|discriminate].
  injection Hi as ->.
  destruct (take_along_time_lookup _ _ _ _ _ Htaken Hij) as (v & Hv & Hvj).
  exists v. split.
  - unfold field_at. now rewrite Hfirst.
  - destruct desired_indices as [desired_indices|]; cbn [example_index] in Hk.
    + destruct (take_along_time_lookup _ _ _ _ _ Hreturned Hk) as (w & Hw & Hwk).
      rewrite Hvj in Hw. injection Hw as <-. exact Hwk.
    + injection Hk as ->. subst returned. exact Hvj.
Qed.

Lemma option_take_along_time_Some {A : Type} (x : option (list A))
  (indices : list nat) (r : option (list A)) :
  option_take_along_time x indices = Ok r ->
  match x, r with
  | Some matrix, Some taken => take_along_time matrix indices = Ok taken
  | None, None => True
  | _, _ => False
  end.
Proof.
  destruct x as [matrix|]; cbn [option_take_along_time]; intros H.
  - destruct (take_along_time matrix indices) as [taken|]; [|discriminate].
    injection H as <-. reflexivity.
  - injection H as <-. exact I.
Qed.

Definition taken_from {A : Type} (indices : list nat) (x r : option (list A))
  : Prop :=
  match x, r with
  | Some matrix, Some taken => take_along_time matrix indices = Ok taken
  | None, None => True
  | _, _ => False
  end.

Lemma subset_predictors_by_index_inv
  (predictor_dict subset : PredictorTargetIo.predictor_dict) (indices : list nat) :
  PredictorTargetIo.subset_predictors_by_index predictor_dict indices = Ok subset ->
  forall normalize uniformize,
    taken_from indices (predictor_matrix_of normalize uniformize predictor_dict)
               (predictor_matrix_of normalize uniformize subset).
Proof.
  unfold PredictorTargetIo.subset_predictors_by_index. intros H.
  bind_inversion H unnorm Hunnorm. bind_inversion H norm Hnorm.
  bind_inversion H unif_norm Hunif. bind_inversion H valid_times Htimes.
  injection H as <-.
  intros [|] [|]; unfold predictor_matrix_of, taken_from; cbn;
    now apply option_take_along_time_Some.
Qed.

Lemma subset_targets_by_index_inv
  (target_dict subset : PredictorTargetIo.target_dict) (indices : list nat) :
  PredictorTargetIo.subset_targets_by_index target_dict indices = Ok subset ->
  take_along_time (PredictorTargetIo.target_matrix target_dict) indices =
  Ok (PredictorTargetIo.target_matrix subset).
Proof.
  unfold PredictorTargetIo.subset_targets_by_index. intros H.
  bind_inversion H targets Htargets. bind_inversion H valid_times Htimes.
  injection H as <-. exact Htargets.
Qed.

Lemma subset_predictors_by_time_inv (predictor_dict : PredictorTargetIo.predictor_dict)
  (desired_times : list Z)
  (subset : option PredictorTargetIo.predictor_dict *
            option PredictorTargetIo.target_dict * list nat)
  (returned : PredictorTargetIo.predictor_dict) :
  PredictorTargetIo.subset_by_time (Some predictor_dict) None desired_times =
  Ok subset ->
  not_none (fst (fst subset)) = Ok returned ->
  exists indices,
    times_to_indices
      (PredictorTargetIo.predictor_valid_times_unix_sec predictor_dict)
      desired_times = Ok indices /\
    forall normalize uniformize,
      taken_from indices (predictor_matrix_of normalize uniformize predictor_dict)
                 (predictor_matrix_of normalize uniformize returned).
Proof.
  unfold PredictorTargetIo.subset_by_time, PredictorTargetIo.subset_by_index.
  intros H Hreturned.
  bind_inversion H valid_times Htimes. injection Htimes as <-.
  bind_inversion H indices Hindices. bind_inversion H dicts Hdicts.
  injection H as <-.
  bind_inversion Hdicts taken Htaken. bind_inversion Hdicts none Hnone.
  injection Hdicts as <-. cbn [fst] in Hreturned.
  unfold PredictorTargetIo.on_option in Htaken.
  bind_inversion Htaken d Hd. injection Htaken as <-.
  injection Hreturned as ->.
  exists indices. split; [exact Hindices|].
  now apply subset_predictors_by_index_inv.
Qed.

Lemma subset_targets_by_time_inv (target_dict : PredictorTargetIo.target_dict)
  (desired_times : list Z)
  (subset : option PredictorTargetIo.predictor_dict *
            option PredictorTargetIo.target_dict * list nat)
  (returned : PredictorTargetIo.target_dict) :
  PredictorTargetIo.subset_by_time None (Some target_dict) desired_times =
  Ok subset ->
  not_none (snd (fst subset)) = Ok returned ->
  exists indices,
    times_to_indices
      (PredictorTargetIo.target_valid_times_unix_sec target_dict)
      desired_times = Ok indices /\
    take_along_time (PredictorTargetIo.target_matrix target_dict) indices =
    Ok (PredictorTargetIo.target_matrix returned).
Proof.
  unfold PredictorTargetIo.subset_by_time, PredictorTargetIo.subset_by_index.
  intros H Hreturned.
  bind_inversion H valid_times Htimes. injection Htimes as <-.
  bind_inversion H indices Hindices. bind_inversion H dicts Hdicts.
  injection H as <-.
  bind_inversion Hdicts none Hnone. bind_inversion Hdicts taken Htaken.
  injection Hdicts as <-. cbn [fst snd] in Hreturned.
  unfold PredictorTargetIo.on_option in Htaken.
  bind_inversion Htaken d Hd. injection Htaken as <-.
  injection Hreturned as ->.
  exists indices. split; [exact Hindices|].
  now apply subset_targets_by_index_inv.
Qed.

Lemma subset_by_index_inv
  (predictor_dict predictor_subset : PredictorTargetIo.predictor_dict)
  (target_dict target_subset : PredictorTargetIo.target_dict)
  (indices : list nat)
  (subset : option PredictorTargetIo.predictor_dict *
            option PredictorTargetIo.target_dict) :
  PredictorTargetIo.subset_by_index (Some predictor_dict) (Some target_dict)
                                    indices = Ok subset ->
  not_none (fst subset) = Ok predictor_subset ->
  not_none (snd subset) = Ok target_subset ->
  take_along_time (PredictorTargetIo.target_matrix target_dict) indices =
  Ok (PredictorTargetIo.target_matrix target_subset) /\
  forall normalize uniformize,
    taken_from indices (predictor_matrix_of normalize uniformize predictor_dict)
               (predictor_matrix_of normalize uniformize predictor_subset).
Proof.
  unfold PredictorTargetIo.subset_by_index, PredictorTargetIo.on_option.
  intros H Hp Ht.
  bind_inversion H p Hp'. bind_inversion H q Hq'. injection H as <-.
  bind_inversion Hp' p' Hp''. injection Hp' as <-.
  bind_inversion Hq' q' Hq''. injection Hq' as <-.
  cbn [fst snd not_none] in Hp, Ht. injection Hp as ->. injection Ht as ->.
  split.
  - now apply subset_targets_by_index_inv.
  - now apply subset_predictors_by_index_inv.
Qed.

Lemma radar_subset_by_index_inv (radar_dict subset : ExampleIo.radar_dict)
  (indices : list nat) :
  RadarIo.subset_by_index radar_dict indices = Ok subset ->
  take_along_time (ExampleIo.composite_refl_matrix_dbz radar_dict) indices =
  Ok (ExampleIo.composite_refl_matrix_dbz subset).
Proof.
  unfold RadarIo.subset_by_index. intros H.
  bind_inversion H reflectivity Hreflectivity. bind_inversion H valid_times Htimes.
  injection H as <-. exact Hreflectivity.
Qed.

Lemma radar_subset_by_time_inv (radar_dict : ExampleIo.radar_dict)
  (desired_times : list Z) (subset : ExampleIo.radar_dict * list nat) :
  RadarIo.subset_by_time radar_dict desired_times = Ok subset ->
  exists indices,
    times_to_indices (ExampleIo.radar_valid_times_unix_sec radar_dict)
                     desired_times = Ok indices /\
    take_along_time (ExampleIo.composite_refl_matrix_dbz radar_dict) indices =
    Ok (ExampleIo.composite_refl_matrix_dbz (fst subset)).
Proof.
  unfold RadarIo.subset_by_time. intros H.
  bind_inversion H indices Hindices. bind_inversion H taken Htaken.
  injection H as <-. exists indices. split; [exact Hindices|].
  now apply radar_subset_by_index_inv.
Qed.

Lemma satellite_subset_by_index_inv (satellite_dict subset : ExampleIo.satellite_dict)
  (indices : list nat) :
  SatelliteIo.subset_by_index satellite_dict indices = Ok subset ->
  taken_from indices (ExampleIo.brightness_count_matrix satellite_dict)
             (ExampleIo.brightness_count_matrix subset).
Proof.
  unfold SatelliteIo.subset_by_index. intros H.
  bind_inversion H temperatures Htemperatures. bind_inversion H counts Hcounts.
  bind_inversion H valid_times Htimes. injection H as <-.
  now apply option_take_along_time_Some.
Qed.

Lemma satellite_subset_by_time_inv (satellite_dict : ExampleIo.satellite_dict)
  (desired_times : list Z) (subset : ExampleIo.satellite_dict * list nat) :
  SatelliteIo.subset_by_time satellite_dict desired_times = Ok subset ->
  exists indices,
    times_to_indices (ExampleIo.sat_valid_times_unix_sec satellite_dict)
                     desired_times = Ok indices /\
    taken_from indices (ExampleIo.brightness_count_matrix satellite_dict)
               (ExampleIo.brightness_count_matrix (fst subset)).
Proof.
  unfold SatelliteIo.subset_by_time. intros H.
  bind_inversion H indices Hindices. bind_inversion H taken Htaken.
  injection H as <-. exists indices. split; [exact Hindices|].
  now apply satellite_subset_by_index_inv.
Qed.

Section PerTimeStep.

(** Spatial downsampling and normalization treat every time step on its
    own; these are their actions on the fields of one time step. *)
Variable downsample_counts :
  Z -> bool -> list (list (list Q)) -> list (list (list Q)).
Variable downsample_reflectivity : Z -> bool -> list (list Q) -> list (list Q).
Variable normalize_counts :
  bool -> norm_dict -> list (list (list Q)) -> list (list (list Q)).

Hypothesis downsample_per_time_step :
  forall satellite_dict radar_dict factor change_coordinates,
    ExampleIo.brightness_count_matrix
      (fst (downsample_data_in_space satellite_dict radar_dict factor
              change_coordinates)) =
    option_map (map (downsample_counts factor change_coordinates))
               (ExampleIo.brightness_count_matrix satellite_dict) /\
    ExampleIo.composite_refl_matrix_dbz
      (snd (downsample_data_in_space satellite_dict radar_dict factor
              change_coordinates)) =
    map (downsample_reflectivity factor change_coordinates)
        (ExampleIo.composite_refl_matrix_dbz radar_dict).

Hypothesis normalize_per_time_step :
  forall satellite_dict uniformize norm_dict_for_count,
    ExampleIo.brightness_count_matrix
      (normalize_data satellite_dict uniformize norm_dict_for_count) =
    option_map (map (normalize_counts uniformize norm_dict_for_count))
               (ExampleIo.brightness_count_matrix satellite_dict).

(** What [_read_raw_inputs_one_day] does to the fields of one time step
    after it has selected them. *)
Definition processed_reflectivity (spatial_downsampling_factor : Z)
  (return_coords : bool) (reflectivity : list (list Q)) : list (list Q) :=
  if (1 <? spatial_downsampling_factor)%Z
  then downsample_reflectivity spatial_downsampling_factor return_coords
                               reflectivity
  else reflectivity.

Definition processed_counts (spatial_downsampling_factor : Z)
  (return_coords : bool) (norm_dict_for_count : option norm_dict)
  (uniformize : bool) (counts : list (list (list Q))) : list (list (list Q)) :=
  let counts :=
    if (1 <? spatial_downsampling_factor)%Z
    then downsample_counts spatial_downsampling_factor return_coords counts
    else counts in
  match norm_dict_for_count with
  | Some norm_dict_for_count =>
      normalize_counts uniformize norm_dict_for_count counts
  | None => counts
  end.

(** The raw pathway pairs as the specification says.  Whenever
    [_read_raw_inputs_one_day] returns data, the example at every
    position holds, for the valid time [t] that the aligned examples of
    the day list for it, the satellite field of the initialization time
    [t - L] and the target made of the radar field of the valid time
    [t]. *)
Theorem raw_targets_at_valid_times (valid_date_string : string)
  (satellite_file_names : list string) (band_numbers : list Z)
  (norm_dict_for_count : option norm_dict) (uniformize : bool)
  (radar_file_names : list string) (lead_time_seconds : Z)
  (reflectivity_threshold_dbz : Q)
  (spatial_downsampling_factor num_examples_to_read : Z) (return_coords : bool)
  (radar_dict : ExampleIo.radar_dict) (satellite_dict : ExampleIo.satellite_dict)
  (data : data_dict) (desired_indices : option (list nat)) (k j : nat) (t : Z) :
  read_raw_files_one_day valid_date_string satellite_file_names band_numbers
    radar_file_names lead_time_seconds = Ok (radar_dict, satellite_dict) ->
  _read_raw_inputs_one_day valid_date_string satellite_file_names band_numbers
    norm_dict_for_count uniformize radar_file_names lead_time_seconds
    reflectivity_threshold_dbz spatial_downsampling_factor num_examples_to_read
    return_coords = Ok (Some data) ->
  desired_examples (length (VALID_TIMES data)) num_examples_to_read =
  Ok desired_indices ->
  example_index desired_indices k = Some j ->
  VALID_TIMES data !! j = Some t ->
  (exists reflectivity,
     field_at (ExampleIo.radar_valid_times_unix_sec radar_dict)
              (ExampleIo.composite_refl_matrix_dbz radar_dict) t =
     Some reflectivity /\
     TARGET_MATRIX data !! k =
     Some (expand_dims_last
             (geq_as_int reflectivity_threshold_dbz
                (processed_reflectivity spatial_downsampling_factor
                   return_coords reflectivity)))) /\
  (forall predictor_matrix,
     PREDICTOR_MATRIX data = Some predictor_matrix ->
     exists all_counts counts,
       ExampleIo.brightness_count_matrix satellite_dict = Some all_counts /\
       field_at (ExampleIo.sat_valid_times_unix_sec satellite_dict) all_counts
                (t - lead_time_seconds) = Some counts /\
       predictor_matrix !! k =
       Some (processed_counts spatial_downsampling_factor return_coords
               norm_dict_for_count uniformize counts)).
Proof.
  intros Hfiles Hread Hdesired Hk Ht.
  unfold _read_raw_inputs_one_day in Hread. cbv zeta in Hread.
  rewrite Hfiles in Hread. cbn [bind fst snd] in Hread.
  destruct (negb _) in Hread; [discriminate|].
  bind_inversion Hread valid_times Hvalid.
  bind_inversion Hread init_times Hinit.
  bind_inversion Hread radar_subset Hrsubset.
  bind_inversion Hread satellite_subset Hssubset.
  bind_inversion Hread desired Hdesired'.
  bind_inversion Hread radar_kept Hrkept.
  bind_inversion Hread satellite_kept Hskept.
  injection Hread as <-. cbn [VALID_TIMES TARGET_MATRIX PREDICTOR_MATRIX] in *.
  rewrite (mapM_length _ _ _ Hvalid), Hdesired' in Hdesired.
  injection Hdesired as ->.
  pose proof (init_times_lookup _ _ _ _ _ _ _ Hvalid Hinit Ht) as Hu.
  destruct (radar_subset_by_time_inv _ _ _ Hrsubset) as (rindices & Hrindices & Hrtaken).
  destruct (satellite_subset_by_time_inv _ _ _ Hssubset)
    as (sindices & Hsindices & Hstaken).
  split.
  - destruct (subset_lookup
                (ExampleIo.radar_valid_times_unix_sec radar_dict)
                (ExampleIo.composite_refl_matrix_dbz radar_dict)
                (ExampleIo.composite_refl_matrix_dbz (fst radar_subset))
                (ExampleIo.composite_refl_matrix_dbz radar_kept)
                valid_times rindices desired_indices k j t Hrindices Hrtaken)
      as (reflectivity & Hfield & Hlookup); try assumption.
    { destruct desired_indices as [desired_indices|].
      - now apply radar_subset_by_index_inv.
      - now injection Hrkept as <-. }
    exists reflectivity. split; [exact Hfield|].
    unfold processed_reflectivity.
    destruct (1 <? spatial_downsampling_factor)%Z.
    + destruct (downsample_per_time_step satellite_kept radar_kept
                  spatial_downsampling_factor return_coords) as [_ ->].
      rewrite !list_lookup_fmap, Hlookup. reflexivity.
    + cbn [snd]. rewrite !list_lookup_fmap, Hlookup. reflexivity.
  - intros predictor_matrix Hmatrix.
    assert (Hprocessed :
              option_map
                (map (processed_counts spatial_downsampling_factor return_coords
                        norm_dict_for_count uniformize))
                (ExampleIo.brightness_count_matrix satellite_kept) =
              Some predictor_matrix).
    { rewrite <- Hmatrix. unfold processed_counts.
      destruct norm_dict_for_count as [norm_dict_for_count|];
        [rewrite normalize_per_time_step|];
        (destruct (1 <? spatial_downsampling_factor)%Z;
         [destruct (downsample_per_time_step satellite_kept radar_kept
                      spatial_downsampling_factor return_coords) as [-> _]
         |cbn [fst]]);
        destruct (ExampleIo.brightness_count_matrix satellite_kept);
        cbn [option_map]; rewrite ?map_map, ?map_id; reflexivity. }
    destruct (ExampleIo.brightness_count_matrix satellite_kept) as [kept|] eqn:Hkept;
      [|discriminate].
    injection Hprocessed as <-.
    assert (Htaken : exists taken,
               ExampleIo.brightness_count_matrix (fst satellite_subset) = Some taken /\
               match desired_indices with
               | Some desired_indices =>
                   take_along_time taken desired_indices = Ok kept
               | None => kept = taken
               end).
    { destruct desired_indices as [desired_indices|].
      - apply satellite_subset_by_index_inv in Hskept. unfold taken_from in Hskept.
        rewrite Hkept in Hskept.
        destruct (ExampleIo.brightness_count_matrix (fst satellite_subset))
          as [taken|]; [|contradiction].
        eauto.
      - injection Hskept as <-. eauto. }
    destruct Htaken as (taken & Htaken & Hreturned).
    unfold taken_from in Hstaken. rewrite Htaken in Hstaken.
    destruct (ExampleIo.brightness_count_matrix satellite_dict) as [all_counts|];
      [|contradiction].
    destruct (subset_lookup
                (ExampleIo.sat_valid_times_unix_sec satellite_dict)
                all_counts taken kept init_times sindices desired_indices k j
                (t - lead_time_seconds)%Z Hsindices Hstaken Hreturned Hk Hu)
      as (counts & Hfield & Hlookup).
    exists all_counts, counts. split; [reflexivity|]. split; [exact Hfield|].
    rewrite list_lookup_fmap, Hlookup. reflexivity.
Qed.

End PerTimeStep.

(** C2 (the preprocessed pathway).  Whenever
    [_read_preprocessed_inputs_one_day] returns data, the example at
    every position holds, for the valid time [t] that the aligned
    examples of the day list for it, the predictor field of the
    initialization time [t - L] and the target field of that same
    initialization time [t - L]: the targets are taken at the
    initialization times, not at the valid times. *)
Theorem preprocessed_targets_at_init_times (valid_date_string : string)
  (predictor_file_names : list string) (band_numbers : list Z)
  (normalize uniformize : bool) (target_file_names : list string)
  (lead_time_seconds num_examples_to_read : Z) (return_coords : bool)
  (target_dict : PredictorTargetIo.target_dict)
  (predictor_dict : PredictorTargetIo.predictor_dict) (data : data_dict)
  (desired_indices : option (list nat)) (k j : nat) (t : Z) :
  read_preprocessed_files_one_day valid_date_string predictor_file_names
    band_numbers normalize (uniformize && normalize) target_file_names
    lead_time_seconds = Ok (target_dict, predictor_dict) ->
  _read_preprocessed_inputs_one_day valid_date_string predictor_file_names
    band_numbers normalize uniformize target_file_names lead_time_seconds
    num_examples_to_read return_coords = Ok (Some data) ->
  desired_examples (length (VALID_TIMES data)) num_examples_to_read =
  Ok desired_indices ->
  example_index desired_indices k = Some j ->
  VALID_TIMES data !! j = Some t ->
  (exists target,
     field_at (PredictorTargetIo.target_valid_times_unix_sec target_dict)
              (PredictorTargetIo.target_matrix target_dict)
              (t - lead_time_seconds) = Some target /\
     TARGET_MATRIX data !! k = Some (expand_dims_last target)) /\
  (forall predictor_matrix,
     PREDICTOR_MATRIX data = Some predictor_matrix ->
     exists all_predictors predictor,
       predictor_matrix_of normalize (uniformize && normalize) predictor_dict =
       Some all_predictors /\
       field_at (PredictorTargetIo.predictor_valid_times_unix_sec predictor_dict)
                all_predictors (t - lead_time_seconds) = Some predictor /\
       predictor_matrix !! k = Some predictor).
Proof.
  intros Hfiles Hread Hdesired Hk Ht.
  unfold _read_preprocessed_inputs_one_day in Hread. cbv zeta in Hread.
  rewrite Hfiles in Hread. cbn [bind fst snd] in Hread.
  destruct (negb _) in Hread; [discriminate|].
  bind_inversion Hread valid_times Hvalid.
  bind_inversion Hread init_times Hinit.
  bind_inversion Hread predictor_subset Hpsubset.
  bind_inversion Hread predictors Hpredictors.
  bind_inversion Hread target_subset Htsubset.
  bind_inversion Hread targets Htargets.
  bind_inversion Hread desired Hdesired'.
  bind_inversion Hread dicts Hdicts.
  injection Hread as <-. cbn [VALID_TIMES TARGET_MATRIX PREDICTOR_MATRIX] in *.
  rewrite (mapM_length _ _ _ Hvalid), Hdesired' in Hdesired.
  injection Hdesired as ->.
  pose proof (init_times_lookup _ _ _ _ _ _ _ Hvalid Hinit Ht) as Hu.
  destruct (subset_predictors_by_time_inv _ _ _ _ Hpsubset Hpredictors)
    as (pindices & Hpindices & Hptaken).
  destruct (subset_targets_by_time_inv _ _ _ _ Htsubset Htargets)
    as (tindices & Htindices & Httaken).
  assert (Hreturned :
            match desired_indices with
            | Some desired_indices =>
                take_along_time (PredictorTargetIo.target_matrix targets)
                                desired_indices =
                Ok (PredictorTargetIo.target_matrix (snd dicts)) /\
                forall normalize uniformize,
                  taken_from desired_indices
                    (predictor_matrix_of normalize uniformize predictors)
                    (predictor_matrix_of normalize uniformize (fst dicts))
            | None => dicts = (predictors, targets)
            end).
  { destruct desired_indices as [desired_indices|].
    - bind_inversion Hdicts subset Hsubset.
      bind_inversion Hdicts p Hp. bind_inversion Hdicts q Hq.
      injection Hdicts as <-. cbn [fst snd].
      exact (subset_by_index_inv _ _ _ _ _ _ Hsubset Hp Hq).
    - now injection Hdicts as <-. }
  split.
  - destruct (subset_lookup
                (PredictorTargetIo.target_valid_times_unix_sec target_dict)
                (PredictorTargetIo.target_matrix target_dict)
                (PredictorTargetIo.target_matrix targets)
                (PredictorTargetIo.target_matrix (snd dicts))
                init_times tindices desired_indices k j
                (t - lead_time_seconds)%Z Htindices Httaken)
      as (target & Hfield & Hlookup); try assumption.
    { destruct desired_indices; [apply Hreturned | now rewrite Hreturned]. }
    exists target. split; [exact Hfield|].
    rewrite list_lookup_fmap, Hlookup. reflexivity.
  - intros predictor_matrix Hmatrix.
    specialize (Hptaken normalize (uniformize && normalize)).
    unfold taken_from in Hptaken.
    destruct (predictor_matrix_of normalize (uniformize && normalize) predictor_dict)
      as [all_predictors|] eqn:Hall.
    2:{ destruct (predictor_matrix_of normalize (uniformize && normalize) predictors)
          eqn:Hnone; [contradiction|].
        destruct desired_indices as [desired_indices|].
        - destruct Hreturned as [_ Hreturned].
          specialize (Hreturned normalize (uniformize && normalize)).
          unfold taken_from in Hreturned. rewrite Hnone, Hmatrix in Hreturned.
          contradiction.
        - rewrite Hreturned in Hmatrix. cbn [fst] in Hmatrix. congruence. }
    destruct (predictor_matrix_of normalize (uniformize && normalize) predictors)
      as [taken|] eqn:Htaken; [|contradiction].
    destruct (subset_lookup
                (PredictorTargetIo.predictor_valid_times_unix_sec predictor_dict)
                all_predictors taken predictor_matrix
                init_times pindices desired_indices k j
                (t - lead_time_seconds)%Z Hpindices Hptaken)
      as (predictor & Hfield & Hlookup); try assumption.
    { destruct desired_indices as [desired_indices|].
      - destruct Hreturned as [_ Hreturned].
        specialize (Hreturned normalize (uniformize && normalize)).
        unfold taken_from in Hreturned. rewrite Htaken, Hmatrix in Hreturned.
        exact Hreturned.
      - rewrite Hreturned in Hmatrix. cbn [fst] in Hmatrix. congruence. }
    exists all_predictors, predictor. auto.
Qed.

End OneDay.

(** ** Two days of files, ten minutes of lead time *)

(** File names that start with their date. *)
Definition file_date (file_name : string) : string :=
  String.substring 0 8 file_name.

(** [numpy.allclose] with its default relative tolerance, for arrays of
    one shape. *)
Definition allclose (a b : list Q) (atol : Q) : bool :=
  (length a =? length b)%nat &&
  forallb (fun p => Qle_bool (Qabs (fst p - snd p))
                             (atol + (1 # 100000) * Qabs (snd p)))
          (combine a b).

(** One possible draw: the first examples. *)
Definition first_examples (indices : list nat) (size : Z) : result (list nat) :=
  if (size <? 0)%Z then Err ValueError else Ok (take (Z.to_nat size) indices).

Definition one_pixel (v : Q) : list (list (list Q)) := [[[v]]].

Definition target_files : list string :=
  ["20200101_targets.nc"; "20200102_targets.nc"].

Definition predictor_files : list string :=
  ["20200101_predictors.nc"; "20200102_predictors.nc"].

(** The target file of the valid date: convection at 600 s only. *)
Definition targets_of_date : PredictorTargetIo.target_dict :=
  {| PredictorTargetIo.target_matrix := [[[0%Z]]; [[1%Z]]; [[0%Z]]];
     PredictorTargetIo.target_valid_times_unix_sec := [0; 600; 1200]%Z;
     PredictorTargetIo.target_latitudes_deg_n := [25];
     PredictorTargetIo.target_longitudes_deg_e := [121] |}.

Definition predictors_at (times : list Z) (values : list Q) (read_unnormalized : bool)
  : PredictorTargetIo.predictor_dict :=
  {| PredictorTargetIo.predictor_matrix_unnorm :=
       if read_unnormalized then Some (map one_pixel values) else None;
     PredictorTargetIo.predictor_matrix_norm := None;
     PredictorTargetIo.predictor_matrix_unif_norm := None;
     PredictorTargetIo.predictor_valid_times_unix_sec := times;
     PredictorTargetIo.predictor_latitudes_deg_n := [25];
     PredictorTargetIo.predictor_longitudes_deg_e := [121];
     PredictorTargetIo.predictor_band_numbers := [8%Z] |}.

(** The predictor files: the day before ends at -1200 s, the valid date
    holds the times 0, 600 and 1200 s. *)
Definition predictors_of_file (file_name : string)
  (read_unnormalized read_normalized read_unif_normalized : bool)
  : PredictorTargetIo.predictor_dict :=
  if String.eqb file_name "20200101_predictors.nc"
  then predictors_at [-1200]%Z [10] read_unnormalized
  else predictors_at [0; 600; 1200]%Z [11; 12; 13] read_unnormalized.

Definition predictors_of_both_days : PredictorTargetIo.predictor_dict :=
  predictors_at [-1200; 0; 600; 1200]%Z [10; 11; 12; 13] true.

Definition preprocessed_day (lead_time_seconds : Z) : result (option data_dict) :=
  _read_preprocessed_inputs_one_day allclose first_examples file_date file_date
    (fun _ _ _ => targets_of_date) predictors_of_file (fun d _ => d)
    "20200102" predictor_files [8%Z] false false target_files lead_time_seconds
    5 false.

Definition preprocessed_data : data_dict :=
  {| PREDICTOR_MATRIX := Some [one_pixel 11; one_pixel 12];
     TARGET_MATRIX := [[[[0%Z]]]; [[[1%Z]]]];
     VALID_TIMES := [600; 1200]%Z;
     LATITUDES := None;
     LONGITUDES := None |}.

(** The same day as raw files: the reflectivity exceeds the threshold of
    35 dBZ at 600 s only. *)
Definition radar_files : list string :=
  ["20200101_radar.nc"; "20200102_radar.nc"].

Definition satellite_files : list string :=
  ["20200101_satellite.nc"; "20200102_satellite.nc"].

Definition radar_of_date : ExampleIo.radar_dict :=
  {| ExampleIo.composite_refl_matrix_dbz := [[[10]]; [[40]]; [[20]]];
     ExampleIo.radar_valid_times_unix_sec := [0; 600; 1200]%Z;
     ExampleIo.radar_latitudes_deg_n := [25];
     ExampleIo.radar_longitudes_deg_e := [121] |}.

Definition satellite_at (times : list Z) (values : list Q) (read_counts : bool)
  : ExampleIo.satellite_dict :=
  {| ExampleIo.brightness_temp_matrix_kelvins := None;
     ExampleIo.brightness_count_matrix :=
       if read_counts then Some (map one_pixel values) else None;
     ExampleIo.sat_latitudes_deg_n := [25];
     ExampleIo.sat_longitudes_deg_e := [121];
     ExampleIo.sat_valid_times_unix_sec := times;
     ExampleIo.band_numbers := [8%Z] |}.

Definition satellite_of_file (file_name : string)
  (read_temperatures read_counts : bool) : ExampleIo.satellite_dict :=
  if String.eqb file_name "20200101_satellite.nc"
  then satellite_at [-1200]%Z [10] read_counts
  else satellite_at [0; 600; 1200]%Z [11; 12; 13] read_counts.

Definition raw_day (lead_time_seconds : Z) : result (option data_dict) :=
  _read_raw_inputs_one_day file_date file_date (fun _ => radar_of_date)
    satellite_of_file (fun d _ => d) allclose first_examples
    (fun s r _ _ => (s, r)) unit (fun s _ _ => s)
    "20200102" satellite_files [8%Z] None false radar_files lead_time_seconds
    35 1 5 false.

(** The target fields of the valid times, as the specification pairs
    them. *)
Definition targets_at_valid_times (target_dict : PredictorTargetIo.target_dict)
  (valid_times : list Z) : list (option (list (list (list Z)))) :=
  map (fun t =>
         option_map expand_dims_last
           (field_at (PredictorTargetIo.target_valid_times_unix_sec target_dict)
                     (PredictorTargetIo.target_matrix target_dict) t))
      valid_times.

Lemma preprocessed_day_with_lead_time : preprocessed_day 600 = Ok (Some preprocessed_data).
Proof. vm_compute. reflexivity. Qed.

Lemma raw_day_with_lead_time :
  raw_day 600 =
  Ok (Some {| PREDICTOR_MATRIX := Some [one_pixel 11; one_pixel 12];
              TARGET_MATRIX := [[[[1%Z]]]; [[[0%Z]]]];
              VALID_TIMES := [600; 1200]%Z;
              LATITUDES := None;
              LONGITUDES := None |}).
Proof. vm_compute. reflexivity. Qed.

Lemma preprocessed_targets_at_init_times_witness :
  (exists target,
     field_at [0; 600; 1200]%Z [[[0%Z]]; [[1%Z]]; [[0%Z]]] (600 - 600)%Z =
     Some target /\
     TARGET_MATRIX preprocessed_data !! 0%nat = Some (expand_dims_last target)) /\
  (forall predictor_matrix,
     PREDICTOR_MATRIX preprocessed_data = Some predictor_matrix ->
     exists all_predictors predictor,
       predictor_matrix_of false (false && false) predictors_of_both_days =
       Some all_predictors /\
       field_at [-1200; 0; 600; 1200]%Z all_predictors (600 - 600)%Z =
       Some predictor /\
       predictor_matrix !! 0%nat = Some predictor).
Proof.
  apply (preprocessed_targets_at_init_times allclose first_examples file_date
           file_date (fun _ _ _ => targets_of_date) predictors_of_file
           (fun d _ => d) "20200102" predictor_files [8%Z] false false
           target_files 600%Z 5%Z false targets_of_date predictors_of_both_days
           preprocessed_data None 0%nat 0%nat 600%Z).
  - vm_compute. reflexivity.
  - vm_compute. reflexivity.
  - vm_compute. reflexivity.
  - reflexivity.
  - reflexivity.
Defined.

(** With ten minutes of lead time, the preprocessed pathway returns, for
    the valid times 600 s and 1200 s, the targets of 0 s and 600 s: not
    the targets of the valid times, which the raw pathway returns on the
    same day. *)
Lemma preprocessed_pairing_counterexample :
  ~ (forall data,
       preprocessed_day 600 = Ok (Some data) ->
       map Some (TARGET_MATRIX data) =
       targets_at_valid_times targets_of_date (VALID_TIMES data)).
Proof.
  intros H. specialize (H _ preprocessed_day_with_lead_time).
  vm_compute in H. discriminate H.
Qed.

(** The raw pathway on the same day: the target of the valid time 600 s
    is made of the reflectivity of 600 s, the predictor is the satellite
    field of 0 s. *)
Lemma raw_day_pairs_valid_times :
  forall data, raw_day 600 = Ok (Some data) ->
  (exists reflectivity,
     field_at [0; 600; 1200]%Z [[[10]]; [[40]]; [[20]]] 600%Z = Some reflectivity /\
     TARGET_MATRIX data !! 0%nat =
     Some (expand_dims_last (geq_as_int 35 reflectivity))) /\
  (forall predictor_matrix,
     PREDICTOR_MATRIX data = Some predictor_matrix ->
     exists all_counts counts,
       Some (map one_pixel [10; 11; 12; 13]) = Some all_counts /\
       field_at [-1200; 0; 600; 1200]%Z all_counts (600 - 600)%Z = Some counts /\
       predictor_matrix !! 0%nat = Some counts).
Proof.
  intros data Hdata.
  apply (raw_targets_at_valid_times file_date file_date (fun _ => radar_of_date)
           satellite_of_file (fun d _ => d) allclose first_examples
           (fun s r _ _ => (s, r)) unit (fun s _ _ => s)
           (fun _ _ counts => counts) (fun _ _ reflectivity => reflectivity)
           (fun _ _ counts => counts)
           ltac:(intros s r f c; cbn [fst snd];
                 destruct (ExampleIo.brightness_count_matrix s);
                 cbn [option_map]; rewrite ?map_id; auto)
           ltac:(intros s u n; destruct (ExampleIo.brightness_count_matrix s);
                 cbn [option_map]; rewrite ?map_id; auto)
           "20200102" satellite_files [8%Z] None false radar_files 600%Z 35 1%Z
           5%Z false radar_of_date
           (satellite_at [-1200; 0; 600; 1200]%Z [10; 11; 12; 13] true)
           data None 0%nat 0%nat 600%Z).
  - vm_compute. reflexivity.
  - exact Hdata.
  - rewrite raw_day_with_lead_time in Hdata. injection Hdata as <-.
    vm_compute. reflexivity.
  - reflexivity.
  - rewrite raw_day_with_lead_time in Hdata. injection Hdata as <-. reflexivity.
Qed.

(** Without lead time the two pathways pair alike. *)
Lemma pathways_agree_without_lead_time : preprocessed_day 0 = raw_day 0.
Proof. vm_compute. reflexivity. Qed.


(** ** The days that have their files *)

(** [x in names] *)
Definition py_in (x : string) (names : list string) : bool :=
  existsb (String.eqb x) names.

Lemma py_in_spec (x : string) (names : list string) :
  py_in x names = true <-> In x names.
Proof.
  unfold py_in. rewrite existsb_exists. split.
  - intros (y & Hy & Heq). apply String.eqb_eq in Heq. now subst.
  - intros H. exists x. split; [exact H | apply String.eqb_refl].
Qed.

Lemma py_index_of_member (names : list string) (x : string) :
  In x names ->
  exists i, py_index names x = Ok i /\ (i < length names)%nat.
Proof.
  unfold py_index. induction names as [|y names IH]; [contradiction|].
  intros Hin. cbn [index_of length].
  destruct (String.eqb y x) eqn:Heq.
  - exists 0%nat. split; [reflexivity | lia].
  - destruct Hin as [->|Hin]; [now rewrite String.eqb_refl in Heq|].
    destruct (IH Hin) as (i & Hi & Hlt).
    destruct (index_of x names) as [i'|]; [|discriminate].
    injection Hi as ->. exists (S i). split; [reflexivity | lia].
Qed.

Lemma getitem_at_in_range {A : Type} (x : list A) (i : nat) :
  (i < length x)%nat -> exists v, getitem_at x i = Ok v.
Proof.
  intros H. unfold getitem_at.
  destruct (lookup_lt_is_Some_2 x i H) as [v ->]. eauto.
Qed.

Lemma getitem_before_in_range {A : Type} (x : list A) (i : nat) :
  (i < length x)%nat -> exists v, getitem_before x i = Ok v.
Proof.
  intros H. unfold getitem_before.
  destruct i as [|i]; apply getitem_at_in_range; lia.
Qed.

Section FindDays.

Variable radar_file_name_to_date : string -> string.
Variable satellite_file_name_to_date : string -> string.
Variable target_file_name_to_date : string -> string.
Variable predictor_file_name_to_date : string -> string.

(** [general_utils.get_previous_date], of a module that is not under src/. *)
Variable get_previous_date : string -> string.

Definition _find_days_with_raw_inputs (satellite_file_names radar_file_names : list string)
  (lead_time_seconds : Z) : list string :=
  let satellite_date_strings :=
    map satellite_file_name_to_date satellite_file_names in
  let radar_date_strings := map radar_file_name_to_date radar_file_names in
  fold_left
    (fun valid_date_strings this_radar_date_string =>
       if negb (py_in this_radar_date_string satellite_date_strings)
       then valid_date_strings
       else if ((0 <? lead_time_seconds)%Z &&
                negb (py_in (get_previous_date this_radar_date_string)
                            satellite_date_strings))%bool
            then valid_date_strings
            else valid_date_strings ++ [this_radar_date_string])
    radar_date_strings [].

Definition _find_days_with_preprocessed_inputs
  (predictor_file_names target_file_names : list string) (lead_time_seconds : Z)
  : list string :=
  let predictor_date_strings :=
    map predictor_file_name_to_date predictor_file_names in
  let target_date_strings := map target_file_name_to_date target_file_names in
  fold_left
    (fun valid_date_strings this_target_date_string =>
       if negb (py_in this_target_date_string predictor_date_strings)
       then valid_date_strings
       else if ((0 <? lead_time_seconds)%Z &&
                negb (py_in (get_previous_date this_target_date_string)
                            predictor_date_strings))%bool
            then valid_date_strings
            else valid_date_strings ++ [this_target_date_string])
    target_date_strings [].

(** The loop of both functions keeps, in order, the dates that pass both
    tests. *)
Lemma find_days_loop (predictor_side_dates dates acc : list string)
  (lead_time_seconds : Z) :
  fold_left
    (fun valid_date_strings this_date_string =>
       if negb (py_in this_date_string predictor_side_dates)
       then valid_date_strings
       else if ((0 <? lead_time_seconds)%Z &&
                negb (py_in (get_previous_date this_date_string)
                            predictor_side_dates))%bool
            then valid_date_strings
            else valid_date_strings ++ [this_date_string])
    dates acc =
  acc ++ List.filter
           (fun d => py_in d predictor_side_dates &&
                     (negb (0 <? lead_time_seconds)%Z ||
                      py_in (get_previous_date d) predictor_side_dates))%bool
           dates.
Proof.
  revert acc. induction dates as [|d dates IH]; intros acc;
    cbn [fold_left List.filter].
  - now rewrite app_nil_r.
  - rewrite IH.
    destruct (py_in d predictor_side_dates); cbn [negb andb]; [|reflexivity].
    destruct (0 <? lead_time_seconds)%Z; cbn [negb andb orb].
    + destruct (py_in (get_previous_date d) predictor_side_dates); cbn [negb];
        [now rewrite <- app_assoc | reflexivity].
    + now rewrite <- app_assoc.
Qed.

Lemma kept_date_spec (predictor_side_dates dates : list string)
  (lead_time_seconds : Z) (d : string) :
  In d (List.filter
          (fun d => py_in d predictor_side_dates &&
                    (negb (0 <? lead_time_seconds)%Z ||
                     py_in (get_previous_date d) predictor_side_dates))%bool
          dates) <->
  In d dates /\ In d predictor_side_dates /\
  ((0 < lead_time_seconds)%Z -> In (get_previous_date d) predictor_side_dates).
Proof.
  rewrite List.filter_In, andb_true_iff, orb_true_iff, !py_in_spec,
    negb_true_iff, Z.ltb_ge.
  split.
  - intros (Hd & Hp & [Hlead|Hprev]); repeat split; try assumption.
    + intros Hpos. lia.
    + intros _. exact Hprev.
  - intros (Hd & Hp & Hprev). repeat split; try assumption.
    destruct (Z.lt_ge_cases 0 lead_time_seconds) as [Hpos|Hle];
      [right; now apply Hprev | left; lia].
Qed.

Lemma raw_days_spec (satellite_file_names radar_file_names : list string)
  (lead_time_seconds : Z) (d : string) :
  In d (_find_days_with_raw_inputs satellite_file_names radar_file_names
          lead_time_seconds) <->
  In d (map radar_file_name_to_date radar_file_names) /\
  In d (map satellite_file_name_to_date satellite_file_names) /\
  ((0 < lead_time_seconds)%Z ->
   In (get_previous_date d) (map satellite_file_name_to_date satellite_file_names)).
Proof.
  unfold _find_days_with_raw_inputs. cbv zeta.
  rewrite find_days_loop. cbn [app]. apply kept_date_spec.
Qed.

Lemma preprocessed_days_spec (predictor_file_names target_file_names : list string)
  (lead_time_seconds : Z) (d : string) :
  In d (_find_days_with_preprocessed_inputs predictor_file_names target_file_names
          lead_time_seconds) <->
  In d (map target_file_name_to_date target_file_names) /\
  In d (map predictor_file_name_to_date predictor_file_names) /\
  ((0 < lead_time_seconds)%Z ->
   In (get_previous_date d)
      (map predictor_file_name_to_date predictor_file_names)).
Proof.
  unfold _find_days_with_preprocessed_inputs. cbv zeta.
  rewrite find_days_loop. cbn [app]. apply kept_date_spec.
Qed.

Variable read_2d_file : string -> ExampleIo.radar_dict.
Variable read_file : string -> bool -> bool -> ExampleIo.satellite_dict.
Variable subset_by_band :
  ExampleIo.satellite_dict -> list Z -> ExampleIo.satellite_dict.
Variable numpy_allclose : list Q -> list Q -> Q -> bool.
Variable read_target_file : string -> bool -> bool -> PredictorTargetIo.target_dict.
Variable read_predictor_file :
  string -> bool -> bool -> bool -> PredictorTargetIo.predictor_dict.
Variable subset_predictors_by_band :
  PredictorTargetIo.predictor_dict -> list Z -> PredictorTargetIo.predictor_dict.

(** X18. Every date that [_find_days_with_raw_inputs] returns has the files
    that [_read_raw_inputs_one_day] looks up: reading them fails with no
    ValueError of [list.index] and no IndexError, only with the assertion
    on the grids, if at all. *)
Theorem found_raw_days_are_readable
  (satellite_file_names radar_file_names : list string) (lead_time_seconds : Z)
  (band_numbers : list Z) (valid_date_string : string) :
  In valid_date_string
     (_find_days_with_raw_inputs satellite_file_names radar_file_names
        lead_time_seconds) ->
  read_raw_files_one_day radar_file_name_to_date satellite_file_name_to_date
    read_2d_file read_file subset_by_band numpy_allclose valid_date_string
    satellite_file_names band_numbers radar_file_names lead_time_seconds =
  Err AssertionError \/
  exists dicts,
    read_raw_files_one_day radar_file_name_to_date satellite_file_name_to_date
      read_2d_file read_file subset_by_band numpy_allclose valid_date_string
      satellite_file_names band_numbers radar_file_names lead_time_seconds =
    Ok dicts.
Proof.
  intros Hfound. apply raw_days_spec in Hfound. destruct Hfound as (Hr & Hs & _).
  unfold read_raw_files_one_day.
  destruct (py_index_of_member _ _ Hr) as (i & -> & Hi).
  rewrite length_map in Hi. cbn [bind].
  destruct (getitem_at_in_range radar_file_names i Hi) as (radar_file & ->).
  cbn [bind].
  destruct (py_index_of_member _ _ Hs) as (j & -> & Hj).
  rewrite length_map in Hj. cbn [bind].
  destruct (getitem_at_in_range satellite_file_names j Hj) as (file_of_date & ->).
  cbn [bind].
  destruct (getitem_before_in_range satellite_file_names j Hj) as (file_before & ->).
  destruct (0 <? lead_time_seconds)%Z; cbn [bind map SatelliteIo.concat_data];
    (destruct (numpy_allclose _ _ _); cbn [py_assert bind]; [|now left]);
    (destruct (numpy_allclose _ _ _); cbn [py_assert bind]; [|now left]);
    right; eauto.
Qed.

(** X19. The same for the pre-processed files: a date that
    [_find_days_with_preprocessed_inputs] returns has the target file and
    the predictor files that [_read_preprocessed_inputs_one_day] looks
    up. *)
Theorem found_preprocessed_days_are_readable
  (predictor_file_names target_file_names : list string) (lead_time_seconds : Z)
  (band_numbers : list Z) (normalize uniformize : bool)
  (valid_date_string : string) :
  In valid_date_string
     (_find_days_with_preprocessed_inputs predictor_file_names target_file_names
        lead_time_seconds) ->
  read_preprocessed_files_one_day numpy_allclose target_file_name_to_date
    predictor_file_name_to_date read_target_file read_predictor_file
    subset_predictors_by_band valid_date_string predictor_file_names band_numbers
    normalize uniformize target_file_names lead_time_seconds =
  Err AssertionError \/
  exists dicts,
    read_preprocessed_files_one_day numpy_allclose target_file_name_to_date
      predictor_file_name_to_date read_target_file read_predictor_file
      subset_predictors_by_band valid_date_string predictor_file_names
      band_numbers normalize uniformize target_file_names lead_time_seconds =
    Ok dicts.
Proof.
  intros Hfound. apply preprocessed_days_spec in Hfound.
  destruct Hfound as (Ht & Hp & _).
  unfold read_preprocessed_files_one_day.
  destruct (py_index_of_member _ _ Ht) as (i & -> & Hi).
  rewrite length_map in Hi. cbn [bind].
  destruct (getitem_at_in_range target_file_names i Hi) as (target_file & ->).
  cbn [bind].
  destruct (py_index_of_member _ _ Hp) as (j & -> & Hj).
  rewrite length_map in Hj. cbn [bind].
  destruct (getitem_at_in_range predictor_file_names j Hj) as (file_of_date & ->).
  cbn [bind].
  destruct (getitem_before_in_range predictor_file_names j Hj) as (file_before & ->).
  destruct (0 <? lead_time_seconds)%Z;
    cbn [bind map PredictorTargetIo.concat_predictor_data];
    (destruct (numpy_allclose _ _ _); cbn [py_assert bind]; [|now left]);
    (destruct (numpy_allclose _ _ _); cbn [py_assert bind]; [|now left]);
    right; eauto.
Qed.

End FindDays.

(** The date before each of two days of the scenario. *)
Definition day_before (date_string : string) : string :=
  if String.eqb date_string "20200102" then "20200101" else "20191231".

Lemma found_raw_days_are_readable_witness :
  In "20200102"
     (_find_days_with_raw_inputs file_date file_date day_before satellite_files
        radar_files 600) /\
  (read_raw_files_one_day file_date file_date (fun _ => radar_of_date)
     satellite_of_file (fun d _ => d) allclose "20200102" satellite_files [8%Z]
     radar_files 600 = Err AssertionError \/
   exists dicts,
     read_raw_files_one_day file_date file_date (fun _ => radar_of_date)
       satellite_of_file (fun d _ => d) allclose "20200102" satellite_files [8%Z]
       radar_files 600 = Ok dicts).
Proof.
  assert (Hfound : In "20200102"
                     (_find_days_with_raw_inputs file_date file_date day_before
                        satellite_files radar_files 600)).
  { vm_compute. left. reflexivity. }
  split; [exact Hfound|].
  apply (found_raw_days_are_readable file_date file_date day_before
           (fun _ => radar_of_date) satellite_of_file (fun d _ => d) allclose
           satellite_files radar_files 600 [8%Z] "20200102" Hfound).
Defined.

Lemma found_preprocessed_days_are_readable_witness :
  In "20200102"
     (_find_days_with_preprocessed_inputs file_date file_date day_before
        predictor_files target_files 600) /\
  (read_preprocessed_files_one_day allclose file_date file_date
     (fun _ _ _ => targets_of_date) predictors_of_file (fun d _ => d) "20200102"
     predictor_files [8%Z] false false target_files 600 = Err AssertionError \/
   exists dicts,
     read_preprocessed_files_one_day allclose file_date file_date
       (fun _ _ _ => targets_of_date) predictors_of_file (fun d _ => d) "20200102"
       predictor_files [8%Z] false false target_files 600 = Ok dicts).
Proof.
  assert (Hfound : In "20200102"
                     (_find_days_with_preprocessed_inputs file_date file_date
                        day_before predictor_files target_files 600)).
  { vm_compute. left. reflexivity. }
  split; [exact Hfound|].
  apply (found_preprocessed_days_are_readable file_date file_date day_before
           allclose (fun _ _ _ => targets_of_date) predictors_of_file
           (fun d _ => d) predictor_files target_files 600 [8%Z] false false
           "20200102" Hfound).
Defined.

(** With ten minutes of lead time, the first day of the scenario is left
    out: the day before it has no file. *)
Lemma raw_days_of_the_scenario :
  _find_days_with_raw_inputs file_date file_date day_before satellite_files
    radar_files 600 = ["20200102"] /\
  _find_days_with_raw_inputs file_date file_date day_before satellite_files
    radar_files 0 = ["20200101"; "20200102"].
Proof. split; reflexivity. Qed.

(** ** How many examples the readers return *)

(** The number of examples that a reader keeps of [num_aligned] aligned
    ones. *)
Definition num_returned (num_aligned : nat) (num_examples_to_read : Z) : nat :=
  if (num_examples_to_read <=? Z.of_nat num_aligned)%Z
  then Z.to_nat num_examples_to_read
  else num_aligned.

Lemma subset_length {F : Type} (times : list Z) (fields taken returned : list F)
  (desired_times : list Z) (indices : list nat)
  (desired_indices : option (list nat)) :
  times_to_indices times desired_times = Ok indices ->
  take_along_time fields indices = Ok taken ->
  match desired_indices with
  | Some desired_indices => take_along_time taken desired_indices = Ok returned
  | None => returned = taken
  end ->
  length returned =
  match desired_indices with
  | Some desired_indices => length desired_indices
  | None => length desired_times
  end.
Proof.
  intros Hindices Htaken Hreturned.
  destruct desired_indices as [desired_indices|].
  - exact (mapM_length _ _ _ Hreturned).
  - subst returned. rewrite (mapM_length _ _ _ Htaken).
    exact (mapM_length _ _ _ Hindices).
Qed.

Lemma where_from_nonempty (flags : list bool) (start : nat) :
  existsb id flags = true -> where_from start flags <> [].
Proof.
  revert start. induction flags as [|flag flags IH]; intros start;
    cbn [existsb where_from]; [discriminate|].
  destruct flag; cbn [id orb]; [discriminate | apply IH].
Qed.

Ltac invert_bind H a Ha :=
  let H' := fresh in
  apply bind_Ok in H as (a & Ha & H'); cbv beta zeta in H'; move H' after Ha;
  rename H' into H.

Section ExampleCounts.

Variable numpy_allclose : list Q -> list Q -> Q -> bool.
Variable numpy_random_choice : list nat -> Z -> result (list nat).

(** [numpy.random.choice(a, size, replace=False)] draws [size] entries. *)
Hypothesis random_choice_size :
  forall indices size drawn,
    numpy_random_choice indices size = Ok drawn -> length drawn = Z.to_nat size.

Lemma desired_examples_length (num_examples : nat) (num_examples_to_read : Z)
  (desired_indices : option (list nat)) :
  desired_examples numpy_random_choice num_examples num_examples_to_read =
  Ok desired_indices ->
  match desired_indices with
  | Some desired_indices => length desired_indices
  | None => num_examples
  end = num_returned num_examples num_examples_to_read.
Proof.
  unfold desired_examples, num_returned.
  destruct (num_examples_to_read <=? Z.of_nat num_examples)%Z.
  - intros H. invert_bind H drawn Hdrawn. injection H as <-.
    now apply random_choice_size in Hdrawn.
  - intros H. now injection H as <-.
Qed.

Section Preprocessed.

Variable target_file_name_to_date : string -> string.
Variable predictor_file_name_to_date : string -> string.
Variable read_target_file : string -> bool -> bool -> PredictorTargetIo.target_dict.
Variable read_predictor_file :
  string -> bool -> bool -> bool -> PredictorTargetIo.predictor_dict.
Variable subset_predictors_by_band :
  PredictorTargetIo.predictor_dict -> list Z -> PredictorTargetIo.predictor_dict.

(** The numbers of examples and of valid times that the reader of
    pre-processed files returns. *)
Lemma preprocessed_reader_counts (valid_date_string : string)
  (predictor_file_names : list string) (band_numbers : list Z)
  (normalize uniformize : bool) (target_file_names : list string)
  (lead_time_seconds num_examples_to_read : Z) (return_coords : bool)
  (data : data_dict) :
  _read_preprocessed_inputs_one_day numpy_allclose numpy_random_choice
    target_file_name_to_date predictor_file_name_to_date read_target_file
    read_predictor_file subset_predictors_by_band valid_date_string
    predictor_file_names band_numbers normalize uniformize target_file_names
    lead_time_seconds num_examples_to_read return_coords = Ok (Some data) ->
  (1 <= length (VALID_TIMES data))%nat /\
  length (TARGET_MATRIX data) =
  num_returned (length (VALID_TIMES data)) num_examples_to_read /\
  (forall predictor_matrix,
     PREDICTOR_MATRIX data = Some predictor_matrix ->
     length predictor_matrix =
     num_returned (length (VALID_TIMES data)) num_examples_to_read).
Proof.
  intros Hread.
  unfold _read_preprocessed_inputs_one_day in Hread. cbv zeta in Hread.
  invert_bind Hread files Hfiles.
  destruct (negb _) eqn:Hany in Hread; [discriminate|].
  apply negb_false_iff in Hany.
  invert_bind Hread valid_times Hvalid.
  invert_bind Hread init_times Hinit.
  invert_bind Hread predictor_subset Hpsubset.
  invert_bind Hread predictors Hpredictors.
  invert_bind Hread target_subset Htsubset.
  invert_bind Hread targets Htargets.
  invert_bind Hread desired_indices Hdesired.
  invert_bind Hread dicts Hdicts.
  injection Hread as <-. cbn [VALID_TIMES TARGET_MATRIX PREDICTOR_MATRIX].
  pose proof (mapM_length _ _ _ Hvalid) as Hnvalid.
  pose proof (mapM_length _ _ _ Hinit) as Hninit.
  apply desired_examples_length in Hdesired.
  destruct (subset_predictors_by_time_inv _ _ _ _ Hpsubset Hpredictors)
    as (pindices & Hpindices & Hptaken).
  destruct (subset_targets_by_time_inv _ _ _ _ Htsubset Htargets)
    as (tindices & Htindices & Httaken).
  assert (Hreturned :
            match desired_indices with
            | Some desired_indices =>
                take_along_time (PredictorTargetIo.target_matrix targets)
                                desired_indices =
                Ok (PredictorTargetIo.target_matrix (snd dicts)) /\
                forall normalize uniformize,
                  taken_from desired_indices
                    (predictor_matrix_of normalize uniformize predictors)
                    (predictor_matrix_of normalize uniformize (fst dicts))
            | None => dicts = (predictors, targets)
            end).
  { destruct desired_indices as [desired_indices|].
    - invert_bind Hdicts subset Hsubset.
      invert_bind Hdicts p Hp. invert_bind Hdicts q Hq.
      injection Hdicts as <-. cbn [fst snd].
      exact (subset_by_index_inv _ _ _ _ _ _ Hsubset Hp Hq).
    - now injection Hdicts as <-. }
  rewrite Hnvalid, <- Hdesired.
  split; [|split].
  - pose proof (where_from_nonempty _ 0 Hany) as Hne. unfold numpy_where.
    destruct (where_from 0 _); [contradiction | cbn [length]; lia].
  - rewrite length_map.
    rewrite (subset_length _ _ _ _ _ _ desired_indices Htindices Httaken).
    + destruct desired_indices; [reflexivity | lia].
    + destruct desired_indices; [apply Hreturned | now rewrite Hreturned].
  - intros predictor_matrix Hmatrix.
    specialize (Hptaken normalize (uniformize && normalize)).
    unfold taken_from in Hptaken.
    destruct (predictor_matrix_of normalize (uniformize && normalize) (snd files))
      as [all_predictors|] eqn:Hall.
    2:{ destruct (predictor_matrix_of normalize (uniformize && normalize) predictors)
          eqn:Hnone; [contradiction|].
        destruct desired_indices as [desired_indices|].
        - destruct Hreturned as [_ Hreturned].
          specialize (Hreturned normalize (uniformize && normalize)).
          unfold taken_from in Hreturned. rewrite Hnone, Hmatrix in Hreturned.
          contradiction.
        - rewrite Hreturned in Hmatrix. cbn [fst] in Hmatrix. congruence. }
    destruct (predictor_matrix_of normalize (uniformize && normalize) predictors)
      as [taken|] eqn:Htaken; [|contradiction].
    rewrite (subset_length _ _ _ _ _ _ desired_indices Hpindices Hptaken).
    + destruct desired_indices; [reflexivity | lia].
    + destruct desired_indices as [desired_indices|].
      * destruct Hreturned as [_ Hreturned].
        specialize (Hreturned normalize (uniformize && normalize)).
        unfold taken_from in Hreturned. rewrite Htaken, Hmatrix in Hreturned.
        exact Hreturned.
      * rewrite Hreturned in Hmatrix. cbn [fst] in Hmatrix. congruence.
Qed.

(** X20. When [_read_preprocessed_inputs_one_day] returns data, the day has
    at least one aligned example; the target and predictor matrices hold
    [num_examples_to_read] examples when the day has that many aligned
    ones and all of them otherwise, while the valid times returned are
    those of all aligned examples, drawn or not. *)
Theorem preprocessed_example_count (valid_date_string : string)
  (predictor_file_names : list string) (band_numbers : list Z)
  (normalize uniformize : bool) (target_file_names : list string)
  (lead_time_seconds num_examples_to_read : Z) (return_coords : bool)
  (data : data_dict) :
  _read_preprocessed_inputs_one_day numpy_allclose numpy_random_choice
    target_file_name_to_date predictor_file_name_to_date read_target_file
    read_predictor_file subset_predictors_by_band valid_date_string
    predictor_file_names band_numbers normalize uniformize target_file_names
    lead_time_seconds num_examples_to_read return_coords = Ok (Some data) ->
  (1 <= length (VALID_TIMES data))%nat /\
  length (TARGET_MATRIX data) =
  num_returned (length (VALID_TIMES data)) num_examples_to_read /\
  (forall predictor_matrix,
     PREDICTOR_MATRIX data = Some predictor_matrix ->
     length predictor_matrix =
     num_returned (length (VALID_TIMES data)) num_examples_to_read).
Proof. apply preprocessed_reader_counts. Qed.

End Preprocessed.

Section Raw.

Variable radar_file_name_to_date : string -> string.
Variable satellite_file_name_to_date : string -> string.
Variable read_2d_file : string -> ExampleIo.radar_dict.
Variable read_file : string -> bool -> bool -> ExampleIo.satellite_dict.
Variable subset_by_band :
  ExampleIo.satellite_dict -> list Z -> ExampleIo.satellite_dict.
Variable downsample_data_in_space :
  ExampleIo.satellite_dict -> ExampleIo.radar_dict -> Z -> bool ->
  ExampleIo.satellite_dict * ExampleIo.radar_dict.
Variable norm_dict : Type.
Variable normalize_data :
  ExampleIo.satellite_dict -> bool -> norm_dict -> ExampleIo.satellite_dict.

(** Spatial downsampling and normalization keep the time steps. *)
Hypothesis downsample_keeps_times :
  forall satellite_dict radar_dict factor change_coordinates,
    option_map (@length _)
      (ExampleIo.brightness_count_matrix
         (fst (downsample_data_in_space satellite_dict radar_dict factor
                 change_coordinates))) =
    option_map (@length _) (ExampleIo.brightness_count_matrix satellite_dict) /\
    length (ExampleIo.composite_refl_matrix_dbz
              (snd (downsample_data_in_space satellite_dict radar_dict factor
                      change_coordinates))) =
    length (ExampleIo.composite_refl_matrix_dbz radar_dict).

Hypothesis normalize_keeps_times :
  forall satellite_dict uniformize norm_dict_for_count,
    option_map (@length _)
      (ExampleIo.brightness_count_matrix
         (normalize_data satellite_dict uniformize norm_dict_for_count)) =
    option_map (@length _) (ExampleIo.brightness_count_matrix satellite_dict).

(** The numbers of examples and of valid times that the reader of raw
    files returns. *)
Lemma raw_reader_counts (valid_date_string : string)
  (satellite_file_names : list string) (band_numbers : list Z)
  (norm_dict_for_count : option norm_dict) (uniformize : bool)
  (radar_file_names : list string) (lead_time_seconds : Z)
  (reflectivity_threshold_dbz : Q)
  (spatial_downsampling_factor num_examples_to_read : Z) (return_coords : bool)
  (data : data_dict) :
  _read_raw_inputs_one_day radar_file_name_to_date satellite_file_name_to_date
    read_2d_file read_file subset_by_band numpy_allclose numpy_random_choice
    downsample_data_in_space norm_dict normalize_data valid_date_string
    satellite_file_names band_numbers norm_dict_for_count uniformize
    radar_file_names lead_time_seconds reflectivity_threshold_dbz
    spatial_downsampling_factor num_examples_to_read return_coords =
  Ok (Some data) ->
  (1 <= length (VALID_TIMES data))%nat /\
  length (TARGET_MATRIX data) =
  num_returned (length (VALID_TIMES data)) num_examples_to_read /\
  (forall predictor_matrix,
     PREDICTOR_MATRIX data = Some predictor_matrix ->
     length predictor_matrix =
     num_returned (length (VALID_TIMES data)) num_examples_to_read).
Proof.
  intros Hread.
  unfold _read_raw_inputs_one_day in Hread. cbv zeta in Hread.
  invert_bind Hread files Hfiles.
  destruct (negb _) eqn:Hany in Hread; [discriminate|].
  apply negb_false_iff in Hany.
  invert_bind Hread valid_times Hvalid.
  invert_bind Hread init_times Hinit.
  invert_bind Hread radar_subset Hrsubset.
  invert_bind Hread satellite_subset Hssubset.
  invert_bind Hread desired_indices Hdesired.
  invert_bind Hread radar_kept Hrkept.
  invert_bind Hread satellite_kept Hskept.
  injection Hread as <-. cbn [VALID_TIMES TARGET_MATRIX PREDICTOR_MATRIX].
  pose proof (mapM_length _ _ _ Hvalid) as Hnvalid.
  pose proof (mapM_length _ _ _ Hinit) as Hninit.
  apply desired_examples_length in Hdesired.
  destruct (radar_subset_by_time_inv _ _ _ Hrsubset) as (rindices & Hrindices & Hrtaken).
  destruct (satellite_subset_by_time_inv _ _ _ Hssubset)
    as (sindices & Hsindices & Hstaken).
  rewrite Hnvalid, <- Hdesired.
  split; [|split].
  - pose proof (where_from_nonempty _ 0 Hany) as Hne. unfold numpy_where.
    destruct (where_from 0 _); [contradiction | cbn [length]; lia].
  - rewrite !length_map.
    assert (Hkept : length (ExampleIo.composite_refl_matrix_dbz radar_kept) =
                    match desired_indices with
                    | Some desired_indices => length desired_indices
                    | None => length valid_times
                    end).
    { apply (subset_length _ _ _ _ _ _ desired_indices Hrindices Hrtaken).
      destruct desired_indices as [desired_indices|].
      - now apply radar_subset_by_index_inv.
      - now injection Hrkept as <-. }
    destruct (1 <? spatial_downsampling_factor)%Z.
    + destruct (downsample_keeps_times satellite_kept radar_kept
                  spatial_downsampling_factor return_coords) as [_ ->].
      rewrite Hkept. destruct desired_indices; [reflexivity | lia].
    + cbn [snd]. rewrite Hkept. destruct desired_indices; [reflexivity | lia].
  - intros predictor_matrix Hmatrix.
    assert (Hlength : option_map (@length _)
                        (ExampleIo.brightness_count_matrix satellite_kept) =
                      Some (length predictor_matrix)).
    { change (Some (length predictor_matrix))
        with (option_map (@length _) (Some predictor_matrix)).
      rewrite <- Hmatrix.
      destruct norm_dict_for_count as [norm_dict_for_count|];
        [rewrite normalize_keeps_times|];
        (destruct (1 <? spatial_downsampling_factor)%Z;
         [now destruct (downsample_keeps_times satellite_kept radar_kept
                          spatial_downsampling_factor return_coords) as [-> _]
         |reflexivity]). }
    destruct (ExampleIo.brightness_count_matrix satellite_kept) as [kept|] eqn:Hkept;
      [|discriminate].
    injection Hlength as <-.
    assert (Htaken : exists taken,
               ExampleIo.brightness_count_matrix (fst satellite_subset) = Some taken /\
               match desired_indices with
               | Some desired_indices =>
                   take_along_time taken desired_indices = Ok kept
               | None => kept = taken
               end).
    { destruct desired_indices as [desired_indices|].
      - apply satellite_subset_by_index_inv in Hskept. unfold taken_from in Hskept.
        rewrite Hkept in Hskept.
        destruct (ExampleIo.brightness_count_matrix (fst satellite_subset))
          as [taken|]; [|contradiction].
        eauto.
      - injection Hskept as <-. eauto. }
    destruct Htaken as (taken & Htaken & Hreturned).
    unfold taken_from in Hstaken. rewrite Htaken in Hstaken.
    destruct (ExampleIo.brightness_count_matrix (snd files)) as [all_counts|];
      [|contradiction].
    rewrite (subset_length _ _ _ _ _ _ desired_indices Hsindices Hstaken Hreturned).
    destruct desired_indices; [reflexivity | lia].
Qed.

(** X21. The same for [_read_raw_inputs_one_day], with spatial downsampling
    and normalization that keep the time steps: the matrices hold the
    examples drawn, the valid times those of all aligned examples. *)
Theorem raw_example_count (valid_date_string : string)
  (satellite_file_names : list string) (band_numbers : list Z)
  (norm_dict_for_count : option norm_dict) (uniformize : bool)
  (radar_file_names : list string) (lead_time_seconds : Z)
  (reflectivity_threshold_dbz : Q)
  (spatial_downsampling_factor num_examples_to_read : Z) (return_coords : bool)
  (data : data_dict) :
  _read_raw_inputs_one_day radar_file_name_to_date satellite_file_name_to_date
    read_2d_file read_file subset_by_band numpy_allclose numpy_random_choice
    downsample_data_in_space norm_dict normalize_data valid_date_string
    satellite_file_names band_numbers norm_dict_for_count uniformize
    radar_file_names lead_time_seconds reflectivity_threshold_dbz
    spatial_downsampling_factor num_examples_to_read return_coords =
  Ok (Some data) ->
  (1 <= length (VALID_TIMES data))%nat /\
  length (TARGET_MATRIX data) =
  num_returned (length (VALID_TIMES data)) num_examples_to_read /\
  (forall predictor_matrix,
     PREDICTOR_MATRIX data = Some predictor_matrix ->
     length predictor_matrix =
     num_returned (length (VALID_TIMES data)) num_examples_to_read).
Proof. apply raw_reader_counts. Qed.

End Raw.

End ExampleCounts.

(** A draw that takes the first examples and, as NumPy does, refuses to
    draw more than there are. *)
Definition first_of_enough (indices : list nat) (size : Z) : result (list nat) :=
  if ((size <? 0)%Z || (Z.of_nat (length indices) <? size)%Z)%bool
  then Err ValueError
  else Ok (take (Z.to_nat size) indices).

Lemma first_of_enough_size (indices : list nat) (size : Z) (drawn : list nat) :
  first_of_enough indices size = Ok drawn -> length drawn = Z.to_nat size.
Proof.
  unfold first_of_enough.
  destruct (size <? 0)%Z eqn:Hneg; [discriminate|].
  destruct (Z.of_nat (length indices) <? size)%Z eqn:Hmany; [discriminate|].
  cbn [orb]. intros H. injection H as <-.
  apply Z.ltb_ge in Hneg, Hmany. rewrite length_take. lia.
Qed.

(** One example is asked of a day that has two aligned ones: the matrices
    hold one example, the valid times are those of both. *)
Lemma preprocessed_example_count_witness :
  exists data,
    _read_preprocessed_inputs_one_day allclose first_of_enough file_date file_date
      (fun _ _ _ => targets_of_date) predictors_of_file (fun d _ => d)
      "20200102" predictor_files [8%Z] false false target_files 600 1 false =
    Ok (Some data) /\
    (1 <= length (VALID_TIMES data))%nat /\
    length (TARGET_MATRIX data) = num_returned (length (VALID_TIMES data)) 1 /\
    (forall predictor_matrix,
       PREDICTOR_MATRIX data = Some predictor_matrix ->
       length predictor_matrix = num_returned (length (VALID_TIMES data)) 1).
Proof.
  eexists. split; [vm_compute; reflexivity|].
  apply (preprocessed_example_count allclose first_of_enough first_of_enough_size
           file_date file_date (fun _ _ _ => targets_of_date) predictors_of_file
           (fun d _ => d) "20200102" predictor_files [8%Z] false false
           target_files 600%Z 1%Z false).
  vm_compute. reflexivity.
Defined.

Lemma raw_example_count_witness :
  exists data,
    _read_raw_inputs_one_day file_date file_date (fun _ => radar_of_date)
      satellite_of_file (fun d _ => d) allclose first_of_enough
      (fun s r _ _ => (s, r)) unit (fun s _ _ => s)
      "20200102" satellite_files [8%Z] None false radar_files 600 35 1 1 false =
    Ok (Some data) /\
    (1 <= length (VALID_TIMES data))%nat /\
    length (TARGET_MATRIX data) = num_returned (length (VALID_TIMES data)) 1 /\
    (forall predictor_matrix,
       PREDICTOR_MATRIX data = Some predictor_matrix ->
       length predictor_matrix = num_returned (length (VALID_TIMES data)) 1).
Proof.
  eexists. split; [vm_compute; reflexivity|].
  apply (raw_example_count allclose first_of_enough first_of_enough_size
           file_date file_date (fun _ => radar_of_date) satellite_of_file
           (fun d _ => d) (fun s r _ _ => (s, r)) unit (fun s _ _ => s)
           ltac:(intros; split; reflexivity) ltac:(intros; reflexivity)
           "20200102" satellite_files [8%Z] None false radar_files 600%Z 35 1%Z
           1%Z false).
  vm_compute. reflexivity.
Defined.

(** On that day the reader returns one example and two valid times. *)
Lemma one_example_of_two :
  option_map (fun data => (length (TARGET_MATRIX data), length (VALID_TIMES data)))
    match _read_raw_inputs_one_day file_date file_date (fun _ => radar_of_date)
            satellite_of_file (fun d _ => d) allclose first_of_enough
            (fun s r _ _ => (s, r)) unit (fun s _ _ => s)
            "20200102" satellite_files [8%Z] None false radar_files 600 35 1 1
            false with
    | Ok data => data
    | Err _ => None
    end = Some (1%nat, 2%nat).
Proof. vm_compute. reflexivity. Qed.

(** ** A day that is read in full *)

Section WholeDay.

Variable radar_file_name_to_date : string -> string.
Variable satellite_file_name_to_date : string -> string.
Variable read_2d_file : string -> ExampleIo.radar_dict.
Variable read_file : string -> bool -> bool -> ExampleIo.satellite_dict.
Variable subset_by_band :
  ExampleIo.satellite_dict -> list Z -> ExampleIo.satellite_dict.
Variable numpy_allclose : list Q -> list Q -> Q -> bool.
Variable numpy_random_choice : list nat -> Z -> result (list nat).
Variable downsample_data_in_space :
  ExampleIo.satellite_dict -> ExampleIo.radar_dict -> Z -> bool ->
  ExampleIo.satellite_dict * ExampleIo.radar_dict.
Variable norm_dict : Type.
Variable normalize_data :
  ExampleIo.satellite_dict -> bool -> norm_dict -> ExampleIo.satellite_dict.

(** Spatial downsampling and normalization treat every time step on its
    own. *)
Variable downsample_counts :
  Z -> bool -> list (list (list Q)) -> list (list (list Q)).
Variable downsample_reflectivity : Z -> bool -> list (list Q) -> list (list Q).
Variable normalize_counts :
  bool -> norm_dict -> list (list (list Q)) -> list (list (list Q)).

Hypothesis downsample_per_time_step :
  forall satellite_dict radar_dict factor change_coordinates,
    ExampleIo.brightness_count_matrix
      (fst (downsample_data_in_space satellite_dict radar_dict factor
              change_coordinates)) =
    option_map (map (downsample_counts factor change_coordinates))
               (ExampleIo.brightness_count_matrix satellite_dict) /\
    ExampleIo.composite_refl_matrix_dbz
      (snd (downsample_data_in_space satellite_dict radar_dict factor
              change_coordinates)) =
    map (downsample_reflectivity factor change_coordinates)
        (ExampleIo.composite_refl_matrix_dbz radar_dict).

Hypothesis normalize_per_time_step :
  forall satellite_dict uniformize norm_dict_for_count,
    ExampleIo.brightness_count_matrix
      (normalize_data satellite_dict uniformize norm_dict_for_count) =
    option_map (map (normalize_counts uniformize norm_dict_for_count))
               (ExampleIo.brightness_count_matrix satellite_dict).

(** X22. When [_read_raw_inputs_one_day] is asked for more examples than the
    day has aligned ones, position
    [k] means the same example in all three arrays: for the valid time
    [t] at position [k], the target at [k] is made of the radar field of
    [t] and the predictor at [k] of the satellite field of [t - L]. *)
Theorem raw_examples_aligned_when_all_are_read (valid_date_string : string)
  (satellite_file_names : list string) (band_numbers : list Z)
  (norm_dict_for_count : option norm_dict) (uniformize : bool)
  (radar_file_names : list string) (lead_time_seconds : Z)
  (reflectivity_threshold_dbz : Q)
  (spatial_downsampling_factor num_examples_to_read : Z) (return_coords : bool)
  (radar_dict : ExampleIo.radar_dict) (satellite_dict : ExampleIo.satellite_dict)
  (data : data_dict) (k : nat) (t : Z) :
  read_raw_files_one_day radar_file_name_to_date satellite_file_name_to_date
    read_2d_file read_file subset_by_band numpy_allclose valid_date_string
    satellite_file_names band_numbers radar_file_names lead_time_seconds =
  Ok (radar_dict, satellite_dict) ->
  _read_raw_inputs_one_day radar_file_name_to_date satellite_file_name_to_date
    read_2d_file read_file subset_by_band numpy_allclose numpy_random_choice
    downsample_data_in_space norm_dict normalize_data valid_date_string
    satellite_file_names band_numbers norm_dict_for_count uniformize
    radar_file_names lead_time_seconds reflectivity_threshold_dbz
    spatial_downsampling_factor num_examples_to_read return_coords =
  Ok (Some data) ->
  (Z.of_nat (length (VALID_TIMES data)) < num_examples_to_read)%Z ->
  VALID_TIMES data !! k = Some t ->
  (exists reflectivity,
     field_at (ExampleIo.radar_valid_times_unix_sec radar_dict)
              (ExampleIo.composite_refl_matrix_dbz radar_dict) t =
     Some reflectivity /\
     TARGET_MATRIX data !! k =
     Some (expand_dims_last
             (geq_as_int reflectivity_threshold_dbz
                (processed_reflectivity downsample_reflectivity
                   spatial_downsampling_factor return_coords reflectivity)))) /\
  (forall predictor_matrix,
     PREDICTOR_MATRIX data = Some predictor_matrix ->
     exists all_counts counts,
       ExampleIo.brightness_count_matrix satellite_dict = Some all_counts /\
       field_at (ExampleIo.sat_valid_times_unix_sec satellite_dict) all_counts
                (t - lead_time_seconds) = Some counts /\
       predictor_matrix !! k =
       Some (processed_counts norm_dict downsample_counts normalize_counts
               spatial_downsampling_factor return_coords norm_dict_for_count
               uniformize counts)).
Proof.
  intros Hfiles Hread Hall Ht.
  apply (raw_targets_at_valid_times radar_file_name_to_date
           satellite_file_name_to_date read_2d_file read_file subset_by_band
           numpy_allclose numpy_random_choice downsample_data_in_space norm_dict
           normalize_data downsample_counts downsample_reflectivity
           normalize_counts downsample_per_time_step normalize_per_time_step
           valid_date_string satellite_file_names band_numbers
           norm_dict_for_count uniformize radar_file_names lead_time_seconds
           reflectivity_threshold_dbz spatial_downsampling_factor
           num_examples_to_read return_coords radar_dict satellite_dict data
           None k k t Hfiles Hread).
  - unfold desired_examples.
    assert (H : (num_examples_to_read <=? Z.of_nat (length (VALID_TIMES data)))%Z =
                false) by (apply Z.leb_gt; exact Hall).
    now rewrite H.
  - reflexivity.
  - exact Ht.
Qed.

End WholeDay.

Lemma raw_examples_aligned_when_all_are_read_witness :
  exists data,
    raw_day 600 = Ok (Some data) /\
    (exists reflectivity,
       field_at [0; 600; 1200]%Z [[[10]]; [[40]]; [[20]]] 1200%Z =
       Some reflectivity /\
       TARGET_MATRIX data !! 1%nat =
       Some (expand_dims_last (geq_as_int 35 reflectivity))) /\
    (forall predictor_matrix,
       PREDICTOR_MATRIX data = Some predictor_matrix ->
       exists all_counts counts,
         Some (map one_pixel [10; 11; 12; 13]) = Some all_counts /\
         field_at [-1200; 0; 600; 1200]%Z all_counts (1200 - 600)%Z = Some counts /\
         predictor_matrix !! 1%nat = Some counts).
Proof.
  eexists. split; [apply raw_day_with_lead_time|].
  apply (raw_examples_aligned_when_all_are_read file_date file_date
           (fun _ => radar_of_date) satellite_of_file (fun d _ => d) allclose
           first_examples (fun s r _ _ => (s, r)) unit (fun s _ _ => s)
           (fun _ _ counts => counts) (fun _ _ reflectivity => reflectivity)
           (fun _ _ counts => counts)
           ltac:(intros s r f c; cbn [fst snd];
                 destruct (ExampleIo.brightness_count_matrix s);
                 cbn [option_map]; rewrite ?map_id; auto)
           ltac:(intros s u n; destruct (ExampleIo.brightness_count_matrix s);
                 cbn [option_map]; rewrite ?map_id; auto)
           "20200102" satellite_files [8%Z] None false radar_files 600%Z 35 1%Z
           5%Z false radar_of_date
           (satellite_at [-1200; 0; 600; 1200]%Z [10; 11; 12; 13] true)
           _ 1%nat 1200%Z).
  - vm_compute. reflexivity.
  - apply raw_day_with_lead_time.
  - vm_compute. reflexivity.
  - reflexivity.
Defined.

(** ** The metadata file *)

Definition NUM_EPOCHS_KEY : string := "num_epochs".
Definition NUM_TRAINING_BATCHES_KEY : string := "num_training_batches_per_epoch".
Definition TRAINING_OPTIONS_KEY : string := "training_option_dict".
Definition NUM_VALIDATION_BATCHES_KEY : string := "num_validation_batches_per_epoch".
Definition VALIDATION_OPTIONS_KEY : string := "validation_option_dict".
Definition EARLY_STOPPING_KEY : string := "do_early_stopping".
Definition PLATEAU_LR_MUTIPLIER_KEY : string := "plateau_lr_multiplier".
Definition CLASS_WEIGHTS_KEY : string := "class_weights".

Definition METADATA_KEYS : list string :=
  [NUM_EPOCHS_KEY; NUM_TRAINING_BATCHES_KEY; TRAINING_OPTIONS_KEY;
   NUM_VALIDATION_BATCHES_KEY; VALIDATION_OPTIONS_KEY;
   EARLY_STOPPING_KEY; PLATEAU_LR_MUTIPLIER_KEY; CLASS_WEIGHTS_KEY].

Section Metafile.

(** The Python objects that a metadata dictionary holds, with [None]
    among them. *)
Variable value : Type.
Variable py_none : value.

(** The error that [error_checking.assert_file_exists], of a package that
    is not under src/, raises for a missing file. *)
Variable missing_file : error.

(** [_write_metafile]; [files] are the Dill files by path, each holding
    one dictionary. *)
Definition _write_metafile (files : gmap string (gmap string value)) (dill_file_name : string)
  (num_epochs num_training_batches_per_epoch training_option_dict
   num_validation_batches_per_epoch validation_option_dict do_early_stopping
   plateau_lr_multiplier class_weights : value) : gmap string (gmap string value) :=
  let metadata_dict : gmap string value :=
    <[CLASS_WEIGHTS_KEY := class_weights]>
    (<[PLATEAU_LR_MUTIPLIER_KEY := plateau_lr_multiplier]>
    (<[EARLY_STOPPING_KEY := do_early_stopping]>
    (<[VALIDATION_OPTIONS_KEY := validation_option_dict]>
    (<[NUM_VALIDATION_BATCHES_KEY := num_validation_batches_per_epoch]>
    (<[TRAINING_OPTIONS_KEY := training_option_dict]>
    (<[NUM_TRAINING_BATCHES_KEY := num_training_batches_per_epoch]>
    (<[NUM_EPOCHS_KEY := num_epochs]> ∅))))))) in
  <[dill_file_name := metadata_dict]> files.

(** [key in metadata_dict] *)
Definition has_key (metadata_dict : gmap string value) (key : string) : bool :=
  match metadata_dict !! key with
  | Some _ => true
  | None => false
  end.

Definition read_metafile (files : gmap string (gmap string value)) (dill_file_name : string)
  : result (gmap string value) :=
  match files !! dill_file_name with
  | None => Err missing_file
  | Some metadata_dict =>
      let metadata_dict :=
        if negb (has_key metadata_dict CLASS_WEIGHTS_KEY)
        then <[CLASS_WEIGHTS_KEY := py_none]> metadata_dict
        else metadata_dict in
      let missing_keys :=
        List.filter (fun key => negb (has_key metadata_dict key)) METADATA_KEYS in
      if (length missing_keys =? 0)%nat then Ok metadata_dict
      else Err ValueError
  end.

Lemma no_missing_key (metadata_dict : gmap string value) :
  (length (List.filter (fun key => negb (has_key metadata_dict key)) METADATA_KEYS)
   =? 0)%nat =
  forallb (has_key metadata_dict) METADATA_KEYS.
Proof.
  induction METADATA_KEYS as [|key keys IH]; [reflexivity|].
  cbn [List.filter forallb].
  destruct (has_key metadata_dict key); cbn [negb andb length]; [exact IH | reflexivity].
Qed.

(** X23. What [_write_metafile] writes, [read_metafile] reads back: the
    dictionary read from the written file holds the eight values under
    the eight metadata keys and nothing else, and the other files read as
    before. *)
Theorem metafile_round_trip (files : gmap string (gmap string value)) (dill_file_name : string)
  (num_epochs num_training_batches_per_epoch training_option_dict
   num_validation_batches_per_epoch validation_option_dict do_early_stopping
   plateau_lr_multiplier class_weights : value) :
  let written :=
    _write_metafile files dill_file_name num_epochs
      num_training_batches_per_epoch training_option_dict
      num_validation_batches_per_epoch validation_option_dict do_early_stopping
      plateau_lr_multiplier class_weights in
  (exists metadata_dict,
     read_metafile written dill_file_name = Ok metadata_dict /\
     metadata_dict !! NUM_EPOCHS_KEY = Some num_epochs /\
     metadata_dict !! NUM_TRAINING_BATCHES_KEY =
     Some num_training_batches_per_epoch /\
     metadata_dict !! TRAINING_OPTIONS_KEY = Some training_option_dict /\
     metadata_dict !! NUM_VALIDATION_BATCHES_KEY =
     Some num_validation_batches_per_epoch /\
     metadata_dict !! VALIDATION_OPTIONS_KEY = Some validation_option_dict /\
     metadata_dict !! EARLY_STOPPING_KEY = Some do_early_stopping /\
     metadata_dict !! PLATEAU_LR_MUTIPLIER_KEY = Some plateau_lr_multiplier /\
     metadata_dict !! CLASS_WEIGHTS_KEY = Some class_weights /\
     forall key, ~ In key METADATA_KEYS -> metadata_dict !! key = None) /\
  forall other_file_name,
    other_file_name <> dill_file_name ->
    read_metafile written other_file_name = read_metafile files other_file_name.
Proof.
  cbv zeta. split.
  - unfold read_metafile, _write_metafile. rewrite lookup_insert_eq.
    set (metadata_dict := <[CLASS_WEIGHTS_KEY := class_weights]> _).
    assert (Hkeys :
      metadata_dict !! NUM_EPOCHS_KEY = Some num_epochs /\
      metadata_dict !! NUM_TRAINING_BATCHES_KEY =
      Some num_training_batches_per_epoch /\
      metadata_dict !! TRAINING_OPTIONS_KEY = Some training_option_dict /\
      metadata_dict !! NUM_VALIDATION_BATCHES_KEY =
      Some num_validation_batches_per_epoch /\
      metadata_dict !! VALIDATION_OPTIONS_KEY = Some validation_option_dict /\
      metadata_dict !! EARLY_STOPPING_KEY = Some do_early_stopping /\
      metadata_dict !! PLATEAU_LR_MUTIPLIER_KEY = Some plateau_lr_multiplier /\
      metadata_dict !! CLASS_WEIGHTS_KEY = Some class_weights).
    { subst metadata_dict. repeat split; now simplify_map_eq. }
    destruct Hkeys as (H1 & H2 & H3 & H4 & H5 & H6 & H7 & H8).
    assert (Hcw : has_key metadata_dict CLASS_WEIGHTS_KEY = true)
      by (unfold has_key; now rewrite H8).
    rewrite Hcw. cbn [negb]. rewrite no_missing_key.
    assert (Hall : forallb (has_key metadata_dict) METADATA_KEYS = true).
    { unfold METADATA_KEYS, has_key. cbn [forallb].
      now rewrite H1, H2, H3, H4, H5, H6, H7, H8. }
    rewrite Hall. exists metadata_dict.
    repeat (split; [first [reflexivity | assumption]|]).
    intros key Hkey. subst metadata_dict.
    unfold METADATA_KEYS in Hkey. cbn [In] in Hkey.
    rewrite !lookup_insert_ne by (intros <-; tauto).
    apply lookup_empty.
  - intros other_file_name Hother. unfold read_metafile, _write_metafile.
    now rewrite lookup_insert_ne by congruence.
Qed.

(** X24. A stored dictionary that lacks one of the seven keys other than
    the class weights makes [read_metafile] raise a ValueError; one that
    has the seven is returned with its entries unchanged and with the
    class weights it holds, or None when it holds none. *)
Theorem read_metafile_missing_keys (files : gmap string (gmap string value)) (dill_file_name : string)
  (stored : gmap string value) :
  files !! dill_file_name = Some stored ->
  (forallb (has_key stored)
     [NUM_EPOCHS_KEY; NUM_TRAINING_BATCHES_KEY; TRAINING_OPTIONS_KEY;
      NUM_VALIDATION_BATCHES_KEY; VALIDATION_OPTIONS_KEY;
      EARLY_STOPPING_KEY; PLATEAU_LR_MUTIPLIER_KEY] = false ->
   read_metafile files dill_file_name = Err ValueError) /\
  (forallb (has_key stored)
     [NUM_EPOCHS_KEY; NUM_TRAINING_BATCHES_KEY; TRAINING_OPTIONS_KEY;
      NUM_VALIDATION_BATCHES_KEY; VALIDATION_OPTIONS_KEY;
      EARLY_STOPPING_KEY; PLATEAU_LR_MUTIPLIER_KEY] = true ->
   exists metadata_dict,
     read_metafile files dill_file_name = Ok metadata_dict /\
     metadata_dict !! CLASS_WEIGHTS_KEY =
     Some (default py_none (stored !! CLASS_WEIGHTS_KEY)) /\
     forall key, key <> CLASS_WEIGHTS_KEY -> metadata_dict !! key = stored !! key).
Proof.
  intros Hstored. unfold read_metafile. rewrite Hstored.
  set (metadata_dict := if negb (has_key stored CLASS_WEIGHTS_KEY) then _ else _).
  assert (Hcw : metadata_dict !! CLASS_WEIGHTS_KEY =
                Some (default py_none (stored !! CLASS_WEIGHTS_KEY))).
  { subst metadata_dict. unfold has_key.
    destruct (stored !! CLASS_WEIGHTS_KEY) as [v|] eqn:Hv; cbn [negb default].
    - exact Hv.
    - apply lookup_insert_eq. }
  assert (Hother : forall key, key <> CLASS_WEIGHTS_KEY ->
                               metadata_dict !! key = stored !! key).
  { intros key Hkey. subst metadata_dict.
    destruct (negb (has_key stored CLASS_WEIGHTS_KEY)); [|reflexivity].
    now rewrite lookup_insert_ne by congruence. }
  assert (Hsame : forall key, key <> CLASS_WEIGHTS_KEY ->
                              has_key metadata_dict key = has_key stored key).
  { intros key Hkey. unfold has_key. now rewrite Hother. }
  rewrite no_missing_key. unfold METADATA_KEYS. cbn [forallb].
  rewrite !Hsame by discriminate.
  assert (Hhas : has_key metadata_dict CLASS_WEIGHTS_KEY = true)
    by (unfold has_key; now rewrite Hcw).
  rewrite Hhas, !andb_true_r.
  split; intros Hseven; rewrite Hseven; eauto.
Qed.

End Metafile.

(** A value of a metadata file: a plain value or an option dictionary. *)
Inductive metadata_value : Type :=
| Plain (v : pyvalue)
| Options (option_dict : gmap string pyvalue).

(** The metadata of a model that was trained before class weights
    existed. *)
Definition metadata_without_class_weights : gmap string metadata_value :=
  <[PLATEAU_LR_MUTIPLIER_KEY := Plain (PyFloat (Fin (1 # 2)))]>
  (<[EARLY_STOPPING_KEY := Plain (PyBool true)]>
  (<[VALIDATION_OPTIONS_KEY := Options (<[LEAD_TIME_KEY := PyInt 3600]> ∅)]>
  (<[NUM_VALIDATION_BATCHES_KEY := Plain (PyInt 16)]>
  (<[TRAINING_OPTIONS_KEY := Options (<[LEAD_TIME_KEY := PyInt 3600]> ∅)]>
  (<[NUM_TRAINING_BATCHES_KEY := Plain (PyInt 32)]>
  (<[NUM_EPOCHS_KEY := Plain (PyInt 100)]> ∅)))))).

Lemma read_metafile_missing_keys_witness :
  (<["model_metadata.dill" := metadata_without_class_weights]> ∅
     : gmap string (gmap string metadata_value)) !! "model_metadata.dill" =
  Some metadata_without_class_weights /\
  (forallb (has_key metadata_value metadata_without_class_weights)
     [NUM_EPOCHS_KEY; NUM_TRAINING_BATCHES_KEY; TRAINING_OPTIONS_KEY;
      NUM_VALIDATION_BATCHES_KEY; VALIDATION_OPTIONS_KEY;
      EARLY_STOPPING_KEY; PLATEAU_LR_MUTIPLIER_KEY] = false ->
   read_metafile metadata_value (Plain PyNone) ValueError
     (<["model_metadata.dill" := metadata_without_class_weights]> ∅)
     "model_metadata.dill" = Err ValueError) /\
  (forallb (has_key metadata_value metadata_without_class_weights)
     [NUM_EPOCHS_KEY; NUM_TRAINING_BATCHES_KEY; TRAINING_OPTIONS_KEY;
      NUM_VALIDATION_BATCHES_KEY; VALIDATION_OPTIONS_KEY;
      EARLY_STOPPING_KEY; PLATEAU_LR_MUTIPLIER_KEY] = true ->
   exists metadata_dict,
     read_metafile metadata_value (Plain PyNone) ValueError
       (<["model_metadata.dill" := metadata_without_class_weights]> ∅)
       "model_metadata.dill" = Ok metadata_dict /\
     metadata_dict !! CLASS_WEIGHTS_KEY =
     Some (default (Plain PyNone)
             (metadata_without_class_weights !! CLASS_WEIGHTS_KEY)) /\
     forall key, key <> CLASS_WEIGHTS_KEY ->
                 metadata_dict !! key = metadata_without_class_weights !! key).
Proof.
  split; [apply lookup_insert_eq|].
  apply (read_metafile_missing_keys metadata_value (Plain PyNone) ValueError
           (<["model_metadata.dill" := metadata_without_class_weights]> ∅)
           "model_metadata.dill" metadata_without_class_weights).
  apply lookup_insert_eq.
Defined.

(** ** One batch of a generator *)

(** What the loop of a generator holds while it fills a batch. *)
Record batch_state : Type := {
  date_index : nat;
  predictor_matrix : option (list (list (list (list Q))));
  target_matrix : option (list (list (list (list Z))));
  num_examples_in_memory : Z
}.

Section Generator.

(** [_read_raw_inputs_one_day] in [generator_from_raw_files] and
    [_read_preprocessed_inputs_one_day] in
    [generator_from_preprocessed_files], with the files and options of the
    generator and without coordinates: from a date and a number of
    examples to read to the data of that day. *)
Variable read_one_day : string -> Z -> result (option data_dict).

(** The shuffled dates and two options of the generator. *)
Variable valid_date_strings : list string.
Variable num_examples_per_batch : Z.
Variable max_examples_per_day_in_batch : Z.

(** The state at the top of [while True]. *)
Definition empty_batch (date_index : nat) : batch_state :=
  {| date_index := date_index;
     predictor_matrix := None;
     target_matrix := None;
     num_examples_in_memory := 0 |}.

(** One pass through the body of
    [while num_examples_in_memory < num_examples_per_batch].  A day whose
    dictionary holds no predictor matrix makes [+ 0.] or
    [numpy.concatenate] raise; [.astype('float32')] changes no value of
    the exact numbers used here. *)
Definition batch_step (s : batch_state) : result batch_state :=
  let date_index :=
    if (date_index s =? length valid_date_strings)%nat then 0%nat
    else date_index s in
  let num_examples_to_read :=
    Z.min max_examples_per_day_in_batch
          (num_examples_per_batch - num_examples_in_memory s) in
  do valid_date_string <- getitem_at valid_date_strings date_index;
  do this_data_dict <- read_one_day valid_date_string num_examples_to_read;
  let date_index := S date_index in
  match this_data_dict with
  | None =>
      Ok {| date_index := date_index;
            predictor_matrix := predictor_matrix s;
            target_matrix := target_matrix s;
            num_examples_in_memory := num_examples_in_memory s |}
  | Some this_data_dict =>
      do this_predictor_matrix <- not_none (PREDICTOR_MATRIX this_data_dict);
      let this_target_matrix := TARGET_MATRIX this_data_dict in
      do matrices <-
        match predictor_matrix s with
        | None => Ok (this_predictor_matrix, this_target_matrix)
        | Some predictor_matrix =>
            match target_matrix s with
            | Some target_matrix =>
                Ok (predictor_matrix ++ this_predictor_matrix,
                    target_matrix ++ this_target_matrix)
            | None => Err ValueError
            end
        end;
      Ok {| date_index := date_index;
            predictor_matrix := Some (fst matrices);
            target_matrix := Some (snd matrices);
            num_examples_in_memory := Z.of_nat (length (fst matrices)) |}
  end.

(** The inner loop, for at most [fuel] passes: [None] when the batch is
    not full by then. *)
Fixpoint batch_loop (fuel : nat) (s : batch_state) : result (option batch_state) :=
  if (num_examples_in_memory s <? num_examples_per_batch)%Z then
    match fuel with
    | O => Ok None
    | S fuel => do s <- batch_step s; batch_loop fuel s
    end
  else Ok (Some s).

(** ** Every batch is full, and no more *)

(** The matrices in memory have one length, which is the number of
    examples in memory and does not exceed the batch size. *)
Definition batch_invariant (s : batch_state) : Prop :=
  (0 <= num_examples_in_memory s <= num_examples_per_batch)%Z /\
  match predictor_matrix s, target_matrix s with
  | Some predictor_matrix, Some target_matrix =>
      Z.of_nat (length predictor_matrix) = num_examples_in_memory s /\
      length target_matrix = length predictor_matrix
  | None, None => num_examples_in_memory s = 0%Z
  | _, _ => False
  end.

(** What the readers ensure (see [raw_reader_counts] and
    [preprocessed_reader_counts]): asked for at least one example, a
    reader that returns data returns as many predictors as targets, at
    least one and at most as many as asked. *)
Definition reads_what_is_asked : Prop :=
  forall valid_date_string num_examples_to_read data this_predictor_matrix,
    (1 <= num_examples_to_read)%Z ->
    read_one_day valid_date_string num_examples_to_read = Ok (Some data) ->
    PREDICTOR_MATRIX data = Some this_predictor_matrix ->
    length (TARGET_MATRIX data) = length this_predictor_matrix /\
    (1 <= Z.of_nat (length this_predictor_matrix) <= num_examples_to_read)%Z.

Lemma batch_step_keeps_invariant (s s' : batch_state) :
  reads_what_is_asked ->
  (1 <= max_examples_per_day_in_batch)%Z ->
  batch_invariant s ->
  (num_examples_in_memory s < num_examples_per_batch)%Z ->
  batch_step s = Ok s' ->
  batch_invariant s' /\
  (num_examples_in_memory s <= num_examples_in_memory s')%Z.
Proof.
  intros Hreader Hmax [Hrange Hmatrices] Hless Hstep.
  unfold batch_step in Hstep. cbv zeta in Hstep.
  apply bind_Ok in Hstep as (valid_date_string & _ & Hstep).
  apply bind_Ok in Hstep as (this_data_dict & Hread & Hstep).
  destruct this_data_dict as [data|].
  - apply bind_Ok in Hstep as (this_predictor_matrix & Hthis & Hstep).
    apply bind_Ok in Hstep as (matrices & Hmatrices' & Hstep).
    injection Hstep as <-.
    unfold not_none in Hthis.
    destruct (PREDICTOR_MATRIX data) as [this_pm|] eqn:Hpm; [|discriminate].
    injection Hthis as ->.
    assert (Hasks : (1 <= Z.min max_examples_per_day_in_batch
                             (num_examples_per_batch - num_examples_in_memory s))%Z)
      by lia.
    destruct (Hreader _ _ _ _ Hasks Hread Hpm) as (Hsame & Hone & Hasked).
    unfold batch_invariant.
    cbn [predictor_matrix target_matrix num_examples_in_memory].
    destruct (predictor_matrix s) as [pm|], (target_matrix s) as [tm|];
      try contradiction; injection Hmatrices' as <-; cbn [fst snd].
    + destruct Hmatrices as [Hpmlen Htmlen].
      rewrite !length_app. repeat split; lia.
    + repeat split; lia.
  - injection Hstep as <-. split; [|cbn; lia].
    unfold batch_invariant.
    cbn [predictor_matrix target_matrix num_examples_in_memory].
    split; assumption.
Qed.

(** X25. Every batch that the loop of a generator completes holds exactly
    [num_examples_per_batch] predictors and as many targets: a day is
    never asked for more than the batch still lacks. *)
Theorem batch_is_full (fuel : nat) (first_date_index : nat) (s : batch_state) :
  reads_what_is_asked ->
  (1 <= max_examples_per_day_in_batch)%Z ->
  (1 <= num_examples_per_batch)%Z ->
  batch_loop fuel (empty_batch first_date_index) = Ok (Some s) ->
  exists predictors targets,
    predictor_matrix s = Some predictors /\
    target_matrix s = Some targets /\
    Z.of_nat (length predictors) = num_examples_per_batch /\
    Z.of_nat (length targets) = num_examples_per_batch.
Proof.
  intros Hreader Hmax Hbatch.
  assert (Hinit : batch_invariant (empty_batch first_date_index)).
  { unfold batch_invariant, empty_batch. cbn. split; [lia | reflexivity]. }
  revert Hinit. generalize (empty_batch first_date_index). clear first_date_index.
  induction fuel as [|fuel IH]; intros s0 Hinv Hloop; cbn [batch_loop] in Hloop.
  - destruct (num_examples_in_memory s0 <? num_examples_per_batch)%Z eqn:Hless;
      [discriminate|].
    injection Hloop as <-. apply Z.ltb_ge in Hless.
    destruct Hinv as [Hrange Hmatrices].
    destruct (predictor_matrix s0) as [pm|], (target_matrix s0) as [tm|];
      try contradiction.
    + destruct Hmatrices as [Hpm Htm]. exists pm, tm. repeat split; lia.
    + lia.
  - destruct (num_examples_in_memory s0 <? num_examples_per_batch)%Z eqn:Hless.
    + apply Z.ltb_lt in Hless.
      apply bind_Ok in Hloop as (s1 & Hstep & Hloop).
      destruct (batch_step_keeps_invariant s0 s1 Hreader Hmax Hinv Hless Hstep)
        as [Hinv1 _].
      exact (IH s1 Hinv1 Hloop).
    + injection Hloop as <-. apply Z.ltb_ge in Hless.
      destruct Hinv as [Hrange Hmatrices].
      destruct (predictor_matrix s0) as [pm|], (target_matrix s0) as [tm|];
        try contradiction.
      * destruct Hmatrices as [Hpm Htm]. exists pm, tm. repeat split; lia.
      * lia.
Qed.

(** ** A batch is filled after at most as many reads as it has examples *)

(** Every date of the generator has data, whatever the number of examples
    asked for, which is at most [max_examples_per_day_in_batch]. *)
Definition every_day_has_data : Prop :=
  forall valid_date_string num_examples_to_read,
    In valid_date_string valid_date_strings ->
    (1 <= num_examples_to_read <= max_examples_per_day_in_batch)%Z ->
    exists data this_predictor_matrix,
      read_one_day valid_date_string num_examples_to_read = Ok (Some data) /\
      PREDICTOR_MATRIX data = Some this_predictor_matrix.

Lemma batch_step_adds_examples (s : batch_state) :
  reads_what_is_asked -> every_day_has_data ->
  (1 <= max_examples_per_day_in_batch)%Z ->
  valid_date_strings <> [] ->
  (date_index s <= length valid_date_strings)%nat ->
  batch_invariant s ->
  (num_examples_in_memory s < num_examples_per_batch)%Z ->
  exists s',
    batch_step s = Ok s' /\
    batch_invariant s' /\
    (date_index s' <= length valid_date_strings)%nat /\
    (num_examples_in_memory s + 1 <= num_examples_in_memory s')%Z.
Proof.
  intros Hreader Hdata Hmax Hdates Hindex Hinv Hless.
  assert (Hlen : (1 <= length valid_date_strings)%nat).
  { destruct valid_date_strings; [contradiction | cbn [length]; lia]. }
  set (i := if (date_index s =? length valid_date_strings)%nat then 0%nat
            else date_index s).
  assert (Hi : (i < length valid_date_strings)%nat).
  { subst i. destruct (date_index s =? length valid_date_strings)%nat eqn:Heq;
      [lia | apply Nat.eqb_neq in Heq; lia]. }
  destruct (lookup_lt_is_Some_2 _ _ Hi) as [valid_date_string Hdate].
  assert (Hasks : (1 <= Z.min max_examples_per_day_in_batch
                           (num_examples_per_batch - num_examples_in_memory s))%Z)
    by lia.
  assert (Hatmost : (1 <= Z.min max_examples_per_day_in_batch
                             (num_examples_per_batch - num_examples_in_memory s)
                     <= max_examples_per_day_in_batch)%Z) by lia.
  destruct (Hdata valid_date_string _
              (proj1 (list_elem_of_In _ _) (list_elem_of_lookup_2 _ _ _ Hdate))
              Hatmost)
    as (data & this_pm & Hread & Hpm).
  assert (Hmatrices : exists matrices,
            match predictor_matrix s with
            | None => Ok (this_pm, TARGET_MATRIX data)
            | Some pm =>
                match target_matrix s with
                | Some tm => Ok (pm ++ this_pm, tm ++ TARGET_MATRIX data)
                | None => Err ValueError
                end
            end = Ok matrices).
  { destruct Hinv as [_ Hboth].
    destruct (predictor_matrix s), (target_matrix s); try contradiction; eauto. }
  destruct Hmatrices as (matrices & Hmatrices).
  assert (Hstep : batch_step s =
    Ok {| date_index := S i;
          predictor_matrix := Some (fst matrices);
          target_matrix := Some (snd matrices);
          num_examples_in_memory := Z.of_nat (length (fst matrices)) |}).
  { unfold batch_step. cbv zeta. fold i. unfold getitem_at. rewrite Hdate.
    cbn [bind]. rewrite Hread. cbn [bind]. rewrite Hpm. cbn [not_none bind].
    rewrite Hmatrices. reflexivity. }
  eexists. split; [exact Hstep|].
  destruct (batch_step_keeps_invariant s _ Hreader Hmax Hinv Hless Hstep)
    as [Hinv' _].
  split; [exact Hinv'|]. cbn [date_index num_examples_in_memory].
  split; [lia|].
  destruct (Hreader _ _ _ _ Hasks Hread Hpm) as (_ & Hone & _).
  destruct Hinv as [Hrange Hboth].
  destruct (predictor_matrix s) as [pm|], (target_matrix s) as [tm|];
    try contradiction; injection Hmatrices as <-; cbn [fst].
  - rewrite length_app. lia.
  - lia.
Qed.

(** X26. When every date has data, the loop fills a batch after at most
    [num_examples_per_batch] days read, wrapping around the list of dates
    as often as needed. *)
Theorem batch_is_filled (first_date_index : nat) :
  reads_what_is_asked -> every_day_has_data ->
  (1 <= max_examples_per_day_in_batch)%Z ->
  (1 <= num_examples_per_batch)%Z ->
  valid_date_strings <> [] ->
  (first_date_index <= length valid_date_strings)%nat ->
  exists s predictors targets,
    batch_loop (Z.to_nat num_examples_per_batch) (empty_batch first_date_index) =
    Ok (Some s) /\
    predictor_matrix s = Some predictors /\
    target_matrix s = Some targets /\
    Z.of_nat (length predictors) = num_examples_per_batch /\
    Z.of_nat (length targets) = num_examples_per_batch.
Proof.
  intros Hreader Hdata Hmax Hbatch Hdates Hfirst.
  assert (Hloop : forall fuel s0,
            batch_invariant s0 ->
            (date_index s0 <= length valid_date_strings)%nat ->
            (num_examples_per_batch - num_examples_in_memory s0 <= Z.of_nat fuel)%Z ->
            exists s, batch_loop fuel s0 = Ok (Some s) /\ batch_invariant s /\
                      (num_examples_per_batch <= num_examples_in_memory s)%Z).
  { induction fuel as [|fuel IH]; intros s0 Hinv Hindex Hfuel; cbn [batch_loop].
    - destruct (num_examples_in_memory s0 <? num_examples_per_batch)%Z eqn:Hless.
      + apply Z.ltb_lt in Hless. lia.
      + apply Z.ltb_ge in Hless. eauto.
    - destruct (num_examples_in_memory s0 <? num_examples_per_batch)%Z eqn:Hless.
      + apply Z.ltb_lt in Hless.
        destruct (batch_step_adds_examples s0 Hreader Hdata Hmax Hdates Hindex
                    Hinv Hless) as (s1 & -> & Hinv1 & Hindex1 & Hmore).
        cbn [bind]. apply IH; [assumption | assumption | lia].
      + apply Z.ltb_ge in Hless. eauto. }
  destruct (Hloop (Z.to_nat num_examples_per_batch) (empty_batch first_date_index))
    as (s & Hs & [Hrange Hmatrices] & Hfull).
  - unfold batch_invariant, empty_batch. cbn. split; [lia | reflexivity].
  - exact Hfirst.
  - cbn [empty_batch num_examples_in_memory]. lia.
  - destruct (predictor_matrix s) as [pm|] eqn:Hpm, (target_matrix s) as [tm|] eqn:Htm;
      try contradiction.
    + destruct Hmatrices as [Hpmlen Htmlen].
      exists s, pm, tm. repeat split; try assumption; lia.
    + lia.
Qed.

End Generator.

(** The counts of the readers give what the loop relies on. *)
Lemma counts_give_what_is_asked (data : data_dict) (num_examples_to_read : Z)
  (this_predictor_matrix : list (list (list (list Q)))) :
  (1 <= num_examples_to_read)%Z ->
  (1 <= length (VALID_TIMES data))%nat ->
  length (TARGET_MATRIX data) =
  num_returned (length (VALID_TIMES data)) num_examples_to_read ->
  length this_predictor_matrix =
  num_returned (length (VALID_TIMES data)) num_examples_to_read ->
  length (TARGET_MATRIX data) = length this_predictor_matrix /\
  (1 <= Z.of_nat (length this_predictor_matrix) <= num_examples_to_read)%Z.
Proof.
  intros Hasked Haligned Htargets Hpredictors.
  rewrite Htargets, Hpredictors. split; [reflexivity|].
  unfold num_returned.
  destruct (num_examples_to_read <=? Z.of_nat (length (VALID_TIMES data)))%Z eqn:Hle.
  - lia.
  - apply Z.leb_gt in Hle. lia.
Qed.

(** The raw reader of the scenario, as [generator_from_raw_files] calls
    it. *)
Definition raw_reader_of_scenario (valid_date_string : string)
  (num_examples_to_read : Z) : result (option data_dict) :=
  _read_raw_inputs_one_day file_date file_date (fun _ => radar_of_date)
    satellite_of_file (fun d _ => d) allclose first_of_enough
    (fun s r _ _ => (s, r)) unit (fun s _ _ => s)
    valid_date_string satellite_files [8%Z] None false radar_files 600 35 1
    num_examples_to_read false.

Lemma raw_reader_of_scenario_reads_what_is_asked :
  reads_what_is_asked raw_reader_of_scenario.
Proof.
  intros valid_date_string num_examples_to_read data this_predictor_matrix
    Hasked Hread Hmatrix.
  destruct (raw_reader_counts allclose first_of_enough first_of_enough_size
              file_date file_date (fun _ => radar_of_date) satellite_of_file
              (fun d _ => d) (fun s r _ _ => (s, r)) unit (fun s _ _ => s)
              ltac:(intros; split; reflexivity) ltac:(intros; reflexivity)
              valid_date_string satellite_files [8%Z] None false radar_files
              600%Z 35 1%Z num_examples_to_read false data Hread)
    as (Haligned & Htargets & Hpredictors).
  apply counts_give_what_is_asked; auto.
Qed.

Lemma raw_reader_of_scenario_has_data :
  every_day_has_data raw_reader_of_scenario ["20200102"] 2.
Proof.
  intros valid_date_string num_examples_to_read [<-|[]] Hasked.
  assert (Hcases : num_examples_to_read = 1%Z \/ num_examples_to_read = 2%Z) by lia.
  destruct Hcases as [-> | ->]; eexists; eexists; split; vm_compute; reflexivity.
Qed.

Lemma batch_is_full_witness :
  exists s,
    batch_loop raw_reader_of_scenario ["20200102"] 3 2 5 (empty_batch 0) =
    Ok (Some s) /\
    exists predictors targets,
      predictor_matrix s = Some predictors /\
      target_matrix s = Some targets /\
      Z.of_nat (length predictors) = 3%Z /\
      Z.of_nat (length targets) = 3%Z.
Proof.
  eexists. split; [vm_compute; reflexivity|].
  apply (batch_is_full raw_reader_of_scenario ["20200102"] 3 2 5 0 _
           raw_reader_of_scenario_reads_what_is_asked).
  - lia.
  - lia.
  - vm_compute. reflexivity.
Defined.

Lemma batch_is_filled_witness :
  exists s predictors targets,
    batch_loop raw_reader_of_scenario ["20200102"] 3 2 (Z.to_nat 3)
      (empty_batch 0) = Ok (Some s) /\
    predictor_matrix s = Some predictors /\
    target_matrix s = Some targets /\
    Z.of_nat (length predictors) = 3%Z /\
    Z.of_nat (length targets) = 3%Z.
Proof.
  apply (batch_is_filled raw_reader_of_scenario ["20200102"] 3 2 0
           raw_reader_of_scenario_reads_what_is_asked
           raw_reader_of_scenario_has_data).
  - lia.
  - lia.
  - discriminate.
  - cbn [length]. lia.
Defined.

(** The batch of three examples: two of the day, then one of the same day
    again. *)
Lemma batch_of_the_scenario :
  batch_loop raw_reader_of_scenario ["20200102"] 3 2 5 (empty_batch 0) =
  Ok (Some {| date_index := 1;
              predictor_matrix := Some [one_pixel 11; one_pixel 12; one_pixel 11];
              target_matrix := Some [[[[1%Z]]]; [[[0%Z]]]; [[[1%Z]]]];
              num_examples_in_memory := 3 |}).
Proof. vm_compute. reflexivity. Qed.

Section Inference.

(** One example of the predictor matrix, and the test for NaN in it. *)
Variable example : Type.
Variable has_nan : example -> bool.

(** [model_object.predict]: from a batch of examples to one array of
    shape rows x columns x channels per example. *)
Variable predict : list example -> list (list (list (list Q))).

Definition _check_inference_args (predictor_matrix : list example)
  (num_examples_per_batch : pyvalue) : result Z :=
  check require (negb (existsb has_nan predictor_matrix));
  let num_examples := Z.of_nat (length predictor_matrix) in
  do num_examples_per_batch <-
    match num_examples_per_batch with
    | PyNone => Ok (num_examples + 0)%Z
    | other =>
        check assert_is_integer other;
        check assert_is_geq other 1;
        match other with
        | PyInt z => Ok z
        | _ => Err InvalidInput
        end
    end;
  Ok (Z.min num_examples_per_batch num_examples).

(** [range(0, stop, step)] for a positive step. *)
Definition py_range (stop step : nat) : list nat :=
  map (fun k => (k * step)%nat) (seq 0 ((stop + step - 1) / step)).

(** [these_indices] of the chunk that starts at [i]. *)
Definition these_indices (num_examples num_examples_per_batch i : nat) : list nat :=
  let this_first_index := i in
  let this_last_index :=
    Nat.min (i + num_examples_per_batch - 1) (num_examples - 1) in
  seq this_first_index (this_last_index - this_first_index + 1).

(** [x[indices, ...]] *)
Definition take_rows {A : Type} (x : list A) (indices : list nat) : list A :=
  omap (fun i => x !! i) indices.

(** [x[indices, ...] = values] *)
Definition assign_rows {A : Type} (x : list A) (indices : list nat)
  (values : list A) : list A :=
  fold_left (fun acc '(i, v) => <[i := v]> acc) (combine indices values) x.

(** [numpy.full(dimensions, numpy.nan)] for the dimensions
    [(num_examples,) + this_prob_matrix.shape[1:3]]. *)
Definition full_of_nan (num_examples : nat)
  (this_prob_matrix : list (list (list (list Q)))) : list (list (list npfloat)) :=
  let first := nth 0%nat this_prob_matrix [] in
  repeat (repeat (repeat NaN (num_columns first)) (length first)) num_examples.

(** [this_prob_matrix[..., 0]] *)
Definition first_channel (prob_matrix : list (list (list Q)))
  : list (list npfloat) :=
  map (map (fun pixel => Fin (nth 0%nat pixel 0))) prob_matrix.

(** One pass through the body of the loop of [apply_model]. *)
Definition apply_model_step (predictor_matrix : list example)
  (num_examples_per_batch : nat)
  (forecast_prob_matrix : option (list (list (list npfloat)))) (i : nat)
  : option (list (list (list npfloat))) :=
  let num_examples := length predictor_matrix in
  let these_indices := these_indices num_examples num_examples_per_batch i in
  let this_prob_matrix := predict (take_rows predictor_matrix these_indices) in
  let forecast_prob_matrix :=
    match forecast_prob_matrix with
    | None => full_of_nan num_examples this_prob_matrix
    | Some matrix => matrix
    end in
  Some (assign_rows forecast_prob_matrix these_indices
          (map first_channel this_prob_matrix)).

(** [apply_model]; the result is [None] when the loop body never runs. A
    step of zero makes [range] raise a ValueError. *)
Definition apply_model (predictor_matrix : list example)
  (num_examples_per_batch : pyvalue)
  : result (option (list (list (list npfloat)))) :=
  do num_examples_per_batch <-
    _check_inference_args predictor_matrix num_examples_per_batch;
  let num_examples := length predictor_matrix in
  if (num_examples_per_batch =? 0)%Z then Err ValueError
  else
    Ok (fold_left
          (apply_model_step predictor_matrix (Z.to_nat num_examples_per_batch))
          (py_range num_examples (Z.to_nat num_examples_per_batch))
          None).

(** The chunks of indices that the loop goes through. *)
Definition chunks (num_examples num_examples_per_batch : nat) : list (list nat) :=
  map (these_indices num_examples num_examples_per_batch)
      (py_range num_examples num_examples_per_batch).

(** A batch size that [_check_inference_args] accepts. *)
Definition valid_batch_size (v : pyvalue) : Prop :=
  v = PyNone \/ exists z, v = PyInt z /\ (1 <= z)%Z.

(** ** Batching does not change the forecast *)

Lemma take_rows_seq {A : Type} (x : list A) (i len : nat) :
  (i + len <= length x)%nat -> take_rows x (seq i len) = take len (drop i x).
Proof.
  revert i. induction len as [|len IH]; intros i H; [reflexivity|].
  destruct (lookup_lt_is_Some_2 x i ltac:(lia)) as [a Ha].
  unfold take_rows in *. cbn [seq omap list_omap]. rewrite Ha.
  rewrite (drop_S _ _ _ Ha). cbn [take firstn]. f_equal.
  apply IH. lia.
Qed.

Lemma assign_rows_run {A : Type} (vals pre post : list A) :
  (length vals <= length post)%nat ->
  assign_rows (pre ++ post) (seq (length pre) (length vals)) vals =
  pre ++ vals ++ drop (length vals) post.
Proof.
  revert pre post. induction vals as [|v vals IH]; intros pre post H.
  - reflexivity.
  - destruct post as [|p post]; [simpl in H; lia|].
    unfold assign_rows in *. cbn [length seq combine fold_left].
    rewrite insert_app_r_alt by lia. rewrite Nat.sub_diag. cbn [insert list_insert].
    specialize (IH (pre ++ [v]) post ltac:(simpl in H; lia)).
    rewrite length_app in IH. cbn [length] in IH.
    rewrite Nat.add_1_r in IH.
    rewrite <- app_assoc in IH. cbn [app] in IH.
    rewrite IH. cbn [drop skipn]. now rewrite <- app_assoc.
Qed.

Lemma these_indices_run (num_examples num_examples_per_batch i : nat) :
  (i < num_examples)%nat -> (1 <= num_examples_per_batch)%nat ->
  these_indices num_examples num_examples_per_batch i =
  seq i (Nat.min num_examples_per_batch (num_examples - i)).
Proof. intros Hi Hb. unfold these_indices. f_equal. lia. Qed.

(** The starts of the chunks lie below the number of examples, and the
    chunks reach the last example. *)
Lemma py_range_bounds (stop step : nat) :
  (1 <= step)%nat ->
  (forall k, (k < (stop + step - 1) / step)%nat -> (k * step < stop)%nat) /\
  (stop <= (stop + step - 1) / step * step)%nat.
Proof.
  intros Hstep.
  pose proof (Nat.Div0.mul_div_le (stop + step - 1) step) as Hle.
  pose proof (Nat.mul_succ_div_gt (stop + step - 1) step ltac:(lia)) as Hgt.
  split; [intros k Hk|]; nia.
Qed.

(** Every index below the number of examples lies in exactly one chunk:
    the chunks, laid end to end, are the indices in order. *)
Lemma chunks_partition (num_examples num_examples_per_batch : nat) :
  (1 <= num_examples_per_batch)%nat ->
  concat (chunks num_examples num_examples_per_batch) = seq 0 num_examples.
Proof.
  intros Hb. unfold chunks, py_range.
  destruct (py_range_bounds num_examples num_examples_per_batch Hb) as [Hlt Hge].
  set (m := ((num_examples + num_examples_per_batch - 1) / num_examples_per_batch)%nat) in *.
  set (n := num_examples) in *. set (b := num_examples_per_batch) in *.
  assert (H : forall j k0,
             (k0 + j <= m)%nat ->
             concat (map (these_indices n b) (map (fun k => (k * b)%nat) (seq k0 j))) =
             seq (k0 * b) (Nat.min ((k0 + j) * b) n - k0 * b)).
  { induction j as [|j IH]; intros k0 Hk.
    - cbn [seq map concat]. rewrite Nat.add_0_r.
      replace (Nat.min (k0 * b) n - k0 * b)%nat with 0%nat by lia. reflexivity.
    - cbn [seq map concat]. rewrite (IH (S k0)) by lia.
      pose proof (Hlt k0 ltac:(lia)) as Hk0.
      rewrite these_indices_run by assumption.
      assert (Hnext : (S k0 * b = k0 * b + b)%nat) by lia.
      destruct j as [|j].
      + rewrite Nat.add_0_r.
        replace (Nat.min (S k0 * b) n - S k0 * b)%nat with 0%nat by lia.
        cbn [seq]. rewrite app_nil_r. f_equal. lia.
      + pose proof (Hlt (S k0) ltac:(lia)) as Hk1.
        replace (Nat.min b (n - k0 * b)) with b by lia.
        replace (S k0 * b)%nat with (k0 * b + b)%nat by lia.
        rewrite <- seq_app. f_equal.
        replace ((S k0 + S j) * b)%nat with ((k0 + S (S j)) * b)%nat by (f_equal; lia).
        assert ((k0 * b + b <= (k0 + S (S j)) * b)%nat) by nia.
        lia. }
  rewrite (H m 0%nat) by lia. cbn [Nat.mul Nat.add]. f_equal. lia.
Qed.

Section PerExample.

(** The model computes every example on its own. *)
Variable per_example : example -> list (list (list Q)).
Hypothesis predict_per_example : forall batch, predict batch = map per_example batch.

Definition forecast_of (x : example) : list (list npfloat) :=
  first_channel (per_example x).

Lemma apply_model_step_run (predictor_matrix : list example) (b i : nat)
  (rest : list (list (list npfloat))) :
  (i < length predictor_matrix)%nat -> (1 <= b)%nat ->
  length rest = (length predictor_matrix - i)%nat ->
  apply_model_step predictor_matrix b
    (Some (map forecast_of (take i predictor_matrix) ++ rest)) i =
  Some (map forecast_of (take (i + b) predictor_matrix) ++ drop b rest).
Proof.
  intros Hi Hb Hrest. unfold apply_model_step.
  rewrite these_indices_run by assumption.
  set (n := length predictor_matrix) in *.
  set (len := Nat.min b (n - i)).
  rewrite take_rows_seq by (fold n; lia).
  rewrite predict_per_example, map_map.
  change (fun x => first_channel (per_example x)) with forecast_of.
  assert (Hpre : length (map forecast_of (take i predictor_matrix)) = i).
  { rewrite length_map, length_take. fold n. lia. }
  assert (Hvals : length (map forecast_of (take len (drop i predictor_matrix))) = len).
  { rewrite length_map, length_take, length_drop. fold n. lia. }
  pose proof (assign_rows_run
                (map forecast_of (take len (drop i predictor_matrix)))
                (map forecast_of (take i predictor_matrix)) rest) as Hassign.
  rewrite Hpre, Hvals in Hassign. rewrite Hassign by lia.
  rewrite app_assoc, <- map_app, take_take_drop.
  f_equal. f_equal.
  - f_equal. destruct (Nat.le_gt_cases b (n - i)) as [Hfull|Hshort].
    + f_equal. lia.
    + rewrite !take_ge by (fold n; lia). reflexivity.
  - destruct (Nat.le_gt_cases b (n - i)) as [Hfull|Hshort].
    + f_equal. lia.
    + rewrite !drop_ge by lia. reflexivity.
Qed.

Lemma apply_model_loop (predictor_matrix : list example) (b j k0 : nat)
  (rest : list (list (list npfloat))) :
  (1 <= b)%nat ->
  (forall k, (k0 <= k < k0 + j)%nat -> (k * b < length predictor_matrix)%nat) ->
  length rest = (length predictor_matrix - k0 * b)%nat ->
  fold_left (apply_model_step predictor_matrix b)
    (map (fun k => (k * b)%nat) (seq k0 j))
    (Some (map forecast_of (take (k0 * b) predictor_matrix) ++ rest)) =
  Some (map forecast_of (take ((k0 + j) * b) predictor_matrix) ++ drop (j * b) rest).
Proof.
  intros Hb. revert k0 rest. induction j as [|j IH]; intros k0 rest Hstarts Hrest.
  - cbn [seq map fold_left]. rewrite Nat.add_0_r. reflexivity.
  - cbn [seq map fold_left].
    rewrite apply_model_step_run; [|apply Hstarts; lia|exact Hb|exact Hrest].
    replace (k0 * b + b)%nat with (S k0 * b)%nat by lia.
    rewrite IH.
    + rewrite drop_drop.
      replace (S k0 + j)%nat with (k0 + S j)%nat by lia.
      replace (b + j * b)%nat with (S j * b)%nat by lia.
      reflexivity.
    + intros k Hk. apply Hstarts. lia.
    + rewrite length_drop, Hrest. lia.
Qed.

(** What [apply_model] returns for a valid batch size: the forecasts of
    the examples, in order. *)
Lemma apply_model_outcome (predictor_matrix : list example) (batch_size : pyvalue) :
  valid_batch_size batch_size ->
  apply_model predictor_matrix batch_size =
  if existsb has_nan predictor_matrix then Err InvalidInput
  else match predictor_matrix with
       | [] => Err ValueError
       | _ :: _ => Ok (Some (map forecast_of predictor_matrix))
       end.
Proof.
  intros Hvalid. unfold apply_model, _check_inference_args, require.
  destruct (existsb has_nan predictor_matrix); [reflexivity|].
  cbn [negb bind].
  set (n := length predictor_matrix).
  assert (Hcheck : exists z, (1 <= z)%Z /\
            (do num_examples_per_batch <-
               match batch_size with
               | PyNone => Ok (Z.of_nat n + 0)%Z
               | other =>
                   check assert_is_integer other;
                   check assert_is_geq other 1;
                   match other with
                   | PyInt z => Ok z
                   | _ => Err InvalidInput
                   end
               end;
             Ok (Z.min num_examples_per_batch (Z.of_nat n))) =
            Ok (Z.min z (Z.of_nat n))).
  { destruct Hvalid as [->|(z & -> & Hz)].
    - destruct (Nat.eq_dec n 0%nat) as [Hn|Hn].
      + exists 1%Z. split; [lia|]. cbn [bind]. f_equal. lia.
      + exists (Z.of_nat n). split; [lia|]. cbn [bind]. f_equal. lia.
    - exists z. split; [exact Hz|].
      unfold assert_is_integer, assert_is_geq, require.
      cbn [is_integer bind is_geq compare_number].
      assert (Hgeq : (1 <=? z)%Z = true) by (apply Z.leb_le; exact Hz).
      rewrite Hgeq. reflexivity. }
  destruct Hcheck as (z & Hz & Hcheck).
  rewrite Hcheck. cbn [bind].
  destruct predictor_matrix as [|x0 others].
  - assert (Hzero : (Z.min z (Z.of_nat n) =? 0)%Z = true)
      by (apply Z.eqb_eq; subst n; cbn [length]; lia).
    rewrite Hzero. reflexivity.
  - assert (Hn : (1 <= n)%nat) by (subst n; cbn [length]; lia).
    set (predictor_matrix := x0 :: others) in *.
    assert (Hnz : (Z.min z (Z.of_nat n) =? 0)%Z = false) by (apply Z.eqb_neq; lia).
    rewrite Hnz.
    set (b := Z.to_nat (Z.min z (Z.of_nat n))).
    assert (Hb : (1 <= b)%nat) by (subst b; lia).
    unfold py_range. fold n.
    destruct (py_range_bounds n b Hb) as [Hlt Hge].
    set (m := ((n + b - 1) / b)%nat) in *.
    assert (Hm : (1 <= m)%nat).
    { destruct m as [|m']; [simpl in Hge; lia | lia]. }
    destruct m as [|m'] eqn:Hmeq; [lia|].
    change (fold_left (apply_model_step predictor_matrix b)
              (map (fun k => (k * b)%nat) (seq 0 (S m'))) None)
      with (fold_left (apply_model_step predictor_matrix b)
              (map (fun k => (k * b)%nat) (seq 0 (S m')))
              (Some (full_of_nan n
                       (predict (take_rows predictor_matrix
                                   (these_indices n b (0 * b)%nat)))))).
    set (rest := full_of_nan n _).
    assert (Hrest : length rest = n) by (unfold rest, full_of_nan; apply repeat_length).
    change (Some rest)
      with (Some (map forecast_of (take (0 * b) predictor_matrix) ++ rest)).
    rewrite (apply_model_loop predictor_matrix b (S m') 0 rest Hb).
    + cbn [Nat.add]. rewrite take_ge by (fold n; lia).
      rewrite drop_ge by lia. now rewrite app_nil_r.
    + intros k Hk. fold n. apply Hlt. lia.
    + fold n. lia.
Qed.

(** C7.  For a model that computes every example on its own, a
    predictor matrix without NaN and any two valid batch sizes,
    [apply_model] returns the same array; and whatever the batch size,
    the chunks of indices it goes through cover every example exactly
    once, in order. *)
Theorem apply_model_batch_invariant (predictor_matrix : list example)
  (batch_size1 batch_size2 : pyvalue) :
  existsb has_nan predictor_matrix = false ->
  valid_batch_size batch_size1 -> valid_batch_size batch_size2 ->
  apply_model predictor_matrix batch_size1 =
  apply_model predictor_matrix batch_size2 /\
  (predictor_matrix <> [] ->
   apply_model predictor_matrix batch_size1 =
   Ok (Some (map forecast_of predictor_matrix))) /\
  (forall b, (1 <= b)%nat ->
             concat (chunks (length predictor_matrix) b) =
             seq 0 (length predictor_matrix)).
Proof.
  intros Hnan H1 H2.
  rewrite !apply_model_outcome by assumption.
  split; [reflexivity|]. split.
  - intros Hne. rewrite Hnan. destruct predictor_matrix; [contradiction|reflexivity].
  - intros b Hb. now apply chunks_partition.
Qed.

End PerExample.

End Inference.

(** A model with one output pixel per example, and five examples. *)
Definition one_pixel_model (x : Q) : list (list (list Q)) := [[[x]]].

Definition five_examples : list Q := [1 # 10; 2 # 10; 3 # 10; 4 # 10; 5 # 10].

Lemma apply_model_batch_invariant_witness :
  apply_model Q (fun _ => false) (map one_pixel_model) five_examples (PyInt 2) =
  apply_model Q (fun _ => false) (map one_pixel_model) five_examples PyNone /\
  (five_examples <> [] ->
   apply_model Q (fun _ => false) (map one_pixel_model) five_examples (PyInt 2) =
   Ok (Some (map (forecast_of Q one_pixel_model) five_examples))) /\
  (forall b, (1 <= b)%nat ->
             concat (chunks (length five_examples) b) =
             seq 0 (length five_examples)).
Proof.
  apply (apply_model_batch_invariant Q (fun _ => false) (map one_pixel_model)
           one_pixel_model (fun _ => eq_refl) five_examples (PyInt 2) PyNone).
  - reflexivity.
  - right. exists 2%Z. split; [reflexivity | lia].
  - left. reflexivity.
Defined.

(** An empty predictor matrix makes [range] raise, whatever the batch size. *)
Lemma apply_model_without_examples :
  apply_model Q (fun _ => false) (map one_pixel_model) [] (PyInt 2) = Err ValueError /\
  apply_model Q (fun _ => false) (map one_pixel_model) [] PyNone = Err ValueError.
Proof. split; reflexivity. Qed.

(** The chunks of five examples in batches of two. *)
Lemma chunks_of_five_by_two : chunks 5 2 = [[0; 1]; [2; 3]; [4]]%nat.
Proof. reflexivity. Qed.

(** ** What [apply_model] returns, whatever the model *)

Section AnyModel.

Variable example : Type.
Variable has_nan : example -> bool.
Variable predict : list example -> list (list (list (list Q))).

Lemma length_assign_rows {A : Type} (x : list A) (indices : list nat)
  (values : list A) :
  length (assign_rows x indices values) = length x.
Proof.
  unfold assign_rows. generalize (combine indices values). intros l.
  revert x. induction l as [|[i v] l IH]; intros x; cbn [fold_left]; [reflexivity|].
  now rewrite IH, length_insert.
Qed.

Lemma apply_model_steps_keep_rows (predictor_matrix : list example) (b : nat)
  (starts : list nat) (matrix : list (list (list npfloat))) :
  exists forecast,
    fold_left (apply_model_step example predict predictor_matrix b) starts
              (Some matrix) = Some forecast /\
    length forecast = length matrix.
Proof.
  revert matrix. induction starts as [|i starts IH]; intros matrix; cbn [fold_left].
  - eauto.
  - unfold apply_model_step at 2.
    destruct (IH (assign_rows matrix
                    (these_indices (length predictor_matrix) b i)
                    (map first_channel
                       (predict (take_rows predictor_matrix
                                   (these_indices (length predictor_matrix) b i))))))
      as (forecast & -> & Hlen).
    exists forecast. split; [reflexivity|]. now rewrite Hlen, length_assign_rows.
Qed.

(** X17. Whatever the model predicts, when [apply_model] returns it returns
    an array with one row per example: nothing is returned for an empty
    predictor matrix, for a matrix with a NaN, or for a batch size that is
    neither None nor an integer of at least 1, and the initial [None] is
    never returned. *)
Theorem apply_model_one_row_per_example (predictor_matrix : list example)
  (num_examples_per_batch : pyvalue)
  (returned : option (list (list (list npfloat)))) :
  apply_model example has_nan predict predictor_matrix num_examples_per_batch =
  Ok returned ->
  existsb has_nan predictor_matrix = false /\
  valid_batch_size num_examples_per_batch /\
  predictor_matrix <> [] /\
  exists forecast_prob_matrix,
    returned = Some forecast_prob_matrix /\
    length forecast_prob_matrix = length predictor_matrix.
Proof.
  unfold apply_model, _check_inference_args, require.
  destruct (existsb has_nan predictor_matrix); [discriminate|].
  cbn [negb bind]. intros H. split; [reflexivity|].
  set (n := length predictor_matrix) in *.
  assert (Hsize : exists z, (1 <= z \/ z = Z.of_nat n)%Z /\
            valid_batch_size num_examples_per_batch /\
            (if (Z.min z (Z.of_nat n) =? 0)%Z then Err ValueError
             else Ok (fold_left
                        (apply_model_step example predict predictor_matrix
                           (Z.to_nat (Z.min z (Z.of_nat n))))
                        (py_range n (Z.to_nat (Z.min z (Z.of_nat n)))) None)) =
            Ok returned).
  { destruct num_examples_per_batch as [| |z| | |]; cbn in H; try discriminate.
    - exists (Z.of_nat n + 0)%Z. split; [lia|]. split; [now left | exact H].
    - unfold assert_is_geq, require in H. cbn [is_geq compare_number] in H.
      destruct (1 <=? z)%Z eqn:Hz; cbn [bind] in H; [|discriminate].
      apply Z.leb_le in Hz. exists z. split; [lia|].
      split; [right; eauto | exact H]. }
  destruct Hsize as (z & Hz & Hvalid & Hrun).
  split; [exact Hvalid|].
  destruct (Z.min z (Z.of_nat n) =? 0)%Z eqn:Hzero; [discriminate|].
  apply Z.eqb_neq in Hzero. cbv beta iota in Hrun. injection Hrun as <-.
  assert (Hn : (1 <= n)%nat) by lia.
  split; [intros ->; cbn in Hn; lia|].
  set (b := Z.to_nat (Z.min z (Z.of_nat n))).
  assert (Hb : (1 <= b)%nat) by lia.
  unfold py_range.
  assert (Hchunks : (1 <= (n + b - 1) / b)%nat).
  { apply Nat.div_le_lower_bound; lia. }
  destruct ((n + b - 1) / b)%nat as [|m]; [lia|].
  cbn [seq map fold_left]. unfold apply_model_step at 2.
  destruct (apply_model_steps_keep_rows predictor_matrix b
              (map (fun k => (k * b)%nat) (seq 1 m))
              (assign_rows
                 (full_of_nan n
                    (predict (take_rows predictor_matrix (these_indices n b (0 * b)))))
                 (these_indices n b (0 * b))
                 (map first_channel
                    (predict (take_rows predictor_matrix (these_indices n b (0 * b)))))))
    as (forecast & Hforecast & Hlen).
  exists forecast. split; [exact Hforecast|].
  rewrite Hlen, length_assign_rows. unfold full_of_nan. apply repeat_length.
Qed.

End AnyModel.

Lemma apply_model_one_row_per_example_witness :
  exists returned,
    apply_model Q (fun _ => false) (map one_pixel_model) five_examples (PyInt 2) =
    Ok returned /\
    existsb (fun _ : Q => false) five_examples = false /\
    valid_batch_size (PyInt 2) /\
    five_examples <> [] /\
    exists forecast_prob_matrix,
      returned = Some forecast_prob_matrix /\
      length forecast_prob_matrix = length five_examples.
Proof.
  eexists. split; [reflexivity|].
  apply (apply_model_one_row_per_example Q (fun _ => false) (map one_pixel_model)
           five_examples (PyInt 2)).
  reflexivity.
Defined.

End NeuralNet.
